(** * edd-compute: the container lifecycle of [internal/api/containers.go]

    A shallow embedding of the request handlers, the background
    provisioning sequence and the external-address poller, together with
    the two collaborators they drive: the SQLite record store
    ([internal/db]) and the Kubernetes gateway ([internal/k8s]).

    - Go [int]/[int64] values are [Z]; no arithmetic is done on them.
    - Go [string]s are [string]s (sequences of bytes).
    - A Go [error] is [option error_value]; [None] is [nil].
    - The SQL tables are lists of rows in storage order (for the
      auto-increment table [ssh_keys] that is ascending id order); a
      [SELECT] without [ORDER BY] returns the matching rows in that order.
    - Everything outside the repository is an explicit environment: the
      SQL driver is a list of pending faults (one entry per statement),
      the API server behind client-go is a reply function per kind of
      request (any error other than "already exists" and "not found",
      a timeout included, is an [OtherReason]), the UUID generator is a
      source of strings, the Go timers are a logical clock in seconds,
      and [strings.TrimSpace] is a parameter of the handlers.
    - A handler or goroutine runs from start to end without interleaving;
      [go f(x)] records the started goroutine, which runs later.  Calls
      take no time: the clock moves only while the poller waits.  The one
      interleaving considered is that of two creating handlers which both
      pass their cap check before either inserts ([overlapped],
      [overlapped_keys]).
    - [slog] output is not modelled. *)

From Stdlib Require Import ZArith String Ascii Bool Lia DecimalString List.
From Stdlib Require Import Permutation Sorted.
From Stdlib Require DecimalZ.
Import ListNotations.

Local Open Scope string_scope.
Local Open Scope list_scope.
Local Open Scope Z_scope.

(** ** Go runtime pieces shared by the packages *)

(** [fmt.Sprintf("%d", n)]. *)
Definition itoa (n : Z) : string := NilZero.string_of_int (Z.to_int n).

(** What an error of the clientset is to the client: "already exists"
    ([errors.IsAlreadyExists]), "not found" ([errors.IsNotFound]), or
    anything else. *)
Inductive StatusReason :=
| AlreadyExists
| NotFound
| OtherReason (reason : string).

Inductive SqlFailure :=
| DriverFailure
| ConstraintFailed.

Inductive error_value :=
| SqlError (f : SqlFailure)
| StatusError (r : StatusReason)
| Errorf (prefix : string) (cause : error_value).

(** A Go [error]; [None] is [nil]. *)
Definition error := option error_value.

Definition is_nil (err : error) : bool :=
  match err with None => true | Some _ => false end.

(** ** Package [db] *)

Module sql.

Record NullString := mkNullString { Str : string; Valid : bool }.

Record NullTime := mkNullTime { Time : Z; TimeValid : bool }.

Definition null_string : NullString := mkNullString "" false.
Definition null_time : NullTime := mkNullTime 0 false.

End sql.

Module db.

Record Container := mkContainer {
  ID : string;
  UserID : Z;
  Name : string;
  Namespace : string;
  Status : string;
  ExternalIP : sql.NullString;
  MemoryMB : Z;
  StorageGB : Z;
  Image : string;
  CreatedAt : Z;
  StoppedAt : sql.NullTime
}.

Record SSHKey := mkSSHKey {
  KeyID : Z;
  KeyUserID : Z;
  KeyName : string;
  PublicKey : string;
  Fingerprint : string;
  KeyCreatedAt : Z
}.

(** The database: the two tables the lifecycle uses, and the driver
    faults still to come (one entry is consumed by every statement;
    [true] makes that statement fail, an empty list means no more
    faults). *)
Record DB := mkDB {
  containers : list Container;
  ssh_keys : list SSHKey;
  faults : list bool
}.

Definition set_containers (rows : list Container) (d : DB) : DB :=
  mkDB rows (ssh_keys d) (faults d).

(** One round trip to the driver ([db.Exec], [db.Query], [db.QueryRow]):
    does the statement fail, and the database afterwards. *)
Definition driver (d : DB) : bool * DB :=
  match faults d with
  | [] => (false, d)
  | f :: rest => (f, mkDB (containers d) (ssh_keys d) rest)
  end.

Definition set_Status (status : string) (c : Container) : Container :=
  mkContainer (ID c) (UserID c) (Name c) (Namespace c) status (ExternalIP c)
    (MemoryMB c) (StorageGB c) (Image c) (CreatedAt c) (StoppedAt c).

Definition set_ExternalIP (ip : sql.NullString) (c : Container) : Container :=
  mkContainer (ID c) (UserID c) (Name c) (Namespace c) (Status c) ip
    (MemoryMB c) (StorageGB c) (Image c) (CreatedAt c) (StoppedAt c).

Definition set_StoppedAt (t : sql.NullTime) (c : Container) : Container :=
  mkContainer (ID c) (UserID c) (Name c) (Namespace c) (Status c) (ExternalIP c)
    (MemoryMB c) (StorageGB c) (Image c) (CreatedAt c) t.

(** [UPDATE containers SET ... WHERE id = ?]. *)
Definition update_where_id (id : string) (f : Container -> Container)
    (rows : list Container) : list Container :=
  map (fun r => if (ID r =? id)%string then f r else r) rows.

(** [INSERT INTO containers (id, user_id, name, namespace, status,
    memory_mb, storage_gb, image)]: [external_ip] and [stopped_at] are
    NULL, [created_at] defaults to CURRENT_TIMESTAMP ([ts]); [id] is the
    primary key. *)
Definition CreateContainer (ts : Z) (c : Container) (d : DB) : error * DB :=
  let (fault, d1) := driver d in
  if fault then (Some (Errorf "insert container" (SqlError DriverFailure)), d1)
  else if existsb (fun r => (ID r =? ID c)%string) (containers d1)
  then (Some (Errorf "insert container" (SqlError ConstraintFailed)), d1)
  else
    let row := mkContainer (ID c) (UserID c) (Name c) (Namespace c) (Status c)
                 sql.null_string (MemoryMB c) (StorageGB c) (Image c) ts
                 sql.null_time in
    (None, set_containers (containers d1 ++ [row]) d1).

(** [SELECT ... FROM containers WHERE id = ?]; [sql.ErrNoRows] becomes
    [(nil, nil)]. *)
Definition GetContainer (id : string) (d : DB) : (option Container * error) * DB :=
  let (fault, d1) := driver d in
  if fault then ((None, Some (Errorf "query container" (SqlError DriverFailure))), d1)
  else ((find (fun r => (ID r =? id)%string) (containers d1), None), d1).

Definition UpdateContainerStatus (id status : string) (d : DB) : error * DB :=
  let (fault, d1) := driver d in
  if fault then (Some (Errorf "update container status" (SqlError DriverFailure)), d1)
  else (None, set_containers (update_where_id id (set_Status status) (containers d1)) d1).

Definition UpdateContainerIP (id ip : string) (d : DB) : error * DB :=
  let (fault, d1) := driver d in
  if fault then (Some (Errorf "update container ip" (SqlError DriverFailure)), d1)
  else (None, set_containers
                (update_where_id id (set_ExternalIP (sql.mkNullString ip true))
                   (containers d1)) d1).

(** [SET status = 'stopped', stopped_at = CURRENT_TIMESTAMP]. *)
Definition UpdateContainerStopped (ts : Z) (id : string) (d : DB) : error * DB :=
  let (fault, d1) := driver d in
  if fault then (Some (Errorf "update container stopped" (SqlError DriverFailure)), d1)
  else (None, set_containers
                (update_where_id id
                   (fun r => set_StoppedAt (sql.mkNullTime ts true) (set_Status "stopped" r))
                   (containers d1)) d1).

Definition DeleteContainer (id : string) (d : DB) : error * DB :=
  let (fault, d1) := driver d in
  if fault then (Some (Errorf "delete container" (SqlError DriverFailure)), d1)
  else (None, set_containers
                (filter (fun r => negb (ID r =? id)%string) (containers d1)) d1).

(** [SELECT COUNT( * ) FROM containers WHERE user_id = ? AND status != 'deleted']. *)
Definition live_of (userID : Z) (r : Container) : bool :=
  (UserID r =? userID) && negb (Status r =? "deleted")%string.

Definition CountContainersByUser (userID : Z) (d : DB) : (Z * error) * DB :=
  let (fault, d1) := driver d in
  if fault then ((0, Some (Errorf "count containers" (SqlError DriverFailure))), d1)
  else ((Z.of_nat (length (filter (live_of userID) (containers d1))), None), d1).

(** [SELECT ... FROM ssh_keys WHERE user_id = ? AND id IN (?,...,?)]: no
    [ORDER BY], the rows come back in table order.  An empty id list
    returns before any query is made. *)
Definition selected_key (userID : Z) (ids : list Z) (k : SSHKey) : bool :=
  (KeyUserID k =? userID) && existsb (Z.eqb (KeyID k)) ids.

Definition GetSSHKeysByIDs (userID : Z) (ids : list Z) (d : DB)
    : (list SSHKey * error) * DB :=
  match ids with
  | [] => (([], None), d)
  | _ :: _ =>
      let (fault, d1) := driver d in
      if fault then (([], Some (Errorf "query ssh keys by ids" (SqlError DriverFailure))), d1)
      else ((filter (selected_key userID ids) (ssh_keys d1), None), d1)
  end.

End db.

(** ** Package [k8s] *)

Module k8s.

Inductive Resource :=
| Namespaces
| Secrets
| PersistentVolumeClaims
| NetworkPolicies
| Pods
| Services.

(** The objects the client submits, with the fields it fills in. *)
Inductive Object :=
| Namespace (name : string) (labels : list (string * string))
| Secret (namespace name : string) (stringData : list (string * string))
| PersistentVolumeClaim (namespace name storageClassName storage : string)
| NetworkPolicy (namespace name : string) (egressExcept : list string)
| Pod (namespace name image memoryRequest memoryLimit : string)
| Service (namespace name : string) (ports : list (string * Z)).

Inductive ApiCall :=
| Create (o : Object)
| Delete (r : Resource) (namespace name : string)
| Get (r : Resource) (namespace name : string).

(** The API server as the client sees it: what it answers to the [n]-th
    request it receives.  [on_write] answers creates and deletes ([None]
    is success); [on_get_pod] answers [Pods(ns).Get("container")] with the
    pod's [Status.Phase]; [on_get_service] answers
    [Services(ns).Get("lb")] with the [IP] fields of
    [Status.LoadBalancer.Ingress]. *)
Record Cluster := mkCluster {
  on_write : nat -> ApiCall -> option StatusReason;
  on_get_pod : nat -> string -> StatusReason + string;
  on_get_service : nat -> string -> StatusReason + list string
}.

(** The client: the server behind it and the requests sent so far, each
    with the instant it was sent at. *)
Record Client := mkClient {
  clientset : Cluster;
  calls : list (Z * ApiCall)
}.

Definition IsAlreadyExists (err : error) : bool :=
  match err with Some (StatusError AlreadyExists) => true | _ => false end.

Definition IsNotFound (err : error) : bool :=
  match err with Some (StatusError NotFound) => true | _ => false end.

Definition wrap (prefix : string) (err : error) : error :=
  match err with Some e => Some (Errorf prefix e) | None => None end.

Definition sent (now : Z) (call : ApiCall) (c : Client) : Client :=
  mkClient (clientset c) (calls c ++ [(now, call)]).

(** A create or delete through the clientset. *)
Definition write (now : Z) (call : ApiCall) (c : Client) : error * Client :=
  (option_map StatusError (on_write (clientset c) (length (calls c)) call),
   sent now call c).

Definition namespaceObject (name : string) (userID : Z) (containerID : string) : Object :=
  Namespace name
    [("edd-compute", "true"); ("user-id", itoa userID); ("container-id", containerID)].

Definition CreateNamespace (name : string) (userID : Z) (containerID : string)
    (now : Z) (c : Client) : error * Client :=
  let (err, c1) := write now (Create (namespaceObject name userID containerID)) c in
  if negb (is_nil err) && negb (IsAlreadyExists err)
  then (wrap "create namespace" err, c1)
  else (None, c1).

Definition DeleteNamespace (name : string) (now : Z) (c : Client) : error * Client :=
  let (err, c1) := write now (Delete Namespaces "" name) c in
  if negb (is_nil err) && negb (IsNotFound err)
  then (wrap "delete namespace" err, c1)
  else (None, c1).

Definition secretObject (namespace authorizedKeys : string) : Object :=
  Secret namespace "ssh-keys" [("authorized_keys", authorizedKeys)].

Definition CreateSSHSecret (namespace authorizedKeys : string)
    (now : Z) (c : Client) : error * Client :=
  let (err, c1) := write now (Create (secretObject namespace authorizedKeys)) c in
  if negb (is_nil err) && negb (IsAlreadyExists err)
  then (wrap "create ssh secret" err, c1)
  else (None, c1).

Definition pvcObject (namespace : string) (storageGB : Z) : Object :=
  PersistentVolumeClaim namespace "storage" "local-path" (itoa storageGB ++ "Gi")%string.

Definition CreatePVC (namespace : string) (storageGB : Z)
    (now : Z) (c : Client) : error * Client :=
  let (err, c1) := write now (Create (pvcObject namespace storageGB)) c in
  if negb (is_nil err) && negb (IsAlreadyExists err)
  then (wrap "create pvc" err, c1)
  else (None, c1).

Definition networkPolicyObject (namespace : string) : Object :=
  NetworkPolicy namespace "isolation" ["10.0.0.0/8"].

Definition CreateNetworkPolicy (namespace : string)
    (now : Z) (c : Client) : error * Client :=
  let (err, c1) := write now (Create (networkPolicyObject namespace)) c in
  if negb (is_nil err) && negb (IsAlreadyExists err)
  then (wrap "create network policy" err, c1)
  else (None, c1).

Definition podObject (namespace image : string) (memoryMB : Z) : Object :=
  Pod namespace "container" image
    (itoa memoryMB ++ "Mi")%string (itoa memoryMB ++ "Mi")%string.

Definition CreatePod (namespace image : string) (memoryMB : Z)
    (now : Z) (c : Client) : error * Client :=
  let (err, c1) := write now (Create (podObject namespace image memoryMB)) c in
  if negb (is_nil err) && negb (IsAlreadyExists err)
  then (wrap "create pod" err, c1)
  else (None, c1).

Definition serviceObject (namespace : string) : Object :=
  Service namespace "lb"
    [("ssh", 22); ("http", 80); ("https", 443); ("dev-3000", 3000); ("dev-8080", 8080)].

Definition CreateLoadBalancer (namespace : string)
    (now : Z) (c : Client) : error * Client :=
  let (err, c1) := write now (Create (serviceObject namespace)) c in
  if negb (is_nil err) && negb (IsAlreadyExists err)
  then (wrap "create load balancer" err, c1)
  else (None, c1).

Definition GetServiceExternalIP (namespace : string)
    (now : Z) (c : Client) : (string * error) * Client :=
  let c1 := sent now (Get Services namespace "lb") c in
  match on_get_service (clientset c) (length (calls c)) namespace with
  | inl r => (("", wrap "get service" (Some (StatusError r))), c1)
  | inr ingress =>
      match ingress with
      | ip :: _ => if negb (ip =? "")%string then ((ip, None), c1) else (("", None), c1)
      | [] => (("", None), c1)
      end
  end.

Definition GetPodStatus (namespace : string)
    (now : Z) (c : Client) : (string * error) * Client :=
  let c1 := sent now (Get Pods namespace "container") c in
  match on_get_pod (clientset c) (length (calls c)) namespace with
  | inl r =>
      if IsNotFound (Some (StatusError r)) then (("not_found", None), c1)
      else (("", wrap "get pod" (Some (StatusError r))), c1)
  | inr phase =>
      if (phase =? "Pending")%string then (("pending", None), c1)
      else if (phase =? "Running")%string then (("running", None), c1)
      else if (phase =? "Succeeded")%string then (("stopped", None), c1)
      else if (phase =? "Failed")%string then (("failed", None), c1)
      else (("unknown", None), c1)
  end.

Definition DeletePod (namespace : string) (now : Z) (c : Client) : error * Client :=
  let (err, c1) := write now (Delete Pods namespace "container") c in
  if negb (is_nil err) && negb (IsNotFound err)
  then (wrap "delete pod" err, c1)
  else (None, c1).

End k8s.

(** ** Package [api] *)

Module api.

Definition maxContainersPerUser : Z := 3.
Definition defaultMemoryMB : Z := 512.
Definition defaultStorageGB : Z := 5.
Definition defaultImage : string := "eddisonso/edd-compute-base:latest".

(** [5 * time.Minute] and [5 * time.Second], in seconds. *)
Definition pollTimeout : Z := 5 * 60.
Definition tickerPeriod : Z := 5.

(** The Go string ["\n"]. *)
Definition newline : string := String "010"%char EmptyString.

Record containerRequest := mkContainerRequest {
  ReqName : string;
  ReqMemoryMB : Z;
  ReqStorageGB : Z;
  SSHKeyIDs : list Z
}.

Record containerResponse := mkContainerResponse {
  RespID : string;
  RespName : string;
  RespStatus : string;
  RespExternalIP : option string;
  SSHCommand : option string;
  RespMemoryMB : Z;
  RespStorageGB : Z;
  RespCreatedAt : Z
}.

Record userInfo := mkUserInfo { InfoUserID : Z; Username : string }.

(** An incoming request after routing: the user the auth middleware put
    in the context (if any), the [{id}] path value, and the JSON body
    decoded into a [containerRequest] ([None] when decoding fails). *)
Record Request := mkRequest {
  Context : option userInfo;
  PathValue : string;
  Body : option containerRequest
}.

Inductive Payload :=
| Message (text : string)
| ContainerJSON (c : containerResponse)
| StatusOkJSON.

Record Response := mkResponse { StatusCode : Z; Written : Payload }.

(** A goroutine started with [go]. *)
Inductive Task :=
| provisionTask (container : db.Container) (sshKeys : list db.SSHKey)
| pollTask (container : db.Container).

(** The handler's world: its database, its cluster client, the clock
    (seconds), the goroutines started so far and the UUID source. *)
Record World := mkWorld {
  h_db : db.DB;
  h_k8s : k8s.Client;
  now : Z;
  goroutines : list Task;
  uuid_New : nat -> string;
  uuid_drawn : nat
}.

(** *** State passing *)

Definition M (A : Type) : Type := World -> A * World.

Definition ret {A} (a : A) : M A := fun w => (a, w).

Definition bind {A B} (m : M A) (k : A -> M B) : M B :=
  fun w => let (a, w1) := m w in k a w1.

Notation "x <- m ;; k" := (bind m (fun x => k))
  (at level 61, m at next level, right associativity).
Notation "' pat <- m ;; k" := (bind m (fun x => match x with pat => k end))
  (at level 61, pat pattern, m at next level, right associativity).

Definition on_db {A} (f : db.DB -> A * db.DB) : M A :=
  fun w => let (a, d) := f (h_db w) in
           (a, mkWorld d (h_k8s w) (now w) (goroutines w) (uuid_New w) (uuid_drawn w)).

Definition on_k8s {A} (f : Z -> k8s.Client -> A * k8s.Client) : M A :=
  fun w => let (a, c) := f (now w) (h_k8s w) in
           (a, mkWorld (h_db w) c (now w) (goroutines w) (uuid_New w) (uuid_drawn w)).

Definition current_timestamp : M Z := fun w => (now w, w).

Definition sleep_until (t : Z) : M unit :=
  fun w => (tt, mkWorld (h_db w) (h_k8s w) t (goroutines w) (uuid_New w) (uuid_drawn w)).

Definition go (t : Task) : M unit :=
  fun w => (tt, mkWorld (h_db w) (h_k8s w) (now w) (goroutines w ++ [t])
                  (uuid_New w) (uuid_drawn w)).

(** [uuid.New().String()]. *)
Definition uuid_New_String : M string :=
  fun w => (uuid_New w (uuid_drawn w),
            mkWorld (h_db w) (h_k8s w) (now w) (goroutines w) (uuid_New w)
              (S (uuid_drawn w))).

(** *** Responses *)

Definition writeError (message : string) (code : Z) : Response :=
  mkResponse code (Message message).

Definition containerToResponse (c : db.Container) : containerResponse :=
  if sql.Valid (db.ExternalIP c)
  then mkContainerResponse (db.ID c) (db.Name c) (db.Status c)
         (Some (sql.Str (db.ExternalIP c)))
         (Some ("ssh root@" ++ sql.Str (db.ExternalIP c))%string)
         (db.MemoryMB c) (db.StorageGB c) (db.CreatedAt c)
  else mkContainerResponse (db.ID c) (db.Name c) (db.Status c) None None
         (db.MemoryMB c) (db.StorageGB c) (db.CreatedAt c).

Definition writeJSON (c : db.Container) : Response :=
  mkResponse 200 (ContainerJSON (containerToResponse c)).

Definition getUserFromContext (r : Request) : option Z :=
  option_map InfoUserID (Context r).

(** *** Provisioning and polling *)

(** The [strings.Builder] loop of [provisionContainer]. *)
Fixpoint authorized_keys (built : string) (sshKeys : list db.SSHKey) : string :=
  match sshKeys with
  | [] => built
  | key :: rest => authorized_keys ((built ++ db.PublicKey key) ++ newline)%string rest
  end.

Definition provisionContainer (container : db.Container) (sshKeys : list db.SSHKey)
    : M unit :=
  let authorizedKeys := authorized_keys "" sshKeys in
  err <- on_k8s (k8s.CreateNamespace (db.Namespace container) (db.UserID container)
                   (db.ID container)) ;;
  if negb (is_nil err)
  then _ <- on_db (db.UpdateContainerStatus (db.ID container) "failed") ;; ret tt
  else
  err <- on_k8s (k8s.CreateSSHSecret (db.Namespace container) authorizedKeys) ;;
  if negb (is_nil err)
  then _ <- on_db (db.UpdateContainerStatus (db.ID container) "failed") ;; ret tt
  else
  err <- on_k8s (k8s.CreatePVC (db.Namespace container) (db.StorageGB container)) ;;
  if negb (is_nil err)
  then _ <- on_db (db.UpdateContainerStatus (db.ID container) "failed") ;; ret tt
  else
  err <- on_k8s (k8s.CreateNetworkPolicy (db.Namespace container)) ;;
  if negb (is_nil err)
  then _ <- on_db (db.UpdateContainerStatus (db.ID container) "failed") ;; ret tt
  else
  err <- on_k8s (k8s.CreatePod (db.Namespace container) (db.Image container)
                   (db.MemoryMB container)) ;;
  if negb (is_nil err)
  then _ <- on_db (db.UpdateContainerStatus (db.ID container) "failed") ;; ret tt
  else
  err <- on_k8s (k8s.CreateLoadBalancer (db.Namespace container)) ;;
  if negb (is_nil err)
  then _ <- on_db (db.UpdateContainerStatus (db.ID container) "failed") ;; ret tt
  else
  _ <- on_db (db.UpdateContainerStatus (db.ID container) "running") ;;
  go (pollTask container).

(** Which case of the [select] in [pollExternalIP] fires. *)
Inductive selected :=
| ctx_Done
| ticker_C.

(** The [k]-th wait of the poller started at [start]: the ticker fires at
    [start + k * tickerPeriod], the context is done at
    [start + pollTimeout].  The wait ends at the earlier instant; when
    both are ready together Go picks either, which [tie] decides
    ([true]: the tick). *)
Definition select (tie : bool) (start k : Z) : M selected :=
  let tick := start + k * tickerPeriod in
  let deadline := start + pollTimeout in
  if (tick <? deadline) || ((tick =? deadline) && tie)
  then _ <- sleep_until tick ;; ret ticker_C
  else _ <- sleep_until deadline ;; ret ctx_Done.

(** The [for { select { ... } }] loop; [None] when [fuel] iterations did
    not reach a [return]. *)
Fixpoint poll_loop (fuel : nat) (tie : bool) (start k : Z) (container : db.Container)
    : M (option unit) :=
  match fuel with
  | O => ret None
  | S fuel' =>
      which <- select tie start k ;;
      match which with
      | ctx_Done => ret (Some tt)
      | ticker_C =>
          '(ip, err) <- on_k8s (k8s.GetServiceExternalIP (db.Namespace container)) ;;
          if negb (is_nil err) then poll_loop fuel' tie start (k + 1) container
          else if negb (ip =? "")%string
          then _ <- on_db (db.UpdateContainerIP (db.ID container) ip) ;; ret (Some tt)
          else poll_loop fuel' tie start (k + 1) container
      end
  end.

(** Iterations that always suffice: one per tick up to the deadline and
    one for the deadline itself. *)
Definition poll_fuel : nat := S (S (Z.to_nat (pollTimeout / tickerPeriod))).

Definition pollExternalIP (tie : bool) (container : db.Container) : M (option unit) :=
  start <- current_timestamp ;;
  poll_loop poll_fuel tie start 1 container.

(** Running a started goroutine. *)
Definition run (tie : bool) (t : Task) : M (option unit) :=
  match t with
  | provisionTask container sshKeys =>
      _ <- provisionContainer container sshKeys ;; ret (Some tt)
  | pollTask container => pollExternalIP tie container
  end.

(** *** The handlers *)

Section Handlers.

(** [strings.TrimSpace]. *)
Variable TrimSpace : string -> string.

Definition limitMessage : string :=
  ("container limit reached (" ++ itoa maxContainersPerUser ++ ")")%string.

Definition namespaceName (userID : Z) (containerID : string) : string :=
  ("compute-" ++ itoa userID ++ "-" ++ containerID)%string.

Definition CreateContainer (r : Request) : M Response :=
  match getUserFromContext r with
  | None => ret (writeError "unauthorized" 401)
  | Some userID =>
  match Body r with
  | None => ret (writeError "invalid request body" 400)
  | Some req =>
  let name := TrimSpace (ReqName req) in
  if (name =? "")%string then ret (writeError "name is required" 400) else
  '(count, err) <- on_db (db.CountContainersByUser userID) ;;
  if negb (is_nil err) then ret (writeError "internal error" 500) else
  if count >=? maxContainersPerUser then ret (writeError limitMessage 400) else
  if (length (SSHKeyIDs req) =? 0)%nat
  then ret (writeError "at least one SSH key is required" 400) else
  '(sshKeys, err) <- on_db (db.GetSSHKeysByIDs userID (SSHKeyIDs req)) ;;
  if negb (is_nil err) then ret (writeError "internal error" 500) else
  if negb (length sshKeys =? length (SSHKeyIDs req))%nat
  then ret (writeError "one or more SSH keys not found" 400) else
  let memoryMB := if ReqMemoryMB req <=? 0 then defaultMemoryMB else ReqMemoryMB req in
  let storageGB := if ReqStorageGB req <=? 0 then defaultStorageGB else ReqStorageGB req in
  uuid <- uuid_New_String ;;
  let containerID := substring 0 8 uuid in
  let namespace := namespaceName userID containerID in
  let container :=
    db.mkContainer containerID userID name namespace "pending" sql.null_string
      memoryMB storageGB defaultImage 0 sql.null_time in
  ts <- current_timestamp ;;
  err <- on_db (db.CreateContainer ts container) ;;
  if negb (is_nil err) then ret (writeError "internal error" 500) else
  _ <- go (provisionTask container sshKeys) ;;
  ret (writeJSON container)
  end
  end.

Definition GetContainer (r : Request) : M Response :=
  match getUserFromContext r with
  | None => ret (writeError "unauthorized" 401)
  | Some userID =>
  let containerID := PathValue r in
  '(found, err) <- on_db (db.GetContainer containerID) ;;
  if negb (is_nil err) then ret (writeError "internal error" 500) else
  match found with
  | None => ret (writeError "container not found" 404)
  | Some container =>
  if negb (db.UserID container =? userID)
  then ret (writeError "container not found" 404) else
  '(status, err) <- on_k8s (k8s.GetPodStatus (db.Namespace container)) ;;
  container1 <-
    (if is_nil err && negb (status =? "")%string
        && negb (status =? db.Status container)%string
     then _ <- on_db (db.UpdateContainerStatus (db.ID container) status) ;;
          ret (db.set_Status status container)
     else ret container) ;;
  container2 <-
    (if negb (sql.Valid (db.ExternalIP container1))
     then '(ip, err) <- on_k8s (k8s.GetServiceExternalIP (db.Namespace container1)) ;;
          if is_nil err && negb (ip =? "")%string
          then _ <- on_db (db.UpdateContainerIP (db.ID container1) ip) ;;
               ret (db.set_ExternalIP (sql.mkNullString ip true) container1)
          else ret container1
     else ret container1) ;;
  ret (writeJSON container2)
  end
  end.

Definition DeleteContainer (r : Request) : M Response :=
  match getUserFromContext r with
  | None => ret (writeError "unauthorized" 401)
  | Some userID =>
  let containerID := PathValue r in
  '(found, err) <- on_db (db.GetContainer containerID) ;;
  if negb (is_nil err) then ret (writeError "internal error" 500) else
  match found with
  | None => ret (writeError "container not found" 404)
  | Some container =>
  if negb (db.UserID container =? userID)
  then ret (writeError "container not found" 404) else
  err <- on_k8s (k8s.DeleteNamespace (db.Namespace container)) ;;
  if negb (is_nil err) then ret (writeError "failed to delete container" 500) else
  err <- on_db (db.DeleteContainer containerID) ;;
  if negb (is_nil err) then ret (writeError "internal error" 500) else
  ret (mkResponse 200 StatusOkJSON)
  end
  end.

Definition StopContainer (r : Request) : M Response :=
  match getUserFromContext r with
  | None => ret (writeError "unauthorized" 401)
  | Some userID =>
  let containerID := PathValue r in
  '(found, err) <- on_db (db.GetContainer containerID) ;;
  if negb (is_nil err) then ret (writeError "internal error" 500) else
  match found with
  | None => ret (writeError "container not found" 404)
  | Some container =>
  if negb (db.UserID container =? userID)
  then ret (writeError "container not found" 404) else
  err <- on_k8s (k8s.DeletePod (db.Namespace container)) ;;
  if negb (is_nil err) then ret (writeError "failed to stop container" 500) else
  ts <- current_timestamp ;;
  _ <- on_db (db.UpdateContainerStopped ts containerID) ;;
  ret (writeJSON (db.set_Status "stopped" container))
  end
  end.

Definition StartContainer (r : Request) : M Response :=
  match getUserFromContext r with
  | None => ret (writeError "unauthorized" 401)
  | Some userID =>
  let containerID := PathValue r in
  '(found, err) <- on_db (db.GetContainer containerID) ;;
  if negb (is_nil err) then ret (writeError "internal error" 500) else
  match found with
  | None => ret (writeError "container not found" 404)
  | Some container =>
  if negb (db.UserID container =? userID)
  then ret (writeError "container not found" 404) else
  err <- on_k8s (k8s.CreatePod (db.Namespace container) (db.Image container)
                   (db.MemoryMB container)) ;;
  if negb (is_nil err) then ret (writeError "failed to start container" 500) else
  _ <- on_db (db.UpdateContainerStatus containerID "pending") ;;
  ret (writeJSON (db.set_Status "pending" container))
  end
  end.

End Handlers.

End api.

(** * Vocabulary of the properties

    Definitions used to state and prove the properties: views of the
    environment, the handlers' code factored into shared parts (each
    equal to the handler by computation), and what a run amounts to. *)

Import api.

(** ** The record store and the gateway *)

(** The statement [d] executes next does not fail. *)
Definition next_ok (d : db.DB) : bool := negb (hd false (db.faults d)).

(** [digits] is the decimal numeral of [n]: it reads as a signed decimal
    number without superfluous leading zeros, and that number is [n]. *)
Definition decimal_of (digits : string) (n : Z) : Prop :=
  exists d, NilZero.int_of_string digits = Some d /\
            Decimal.norm d = d /\ Z.of_int d = n.

(** The row with primary key [id]. *)
Definition stored (id : string) (d : db.DB) : option db.Container :=
  find (fun r => (db.ID r =? id)%string) (db.containers d).

(** A create counts as failed unless the server accepts it or answers
    that the object already exists. *)
Definition create_fails (cl : k8s.Cluster) (n : nat) (call : k8s.ApiCall) : bool :=
  match k8s.on_write cl n call with
  | Some AlreadyExists => false
  | Some _ => true
  | None => false
  end.

(** A delete counts as failed unless the server accepts it or answers
    that the object is not there. *)
Definition delete_fails (cl : k8s.Cluster) (n : nat) (call : k8s.ApiCall) : bool :=
  match k8s.on_write cl n call with
  | Some NotFound => false
  | Some _ => true
  | None => false
  end.

(** The world after one more request went to the API server. *)
Definition sending (call : k8s.ApiCall) (w : World) : World :=
  mkWorld (h_db w) (k8s.sent (now w) call (h_k8s w)) (now w) (goroutines w)
    (uuid_New w) (uuid_drawn w).

(** The world after [calls] went out, one after the other. *)
Definition sending_all (calls : list k8s.ApiCall) (w : World) : World :=
  fold_left (fun w call => sending call w) calls w.

(** The shape shared by the six create methods of the client. *)
Definition create_or_ignore (prefix : string) (call : k8s.ApiCall)
    (now : Z) (c : k8s.Client) : error * k8s.Client :=
  let (err, c1) := k8s.write now call c in
  if negb (is_nil err) && negb (k8s.IsAlreadyExists err)
  then (k8s.wrap prefix err, c1)
  else (None, c1).

(** ** Provisioning *)

(** The six creation steps of [provisionContainer], in source order. *)
Definition provision_steps (container : db.Container) (sshKeys : list db.SSHKey)
    : list k8s.ApiCall :=
  [ k8s.Create (k8s.namespaceObject (db.Namespace container) (db.UserID container)
                  (db.ID container));
    k8s.Create (k8s.secretObject (db.Namespace container) (authorized_keys "" sshKeys));
    k8s.Create (k8s.pvcObject (db.Namespace container) (db.StorageGB container));
    k8s.Create (k8s.networkPolicyObject (db.Namespace container));
    k8s.Create (k8s.podObject (db.Namespace container) (db.Image container)
                  (db.MemoryMB container));
    k8s.Create (k8s.serviceObject (db.Namespace container)) ].

(** Going through [steps] until one fails: the steps tried, and whether
    all of them succeeded.  The first one is request number [n]. *)
Fixpoint attempt (cl : k8s.Cluster) (n : nat) (steps : list k8s.ApiCall)
    : list k8s.ApiCall * bool :=
  match steps with
  | [] => ([], true)
  | step :: rest =>
      if create_fails cl n step then ([step], false)
      else let (tried, ok) := attempt cl (S n) rest in (step :: tried, ok)
  end.

(** ** Polling *)

(** What one query of the poller observes on the [n]-th request to the
    server: the address of the first ingress entry when there is one and
    it is not empty; nothing when the query fails, when the service has
    no ingress entry, or when the entry has no IP. *)
Definition assigned (cl : k8s.Cluster) (n : nat) (namespace : string) : option string :=
  match k8s.on_get_service cl n namespace with
  | inl _ => None
  | inr [] => None
  | inr (ip :: _) => if (ip =? "")%string then None else Some ip
  end.

(** The last tick the [select] takes before the deadline wins: tick 60
    falls on the deadline (60 * 5 = 5 * 60) and is taken only on a tie
    resolved for the ticker. *)
Definition last_tick (tie : bool) : nat := if tie then 60 else 59.

(** The world when the clock shows [t]. *)
Definition at_time (t : Z) (w : World) : World :=
  mkWorld (h_db w) (h_k8s w) t (goroutines w) (uuid_New w) (uuid_drawn w).

(** The poller's [j]-th query and when it is sent. *)
Definition tick_query (start : Z) (namespace : string) (j : nat) : Z * k8s.ApiCall :=
  (start + Z.of_nat j * tickerPeriod, k8s.Get k8s.Services namespace "lb").

(** ** The handlers on one container, factored *)

(** The world with database [d]. *)
Definition with_db (d : db.DB) (w : World) : World :=
  mkWorld d (h_k8s w) (now w) (goroutines w) (uuid_New w) (uuid_drawn w).

(** The lookup and ownership check that [GetContainer],
    [DeleteContainer], [StopContainer] and [StartContainer] begin with;
    [body] is what the handler does after it. *)
Definition on_owned (body : db.Container -> M Response) (r : Request) : M Response :=
  match getUserFromContext r with
  | None => ret (writeError "unauthorized" 401)
  | Some userID =>
  '(found, err) <- on_db (db.GetContainer (PathValue r)) ;;
  if negb (is_nil err) then ret (writeError "internal error" 500) else
  match found with
  | None => ret (writeError "container not found" 404)
  | Some container =>
  if negb (db.UserID container =? userID)
  then ret (writeError "container not found" 404) else body container
  end
  end.

(** [StopContainer] after the ownership check. *)
Definition stop_body (r : Request) (container : db.Container) : M Response :=
  err <- on_k8s (k8s.DeletePod (db.Namespace container)) ;;
  if negb (is_nil err) then ret (writeError "failed to stop container" 500) else
  ts <- current_timestamp ;;
  _ <- on_db (db.UpdateContainerStopped ts (PathValue r)) ;;
  ret (writeJSON (db.set_Status "stopped" container)).

(** [GetContainer] after the ownership check. *)
Definition get_body (container : db.Container) : M Response :=
  '(status, err) <- on_k8s (k8s.GetPodStatus (db.Namespace container)) ;;
  container1 <-
    (if is_nil err && negb (status =? "")%string
        && negb (status =? db.Status container)%string
     then _ <- on_db (db.UpdateContainerStatus (db.ID container) status) ;;
          ret (db.set_Status status container)
     else ret container) ;;
  container2 <-
    (if negb (sql.Valid (db.ExternalIP container1))
     then '(ip, err) <- on_k8s (k8s.GetServiceExternalIP (db.Namespace container1)) ;;
          if is_nil err && negb (ip =? "")%string
          then _ <- on_db (db.UpdateContainerIP (db.ID container1) ip) ;;
               ret (db.set_ExternalIP (sql.mkNullString ip true) container1)
          else ret container1
     else ret container1) ;;
  ret (writeJSON container2).

(** [DeleteContainer] after the ownership check. *)
Definition delete_body (r : Request) (container : db.Container) : M Response :=
  err <- on_k8s (k8s.DeleteNamespace (db.Namespace container)) ;;
  if negb (is_nil err) then ret (writeError "failed to delete container" 500) else
  err <- on_db (db.DeleteContainer (PathValue r)) ;;
  if negb (is_nil err) then ret (writeError "internal error" 500) else
  ret (mkResponse 200 StatusOkJSON).

(** [StartContainer] after the ownership check. *)
Definition start_body (r : Request) (container : db.Container) : M Response :=
  err <- on_k8s (k8s.CreatePod (db.Namespace container) (db.Image container)
                   (db.MemoryMB container)) ;;
  if negb (is_nil err) then ret (writeError "failed to start container" 500) else
  _ <- on_db (db.UpdateContainerStatus (PathValue r) "pending") ;;
  ret (writeJSON (db.set_Status "pending" container)).

(** The four handlers that take a container id. *)
Definition by_id_handlers : list (Request -> M Response) :=
  [GetContainer; DeleteContainer; StopContainer; StartContainer].

(** ** Reconciliation on read *)

(** The status [GetPodStatus] reports on the [n]-th request, when it
    reports one: "not_found" when the pod is not there, the phase in the
    store's vocabulary, "unknown" for any other phase; nothing when the
    query fails for another reason. *)
Definition reported (cl : k8s.Cluster) (n : nat) (namespace : string) : option string :=
  match k8s.on_get_pod cl n namespace with
  | inl NotFound => Some "not_found"
  | inl _ => None
  | inr phase =>
      Some (if (phase =? "Pending")%string then "pending"
            else if (phase =? "Running")%string then "running"
            else if (phase =? "Succeeded")%string then "stopped"
            else if (phase =? "Failed")%string then "failed"
            else "unknown")
  end.

(** The statuses [GetPodStatus] can report. *)
Definition live_statuses : list string :=
  ["pending"; "running"; "stopped"; "failed"; "unknown"; "not_found"].

(** The status a read writes, if any: the reported one when it differs
    from the stored one. *)
Definition status_change (c : db.Container) (rep : option string) : option string :=
  match rep with
  | Some s => if (s =? db.Status c)%string then None else Some s
  | None => None
  end.

(** The address a read writes, if any: none when the stored row has
    one already. *)
Definition address_found (c : db.Container) (obs : option string) : option string :=
  if sql.Valid (db.ExternalIP c) then None else obs.

(** The container a read returns, the database it leaves and the
    requests it sends. *)
Definition reconciled (c : db.Container) (rep obs : option string) : db.Container :=
  let c1 := match status_change c rep with
            | Some s => db.set_Status s c
            | None => c
            end in
  match address_found c obs with
  | Some ip => db.set_ExternalIP (sql.mkNullString ip true) c1
  | None => c1
  end.

Definition reconciled_db (c : db.Container) (d : db.DB) (rep obs : option string) : db.DB :=
  let d1 := match status_change c rep with
            | Some s => snd (db.UpdateContainerStatus (db.ID c) s d)
            | None => d
            end in
  match address_found c obs with
  | Some ip => snd (db.UpdateContainerIP (db.ID c) ip d1)
  | None => d1
  end.

Definition reconcile_queries (c : db.Container) (t : Z) : list (Z * k8s.ApiCall) :=
  (t, k8s.Get k8s.Pods (db.Namespace c) "container")
  :: (if sql.Valid (db.ExternalIP c) then []
      else [(t, k8s.Get k8s.Services (db.Namespace c) "lb")]).

(** ** Creation *)

(** [req.MemoryMB] and [req.StorageGB] after "Set defaults". *)
Definition memory_or_default (memoryMB : Z) : Z :=
  if memoryMB <=? 0 then defaultMemoryMB else memoryMB.

Definition storage_or_default (storageGB : Z) : Z :=
  if storageGB <=? 0 then defaultStorageGB else storageGB.

(** [CreateContainer] for a caller [userID], with the trimmed name and
    the sizes after defaulting. *)
Definition create_checked (userID : Z) (name : string) (ids : list Z)
    (memoryMB storageGB : Z) : M Response :=
  if (name =? "")%string then ret (writeError "name is required" 400) else
  '(count, err) <- on_db (db.CountContainersByUser userID) ;;
  if negb (is_nil err) then ret (writeError "internal error" 500) else
  if count >=? maxContainersPerUser then ret (writeError limitMessage 400) else
  if (length ids =? 0)%nat
  then ret (writeError "at least one SSH key is required" 400) else
  '(sshKeys, err) <- on_db (db.GetSSHKeysByIDs userID ids) ;;
  if negb (is_nil err) then ret (writeError "internal error" 500) else
  if negb (length sshKeys =? length ids)%nat
  then ret (writeError "one or more SSH keys not found" 400) else
  uuid <- uuid_New_String ;;
  let containerID := substring 0 8 uuid in
  let namespace := namespaceName userID containerID in
  let container :=
    db.mkContainer containerID userID name namespace "pending" sql.null_string
      memoryMB storageGB defaultImage 0 sql.null_time in
  ts <- current_timestamp ;;
  err <- on_db (db.CreateContainer ts container) ;;
  if negb (is_nil err) then ret (writeError "internal error" 500) else
  _ <- go (provisionTask container sshKeys) ;;
  ret (writeJSON container).

(** [create_checked] from the statement after the cap check on: the
    lookup of the keys, the insert, the goroutine and the response. *)
Definition create_admitted (userID : Z) (name : string) (ids : list Z)
    (memoryMB storageGB : Z) : M Response :=
  if (length ids =? 0)%nat
  then ret (writeError "at least one SSH key is required" 400) else
  '(sshKeys, err) <- on_db (db.GetSSHKeysByIDs userID ids) ;;
  if negb (is_nil err) then ret (writeError "internal error" 500) else
  if negb (length sshKeys =? length ids)%nat
  then ret (writeError "one or more SSH keys not found" 400) else
  uuid <- uuid_New_String ;;
  let containerID := substring 0 8 uuid in
  let namespace := namespaceName userID containerID in
  let container :=
    db.mkContainer containerID userID name namespace "pending" sql.null_string
      memoryMB storageGB defaultImage 0 sql.null_time in
  ts <- current_timestamp ;;
  err <- on_db (db.CreateContainer ts container) ;;
  if negb (is_nil err) then ret (writeError "internal error" 500) else
  _ <- go (provisionTask container sshKeys) ;;
  ret (writeJSON container).

(** [create_checked] up to its cap check: the response when the request
    is refused by then, otherwise what the handler still has to do. *)
Definition create_paused (userID : Z) (name : string) (ids : list Z)
    (memoryMB storageGB : Z) : M (Response + M Response) :=
  if (name =? "")%string then ret (inl (writeError "name is required" 400)) else
  '(count, err) <- on_db (db.CountContainersByUser userID) ;;
  if negb (is_nil err) then ret (inl (writeError "internal error" 500)) else
  if count >=? maxContainersPerUser then ret (inl (writeError limitMessage 400)) else
  ret (inr (create_admitted userID name ids memoryMB storageGB)).

(** [CreateContainer] up to its cap check. *)
Definition CreateContainer_paused (TrimSpace : string -> string) (r : Request)
    : M (Response + M Response) :=
  match getUserFromContext r with
  | None => ret (inl (writeError "unauthorized" 401))
  | Some userID =>
  match Body r with
  | None => ret (inl (writeError "invalid request body" 400))
  | Some req =>
      create_paused userID (TrimSpace (ReqName req)) (SSHKeyIDs req)
        (memory_or_default (ReqMemoryMB req)) (storage_or_default (ReqStorageGB req))
  end
  end.

(** A paused handler runs to its end. *)
Definition resume (p : Response + M Response) : M Response :=
  match p with
  | inl resp => ret resp
  | inr rest => rest
  end.

(** Two requests served by goroutines that overlap: each handler runs
    up to its cap check before either goes on. *)
Definition overlapped (first second : M (Response + M Response))
    : M (Response * Response) :=
  p <- first ;;
  q <- second ;;
  resp1 <- resume p ;;
  resp2 <- resume q ;;
  ret (resp1, resp2).

(** The live containers of a user, as the store counts them. *)
Definition live_count (userID : Z) (d : db.DB) : Z :=
  Z.of_nat (length (filter (db.live_of userID) (db.containers d))).

(** The row [INSERT] makes of the handler's container at time [ts]. *)
Definition inserted (ts : Z) (c : db.Container) : db.Container :=
  db.mkContainer (db.ID c) (db.UserID c) (db.Name c) (db.Namespace c) (db.Status c)
    sql.null_string (db.MemoryMB c) (db.StorageGB c) (db.Image c) ts sql.null_time.

(** ** The SSH secret *)

(** Each key's public-key line followed by a newline, one after the
    other in the order of the list. *)
Definition key_lines (sshKeys : list db.SSHKey) : string :=
  fold_right (fun key rest => (db.PublicKey key ++ newline ++ rest)%string) "" sshKeys.

(** The content the claim describes: for each requested id in turn, the
    public-key line of the user's key with that id, followed by a
    newline. *)
Fixpoint lines_in_request_order (keys : list db.SSHKey) (userID : Z) (ids : list Z)
    : string :=
  match ids with
  | [] => ""
  | id :: rest =>
      String.append
        match find (fun k => (db.KeyID k =? id) && (db.KeyUserID k =? userID)) keys with
        | Some k => String.append (db.PublicKey k) newline
        | None => ""
        end
        (lines_in_request_order keys userID rest)
  end.

(** The [authorized_keys] entries of the secrets among the requests. *)
Fixpoint secrets_sent (calls : list (Z * k8s.ApiCall)) : list string :=
  match calls with
  | [] => []
  | (_, k8s.Create (k8s.Secret _ _ stringData)) :: rest =>
      map snd stringData ++ secrets_sent rest
  | _ :: rest => secrets_sent rest
  end.

(** ** Concrete worlds and requests *)

Module Scenario.

(** [strings.TrimSpace] on ASCII text. *)
Definition ascii_space (c : ascii) : bool :=
  match nat_of_ascii c with
  | 9%nat | 10%nat | 11%nat | 12%nat | 13%nat | 32%nat => true
  | _ => false
  end.

Fixpoint trim_left (s : string) : string :=
  match s with
  | EmptyString => EmptyString
  | String c rest => if ascii_space c then trim_left rest else s
  end.

Fixpoint trim_right (s : string) : string :=
  match s with
  | EmptyString => EmptyString
  | String c rest =>
      match trim_right rest with
      | EmptyString => if ascii_space c then EmptyString else String c EmptyString
      | kept => String c kept
      end
  end.

Definition TrimSpace (s : string) : string := trim_right (trim_left s).

Definition alice : userInfo := mkUserInfo 7 "alice".

Definition laptop : db.SSHKey :=
  db.mkSSHKey 1 7 "laptop" "ssh-ed25519 AAAA alice@laptop" "fp-laptop" 100.
Definition desktop : db.SSHKey :=
  db.mkSSHKey 2 7 "desktop" "ssh-rsa BBBB alice@desktop" "fp-desktop" 200.

Definition row (id : string) (userID : Z) (status : string) : db.Container :=
  db.mkContainer id userID "dev" (namespaceName userID id) status sql.null_string
    512 5 defaultImage 900 sql.null_time.

(** A cluster that accepts every write, runs every pod and has given no
    address yet. *)
Definition quiet : k8s.Cluster :=
  k8s.mkCluster (fun _ _ => None) (fun _ _ => inr "Running") (fun _ _ => inr []).

(** A cluster in which the pods are gone. *)
Definition pods_gone : k8s.Cluster :=
  k8s.mkCluster (fun _ _ => Some NotFound) (fun _ _ => inl NotFound) (fun _ _ => inr []).

(** A cluster whose API server times out. *)
Definition unreachable : k8s.Cluster :=
  k8s.mkCluster (fun _ _ => Some (OtherReason "Timeout"))
    (fun _ _ => inl (OtherReason "Timeout")) (fun _ _ => inl (OtherReason "Timeout")).

Definition uuids (n : nat) : string := "0a1b2c3d-0000-4000-8000-000000000000".

Definition world (cluster : k8s.Cluster) (rows : list db.Container) : World :=
  mkWorld (db.mkDB rows [laptop; desktop] []) (k8s.mkClient cluster []) 1000 [] uuids 0.

Definition create (req : containerRequest) : Request :=
  mkRequest (Some alice) "" (Some req).

Definition by_id (id : string) : Request := mkRequest (Some alice) id None.

(** A request that names key 2 before key 1. *)
Definition two_keys_reversed : Request :=
  create (mkContainerRequest "dev1" 0 0 [2; 1]).

(** The world after the first started goroutine ran. *)
Definition run_first (w : World) : World :=
  match goroutines w with
  | t :: _ => snd (run true t w)
  | [] => w
  end.

(** Three live containers of alice, one of somebody else, one deleted. *)
Definition full_house : World :=
  world quiet [row "aaaaaaaa" 7 "running"; row "bbbbbbbb" 7 "stopped";
               row "cccccccc" 8 "running"; row "dddddddd" 7 "failed";
               row "eeeeeeee" 7 "deleted"].

Definition one_more : Request := create (mkContainerRequest " dev4 " 1024 10 [1]).

(** A generator whose first two identifiers differ. *)
Definition fresh_uuids (n : nat) : string :=
  match n with
  | O => "0a1b2c3d-0000-4000-8000-000000000000"
  | _ => "4e5f6a7b-0000-4000-8000-000000000000"
  end.

(** Two live containers of alice, one below the cap. *)
Definition one_slot_left : World :=
  mkWorld
    (db.mkDB [row "aaaaaaaa" 7 "running"; row "bbbbbbbb" 7 "stopped"]
       [laptop; desktop] [])
    (k8s.mkClient quiet []) 1000 [] fresh_uuids 0.

Definition negative_sizes : Request := create (mkContainerRequest "dev1" (-1) 0 [1]).

End Scenario.

(** * The rest of the container surface *)

(** ** [ORDER BY created_at DESC] *)

Section NewestFirst.

Variable Row : Type.
Variable created_at : Row -> Z.

(** One row at a time: [r] goes in front of the first row that is not
    newer.  (Rows of equal age keep their table order; SQL leaves that
    order open and no property below depends on it.) *)
Fixpoint newest_first_insert (r : Row) (sorted : list Row) : list Row :=
  match sorted with
  | [] => [r]
  | s :: rest =>
      if created_at s <=? created_at r then r :: sorted
      else s :: newest_first_insert r rest
  end.

Definition order_by_created_at_desc (rows : list Row) : list Row :=
  fold_right newest_first_insert [] rows.

Definition newer_or_equal (a b : Row) : Prop := created_at b <= created_at a.

End NewestFirst.

Arguments newest_first_insert {Row}.
Arguments order_by_created_at_desc {Row}.
Arguments newer_or_equal {Row}.

(** ** [ListContainersByUser] and [ListContainers] *)

Module listing.

(** [SELECT ... FROM containers WHERE user_id = ? ORDER BY created_at
    DESC]. *)
Definition ListContainersByUser (userID : Z) (d : db.DB)
    : (list db.Container * error) * db.DB :=
  let (fault, d1) := db.driver d in
  if fault then (([], Some (Errorf "query containers" (SqlError DriverFailure))), d1)
  else ((order_by_created_at_desc db.CreatedAt
           (filter (fun r => db.UserID r =? userID) (db.containers d1)), None), d1).

(** What [ListContainers] writes: an error text or the JSON array. *)
Inductive Listing :=
| ListError (text : string)
| ContainersJSON (cs : list containerResponse).

Record ListResponse := mkListResponse { ListStatusCode : Z; ListWritten : Listing }.

Definition ListContainers (r : Request) : M ListResponse :=
  match getUserFromContext r with
  | None => ret (mkListResponse 401 (ListError "unauthorized"))
  | Some userID =>
  '(containers, err) <- on_db (ListContainersByUser userID) ;;
  if negb (is_nil err) then ret (mkListResponse 500 (ListError "internal error")) else
  ret (mkListResponse 200 (ContainersJSON (map containerToResponse containers)))
  end.

End listing.

(** ** Everything that can happen to the table *)

(** What a row keeps while it exists: id, owner, name, namespace, sizes,
    image and creation time; its status stays or becomes one of the
    statuses the service writes. *)
Definition keeps (old new : db.Container) : Prop :=
  db.ID new = db.ID old /\
  db.UserID new = db.UserID old /\
  db.Name new = db.Name old /\
  db.Namespace new = db.Namespace old /\
  db.MemoryMB new = db.MemoryMB old /\
  db.StorageGB new = db.StorageGB old /\
  db.Image new = db.Image old /\
  db.CreatedAt new = db.CreatedAt old /\
  (db.Status new = db.Status old \/ In (db.Status new) live_statuses).

(** A row of the service's making: its namespace is that of its owner
    and id, its status one the service writes. *)
Definition created (new : db.Container) : Prop :=
  db.Namespace new = namespaceName (db.UserID new) (db.ID new) /\
  In (db.Status new) live_statuses.

(** The table after, against the table before: every row continues an
    old one or is of the service's making, and ids stay unique. *)
Definition evolves (rows rows' : list db.Container) : Prop :=
  (forall new, In new rows' ->
     (exists old, In old rows /\ keeps old new) \/ created new) /\
  (NoDup (map db.ID rows) -> NoDup (map db.ID rows')).

(** One request handled, or one started goroutine run.  (A goroutine
    stays in the list after it ran; running it again is allowed here,
    which only adds behaviours.) *)
Inductive step (TrimSpace : string -> string) : World -> World -> Prop :=
| step_ListContainers r w : step TrimSpace w (snd (listing.ListContainers r w))
| step_CreateContainer r w : step TrimSpace w (snd (CreateContainer TrimSpace r w))
| step_GetContainer r w : step TrimSpace w (snd (GetContainer r w))
| step_DeleteContainer r w : step TrimSpace w (snd (DeleteContainer r w))
| step_StopContainer r w : step TrimSpace w (snd (StopContainer r w))
| step_StartContainer r w : step TrimSpace w (snd (StartContainer r w))
| step_goroutine tie t w :
    In t (goroutines w) -> step TrimSpace w (snd (run tie t w)).

(** Any number of them. *)
Inductive reaches (TrimSpace : string -> string) : World -> World -> Prop :=
| reaches_here w : reaches TrimSpace w w
| reaches_on w1 w2 w3 :
    reaches TrimSpace w1 w2 -> step TrimSpace w2 w3 -> reaches TrimSpace w1 w3.

(** * Keys and authentication

    The SSH-key and API-key endpoints ([internal/api], [internal/db]),
    the helpers of [internal/auth] and the middleware of
    [internal/api/handler.go].

    - An [error] of this part is looked at in two ways only, [err != nil]
      and [strings.Contains(err.Error(), ...)]; it is kept by its
      making: an error from outside the repository, such an error
      wrapped with a prefix, or a text of the repository's own.
    - [INTEGER PRIMARY KEY AUTOINCREMENT] gives a new row an id larger
      than every id the table has or ever had; the largest id ever given
      is the table's sequence.  [result.LastInsertId()] does not fail.
    - The session service behind [ValidateSession] and [crypto/rand] are
      reply functions, indexed by the number of the call.
    - [sha256.Sum256], [md5.Sum], the base64 codecs, [strings.Fields],
      [strings.TrimSpace], [strings.EqualFold] and [strconv.ParseInt] are
      parameters. *)

(** ** Go library pieces with a definition *)

Module strings.

(** [strings.Contains]. *)
Fixpoint Contains (s substr : string) : bool :=
  String.prefix substr s
  || match s with
     | EmptyString => false
     | String _ rest => Contains rest substr
     end.

(** [strings.SplitN(s, " ", 2)]: the text before the first space and the
    text after it, or [s] alone when it has no space. *)
Fixpoint before_space (s : string) : string :=
  match s with
  | EmptyString => EmptyString
  | String c rest => if Ascii.eqb c " " then EmptyString else String c (before_space rest)
  end.

Fixpoint after_space (s : string) : option string :=
  match s with
  | EmptyString => None
  | String c rest => if Ascii.eqb c " " then Some rest else after_space rest
  end.

Definition SplitN_space_2 (s : string) : list string :=
  match after_space s with
  | Some rest => [before_space s; rest]
  | None => [s]
  end.

(** [strings.Join]. *)
Fixpoint Join (elems : list string) (sep : string) : string :=
  match elems with
  | [] => ""
  | [e] => e
  | e :: rest => e ++ sep ++ Join rest sep
  end.

End strings.

(** [fmt.Sprintf("%02x", b)] for a byte, which is also what
    [hex.EncodeToString] writes for it. *)
Definition hex_digit (n : nat) : ascii :=
  ascii_of_nat (if Nat.ltb n 10 then 48 + n else 87 + n).

Definition hex_byte (b : ascii) : string :=
  String (hex_digit (Nat.div (nat_of_ascii b) 16))
    (String (hex_digit (Nat.modulo (nat_of_ascii b) 16)) EmptyString).

(** The bytes of a string. *)
Definition bytes (s : string) : list ascii := list_ascii_of_string s.

(** ** The key tables of package [db] *)

Module keydb.

Record APIKey := mkAPIKey {
  APIKeyID : Z;
  APIKeyUserID : Z;
  KeyHash : string;
  APIKeyName : string;
  APIKeyCreatedAt : Z;
  LastUsed : sql.NullTime
}.

(** The database with all three tables: [tables] has [containers],
    [ssh_keys] and the driver's pending faults. *)
Record Store := mkStore {
  tables : db.DB;
  ssh_keys_seq : Z;
  api_keys : list APIKey;
  api_keys_seq : Z
}.

Inductive failure :=
| Foreign
| Wrapped (prefix : string)
| Plain (text : string).

Definition error := option failure.

Definition is_nil (err : error) : bool :=
  match err with None => true | Some _ => false end.

Definition set_tables (d : db.DB) (s : Store) : Store :=
  mkStore d (ssh_keys_seq s) (api_keys s) (api_keys_seq s).

Definition set_ssh_keys (rows : list db.SSHKey) (seq : Z) (s : Store) : Store :=
  mkStore (db.mkDB (db.containers (tables s)) rows (db.faults (tables s)))
    seq (api_keys s) (api_keys_seq s).

Definition set_api_keys (rows : list APIKey) (seq : Z) (s : Store) : Store :=
  mkStore (tables s) (ssh_keys_seq s) rows seq.

(** One round trip to the driver. *)
Definition driver (s : Store) : bool * Store :=
  let (fault, d1) := db.driver (tables s) in (fault, set_tables d1 s).

(** The rowid [AUTOINCREMENT] picks: one more than the largest in the
    table (1 for an empty table), and more than the sequence. *)
Definition new_rowid (seq : Z) (ids : list Z) : Z :=
  Z.max (match ids with
         | [] => 1
         | id :: rest => fold_right Z.max id rest + 1
         end)
        (seq + 1).

(** *** [ssh_keys.go] *)

Definition set_KeyID (id : Z) (k : db.SSHKey) : db.SSHKey :=
  db.mkSSHKey id (db.KeyUserID k) (db.KeyName k) (db.PublicKey k) (db.Fingerprint k)
    (db.KeyCreatedAt k).

(** [INSERT INTO ssh_keys (user_id, name, public_key, fingerprint)]; the
    id and [created_at] are the table's to give.  Returns [key] with
    its [ID] set, as the method leaves it. *)
Definition CreateSSHKey (ts : Z) (key : db.SSHKey) (s : Store)
    : (db.SSHKey * error) * Store :=
  let (fault, s1) := driver s in
  if fault then ((key, Some (Wrapped "insert ssh key")), s1)
  else
    let rows := db.ssh_keys (tables s1) in
    let id := new_rowid (ssh_keys_seq s1) (map db.KeyID rows) in
    let row := db.mkSSHKey id (db.KeyUserID key) (db.KeyName key) (db.PublicKey key)
                 (db.Fingerprint key) ts in
    ((set_KeyID id key, None), set_ssh_keys (rows ++ [row]) id s1).

(** [SELECT ... FROM ssh_keys WHERE user_id = ? ORDER BY created_at
    DESC]. *)
Definition ListSSHKeysByUser (userID : Z) (s : Store)
    : (list db.SSHKey * error) * Store :=
  let (fault, s1) := driver s in
  if fault then (([], Some (Wrapped "query ssh keys")), s1)
  else ((order_by_created_at_desc db.KeyCreatedAt
           (filter (fun k => db.KeyUserID k =? userID) (db.ssh_keys (tables s1))), None),
        s1).

(** The rows [DELETE FROM ssh_keys WHERE id = ? AND user_id = ?]
    leaves. *)
Definition ssh_key_matches (id userID : Z) (k : db.SSHKey) : bool :=
  (db.KeyID k =? id) && (db.KeyUserID k =? userID).

Definition DeleteSSHKey (id userID : Z) (s : Store) : error * Store :=
  let (fault, s1) := driver s in
  if fault then (Some (Wrapped "delete ssh key"), s1)
  else
    let rows := db.ssh_keys (tables s1) in
    let kept := filter (fun k => negb (ssh_key_matches id userID k)) rows in
    let affected := (length rows - length kept)%nat in
    let s2 := set_ssh_keys kept (ssh_keys_seq s1) s1 in
    if (affected =? 0)%nat then (Some (Plain "ssh key not found or not owned by user"), s2)
    else (None, s2).

(** [SELECT COUNT( * ) FROM ssh_keys WHERE user_id = ?]. *)
Definition CountSSHKeysByUser (userID : Z) (s : Store) : (Z * error) * Store :=
  let (fault, s1) := driver s in
  if fault then ((0, Some (Wrapped "count ssh keys")), s1)
  else ((Z.of_nat (length (filter (fun k => db.KeyUserID k =? userID)
                             (db.ssh_keys (tables s1)))), None), s1).

(** *** [api_keys.go] *)

Definition set_APIKeyID (id : Z) (k : APIKey) : APIKey :=
  mkAPIKey id (APIKeyUserID k) (KeyHash k) (APIKeyName k) (APIKeyCreatedAt k) (LastUsed k).

Definition set_LastUsed (t : sql.NullTime) (k : APIKey) : APIKey :=
  mkAPIKey (APIKeyID k) (APIKeyUserID k) (KeyHash k) (APIKeyName k) (APIKeyCreatedAt k) t.

(** [INSERT INTO api_keys (user_id, key_hash, name)]; [last_used] is
    NULL. *)
Definition CreateAPIKey (ts : Z) (key : APIKey) (s : Store) : (APIKey * error) * Store :=
  let (fault, s1) := driver s in
  if fault then ((key, Some (Wrapped "insert api key")), s1)
  else
    let rows := api_keys s1 in
    let id := new_rowid (api_keys_seq s1) (map APIKeyID rows) in
    let row := mkAPIKey id (APIKeyUserID key) (KeyHash key) (APIKeyName key) ts
                 sql.null_time in
    ((set_APIKeyID id key, None), set_api_keys (rows ++ [row]) id s1).

(** [SELECT ... FROM api_keys WHERE key_hash = ?], the first row. *)
Definition GetAPIKeyByHash (keyHash : string) (s : Store)
    : (option APIKey * error) * Store :=
  let (fault, s1) := driver s in
  if fault then ((None, Some (Wrapped "query api key")), s1)
  else ((find (fun k => (KeyHash k =? keyHash)%string) (api_keys s1), None), s1).

Definition ListAPIKeysByUser (userID : Z) (s : Store) : (list APIKey * error) * Store :=
  let (fault, s1) := driver s in
  if fault then (([], Some (Wrapped "query api keys")), s1)
  else ((order_by_created_at_desc APIKeyCreatedAt
           (filter (fun k => APIKeyUserID k =? userID) (api_keys s1)), None), s1).

(** [UPDATE api_keys SET last_used = CURRENT_TIMESTAMP WHERE id = ?]. *)
Definition UpdateAPIKeyLastUsed (ts : Z) (id : Z) (s : Store) : error * Store :=
  let (fault, s1) := driver s in
  if fault then (Some (Wrapped "update api key last used"), s1)
  else (None,
        set_api_keys
          (map (fun k => if APIKeyID k =? id
                         then set_LastUsed (sql.mkNullTime ts true) k else k)
             (api_keys s1))
          (api_keys_seq s1) s1).

Definition api_key_matches (id userID : Z) (k : APIKey) : bool :=
  (APIKeyID k =? id) && (APIKeyUserID k =? userID).

Definition DeleteAPIKey (id userID : Z) (s : Store) : error * Store :=
  let (fault, s1) := driver s in
  if fault then (Some (Wrapped "delete api key"), s1)
  else
    let rows := api_keys s1 in
    let kept := filter (fun k => negb (api_key_matches id userID k)) rows in
    let affected := (length rows - length kept)%nat in
    let s2 := set_api_keys kept (api_keys_seq s1) s1 in
    if (affected =? 0)%nat then (Some (Plain "api key not found or not owned by user"), s2)
    else (None, s2).

Definition CountAPIKeysByUser (userID : Z) (s : Store) : (Z * error) * Store :=
  let (fault, s1) := driver s in
  if fault then ((0, Some (Wrapped "count api keys")), s1)
  else ((Z.of_nat (length (filter (fun k => APIKeyUserID k =? userID) (api_keys s1))),
         None), s1).

End keydb.

(** ** The server: the container handlers' world and what the key
    endpoints and the middleware add to it *)

Module server.

(** What the session service does with [GET /api/session]: no answer
    ([httpClient.Do] fails), or a status code with the body, decoded
    into the username ([None] when it does not decode). *)
Inductive SfsReply :=
| NoReply
| Reply (status : Z) (username : option string).

Record Server := mkServer {
  compute : World;
  ssh_keys_seq : Z;
  api_keys : list keydb.APIKey;
  api_keys_seq : Z;
  sfs : nat -> string -> SfsReply;
  sfs_calls : list string;
  rand_Read : nat -> option string;
  rand_drawn : nat
}.

Definition Act (A : Type) : Type := Server -> A * Server.

Definition ret {A} (a : A) : Act A := fun s => (a, s).

Definition bind {A B} (m : Act A) (k : A -> Act B) : Act B :=
  fun s => let (a, s1) := m s in k a s1.

Declare Scope server_scope.
Delimit Scope server_scope with server.

Notation "x <- m ;; k" := (bind m (fun x => k))
  (at level 61, m at next level, right associativity) : server_scope.
Notation "' pat <- m ;; k" := (bind m (fun x => match x with pat => k end))
  (at level 61, pat pattern, m at next level, right associativity) : server_scope.

Definition store_of (s : Server) : keydb.Store :=
  keydb.mkStore (h_db (compute s)) (ssh_keys_seq s) (api_keys s) (api_keys_seq s).

Definition with_store (st : keydb.Store) (s : Server) : Server :=
  mkServer (with_db (keydb.tables st) (compute s)) (keydb.ssh_keys_seq st)
    (keydb.api_keys st) (keydb.api_keys_seq st)
    (sfs s) (sfs_calls s) (rand_Read s) (rand_drawn s).

Definition on_store {A} (f : keydb.Store -> A * keydb.Store) : Act A :=
  fun s => let (a, st) := f (store_of s) in (a, with_store st s).

(** A container handler, run by the server. *)
Definition on_compute {A} (m : M A) : Act A :=
  fun s => let (a, w) := m (compute s) in
           (a, mkServer w (ssh_keys_seq s) (api_keys s) (api_keys_seq s)
                 (sfs s) (sfs_calls s) (rand_Read s) (rand_drawn s)).

Definition current_timestamp : Act Z := fun s => (now (compute s), s).

(** [v.httpClient.Do(req)] with the session cookie. *)
Definition call_sfs (token : string) : Act SfsReply :=
  fun s => (sfs s (length (sfs_calls s)) token,
            mkServer (compute s) (ssh_keys_seq s) (api_keys s) (api_keys_seq s)
              (sfs s) (sfs_calls s ++ [token]) (rand_Read s) (rand_drawn s)).

(** [rand.Read(buf)] for a buffer of 32 bytes. *)
Definition rand_Read_32 : Act (option string) :=
  fun s => (rand_Read s (rand_drawn s),
            mkServer (compute s) (ssh_keys_seq s) (api_keys s) (api_keys_seq s)
              (sfs s) (sfs_calls s) (rand_Read s) (S (rand_drawn s))).

End server.

(** ** Package [auth] *)

Module auth.

Import server.
Local Open Scope server_scope.

(** [ValidateSession]: the username of a valid session, the empty
    string for an invalid one.  ([http.NewRequest] gets a constant
    method and a URL made of constants; its error branch is not
    reached.) *)
Definition ValidateSession (sessionToken : string) : Act (string * keydb.error) :=
  reply <- call_sfs sessionToken ;;
  match reply with
  | NoReply => ret ("", Some (keydb.Wrapped "call sfs"))
  | Reply status body =>
      if status =? 401 then ret ("", None)
      else if negb (status =? 200)
      then ret ("", Some (keydb.Plain ("sfs returned status " ++ itoa status)))
      else match body with
           | None => ret ("", Some (keydb.Wrapped "decode response"))
           | Some username => ret (username, None)
           end
  end.

(** [GetSessionToken]: the value of the cookie [sfs_session], if the
    request has one. *)
Definition GetSessionToken (cookie : option string) : string :=
  match cookie with
  | None => ""
  | Some value => value
  end.

Section Helpers.

Variable Sum256 : string -> string.
Variable RawURLEncoding_EncodeToString : string -> string.
Variable TrimSpace : string -> string.
Variable EqualFold : string -> string -> bool.

(** [hex.EncodeToString]. *)
Definition hex_EncodeToString (b : string) : string :=
  String.concat "" (map hex_byte (bytes b)).

Definition HashAPIKey (key : string) : string := hex_EncodeToString (Sum256 key).

Definition GenerateAPIKey : Act (string * string * keydb.error) :=
  buf <- rand_Read_32 ;;
  match buf with
  | None => ret ("", "", Some keydb.Foreign)
  | Some buf =>
      let plaintext := RawURLEncoding_EncodeToString buf in
      ret (plaintext, HashAPIKey plaintext, None)
  end.

(** [GetAPIKeyFromRequest], from the [Authorization] header. *)
Definition GetAPIKeyFromRequest (authorization : string) : string :=
  if (authorization =? "")%string then "" else
  match strings.SplitN_space_2 authorization with
  | [scheme; key] => if negb (EqualFold scheme "Bearer") then "" else TrimSpace key
  | _ => ""
  end.

End Helpers.

End auth.

(** ** The key endpoints and the middleware of package [api] *)

Module keyapi.

Import server.
Local Open Scope server_scope.

Definition maxSSHKeysPerUser : Z := 10.
Definition maxAPIKeysPerUser : Z := 5.

Record sshKeyRequest := mkSSHKeyRequest { SSHReqName : string; SSHReqPublicKey : string }.

Record sshKeyResponse := mkSSHKeyResponse {
  SSHRespID : Z;
  SSHRespName : string;
  SSHRespFingerprint : string;
  SSHRespCreatedAt : Z
}.

Record apiKeyRequest := mkAPIKeyRequest { APIReqName : string }.

Record apiKeyResponse := mkAPIKeyResponse {
  APIRespID : Z;
  APIRespName : string;
  APIRespKey : option string;
  APIRespCreatedAt : Z;
  APIRespLastUsed : option Z
}.

(** A request to a key endpoint after routing: the user in the context,
    the [{id}] path value and the decoded body ([None] when decoding
    fails). *)
Record KeyRequest (B : Type) := mkKeyRequest {
  KeyContext : option userInfo;
  KeyPathValue : string;
  KeyBody : option B
}.

Arguments mkKeyRequest {B}.
Arguments KeyContext {B}.
Arguments KeyPathValue {B}.
Arguments KeyBody {B}.

Inductive KeyPayload :=
| KeyMessage (text : string)
| SSHKeyJSON (k : sshKeyResponse)
| SSHKeysJSON (ks : list sshKeyResponse)
| APIKeyJSON (k : apiKeyResponse)
| APIKeysJSON (ks : list apiKeyResponse)
| KeyStatusOkJSON.

Record KeyResponse := mkKeyResponse { KeyStatusCode : Z; KeyWritten : KeyPayload }.

Definition writeError (message : string) (code : Z) : KeyResponse :=
  mkKeyResponse code (KeyMessage message).

Definition writeJSON (data : KeyPayload) : KeyResponse := mkKeyResponse 200 data.

Definition getUserFromContext {B} (r : KeyRequest B) : option Z :=
  option_map InfoUserID (KeyContext r).

(** The zero [time.Time]: the [CreatedAt] of a struct literal that does
    not set it (as in [sql.null_time]). *)
Definition zero_time : Z := 0.

Definition sshKeyToResponse (k : db.SSHKey) : sshKeyResponse :=
  mkSSHKeyResponse (db.KeyID k) (db.KeyName k) (db.Fingerprint k) (db.KeyCreatedAt k).

Definition apiKeyToResponse (k : keydb.APIKey) (includeKey : bool) : apiKeyResponse :=
  mkAPIKeyResponse (keydb.APIKeyID k) (keydb.APIKeyName k) None (keydb.APIKeyCreatedAt k)
    (if sql.TimeValid (keydb.LastUsed k) then Some (sql.Time (keydb.LastUsed k)) else None).

Definition set_Key (key : string) (resp : apiKeyResponse) : apiKeyResponse :=
  mkAPIKeyResponse (APIRespID resp) (APIRespName resp) (Some key) (APIRespCreatedAt resp)
    (APIRespLastUsed resp).

(** The request as the middleware sees it: the session cookie, the
    [Authorization] header, and the rest, which it hands on. *)
Record Incoming (Rq : Type) := mkIncoming {
  Cookie : option string;
  Authorization : string;
  Routed : Rq
}.

Arguments mkIncoming {Rq}.
Arguments Cookie {Rq}.
Arguments Authorization {Rq}.
Arguments Routed {Rq}.

(** What the middleware leaves written: its own [http.Error], or what
    [next] wrote. *)
Inductive Served (R : Type) :=
| HttpError (message : string) (code : Z)
| Handled (resp : R).

Arguments HttpError {R}.
Arguments Handled {R}.

Section Endpoints.

Variable TrimSpace : string -> string.
Variable Fields : string -> list string.
Variable StdEncoding_DecodeString : string -> option string.
Variable md5_Sum : string -> string.
Variable ParseInt : string -> option Z.
Variable Sum256 : string -> string.
Variable RawURLEncoding_EncodeToString : string -> string.
Variable EqualFold : string -> string -> bool.

(** [err.Error()] of an error from outside the repository. *)
Variable foreign_error : string.

Definition Error (e : keydb.failure) : string :=
  match e with
  | keydb.Foreign => foreign_error
  | keydb.Wrapped prefix => prefix ++ ": " ++ foreign_error
  | keydb.Plain text => text
  end.

Definition validTypes : list string :=
  ["ssh-rsa"; "ssh-ed25519"; "ecdsa-sha2-nistp256"; "ecdsa-sha2-nistp384";
   "ecdsa-sha2-nistp521"; "ssh-dss"].

Definition isValidSSHPublicKey (key : string) : bool :=
  match Fields key with
  | keyType :: data :: _ =>
      if negb (existsb (String.eqb keyType) validTypes) then false
      else match StdEncoding_DecodeString data with
           | Some _ => true
           | None => false
           end
  | _ => false
  end.

Definition sshKeyFingerprint (key : string) : string :=
  match Fields key with
  | _ :: data :: _ =>
      match StdEncoding_DecodeString data with
      | None => ""
      | Some decoded => strings.Join (map hex_byte (bytes (md5_Sum decoded))) ":"
      end
  | _ => ""
  end.

Definition ListSSHKeys (r : KeyRequest unit) : Act KeyResponse :=
  match getUserFromContext r with
  | None => ret (writeError "unauthorized" 401)
  | Some userID =>
  '(keys, err) <- on_store (keydb.ListSSHKeysByUser userID) ;;
  if negb (keydb.is_nil err) then ret (writeError "internal error" 500) else
  ret (writeJSON (SSHKeysJSON (map sshKeyToResponse keys)))
  end.

Definition sshLimitMessage : string :=
  "SSH key limit reached (" ++ itoa maxSSHKeysPerUser ++ ")".

Definition AddSSHKey (r : KeyRequest sshKeyRequest) : Act KeyResponse :=
  match getUserFromContext r with
  | None => ret (writeError "unauthorized" 401)
  | Some userID =>
  match KeyBody r with
  | None => ret (writeError "invalid request body" 400)
  | Some req =>
  let name := TrimSpace (SSHReqName req) in
  let publicKey := TrimSpace (SSHReqPublicKey req) in
  if (name =? "")%string then ret (writeError "name is required" 400) else
  if (publicKey =? "")%string then ret (writeError "public_key is required" 400) else
  if negb (isValidSSHPublicKey publicKey)
  then ret (writeError "invalid SSH public key format" 400) else
  '(count, err) <- on_store (keydb.CountSSHKeysByUser userID) ;;
  if negb (keydb.is_nil err) then ret (writeError "internal error" 500) else
  if count >=? maxSSHKeysPerUser then ret (writeError sshLimitMessage 400) else
  let fingerprint := sshKeyFingerprint publicKey in
  let key := db.mkSSHKey 0 userID name publicKey fingerprint zero_time in
  ts <- current_timestamp ;;
  '(key, err) <- on_store (keydb.CreateSSHKey ts key) ;;
  if negb (keydb.is_nil err) then ret (writeError "internal error" 500) else
  ret (writeJSON (SSHKeyJSON (sshKeyToResponse key)))
  end
  end.

Definition DeleteSSHKey (r : KeyRequest unit) : Act KeyResponse :=
  match getUserFromContext r with
  | None => ret (writeError "unauthorized" 401)
  | Some userID =>
  match ParseInt (KeyPathValue r) with
  | None => ret (writeError "invalid id" 400)
  | Some id =>
  err <- on_store (keydb.DeleteSSHKey id userID) ;;
  match err with
  | Some e =>
      if strings.Contains (Error e) "not found"
      then ret (writeError "SSH key not found" 404)
      else ret (writeError "internal error" 500)
  | None => ret (writeJSON KeyStatusOkJSON)
  end
  end
  end.

Definition ListAPIKeys (r : KeyRequest unit) : Act KeyResponse :=
  match getUserFromContext r with
  | None => ret (writeError "unauthorized" 401)
  | Some userID =>
  '(keys, err) <- on_store (keydb.ListAPIKeysByUser userID) ;;
  if negb (keydb.is_nil err) then ret (writeError "internal error" 500) else
  ret (writeJSON (APIKeysJSON (map (fun k => apiKeyToResponse k false) keys)))
  end.

Definition apiLimitMessage : string :=
  "API key limit reached (" ++ itoa maxAPIKeysPerUser ++ ")".

Definition CreateAPIKey (r : KeyRequest apiKeyRequest) : Act KeyResponse :=
  match getUserFromContext r with
  | None => ret (writeError "unauthorized" 401)
  | Some userID =>
  match KeyBody r with
  | None => ret (writeError "invalid request body" 400)
  | Some req =>
  let name := TrimSpace (APIReqName req) in
  if (name =? "")%string then ret (writeError "name is required" 400) else
  '(count, err) <- on_store (keydb.CountAPIKeysByUser userID) ;;
  if negb (keydb.is_nil err) then ret (writeError "internal error" 500) else
  if count >=? maxAPIKeysPerUser then ret (writeError apiLimitMessage 400) else
  '(plaintext, keyHash, err) <- auth.GenerateAPIKey Sum256 RawURLEncoding_EncodeToString ;;
  if negb (keydb.is_nil err) then ret (writeError "internal error" 500) else
  let key := keydb.mkAPIKey 0 userID keyHash name zero_time sql.null_time in
  ts <- current_timestamp ;;
  '(key, err) <- on_store (keydb.CreateAPIKey ts key) ;;
  if negb (keydb.is_nil err) then ret (writeError "internal error" 500) else
  ret (writeJSON (APIKeyJSON (set_Key plaintext (apiKeyToResponse key true))))
  end
  end.

Definition DeleteAPIKey (r : KeyRequest unit) : Act KeyResponse :=
  match getUserFromContext r with
  | None => ret (writeError "unauthorized" 401)
  | Some userID =>
  match ParseInt (KeyPathValue r) with
  | None => ret (writeError "invalid id" 400)
  | Some id =>
  err <- on_store (keydb.DeleteAPIKey id userID) ;;
  match err with
  | Some e =>
      if strings.Contains (Error e) "not found"
      then ret (writeError "API key not found" 404)
      else ret (writeError "internal error" 500)
  | None => ret (writeJSON KeyStatusOkJSON)
  end
  end
  end.

(** *** [authMiddleware] *)

Section Middleware.

Variable Rq R : Type.

(** [r.WithContext(setUserContext(r.Context(), userID, username))]. *)
Variable WithContext : userInfo -> Rq -> Rq.

Variable next : Rq -> Act R.

Definition setUserContext (userID : Z) (username : string) (r : Rq) : Rq :=
  WithContext (mkUserInfo userID username) r.

(** The second half, "Try API key". *)
Definition tryAPIKey (r : Incoming Rq) : Act (Served R) :=
  let apiKey := auth.GetAPIKeyFromRequest TrimSpace EqualFold (Authorization r) in
  if negb (apiKey =? "")%string then
    let keyHash := auth.HashAPIKey Sum256 apiKey in
    '(key, err) <- on_store (keydb.GetAPIKeyByHash keyHash) ;;
    if negb (keydb.is_nil err) then ret (HttpError "authentication error" 500) else
    match key with
    | Some key =>
        ts <- current_timestamp ;;
        _ <- on_store (keydb.UpdateAPIKeyLastUsed ts (keydb.APIKeyID key)) ;;
        resp <- next (setUserContext (keydb.APIKeyUserID key) "" (Routed r)) ;;
        ret (Handled resp)
    | None => ret (HttpError "unauthorized" 401)
    end
  else ret (HttpError "unauthorized" 401).

Definition authMiddleware (r : Incoming Rq) : Act (Served R) :=
  let token := auth.GetSessionToken (Cookie r) in
  if negb (token =? "")%string then
    '(username, err) <- auth.ValidateSession token ;;
    if negb (keydb.is_nil err) then ret (HttpError "authentication error" 500) else
    if negb (username =? "")%string then
      resp <- next (setUserContext 1 username (Routed r)) ;;
      ret (Handled resp)
    else tryAPIKey r
  else tryAPIKey r.

End Middleware.

End Endpoints.

(** [WithContext] for a container request. *)
Definition container_WithContext (u : userInfo) (r : Request) : Request :=
  mkRequest (Some u) (PathValue r) (Body r).

End keyapi.

(** ** Vocabulary of the key and authentication properties *)

Section KeyVocabulary.

Import server.

(** Does the next SQL statement fail, and the server after one
    statement went to the driver. *)
Definition statement_fails (s : Server) : bool :=
  hd false (db.faults (h_db (compute s))).

Definition statement_done (s : Server) : Server :=
  with_store (keydb.set_tables (snd (db.driver (h_db (compute s)))) (store_of s)) s.

(** The [ssh_keys] table and a user's number of rows in it. *)
Definition ssh_table (s : Server) : list db.SSHKey := db.ssh_keys (h_db (compute s)).

Definition ssh_key_count (userID : Z) (s : Server) : Z :=
  Z.of_nat (length (filter (fun k => db.KeyUserID k =? userID) (ssh_table s))).

Definition api_key_count (userID : Z) (s : Server) : Z :=
  Z.of_nat (length (filter (fun k => keydb.APIKeyUserID k =? userID) (api_keys s))).

(** The server with other [ssh_keys] rows and sequence, and with other
    [api_keys] rows and sequence. *)
Definition with_ssh_keys (rows : list db.SSHKey) (seq : Z) (s : Server) : Server :=
  with_store (keydb.set_ssh_keys rows seq (store_of s)) s.

Definition with_api_keys (rows : list keydb.APIKey) (seq : Z) (s : Server) : Server :=
  with_store (keydb.set_api_keys rows seq (store_of s)) s.

(** The server after the session service was asked about [token]. *)
Definition session_asked (token : string) (s : Server) : Server :=
  mkServer (compute s) (ssh_keys_seq s) (api_keys s) (api_keys_seq s)
    (sfs s) (sfs_calls s ++ [token]) (rand_Read s) (rand_drawn s).

(** The server after 32 random bytes were drawn. *)
Definition random_drawn (s : Server) : Server :=
  mkServer (compute s) (ssh_keys_seq s) (api_keys s) (api_keys_seq s)
    (sfs s) (sfs_calls s) (rand_Read s) (S (rand_drawn s)).

(** Everything but the [ssh_keys] table, its sequence and the pending
    faults. *)
Definition beside_ssh_keys (s : Server)
    : list db.Container * k8s.Client * Z * list Task * nat
      * list keydb.APIKey * Z * list string * nat :=
  (db.containers (h_db (compute s)), h_k8s (compute s), now (compute s),
   goroutines (compute s), uuid_drawn (compute s),
   api_keys s, api_keys_seq s, sfs_calls s, rand_drawn s).

(** Everything but the [api_keys] table, its sequence, the pending
    faults and the random source. *)
Definition beside_api_keys (s : Server)
    : list db.Container * list db.SSHKey * Z * k8s.Client * Z * list Task * nat
      * list string :=
  (db.containers (h_db (compute s)), ssh_table s, ssh_keys_seq s, h_k8s (compute s),
   now (compute s), goroutines (compute s), uuid_drawn (compute s), sfs_calls s).

(** [next] run on behalf of [u], as the middleware leaves it. *)
Definition handled_as {Rq R} (WithContext : userInfo -> Rq -> Rq) (next : Rq -> Act R)
    (u : userInfo) (r : keyapi.Incoming Rq) (s : Server) : keyapi.Served R * Server :=
  (keyapi.Handled (fst (next (WithContext u (keyapi.Routed r)) s)),
   snd (next (WithContext u (keyapi.Routed r)) s)).

(** The container endpoints behind the middleware. *)
Definition protected {R} (TrimSpace Sum256 : string -> string)
    (EqualFold : string -> string -> bool) (handler : Request -> M R)
    : keyapi.Incoming Request -> Act (keyapi.Served R) :=
  keyapi.authMiddleware TrimSpace Sum256 EqualFold Request R keyapi.container_WithContext
    (fun r => on_compute (handler r)).

End KeyVocabulary.

(** ** Key requests that overlap *)

Section KeyOverlap.

Import server keyapi.
Local Open Scope server_scope.

Variable TrimSpace : string -> string.
Variable Fields : string -> list string.
Variable StdEncoding_DecodeString : string -> option string.
Variable md5_Sum : string -> string.
Variable Sum256 : string -> string.
Variable RawURLEncoding_EncodeToString : string -> string.

(** [AddSSHKey] from the statement after its cap check on: the insert
    and the response. *)
Definition ssh_key_admitted (userID : Z) (name publicKey : string) : Act KeyResponse :=
  let fingerprint := sshKeyFingerprint Fields StdEncoding_DecodeString md5_Sum publicKey in
  let key := db.mkSSHKey 0 userID name publicKey fingerprint zero_time in
  ts <- current_timestamp ;;
  '(key, err) <- on_store (keydb.CreateSSHKey ts key) ;;
  if negb (keydb.is_nil err) then ret (writeError "internal error" 500) else
  ret (writeJSON (SSHKeyJSON (sshKeyToResponse key))).

(** [AddSSHKey] up to its cap check: the response when the request is
    refused by then, otherwise what the handler still has to do. *)
Definition AddSSHKey_paused (r : KeyRequest sshKeyRequest)
    : Act (KeyResponse + Act KeyResponse) :=
  match getUserFromContext r with
  | None => ret (inl (writeError "unauthorized" 401))
  | Some userID =>
  match KeyBody r with
  | None => ret (inl (writeError "invalid request body" 400))
  | Some req =>
  let name := TrimSpace (SSHReqName req) in
  let publicKey := TrimSpace (SSHReqPublicKey req) in
  if (name =? "")%string then ret (inl (writeError "name is required" 400)) else
  if (publicKey =? "")%string then ret (inl (writeError "public_key is required" 400)) else
  if negb (isValidSSHPublicKey Fields StdEncoding_DecodeString publicKey)
  then ret (inl (writeError "invalid SSH public key format" 400)) else
  '(count, err) <- on_store (keydb.CountSSHKeysByUser userID) ;;
  if negb (keydb.is_nil err) then ret (inl (writeError "internal error" 500)) else
  if count >=? maxSSHKeysPerUser then ret (inl (writeError sshLimitMessage 400)) else
  ret (inr (ssh_key_admitted userID name publicKey))
  end
  end.

(** [CreateAPIKey] from the statement after its cap check on: the
    generation of the key, the insert and the response. *)
Definition api_key_admitted (userID : Z) (name : string) : Act KeyResponse :=
  '(plaintext, keyHash, err) <- auth.GenerateAPIKey Sum256 RawURLEncoding_EncodeToString ;;
  if negb (keydb.is_nil err) then ret (writeError "internal error" 500) else
  let key := keydb.mkAPIKey 0 userID keyHash name zero_time sql.null_time in
  ts <- current_timestamp ;;
  '(key, err) <- on_store (keydb.CreateAPIKey ts key) ;;
  if negb (keydb.is_nil err) then ret (writeError "internal error" 500) else
  ret (writeJSON (APIKeyJSON (set_Key plaintext (apiKeyToResponse key true)))).

(** [CreateAPIKey] up to its cap check. *)
Definition CreateAPIKey_paused (r : KeyRequest apiKeyRequest)
    : Act (KeyResponse + Act KeyResponse) :=
  match getUserFromContext r with
  | None => ret (inl (writeError "unauthorized" 401))
  | Some userID =>
  match KeyBody r with
  | None => ret (inl (writeError "invalid request body" 400))
  | Some req =>
  let name := TrimSpace (APIReqName req) in
  if (name =? "")%string then ret (inl (writeError "name is required" 400)) else
  '(count, err) <- on_store (keydb.CountAPIKeysByUser userID) ;;
  if negb (keydb.is_nil err) then ret (inl (writeError "internal error" 500)) else
  if count >=? maxAPIKeysPerUser then ret (inl (writeError apiLimitMessage 400)) else
  ret (inr (api_key_admitted userID name))
  end
  end.

(** A paused key handler runs to its end. *)
Definition resume_key (p : KeyResponse + Act KeyResponse) : Act KeyResponse :=
  match p with
  | inl resp => ret resp
  | inr rest => rest
  end.

(** Two key requests served by goroutines that overlap: each handler
    runs up to its cap check before either goes on. *)
Definition overlapped_keys (first second : Act (KeyResponse + Act KeyResponse))
    : Act (KeyResponse * KeyResponse) :=
  p <- first ;;
  q <- second ;;
  resp1 <- resume_key p ;;
  resp2 <- resume_key q ;;
  ret (resp1, resp2).

End KeyOverlap.

(** ** A scenario for the key endpoints and the middleware *)

Module Office.

Import server keyapi.

(** Stand-ins for the library functions, enough to run the endpoints:
    fields are separated by white space, every text but "!" decodes to
    itself, every digest is the same 16 bytes, a key is its own hash
    and its own encoding, and folding is equality. *)
Fixpoint fields_from (s word : string) : list string :=
  match s with
  | EmptyString => if (word =? "")%string then [] else [word]
  | String c rest =>
      if Scenario.ascii_space c
      then (if (word =? "")%string then fields_from rest ""
            else word :: fields_from rest "")
      else fields_from rest (word ++ String c "")
  end.

Definition Fields (s : string) : list string := fields_from s "".

Definition DecodeString (s : string) : option string :=
  if (s =? "!")%string then None else Some s.

Definition md5_Sum (data : string) : string := "0123456789abcdef".

Definition ParseInt (s : string) : option Z :=
  option_map Z.of_int (NilZero.int_of_string s).

Definition Sum256 (s : string) : string := s.

Definition EncodeToString (b : string) : string := b.

Definition EqualFold (a b : string) : bool := (a =? b)%string.

(** A session service that knows two sessions and is down for a
    third. *)
Definition sessions (n : nat) (token : string) : SfsReply :=
  if (token =? "session-of-alice")%string then Reply 200 (Some "alice")
  else if (token =? "session-of-bob")%string then Reply 200 (Some "bob")
  else if (token =? "lost")%string then NoReply
  else Reply 401 None.

Definition dice (n : nat) : option string := Some "abcdefghijklmnopqrstuvwxyz012345".

(** The server with the two keys of alice, no API key and no
    container. *)
Definition desk : Server :=
  mkServer (Scenario.world Scenario.quiet []) 2 [] 0 sessions [] dice 0.

(** A server whose only SSH key belongs to user 1, the user of every
    session. *)
Definition lobby : Server :=
  mkServer
    (mkWorld (db.mkDB [] [db.mkSSHKey 1 1 "shared" "ssh-ed25519 DDDD shared" "fp-shared" 100]
                [])
       (k8s.mkClient Scenario.quiet []) 1000 [] Scenario.uuids 0)
    1 [] 0 sessions [] dice 0.

Definition add_tablet : KeyRequest sshKeyRequest :=
  mkKeyRequest (Some Scenario.alice) ""
    (Some (mkSSHKeyRequest " tablet " " ssh-ed25519 CCCC alice@tablet ")).

Definition drop_key (u : userInfo) (id : string) : KeyRequest unit :=
  mkKeyRequest (Some u) id None.

Definition new_api_key : KeyRequest apiKeyRequest :=
  mkKeyRequest (Some Scenario.alice) "" (Some (mkAPIKeyRequest " ci ")).

Definition bob : userInfo := mkUserInfo 8 "bob".

(** A second SSH key and a second API key for alice. *)
Definition add_phone : KeyRequest sshKeyRequest :=
  mkKeyRequest (Some Scenario.alice) ""
    (Some (mkSSHKeyRequest "phone" "ssh-ed25519 EEEE alice@phone")).

Definition second_api_key : KeyRequest apiKeyRequest :=
  mkKeyRequest (Some Scenario.alice) "" (Some (mkAPIKeyRequest "cd")).

(** A random source whose first two draws differ. *)
Definition two_dice (n : nat) : option string :=
  match n with
  | O => Some "abcdefghijklmnopqrstuvwxyz012345"
  | _ => Some "543210zyxwvutsrqponmlkjihgfedcba"
  end.

(** A server on which alice is one key below each cap: nine SSH keys
    and four API keys. *)
Definition crowded : Server :=
  mkServer
    (mkWorld
       (db.mkDB []
          (map (fun id => db.mkSSHKey id 7 "spare" "ssh-ed25519 FFFF alice@spare" "fp-spare" 100)
             [1; 2; 3; 4; 5; 6; 7; 8; 9])
          [])
       (k8s.mkClient Scenario.quiet []) 1000 [] Scenario.uuids 0)
    9
    (map (fun id => keydb.mkAPIKey id 7 "hash-of-a-key" "spare" 100 sql.null_time)
       [1; 2; 3; 4])
    4 sessions [] two_dice 0.

(** A request as it arrives, without user in its context. *)
Definition arriving (cookie : option string) (authorization : string) (id : string)
    (body : option containerRequest) : Incoming Request :=
  mkIncoming cookie authorization (mkRequest None id body).

Definition AddSSHKey := keyapi.AddSSHKey Scenario.TrimSpace Fields DecodeString md5_Sum.
Definition DeleteSSHKey := keyapi.DeleteSSHKey ParseInt "database is locked".
Definition CreateAPIKey := keyapi.CreateAPIKey Scenario.TrimSpace Sum256 EncodeToString.
Definition DeleteAPIKey := keyapi.DeleteAPIKey ParseInt "database is locked".
Definition AddSSHKey_paused := AddSSHKey_paused Scenario.TrimSpace Fields DecodeString md5_Sum.
Definition CreateAPIKey_paused := CreateAPIKey_paused Scenario.TrimSpace Sum256 EncodeToString.

(** The middleware in front of a handler that answers with the user it
    was given. *)
Definition whoami (r : Request) : Act (option userInfo) := ret (Context r).

Definition guard : Incoming Request -> Act (Served (option userInfo)) :=
  authMiddleware Scenario.TrimSpace Sum256 EqualFold Request (option userInfo)
    container_WithContext whoami.

End Office.

(** * Properties of the lifecycle *)

(** ** The record store *)

Section RecordStore.

Implicit Types (d : db.DB) (id status ip : string) (rows : list db.Container).

Lemma driver_ok d :
  next_ok d = true ->
  db.containers (snd (db.driver d)) = db.containers d /\ fst (db.driver d) = false.
Proof.
  unfold next_ok, db.driver. destruct (db.faults d) as [|[|] rest]; simpl; intros H;
    try discriminate; split; reflexivity.
Qed.

Lemma driver_frame d :
  db.containers (snd (db.driver d)) = db.containers d /\
  db.ssh_keys (snd (db.driver d)) = db.ssh_keys d /\
  db.faults (snd (db.driver d)) = tl (db.faults d).
Proof.
  unfold db.driver. destruct (db.faults d) eqn:E; simpl; rewrite ?E;
    repeat split; reflexivity.
Qed.

Lemma update_where_id_in id f rows row :
  In row (db.update_where_id id f rows) ->
  exists old, In old rows /\
    row = (if (db.ID old =? id)%string then f old else old).
Proof.
  unfold db.update_where_id. rewrite in_map_iff.
  intros (old & E & I). exists old. split; [assumption | now symmetry].
Qed.

Lemma find_update_where_id id f rows :
  (forall r, db.ID (f r) = db.ID r) ->
  find (fun r => (db.ID r =? id)%string) (db.update_where_id id f rows)
  = option_map f (find (fun r => (db.ID r =? id)%string) rows).
Proof.
  intros Hf. induction rows as [|r rows IH]; simpl; [reflexivity|].
  destruct (db.ID r =? id)%string eqn:E.
  - rewrite Hf, E. reflexivity.
  - rewrite E. exact IH.
Qed.

Lemma UpdateContainerStatus_rows id status d :
  next_ok d = true ->
  db.containers (snd (db.UpdateContainerStatus id status d))
  = db.update_where_id id (db.set_Status status) (db.containers d).
Proof.
  intros H. unfold db.UpdateContainerStatus.
  destruct (driver_ok d H) as (R & F). destruct (db.driver d) as [fault d1].
  simpl in *. subst fault. simpl. now rewrite R.
Qed.

Lemma UpdateContainerStatus_sets id status d row :
  next_ok d = true ->
  In row (db.containers (snd (db.UpdateContainerStatus id status d))) ->
  db.ID row = id -> db.Status row = status.
Proof.
  intros H I E. rewrite UpdateContainerStatus_rows in I by assumption.
  apply update_where_id_in in I. destruct I as (old & _ & ->).
  destruct (db.ID old =? id)%string eqn:T; [reflexivity|].
  rewrite E in T. now rewrite String.eqb_refl in T.
Qed.

Lemma UpdateContainerIP_rows id ip d :
  next_ok d = true ->
  db.containers (snd (db.UpdateContainerIP id ip d))
  = db.update_where_id id (db.set_ExternalIP (sql.mkNullString ip true)) (db.containers d).
Proof.
  intros H. unfold db.UpdateContainerIP.
  destruct (driver_ok d H) as (R & F). destruct (db.driver d) as [fault d1].
  simpl in *. subst fault. simpl. now rewrite R.
Qed.

Lemma UpdateContainerIP_sets id ip d row :
  next_ok d = true ->
  In row (db.containers (snd (db.UpdateContainerIP id ip d))) ->
  db.ID row = id -> db.ExternalIP row = sql.mkNullString ip true.
Proof.
  intros H I E. rewrite UpdateContainerIP_rows in I by assumption.
  apply update_where_id_in in I. destruct I as (old & _ & ->).
  destruct (db.ID old =? id)%string eqn:T; [reflexivity|].
  rewrite E in T. now rewrite String.eqb_refl in T.
Qed.

Lemma UpdateContainerStopped_rows ts id d :
  next_ok d = true ->
  db.containers (snd (db.UpdateContainerStopped ts id d))
  = db.update_where_id id
      (fun r => db.set_StoppedAt (sql.mkNullTime ts true) (db.set_Status "stopped" r))
      (db.containers d).
Proof.
  intros H. unfold db.UpdateContainerStopped.
  destruct (driver_ok d H) as (R & F). destruct (db.driver d) as [fault d1].
  simpl in *. subst fault. simpl. now rewrite R.
Qed.

End RecordStore.

(** ** The gateway *)

Lemma create_or_ignore_run prefix call w :
  exists err,
    on_k8s (create_or_ignore prefix call) w = (err, sending call w) /\
    is_nil err = negb (create_fails (k8s.clientset (h_k8s w))
                         (length (k8s.calls (h_k8s w))) call).
Proof.
  unfold on_k8s, create_or_ignore, k8s.write, create_fails, sending.
  destruct (k8s.on_write _ _ _) as [[| |reason]|]; simpl; eexists; split; reflexivity.
Qed.

Lemma DeletePod_run namespace w :
  let call := k8s.Delete k8s.Pods namespace "container" in
  exists err,
    on_k8s (k8s.DeletePod namespace) w = (err, sending call w) /\
    is_nil err = negb (delete_fails (k8s.clientset (h_k8s w))
                         (length (k8s.calls (h_k8s w))) call).
Proof.
  unfold on_k8s, k8s.DeletePod, k8s.write, delete_fails, sending.
  destruct (k8s.on_write _ _ _) as [[| |reason]|]; simpl; eexists; split; reflexivity.
Qed.

Lemma sending_all_frame calls w :
  h_db (sending_all calls w) = h_db w /\
  now (sending_all calls w) = now w /\
  goroutines (sending_all calls w) = goroutines w /\
  k8s.clientset (h_k8s (sending_all calls w)) = k8s.clientset (h_k8s w) /\
  k8s.calls (h_k8s (sending_all calls w))
  = k8s.calls (h_k8s w) ++ map (pair (now w)) calls.
Proof.
  revert w. induction calls as [|call calls IH]; intros w; simpl.
  - rewrite app_nil_r. repeat split; reflexivity.
  - destruct (IH (sending call w)) as (D & N & G & C & L).
    unfold sending_all in *. rewrite D, N, G, C, L. simpl.
    rewrite <- app_assoc. repeat split; reflexivity.
Qed.

(** ** Provisioning *)

Lemma attempt_prefix cl steps : forall n,
  steps <> [] ->
  exists k last,
    (1 <= k <= length steps)%nat /\
    fst (attempt cl n steps) = firstn k steps /\
    (forall i call, (i < k - 1)%nat -> nth_error steps i = Some call ->
       create_fails cl (n + i) call = false) /\
    nth_error steps (k - 1) = Some last /\
    create_fails cl (n + (k - 1)) last = negb (snd (attempt cl n steps)) /\
    (snd (attempt cl n steps) = true -> k = length steps).
Proof.
  induction steps as [|step rest IH]; intros n NE; [congruence|].
  simpl. destruct (create_fails cl n step) eqn:F.
  - exists 1%nat, step. simpl. rewrite Nat.add_0_r.
    repeat split; try lia; try assumption; try discriminate; intros; lia.
  - destruct rest as [|step2 rest].
    + exists 1%nat, step. simpl. rewrite Nat.add_0_r.
      repeat split; try lia; try assumption; intros; lia.
    + destruct (IH (S n)) as (k & last & Hk & Hp & Hs & Hl & Hf & Hall); [discriminate|].
      destruct (attempt cl (S n) (step2 :: rest)) as [tried ok]. simpl in Hp, Hf, Hall.
      exists (S k), last. simpl fst. simpl snd.
      replace (S k - 1)%nat with (S (k - 1)) by lia.
      repeat split.
      * lia.
      * simpl length in *. lia.
      * simpl. now rewrite Hp.
      * intros [|i] call Hi Hn.
        -- simpl in Hn. injection Hn as <-. now rewrite Nat.add_0_r.
        -- simpl in Hn. replace (n + S i)%nat with (S n + i)%nat by lia.
           apply Hs; [lia | assumption].
      * exact Hl.
      * replace (n + S (k - 1))%nat with (S n + (k - 1))%nat by lia. exact Hf.
      * intros E. rewrite (Hall E). reflexivity.
Qed.

Lemma bind_run {A B} (m : M A) (k : A -> M B) w :
  bind m k w = let (a, w1) := m w in k a w1.
Proof. reflexivity. Qed.

Ltac create_step :=
  rewrite bind_run;
  match goal with
  | |- context [on_k8s (create_or_ignore ?p ?call) ?w] =>
      let err := fresh "err" in
      let E := fresh "E" in
      let N := fresh "N" in
      destruct (create_or_ignore_run p call w) as (err & E & N);
      rewrite E; clear E; rewrite N; clear N err
  end.

Lemma sending_calls call w :
  length (k8s.calls (h_k8s (sending call w))) = S (length (k8s.calls (h_k8s w))).
Proof. simpl. rewrite length_app. simpl. lia. Qed.

Lemma sending_clientset call w :
  k8s.clientset (h_k8s (sending call w)) = k8s.clientset (h_k8s w).
Proof. reflexivity. Qed.

(** [provisionContainer] sends exactly the steps [attempt] tries, then
    records the outcome. *)
Lemma provisionContainer_run container sshKeys w :
  let tried := attempt (k8s.clientset (h_k8s w)) (length (k8s.calls (h_k8s w)))
                 (provision_steps container sshKeys) in
  provisionContainer container sshKeys w =
  (if snd tried
   then _ <- on_db (db.UpdateContainerStatus (db.ID container) "running") ;;
        go (pollTask container)
   else _ <- on_db (db.UpdateContainerStatus (db.ID container) "failed") ;; ret tt)
    (sending_all (fst tried) w).
Proof.
  cbv zeta. unfold provisionContainer, provision_steps, attempt.
  change (k8s.CreateNamespace ?a ?b ?c)
    with (create_or_ignore "create namespace" (k8s.Create (k8s.namespaceObject a b c))).
  change (k8s.CreateSSHSecret ?a ?b)
    with (create_or_ignore "create ssh secret" (k8s.Create (k8s.secretObject a b))).
  change (k8s.CreatePVC ?a ?b)
    with (create_or_ignore "create pvc" (k8s.Create (k8s.pvcObject a b))).
  change (k8s.CreateNetworkPolicy ?a)
    with (create_or_ignore "create network policy" (k8s.Create (k8s.networkPolicyObject a))).
  change (k8s.CreatePod ?a ?b ?c)
    with (create_or_ignore "create pod" (k8s.Create (k8s.podObject a b c))).
  change (k8s.CreateLoadBalancer ?a)
    with (create_or_ignore "create load balancer" (k8s.Create (k8s.serviceObject a))).
  repeat (create_step; rewrite ?sending_calls, ?sending_clientset;
          match goal with
          | |- context [create_fails ?cl ?n ?c] => destruct (create_fails cl n c) eqn:?
          end; simpl; [reflexivity|]).
  reflexivity.
Qed.

Lemma provision_steps_length container sshKeys :
  length (provision_steps container sshKeys) = 6%nat.
Proof. reflexivity. Qed.

(** C1. [provisionContainer] attempts the six creation steps (namespace,
    SSH secret, volume claim, network policy, pod, load-balancer service)
    in that order and stops at the first one that fails: the requests it
    sends are the first [n] steps, the first [n - 1] of them succeeded,
    and either step [n] failed, the store is asked to set the status to
    "failed" (every row of that id then has it, when the statement
    executes) and no goroutine is started; or all six succeeded, the
    store is asked to set the status to "running" and the poller is
    started. *)
Theorem provision_in_order_until_first_failure container sshKeys w :
  let cl := k8s.clientset (h_k8s w) in
  let n0 := length (k8s.calls (h_k8s w)) in
  let steps := provision_steps container sshKeys in
  let w' := snd (provisionContainer container sshKeys w) in
  exists (n : nat) (last : k8s.ApiCall),
    (1 <= n <= 6)%nat /\
    k8s.calls (h_k8s w') = k8s.calls (h_k8s w) ++ map (pair (now w)) (firstn n steps) /\
    (forall i call, (i < n - 1)%nat -> nth_error steps i = Some call ->
       create_fails cl (n0 + i) call = false) /\
    nth_error steps (n - 1) = Some last /\
    ((create_fails cl (n0 + (n - 1)) last = true /\
      h_db w' = snd (db.UpdateContainerStatus (db.ID container) "failed" (h_db w)) /\
      (next_ok (h_db w) = true ->
       forall row, In row (db.containers (h_db w')) ->
         db.ID row = db.ID container -> db.Status row = "failed") /\
      goroutines w' = goroutines w)
     \/
     (n = 6%nat /\ create_fails cl (n0 + (n - 1)) last = false /\
      h_db w' = snd (db.UpdateContainerStatus (db.ID container) "running" (h_db w)) /\
      (next_ok (h_db w) = true ->
       forall row, In row (db.containers (h_db w')) ->
         db.ID row = db.ID container -> db.Status row = "running") /\
      goroutines w' = goroutines w ++ [pollTask container])).
Proof.
  intros cl n0 steps w'. subst w'.
  rewrite provisionContainer_run. fold cl n0 steps.
  destruct (attempt_prefix cl steps n0) as (n & last & Hn & Hp & Hs & Hl & Hf & Hall);
    [discriminate|].
  destruct (sending_all_frame (fst (attempt cl n0 steps)) w) as (D & N & G & C & L).
  exists n, last. change (length steps) with 6%nat in *.
  split; [exact Hn|].
  destruct (snd (attempt cl n0 steps)) eqn:OK; simpl in Hf.
  - (* every step succeeded *)
    unfold bind, on_db, go. rewrite D.
    destruct (db.UpdateContainerStatus _ _ (h_db w)) as [e d] eqn:U.
    cbn [snd fst h_k8s h_db goroutines]. rewrite L, G, Hp.
    repeat split; try assumption.
    right. repeat split; auto.
    intros H row I E.
    apply (UpdateContainerStatus_sets (db.ID container) _ (h_db w)); auto.
    rewrite U. exact I.
  - unfold bind, on_db, ret.
    rewrite D.
    destruct (db.UpdateContainerStatus _ _ (h_db w)) as [e d] eqn:U.
    cbn [snd fst h_k8s h_db goroutines]. rewrite L, G, Hp.
    repeat split; try assumption.
    left. repeat split; auto.
    intros H row I E.
    apply (UpdateContainerStatus_sets (db.ID container) _ (h_db w)); auto.
    rewrite U. exact I.
Qed.

(** ** The external-address poller *)

Lemma select_run tie start (k : nat) w :
  select tie start (Z.of_nat k) w =
  if (k <=? last_tick tie)%nat
  then (ticker_C, at_time (start + Z.of_nat k * tickerPeriod) w)
  else (ctx_Done, at_time (start + pollTimeout) w).
Proof.
  unfold select, last_tick, tickerPeriod, pollTimeout, bind, sleep_until, ret, at_time.
  destruct tie; simpl andb; rewrite ?andb_false_r, ?andb_true_r, ?orb_false_r.
  - destruct (Nat.leb_spec k 60).
    + replace ((start + Z.of_nat k * 5 <? start + 5 * 60)
               || (start + Z.of_nat k * 5 =? start + 5 * 60)) with true; [reflexivity|].
      symmetry. apply orb_true_iff.
      destruct (Z.ltb_spec (start + Z.of_nat k * 5) (start + 5 * 60)); [now left|].
      right. apply Z.eqb_eq. lia.
    + replace ((start + Z.of_nat k * 5 <? start + 5 * 60)
               || (start + Z.of_nat k * 5 =? start + 5 * 60)) with false; [reflexivity|].
      symmetry. apply orb_false_iff. split; [apply Z.ltb_ge | apply Z.eqb_neq]; lia.
  - destruct (Nat.leb_spec k 59).
    + replace (start + Z.of_nat k * 5 <? start + 5 * 60) with true; [reflexivity|].
      symmetry. apply Z.ltb_lt. lia.
    + replace (start + Z.of_nat k * 5 <? start + 5 * 60) with false; [reflexivity|].
      symmetry. apply Z.ltb_ge. lia.
Qed.

Lemma GetServiceExternalIP_run namespace w :
  exists ip err,
    on_k8s (k8s.GetServiceExternalIP namespace) w
    = ((ip, err), sending (k8s.Get k8s.Services namespace "lb") w) /\
    (if is_nil err && negb (ip =? "")%string then Some ip else None)
    = assigned (k8s.clientset (h_k8s w)) (length (k8s.calls (h_k8s w))) namespace.
Proof.
  unfold on_k8s, k8s.GetServiceExternalIP, assigned, sending.
  destruct (k8s.on_get_service _ _ _) as [r|[|ip ingress]]; simpl.
  - eexists _, _. split; reflexivity.
  - eexists _, _. split; reflexivity.
  - destruct (ip =? "")%string eqn:E; simpl; eexists _, _; split; try reflexivity.
    simpl. now rewrite E.
Qed.

Lemma poll_loop_run tie start container : forall (r kn fuel : nat) w,
  (kn + r = S (last_tick tie))%nat -> (r < fuel)%nat ->
  let cl := k8s.clientset (h_k8s w) in
  let n0 := length (k8s.calls (h_k8s w)) in
  let namespace := db.Namespace container in
  exists w',
    poll_loop fuel tie start (Z.of_nat kn) container w = (Some tt, w') /\
    goroutines w' = goroutines w /\
    ((exists m ip,
        (m < r)%nat /\
        assigned cl (n0 + m) namespace = Some ip /\
        (forall j, (j < m)%nat -> assigned cl (n0 + j) namespace = None) /\
        k8s.calls (h_k8s w')
        = k8s.calls (h_k8s w) ++ map (tick_query start namespace) (seq kn (S m)) /\
        h_db w' = snd (db.UpdateContainerIP (db.ID container) ip (h_db w)) /\
        now w' = start + Z.of_nat (kn + m) * tickerPeriod)
     \/
     ((forall j, (j < r)%nat -> assigned cl (n0 + j) namespace = None) /\
      k8s.calls (h_k8s w')
      = k8s.calls (h_k8s w) ++ map (tick_query start namespace) (seq kn r) /\
      h_db w' = h_db w /\
      now w' = start + pollTimeout)).
Proof.
  induction r as [|r IH]; intros kn fuel w Hk Hf; cbv zeta.
  - (* the deadline *)
    destruct fuel as [|fuel]; [lia|]. simpl poll_loop. rewrite bind_run, select_run.
    destruct (Nat.leb_spec kn (last_tick tie)); [lia|].
    eexists. split; [reflexivity|]. split; [reflexivity|].
    right. simpl. rewrite app_nil_r. repeat split; try reflexivity. intros; lia.
  - (* one more tick *)
    destruct fuel as [|fuel]; [lia|]. simpl poll_loop. rewrite bind_run, select_run.
    destruct (Nat.leb_spec kn (last_tick tie)); [|lia].
    set (t := start + Z.of_nat kn * tickerPeriod).
    rewrite bind_run.
    destruct (GetServiceExternalIP_run (db.Namespace container) (at_time t w))
      as (ip & err & E & A).
    rewrite E. clear E. change (k8s.clientset (h_k8s (at_time t w))) with (k8s.clientset (h_k8s w)) in A.
    change (k8s.calls (h_k8s (at_time t w))) with (k8s.calls (h_k8s w)) in A.
    set (w1 := sending (k8s.Get k8s.Services (db.Namespace container) "lb") (at_time t w)).
    assert (Hnext :
      assigned (k8s.clientset (h_k8s w)) (length (k8s.calls (h_k8s w)))
        (db.Namespace container) = None ->
      exists w',
        poll_loop fuel tie start (Z.of_nat kn + 1) container w1 = (Some tt, w') /\
        goroutines w' = goroutines w /\
        ((exists m ip0,
            (m < S r)%nat /\
            assigned (k8s.clientset (h_k8s w)) (length (k8s.calls (h_k8s w)) + m)
              (db.Namespace container) = Some ip0 /\
            (forall j, (j < m)%nat ->
               assigned (k8s.clientset (h_k8s w)) (length (k8s.calls (h_k8s w)) + j)
                 (db.Namespace container) = None) /\
            k8s.calls (h_k8s w')
            = k8s.calls (h_k8s w)
              ++ map (tick_query start (db.Namespace container)) (seq kn (S m)) /\
            h_db w' = snd (db.UpdateContainerIP (db.ID container) ip0 (h_db w)) /\
            now w' = start + Z.of_nat (kn + m) * tickerPeriod)
         \/
         ((forall j, (j < S r)%nat ->
             assigned (k8s.clientset (h_k8s w)) (length (k8s.calls (h_k8s w)) + j)
               (db.Namespace container) = None) /\
          k8s.calls (h_k8s w')
          = k8s.calls (h_k8s w)
            ++ map (tick_query start (db.Namespace container)) (seq kn (S r)) /\
          h_db w' = h_db w /\
          now w' = start + pollTimeout))).
    { intros None0.
      replace (Z.of_nat kn + 1) with (Z.of_nat (S kn)) by lia.
      destruct (IH (S kn) fuel w1) as (w' & R & G & Cases); [lia | lia |].
      exists w'. split; [exact R|]. split; [exact G|].
      assert (L1 : length (k8s.calls (h_k8s w1)) = S (length (k8s.calls (h_k8s w)))).
      { subst w1. simpl. rewrite length_app. simpl. lia. }
      assert (C1 : k8s.calls (h_k8s w1)
                   = k8s.calls (h_k8s w) ++ [tick_query start (db.Namespace container) kn]).
      { reflexivity. }
      change (k8s.clientset (h_k8s w1)) with (k8s.clientset (h_k8s w)) in Cases.
      rewrite L1 in Cases.
      destruct Cases as [(m & ip0 & Hm & Ha & Hn & Hc & Hd & Ht)
                        |(Hn & Hc & Hd & Ht)].
      - left. exists (S m), ip0. repeat split.
        + lia.
        + now replace (length (k8s.calls (h_k8s w)) + S m)%nat
            with (S (length (k8s.calls (h_k8s w))) + m)%nat by lia.
        + intros [|j] Hj; [now rewrite Nat.add_0_r|].
          replace (length (k8s.calls (h_k8s w)) + S j)%nat
            with (S (length (k8s.calls (h_k8s w))) + j)%nat by lia.
          apply Hn. lia.
        + rewrite Hc, C1, <- app_assoc. reflexivity.
        + exact Hd.
        + rewrite Ht. f_equal. f_equal. lia.
      - right. repeat split.
        + intros [|j] Hj; [now rewrite Nat.add_0_r|].
          replace (length (k8s.calls (h_k8s w)) + S j)%nat
            with (S (length (k8s.calls (h_k8s w))) + j)%nat by lia.
          apply Hn. lia.
        + rewrite Hc, C1, <- app_assoc. reflexivity.
        + exact Hd.
        + exact Ht. }
    destruct err as [e|]; simpl in A |- *.
    + apply Hnext. now symmetry.
    + destruct (ip =? "")%string eqn:Eip; simpl in A |- *.
      * apply Hnext. now symmetry.
      * (* an address: write it and return *)
        rewrite bind_run. unfold on_db.
        change (h_db w1) with (h_db w).
        destruct (db.UpdateContainerIP (db.ID container) ip (h_db w)) as [e d] eqn:U.
        eexists. split; [reflexivity|]. split; [reflexivity|].
        left. exists 0%nat, ip. rewrite !Nat.add_0_r.
        repeat split; try reflexivity.
        -- lia.
        -- now symmetry.
        -- intros; lia.
        -- simpl. now rewrite U.
Qed.

Lemma poll_fuel_enough tie : (last_tick tie < poll_fuel)%nat.
Proof. destruct tie; vm_compute; lia. Qed.

(** C7. The poller queries the service's address every [tickerPeriod]
    (5) seconds after its start and always returns.  Either some query
    [q] is the first to observe an address: the queries sent are exactly
    those of ticks 1..[q], the store is asked to record that address
    (and the row carries it when the statement executes), and the poller
    stops at that tick; or no query up to the last tick before the
    deadline observes one: the poller stops at [pollTimeout] (5 minutes)
    and the database is untouched.  A failing query observes nothing,
    like a service without address, so polling goes on after it. *)
Theorem poll_until_address_or_deadline tie container w :
  let cl := k8s.clientset (h_k8s w) in
  let n0 := length (k8s.calls (h_k8s w)) in
  let namespace := db.Namespace container in
  let start := now w in
  let w' := snd (pollExternalIP tie container w) in
  fst (pollExternalIP tie container w) = Some tt /\
  (forall n r, k8s.on_get_service cl n namespace = inl r -> assigned cl n namespace = None) /\
  ((exists (q : nat) (ip : string),
      (1 <= q <= last_tick tie)%nat /\
      assigned cl (n0 + (q - 1)) namespace = Some ip /\
      ip <> "" /\
      (forall j, (j < q - 1)%nat -> assigned cl (n0 + j) namespace = None) /\
      k8s.calls (h_k8s w')
      = k8s.calls (h_k8s w) ++ map (tick_query start namespace) (seq 1 q) /\
      h_db w' = snd (db.UpdateContainerIP (db.ID container) ip (h_db w)) /\
      (next_ok (h_db w) = true ->
       forall row, In row (db.containers (h_db w')) ->
         db.ID row = db.ID container ->
         db.ExternalIP row = sql.mkNullString ip true) /\
      now w' = start + Z.of_nat q * tickerPeriod)
   \/
   ((forall j, (j < last_tick tie)%nat -> assigned cl (n0 + j) namespace = None) /\
    k8s.calls (h_k8s w')
    = k8s.calls (h_k8s w) ++ map (tick_query start namespace) (seq 1 (last_tick tie)) /\
    h_db w' = h_db w /\
    now w' = start + pollTimeout)).
Proof.
  cbv zeta. unfold pollExternalIP. rewrite bind_run. unfold current_timestamp.
  destruct (poll_loop_run tie (now w) container (last_tick tie) 1 poll_fuel w)
    as (w' & R & G & Cases); [lia | apply poll_fuel_enough |].
  change (Z.of_nat 1) with 1 in R. rewrite R. simpl fst. simpl snd.
  split; [reflexivity|]. split.
  { intros n r E. unfold assigned. now rewrite E. }
  destruct Cases as [(m & ip & Hm & Ha & Hn & Hc & Hd & Ht)|(Hn & Hc & Hd & Ht)].
  - left. exists (S m), ip. replace (S m - 1)%nat with m by lia.
    repeat split; try assumption; try lia.
    + intros ->. unfold assigned in Ha.
      destruct (k8s.on_get_service _ _ _) as [r|[|ip0 ingress]]; try discriminate.
      destruct (ip0 =? "")%string eqn:E; [discriminate|]. injection Ha as ->.
      discriminate E.
    + intros H row I E. rewrite Hd in I.
      now apply (UpdateContainerIP_sets (db.ID container) ip (h_db w)).
  - right. repeat split; assumption.
Qed.

(** ** Handlers on one container *)

Lemma GetContainer_query id d :
  db.GetContainer id d
  = (if hd false (db.faults d)
     then (None, Some (Errorf "query container" (SqlError DriverFailure)))
     else (stored id d, None),
     snd (db.driver d)).
Proof.
  unfold db.GetContainer, stored, db.driver.
  destruct (db.faults d) as [|[|] rest]; reflexivity.
Qed.

Lemma stored_ID id d c : stored id d = Some c -> db.ID c = id.
Proof.
  unfold stored. intros H. apply find_some in H. now apply String.eqb_eq.
Qed.

Lemma on_owned_run body r u c w :
  Context r = Some u ->
  next_ok (h_db w) = true ->
  stored (PathValue r) (h_db w) = Some c ->
  db.UserID c = InfoUserID u ->
  on_owned body r w = body c (with_db (snd (db.driver (h_db w))) w).
Proof.
  intros HC HK HS HU. unfold on_owned, getUserFromContext. rewrite HC. simpl.
  rewrite bind_run. unfold on_db. rewrite GetContainer_query.
  unfold next_ok in HK. apply negb_true_iff in HK. rewrite HK, HS. simpl.
  rewrite HU, Z.eqb_refl. reflexivity.
Qed.

Lemma on_owned_foreign body r u w :
  Context r = Some u ->
  (forall c, stored (PathValue r) (h_db w) = Some c -> db.UserID c <> InfoUserID u) ->
  on_owned body r w
  = (if hd false (db.faults (h_db w)) then writeError "internal error" 500
     else writeError "container not found" 404,
     with_db (snd (db.driver (h_db w))) w).
Proof.
  intros HC HS. unfold on_owned, getUserFromContext. rewrite HC. simpl.
  rewrite bind_run. unfold on_db. rewrite GetContainer_query.
  destruct (hd false (db.faults (h_db w))); simpl; [reflexivity|].
  destruct (stored (PathValue r) (h_db w)) as [c|] eqn:E; [|reflexivity].
  specialize (HS c eq_refl). apply Z.eqb_neq in HS. rewrite HS. reflexivity.
Qed.

Lemma StopContainer_on_owned r : StopContainer r = on_owned (stop_body r) r.
Proof. reflexivity. Qed.

(** C6. Stopping a container of the caller sends one request to the
    cluster, the delete of the pod, whatever the outcome: namespace,
    secret, volume claim, network policy and service are not touched.
    When the delete succeeds, also when the server answers that the pod
    is not there, the response is 200 and shows status "stopped", and
    the store is asked to mark the row: when that statement executes,
    the stored row has status "stopped" and [stopped_at] valid and equal
    to the current time, all its other columns are those of before, and
    every other row is as before.  When the delete fails the answer is
    500 and the rows are unchanged. *)
Theorem stop_deletes_only_the_pod r u c w :
  Context r = Some u ->
  next_ok (h_db w) = true ->
  stored (PathValue r) (h_db w) = Some c ->
  db.UserID c = InfoUserID u ->
  let call := k8s.Delete k8s.Pods (db.Namespace c) "container" in
  let reply := k8s.on_write (k8s.clientset (h_k8s w)) (length (k8s.calls (h_k8s w))) call in
  let d1 := snd (db.driver (h_db w)) in
  let resp := fst (StopContainer r w) in
  let w' := snd (StopContainer r w) in
  k8s.calls (h_k8s w') = k8s.calls (h_k8s w) ++ [(now w, call)] /\
  goroutines w' = goroutines w /\
  (reply = None \/ reply = Some NotFound ->
   resp = writeJSON (db.set_Status "stopped" c) /\
   StatusCode resp = 200 /\
   (exists shown,
      Written resp = ContainerJSON shown /\
      RespStatus shown = "stopped" /\ RespID shown = db.ID c /\ RespName shown = db.Name c) /\
   h_db w' = snd (db.UpdateContainerStopped (now w) (PathValue r) d1) /\
   (next_ok d1 = true ->
    db.containers (h_db w')
    = map (fun row => if (db.ID row =? PathValue r)%string
                      then db.set_StoppedAt (sql.mkNullTime (now w) true)
                             (db.set_Status "stopped" row)
                      else row)
        (db.containers (h_db w)) /\
    (exists row,
       stored (PathValue r) (h_db w') = Some row /\
       db.Status row = "stopped" /\
       sql.TimeValid (db.StoppedAt row) = true /\
       sql.Time (db.StoppedAt row) = now w /\
       db.ID row = db.ID c /\ db.UserID row = db.UserID c /\ db.Name row = db.Name c /\
       db.Namespace row = db.Namespace c /\ db.ExternalIP row = db.ExternalIP c /\
       db.MemoryMB row = db.MemoryMB c /\ db.StorageGB row = db.StorageGB c /\
       db.Image row = db.Image c /\ db.CreatedAt row = db.CreatedAt c) /\
    (forall row, In row (db.containers (h_db w')) -> db.ID row = PathValue r ->
       db.Status row = "stopped" /\ db.StoppedAt row = sql.mkNullTime (now w) true) /\
    filter (fun row => negb (db.ID row =? PathValue r)%string) (db.containers (h_db w'))
    = filter (fun row => negb (db.ID row =? PathValue r)%string) (db.containers (h_db w)))) /\
  (reply <> None -> reply <> Some NotFound ->
   resp = writeError "failed to stop container" 500 /\
   db.containers (h_db w') = db.containers (h_db w)).
Proof.
  intros HC HK HS HU call reply d1 resp w'. subst resp w'.
  rewrite StopContainer_on_owned, (on_owned_run _ r u c w HC HK HS HU).
  fold d1. unfold stop_body. rewrite bind_run.
  destruct (DeletePod_run (db.Namespace c) (with_db d1 w)) as (err & E & N).
  rewrite E. clear E. fold call in N |- *.
  change (k8s.clientset (h_k8s (with_db d1 w))) with (k8s.clientset (h_k8s w)) in N.
  change (k8s.calls (h_k8s (with_db d1 w))) with (k8s.calls (h_k8s w)) in N.
  unfold delete_fails in N. fold reply in N.
  destruct (driver_frame (h_db w)) as (R1 & _ & _). fold d1 in R1.
  destruct err as [e|]; simpl in N.
  - (* the delete failed *)
    simpl. split; [reflexivity|]. split; [reflexivity|]. split.
    + intros [H|H]; rewrite H in N; discriminate.
    + intros _ _. split; [reflexivity | exact R1].
  - simpl. unfold bind, current_timestamp, on_db. simpl.
    destruct (db.UpdateContainerStopped (now w) (PathValue r) d1) as [e d2] eqn:U.
    simpl. split; [reflexivity|]. split; [reflexivity|]. split.
    + intros _. split; [reflexivity|]. split; [reflexivity|]. split.
      { unfold containerToResponse. simpl.
        destruct (sql.Valid (db.ExternalIP c)); eexists; repeat split. }
      split; [reflexivity|].
      intros H. pose proof (UpdateContainerStopped_rows (now w) (PathValue r) d1 H) as X.
      rewrite U in X. simpl in X. rewrite R1 in X.
      split; [rewrite X; reflexivity|]. split; [|split].
      * unfold stored in HS |- *. rewrite X.
        rewrite find_update_where_id by reflexivity. rewrite HS. simpl.
        eexists. split; [reflexivity|]. simpl. repeat split.
      * intros row I Id. rewrite X in I. apply update_where_id_in in I.
        destruct I as (old & _ & ->).
        destruct (db.ID old =? PathValue r)%string eqn:T; [split; reflexivity|].
        rewrite Id in T. now rewrite String.eqb_refl in T.
      * rewrite X. unfold db.update_where_id.
        generalize (db.containers (h_db w)) as rows.
        induction rows as [|row rows IH]; [reflexivity|].
        cbn [map filter]. destruct (db.ID row =? PathValue r)%string eqn:T.
        -- cbn [db.ID db.set_StoppedAt db.set_Status]. rewrite T. exact IH.
        -- rewrite T. cbn [negb]. now rewrite IH.
    + intros H1 H2. destruct reply as [[| |reason]|]; try discriminate; congruence.
Qed.

Lemma GetContainer_on_owned r : GetContainer r = on_owned get_body r.
Proof. reflexivity. Qed.

Lemma DeleteContainer_on_owned r : DeleteContainer r = on_owned (delete_body r) r.
Proof. reflexivity. Qed.

Lemma StartContainer_on_owned r : StartContainer r = on_owned (start_body r) r.
Proof. reflexivity. Qed.

Lemma by_id_handler_on_owned handler :
  In handler by_id_handlers ->
  exists body, forall r, handler r = on_owned (body r) r.
Proof.
  intros [<-|[<-|[<-|[<-|[]]]]].
  - exists (fun _ => get_body). apply GetContainer_on_owned.
  - exists delete_body. apply DeleteContainer_on_owned.
  - exists stop_body. apply StopContainer_on_owned.
  - exists start_body. apply StartContainer_on_owned.
Qed.

(** C9. Get, delete, stop and start on the id of a container that
    belongs to somebody else answer exactly what they answer when no
    container has that id: 404 "container not found" when the lookup
    executes (500 in both situations when it does not), never 403; no
    request goes to the cluster and no row changes. *)
Theorem foreign_container_is_not_found r u c w handler :
  Context r = Some u ->
  stored (PathValue r) (h_db w) = Some c ->
  db.UserID c <> InfoUserID u ->
  In handler by_id_handlers ->
  (forall w0,
     stored (PathValue r) (h_db w0) = None ->
     db.faults (h_db w0) = db.faults (h_db w) ->
     fst (handler r w) = fst (handler r w0)) /\
  (next_ok (h_db w) = true ->
   fst (handler r w) = writeError "container not found" 404) /\
  StatusCode (fst (handler r w)) <> 403 /\
  k8s.calls (h_k8s (snd (handler r w))) = k8s.calls (h_k8s w) /\
  db.containers (h_db (snd (handler r w))) = db.containers (h_db w).
Proof.
  intros HC HS HU HI.
  destruct (by_id_handler_on_owned handler HI) as (body & Hb).
  rewrite Hb.
  assert (F : forall c0, stored (PathValue r) (h_db w) = Some c0 ->
                         db.UserID c0 <> InfoUserID u)
    by (intros c0 E; rewrite HS in E; now injection E as <-).
  rewrite (on_owned_foreign _ r u w HC F). simpl fst. simpl snd.
  split; [|split; [|split; [|split]]].
  - intros w0 H0 HF.
    rewrite (on_owned_foreign _ r u w0 HC) by (intros c0 E; rewrite H0 in E; discriminate).
    simpl. now rewrite HF.
  - unfold next_ok. intros H. apply negb_true_iff in H. now rewrite H.
  - destruct (hd false (db.faults (h_db w))); simpl; lia.
  - reflexivity.
  - simpl. apply driver_frame.
Qed.

(** ** Reconciliation on read *)

Lemma reported_live cl n namespace s :
  reported cl n namespace = Some s -> In s live_statuses.
Proof.
  unfold reported, live_statuses.
  destruct (k8s.on_get_pod cl n namespace) as [[| |reason]|phase]; try discriminate.
  - intros [= <-]. simpl. tauto.
  - intros [= <-].
    repeat match goal with |- context [if ?b then _ else _] => destruct b end;
      simpl; tauto.
Qed.

Lemma GetPodStatus_run namespace w :
  exists status err,
    on_k8s (k8s.GetPodStatus namespace) w
    = ((status, err), sending (k8s.Get k8s.Pods namespace "container") w) /\
    (if is_nil err && negb (status =? "")%string then Some status else None)
    = reported (k8s.clientset (h_k8s w)) (length (k8s.calls (h_k8s w))) namespace.
Proof.
  unfold on_k8s, k8s.GetPodStatus, reported, sending.
  destruct (k8s.on_get_pod _ _ _) as [[| |reason]|phase]; simpl;
    try (eexists _, _; split; reflexivity).
  repeat match goal with |- context [if ?b then _ else _] => destruct b end;
    eexists _, _; split; reflexivity.
Qed.

Lemma get_body_run c w :
  let cl := k8s.clientset (h_k8s w) in
  let n0 := length (k8s.calls (h_k8s w)) in
  let rep := reported cl n0 (db.Namespace c) in
  let obs := assigned cl (S n0) (db.Namespace c) in
  get_body c w
  = (writeJSON (reconciled c rep obs),
     mkWorld (reconciled_db c (h_db w) rep obs)
       (k8s.mkClient cl (k8s.calls (h_k8s w) ++ reconcile_queries c (now w)))
       (now w) (goroutines w) (uuid_New w) (uuid_drawn w)).
Proof.
  cbv zeta. unfold get_body. rewrite bind_run.
  destruct (GetPodStatus_run (db.Namespace c) w) as (status & err & E & R).
  rewrite E. clear E. rewrite <- R. clear R.
  set (w1 := sending (k8s.Get k8s.Pods (db.Namespace c) "container") w).
  assert (L1 : length (k8s.calls (h_k8s w1)) = S (length (k8s.calls (h_k8s w)))).
  { subst w1. simpl. rewrite length_app. simpl. lia. }
  unfold reconciled, reconciled_db, reconcile_queries, status_change, address_found.
  (* the second part, from any database reached after the first *)
  assert (Second : forall c1 d,
    db.Namespace c1 = db.Namespace c -> db.ID c1 = db.ID c ->
    db.ExternalIP c1 = db.ExternalIP c ->
    (container2 <-
       (if negb (sql.Valid (db.ExternalIP c1))
        then '(ip, err) <- on_k8s (k8s.GetServiceExternalIP (db.Namespace c1)) ;;
             if is_nil err && negb (ip =? "")%string
             then _ <- on_db (db.UpdateContainerIP (db.ID c1) ip) ;;
                  ret (db.set_ExternalIP (sql.mkNullString ip true) c1)
             else ret c1
        else ret c1) ;;
     ret (writeJSON container2)) (with_db d w1)
    = (writeJSON
         (match (if sql.Valid (db.ExternalIP c) then None
                 else assigned (k8s.clientset (h_k8s w))
                        (S (length (k8s.calls (h_k8s w)))) (db.Namespace c)) with
          | Some ip => db.set_ExternalIP (sql.mkNullString ip true) c1
          | None => c1
          end),
       mkWorld
         (match (if sql.Valid (db.ExternalIP c) then None
                 else assigned (k8s.clientset (h_k8s w))
                        (S (length (k8s.calls (h_k8s w)))) (db.Namespace c)) with
          | Some ip => snd (db.UpdateContainerIP (db.ID c) ip d)
          | None => d
          end)
         (k8s.mkClient (k8s.clientset (h_k8s w))
            (k8s.calls (h_k8s w)
             ++ (now w, k8s.Get k8s.Pods (db.Namespace c) "container")
                :: (if sql.Valid (db.ExternalIP c) then []
                    else [(now w, k8s.Get k8s.Services (db.Namespace c) "lb")])))
         (now w) (goroutines w) (uuid_New w) (uuid_drawn w))).
  { intros c1 d HN HI HE. rewrite HE, HN, HI.
    destruct (sql.Valid (db.ExternalIP c)); simpl.
    - reflexivity.
    - rewrite !bind_run.
      destruct (GetServiceExternalIP_run (db.Namespace c) (with_db d w1))
        as (ip & err2 & E2 & A2).
      rewrite E2. clear E2.
      change (k8s.clientset (h_k8s (with_db d w1))) with (k8s.clientset (h_k8s w)) in A2.
      change (k8s.calls (h_k8s (with_db d w1))) with (k8s.calls (h_k8s w1)) in A2.
      rewrite L1 in A2. rewrite <- A2. clear A2.
      destruct (is_nil err2 && negb (ip =? "")%string).
      + rewrite bind_run. unfold on_db. simpl.
        destruct (db.UpdateContainerIP (db.ID c) ip d) as [e d2]. simpl.
        unfold ret, k8s.sent. simpl. rewrite <- app_assoc. reflexivity.
      + unfold ret, sending, with_db, w1, sending, k8s.sent. simpl.
        rewrite <- app_assoc. reflexivity. }
  rewrite bind_run.
  destruct (is_nil err && negb (status =? "")%string) eqn:Ok; simpl.
  - destruct (status =? db.Status c)%string eqn:Same; simpl.
    + exact (Second c (h_db w) eq_refl eq_refl eq_refl).
    + rewrite bind_run. unfold on_db at 1.
      change (h_db w1) with (h_db w).
      destruct (db.UpdateContainerStatus (db.ID c) status (h_db w)) as [e d2]. simpl.
      exact (Second (db.set_Status status c) d2 eq_refl eq_refl eq_refl).
  - exact (Second c (h_db w) eq_refl eq_refl eq_refl).
Qed.

Lemma UpdateContainerStatus_rows_cases id status d :
  db.containers (snd (db.UpdateContainerStatus id status d))
  = if hd false (db.faults d) then db.containers d
    else db.update_where_id id (db.set_Status status) (db.containers d).
Proof.
  unfold db.UpdateContainerStatus, db.driver.
  destruct (db.faults d) as [|[|] rest]; reflexivity.
Qed.

Lemma UpdateContainerIP_rows_cases id ip d :
  db.containers (snd (db.UpdateContainerIP id ip d))
  = if hd false (db.faults d) then db.containers d
    else db.update_where_id id (db.set_ExternalIP (sql.mkNullString ip true))
           (db.containers d).
Proof.
  unfold db.UpdateContainerIP, db.driver.
  destruct (db.faults d) as [|[|] rest]; reflexivity.
Qed.

Lemma update_where_id_keeps {A} (column : db.Container -> A) id f rows :
  (forall r, column (f r) = column r) ->
  map column (db.update_where_id id f rows) = map column rows.
Proof.
  intros Hf. unfold db.update_where_id. rewrite map_map. apply map_ext.
  intros r. destruct (db.ID r =? id)%string; [apply Hf | reflexivity].
Qed.

Lemma UpdateContainerIP_keeps_status id ip d :
  map db.Status (db.containers (snd (db.UpdateContainerIP id ip d)))
  = map db.Status (db.containers d).
Proof.
  rewrite UpdateContainerIP_rows_cases. destruct (hd false (db.faults d)); [reflexivity|].
  now apply update_where_id_keeps.
Qed.

Lemma UpdateContainerStatus_keeps_ip id status d :
  map db.ExternalIP (db.containers (snd (db.UpdateContainerStatus id status d)))
  = map db.ExternalIP (db.containers d).
Proof.
  rewrite UpdateContainerStatus_rows_cases. destruct (hd false (db.faults d)); [reflexivity|].
  now apply update_where_id_keeps.
Qed.

Lemma UpdateContainerIP_stored_status id0 id ip d :
  option_map db.Status (stored id0 (snd (db.UpdateContainerIP id ip d)))
  = option_map db.Status (stored id0 d).
Proof.
  unfold stored. rewrite UpdateContainerIP_rows_cases.
  destruct (hd false (db.faults d)); [reflexivity|].
  unfold db.update_where_id. induction (db.containers d) as [|row rows IH]; [reflexivity|].
  simpl. destruct (db.ID row =? id)%string; simpl;
    destruct (db.ID row =? id0)%string; simpl; auto.
Qed.

Lemma set_Status_same c : db.set_Status (db.Status c) c = c.
Proof. now destruct c. Qed.

(** C8. Reading a container of the caller answers 200 with a container
    whatever the cluster does.  When the status query fails, the status
    shown is the stored one and no stored status changes; when the
    address query fails, the address shown is the stored one (none) and
    no stored address changes; when neither query brings anything, the
    stored container is returned as it is and no row changes. *)
Theorem read_survives_cluster_failure r u c w :
  Context r = Some u ->
  next_ok (h_db w) = true ->
  stored (PathValue r) (h_db w) = Some c ->
  db.UserID c = InfoUserID u ->
  let cl := k8s.clientset (h_k8s w) in
  let n0 := length (k8s.calls (h_k8s w)) in
  let pod_fails := exists reason,
      k8s.on_get_pod cl n0 (db.Namespace c) = inl reason /\ reason <> NotFound in
  let service_fails := exists reason,
      k8s.on_get_service cl (S n0) (db.Namespace c) = inl reason in
  let resp := fst (GetContainer r w) in
  let w' := snd (GetContainer r w) in
  exists c',
    resp = writeJSON c' /\
    StatusCode resp = 200 /\
    (pod_fails ->
     db.Status c' = db.Status c /\
     map db.Status (db.containers (h_db w')) = map db.Status (db.containers (h_db w))) /\
    (service_fails ->
     db.ExternalIP c' = db.ExternalIP c /\
     map db.ExternalIP (db.containers (h_db w'))
     = map db.ExternalIP (db.containers (h_db w))) /\
    (pod_fails -> service_fails \/ sql.Valid (db.ExternalIP c) = true ->
     c' = c /\ db.containers (h_db w') = db.containers (h_db w)).
Proof.
  intros HC HK HS HU cl n0 pod_fails service_fails resp w'. subst resp w'.
  rewrite GetContainer_on_owned, (on_owned_run _ r u c w HC HK HS HU), get_body_run.
  set (d1 := snd (db.driver (h_db w))).
  change (k8s.clientset (h_k8s (with_db d1 w))) with cl.
  change (length (k8s.calls (h_k8s (with_db d1 w)))) with n0.
  change (h_db (with_db d1 w)) with d1.
  destruct (driver_frame (h_db w)) as (R1 & _ & _). fold d1 in R1.
  simpl fst. simpl snd. cbn [h_db].
  assert (P : pod_fails -> reported cl n0 (db.Namespace c) = None).
  { intros (reason & E & NF). unfold reported. rewrite E.
    destruct reason; congruence. }
  assert (SF : service_fails -> assigned cl (S n0) (db.Namespace c) = None).
  { intros (reason & E). unfold assigned. now rewrite E. }
  eexists. split; [reflexivity|]. split; [reflexivity|].
  unfold reconciled, reconciled_db, address_found.
  split; [|split].
  - intros HP. rewrite (P HP). unfold status_change.
    destruct (sql.Valid (db.ExternalIP c)); [now rewrite R1|].
    destruct (assigned cl (S n0) (db.Namespace c)) as [ip|]; [|now rewrite R1].
    split; [reflexivity|]. now rewrite UpdateContainerIP_keeps_status, R1.
  - intros HF. rewrite (SF HF).
    assert (X : (if sql.Valid (db.ExternalIP c) then @None string else None) = None)
      by now destruct (sql.Valid (db.ExternalIP c)).
    rewrite X.
    destruct (status_change c (reported cl n0 (db.Namespace c))) as [s|];
      [|now rewrite R1].
    split; [reflexivity|]. now rewrite UpdateContainerStatus_keeps_ip, R1.
  - intros HP HF. rewrite (P HP). unfold status_change.
    assert (X : (if sql.Valid (db.ExternalIP c) then None
                 else assigned cl (S n0) (db.Namespace c)) = None).
    { destruct HF as [HF|HF]; [rewrite (SF HF)|rewrite HF]; [|reflexivity].
      now destruct (sql.Valid (db.ExternalIP c)). }
    rewrite X. split; [reflexivity | exact R1].
Qed.

(** C2, as the code has it. On a read of a container of the caller,
    every status the gateway reports without error is shown and stored:
    the phases as "pending", "running", "stopped", "failed", any other
    phase as "unknown", and a missing pod as "not_found".  The stored
    status is kept only when the status query fails.  (The writes are
    taken to execute.) *)
Theorem read_persists_reported_status r u c w :
  Context r = Some u ->
  next_ok (h_db w) = true ->
  stored (PathValue r) (h_db w) = Some c ->
  db.UserID c = InfoUserID u ->
  next_ok (snd (db.driver (h_db w))) = true ->
  let cl := k8s.clientset (h_k8s w) in
  let n0 := length (k8s.calls (h_k8s w)) in
  let rep := reported cl n0 (db.Namespace c) in
  let resp := fst (GetContainer r w) in
  let w' := snd (GetContainer r w) in
  (k8s.on_get_pod cl n0 (db.Namespace c) = inl NotFound -> rep = Some "not_found") /\
  exists c',
    resp = writeJSON c' /\
    match rep with
    | Some s =>
        In s live_statuses /\ db.Status c' = s /\
        option_map db.Status (stored (PathValue r) (h_db w')) = Some s
    | None =>
        db.Status c' = db.Status c /\
        option_map db.Status (stored (PathValue r) (h_db w')) = Some (db.Status c)
    end.
Proof.
  intros HC HK HS HU HK1 cl n0 rep resp w'. subst resp w'.
  split. { intros E. unfold rep, reported. now rewrite E. }
  rewrite GetContainer_on_owned, (on_owned_run _ r u c w HC HK HS HU), get_body_run.
  set (d1 := snd (db.driver (h_db w))) in *.
  change (k8s.clientset (h_k8s (with_db d1 w))) with cl.
  change (length (k8s.calls (h_k8s (with_db d1 w)))) with n0.
  change (h_db (with_db d1 w)) with d1.
  destruct (driver_frame (h_db w)) as (R1 & _ & _). fold d1 in R1.
  assert (S1 : stored (PathValue r) d1 = Some c) by (unfold stored in *; now rewrite R1).
  pose proof (stored_ID _ _ _ HS) as HID.
  simpl fst. simpl snd. cbn [h_db]. fold rep.
  eexists. split; [reflexivity|].
  set (obs := assigned cl (S n0) (db.Namespace c)).
  assert (Shown : forall c1,
    db.Status (match address_found c obs with
               | Some ip => db.set_ExternalIP (sql.mkNullString ip true) c1
               | None => c1
               end) = db.Status c1).
  { intros c1. now destruct (address_found c obs). }
  assert (Kept : forall d,
    option_map db.Status
      (stored (PathValue r)
         (match address_found c obs with
          | Some ip => snd (db.UpdateContainerIP (db.ID c) ip d)
          | None => d
          end))
    = option_map db.Status (stored (PathValue r) d)).
  { intros d. destruct (address_found c obs); [|reflexivity].
    apply UpdateContainerIP_stored_status. }
  unfold reconciled, reconciled_db. rewrite Shown, Kept.
  destruct rep as [s|] eqn:Rep; unfold status_change.
  - split; [now apply (reported_live cl n0 (db.Namespace c))|].
    destruct (s =? db.Status c)%string eqn:Same.
    + apply String.eqb_eq in Same. rewrite S1. simpl. now rewrite Same.
    + split; [reflexivity|].
      unfold stored. rewrite UpdateContainerStatus_rows by assumption.
      rewrite HID, find_update_where_id by reflexivity.
      fold (stored (PathValue r) d1). now rewrite S1.
  - rewrite S1. now split.
Qed.

(** ** Creation *)

Section Creation.

Variable TrimSpace : string -> string.

Lemma CreateContainer_checked r u req :
  Context r = Some u -> Body r = Some req ->
  CreateContainer TrimSpace r
  = create_checked (InfoUserID u) (TrimSpace (ReqName req)) (SSHKeyIDs req)
      (memory_or_default (ReqMemoryMB req)) (storage_or_default (ReqStorageGB req)).
Proof.
  intros HC HB. unfold CreateContainer, getUserFromContext. rewrite HC, HB. reflexivity.
Qed.

Lemma CreateContainer_rejects r w :
  Context r = None \/ Body r = None ->
  StatusCode (fst (CreateContainer TrimSpace r w)) <> 200 /\
  snd (CreateContainer TrimSpace r w) = w.
Proof.
  unfold CreateContainer, getUserFromContext.
  destruct (Context r) as [u|]; simpl.
  - intros [H|H]; [discriminate|]. rewrite H. simpl. split; [lia | reflexivity].
  - intros _. split; [lia | reflexivity].
Qed.

Lemma CountContainersByUser_query userID d :
  db.CountContainersByUser userID d
  = (if hd false (db.faults d)
     then (0, Some (Errorf "count containers" (SqlError DriverFailure)))
     else (live_count userID d, None),
     snd (db.driver d)).
Proof.
  unfold db.CountContainersByUser, live_count, db.driver.
  destruct (db.faults d) as [|[|] rest]; reflexivity.
Qed.

Lemma GetSSHKeysByIDs_query userID ids d :
  ids <> [] ->
  db.GetSSHKeysByIDs userID ids d
  = (if hd false (db.faults d)
     then ([], Some (Errorf "query ssh keys by ids" (SqlError DriverFailure)))
     else (filter (db.selected_key userID ids) (db.ssh_keys d), None),
     snd (db.driver d)).
Proof.
  intros NE. unfold db.GetSSHKeysByIDs, db.driver. destruct ids as [|id ids]; [congruence|].
  destruct (db.faults d) as [|[|] rest]; reflexivity.
Qed.

Lemma CreateContainer_insert ts c d :
  (fst (db.CreateContainer ts c d) = None /\
   db.containers (snd (db.CreateContainer ts c d)) = db.containers d ++ [inserted ts c])
  \/
  (fst (db.CreateContainer ts c d) <> None /\
   db.containers (snd (db.CreateContainer ts c d)) = db.containers d).
Proof.
  unfold db.CreateContainer, db.driver, inserted.
  destruct (db.faults d) as [|[|] rest]; simpl;
    try (right; split; [discriminate | reflexivity]);
    destruct (existsb _ (db.containers d)); simpl;
    try (right; split; [discriminate | reflexivity]);
    left; split; reflexivity.
Qed.

Lemma on_db_run {A} (f : db.DB -> A * db.DB) w :
  on_db f w = (fst (f (h_db w)), with_db (snd (f (h_db w))) w).
Proof. unfold on_db. now destruct (f (h_db w)). Qed.

Ltac refused :=
  simpl; split;
  [ reflexivity
  | left; split; [lia | split; [first [reflexivity | assumption | congruence] | reflexivity]] ].

(** The two ways [CreateContainer] ends: a refusal that leaves rows and
    goroutines as they were, or a new pending row and the provisioning
    goroutine with the user's selected keys in table order. *)
Lemma create_checked_cases userID name ids memoryMB storageGB w :
  let resp := fst (create_checked userID name ids memoryMB storageGB w) in
  let w' := snd (create_checked userID name ids memoryMB storageGB w) in
  h_k8s w' = h_k8s w /\
  ((StatusCode resp <> 200 /\
    db.containers (h_db w') = db.containers (h_db w) /\
    goroutines w' = goroutines w)
   \/
   (let containerID := substring 0 8 (uuid_New w (uuid_drawn w)) in
    let container :=
      db.mkContainer containerID userID name (namespaceName userID containerID)
        "pending" sql.null_string memoryMB storageGB defaultImage 0 sql.null_time in
    let sshKeys := filter (db.selected_key userID ids) (db.ssh_keys (h_db w)) in
    ids <> [] /\
    length sshKeys = length ids /\
    resp = writeJSON container /\
    db.containers (h_db w') = db.containers (h_db w) ++ [inserted (now w) container] /\
    goroutines w' = goroutines w ++ [provisionTask container sshKeys])).
Proof.
  cbv zeta. unfold create_checked.
  destruct (name =? "")%string; [refused|].
  rewrite bind_run, on_db_run, CountContainersByUser_query. cbn [fst snd].
  destruct (driver_frame (h_db w)) as (R1 & K1 & _).
  set (d1 := snd (db.driver (h_db w))) in *.
  destruct (hd false (db.faults (h_db w))); [refused|].
  cbn [is_nil negb].
  destruct (live_count userID (h_db w) >=? maxContainersPerUser); [refused|].
  destruct ids as [|id ids]; [refused|].
  cbn [length Nat.eqb]. rewrite bind_run, on_db_run. cbn [h_db with_db].
  rewrite GetSSHKeysByIDs_query by discriminate. cbn [fst snd].
  destruct (driver_frame d1) as (R2 & K2 & _).
  set (d2 := snd (db.driver d1)) in *.
  destruct (hd false (db.faults d1)); [refused|].
  cbn [is_nil negb]. rewrite K1.
  set (sshKeys := filter (db.selected_key userID (id :: ids)) (db.ssh_keys (h_db w))).
  destruct (length sshKeys =? S (length ids))%nat eqn:Len; [|refused].
  apply Nat.eqb_eq in Len. cbn [negb].
  rewrite bind_run. unfold uuid_New_String. cbn [uuid_New uuid_drawn h_k8s now goroutines].
  rewrite bind_run. unfold current_timestamp. cbn [now].
  rewrite bind_run, on_db_run. cbn [h_db h_k8s now goroutines uuid_New uuid_drawn with_db].
  set (container := db.mkContainer _ _ _ _ _ _ _ _ _ _ _).
  destruct (CreateContainer_insert (now w) container d2) as [(E & R3)|(E & R3)];
    destruct (db.CreateContainer (now w) container d2) as [err d3]; simpl in E, R3.
  - subst err. simpl. split; [reflexivity|]. right.
    repeat split; try assumption; try discriminate. rewrite R3. congruence.
  - destruct err as [e|]; [|congruence]. refused.
Qed.

(** C4. A user who owns [maxContainersPerUser] (3) containers whose
    status is not "deleted", counted by the store when the request
    arrives, cannot create another: the request is refused, no row is
    added, no goroutine is started and the cluster is not contacted.
    When the count executes the answer is 400, with "container limit
    reached (3)" whenever the name is not blank (a blank name is refused
    for the name, before the count). *)
Theorem create_at_cap_is_refused r u req w :
  Context r = Some u ->
  Body r = Some req ->
  maxContainersPerUser <= live_count (InfoUserID u) (h_db w) ->
  let resp := fst (CreateContainer TrimSpace r w) in
  let w' := snd (CreateContainer TrimSpace r w) in
  StatusCode resp <> 200 /\
  db.containers (h_db w') = db.containers (h_db w) /\
  goroutines w' = goroutines w /\
  h_k8s w' = h_k8s w /\
  (next_ok (h_db w) = true ->
   StatusCode resp = 400 /\
   (TrimSpace (ReqName req) <> "" ->
    resp = writeError "container limit reached (3)" 400)).
Proof.
  intros HC HB Cap. cbv zeta. rewrite (CreateContainer_checked r u req HC HB).
  unfold create_checked.
  destruct (String.eqb_spec (TrimSpace (ReqName req)) "") as [Blank|Named].
  - simpl. repeat split; try reflexivity; try lia. intros N. congruence.
  - rewrite bind_run, on_db_run, CountContainersByUser_query. cbn [fst snd].
    destruct (driver_frame (h_db w)) as (Rows & _ & _).
    unfold next_ok.
    destruct (hd false (db.faults (h_db w))); cbn [is_nil negb].
    + simpl. repeat split; try assumption; try lia; discriminate.
    + replace (live_count (InfoUserID u) (h_db w) >=? maxContainersPerUser) with true
        by (symmetry; apply Z.geb_le; exact Cap).
      simpl. repeat split; try assumption; try lia.
Qed.

(** C10. A request whose [memory_mb] or [storage_gb] is zero or negative
    is handled exactly as the same request carrying 512 or 5 in its
    place: same response, same world.  When a row is created, it and the
    response carry the defaulted sizes. *)
Theorem nonpositive_sizes_become_defaults r req w :
  Body r = Some req ->
  let memoryMB := if ReqMemoryMB req <=? 0 then 512 else ReqMemoryMB req in
  let storageGB := if ReqStorageGB req <=? 0 then 5 else ReqStorageGB req in
  let defaulted :=
    mkRequest (Context r) (PathValue r)
      (Some (mkContainerRequest (ReqName req) memoryMB storageGB (SSHKeyIDs req))) in
  let resp := fst (CreateContainer TrimSpace r w) in
  let w' := snd (CreateContainer TrimSpace r w) in
  CreateContainer TrimSpace r w = CreateContainer TrimSpace defaulted w /\
  ((StatusCode resp <> 200 /\ db.containers (h_db w') = db.containers (h_db w))
   \/
   (exists c row,
      resp = writeJSON c /\
      db.MemoryMB c = memoryMB /\ db.StorageGB c = storageGB /\
      db.containers (h_db w') = db.containers (h_db w) ++ [row] /\
      db.MemoryMB row = memoryMB /\ db.StorageGB row = storageGB)).
Proof.
  intros HB. cbv zeta.
  destruct (Context r) as [u|] eqn:HC.
  - rewrite (CreateContainer_checked r u req HC HB).
    rewrite (CreateContainer_checked
               (mkRequest (Some u) (PathValue r)
                  (Some (mkContainerRequest (ReqName req)
                           (if ReqMemoryMB req <=? 0 then 512 else ReqMemoryMB req)
                           (if ReqStorageGB req <=? 0 then 5 else ReqStorageGB req)
                           (SSHKeyIDs req)))) u _ eq_refl eq_refl).
    simpl.
    unfold memory_or_default, storage_or_default, defaultMemoryMB, defaultStorageGB.
    split.
    + f_equal.
      * destruct (Z.leb_spec (ReqMemoryMB req) 0) as [L|L]; [reflexivity|].
        now destruct (Z.leb_spec (ReqMemoryMB req) 0); [lia|].
      * destruct (Z.leb_spec (ReqStorageGB req) 0) as [L|L]; [reflexivity|].
        now destruct (Z.leb_spec (ReqStorageGB req) 0); [lia|].
    + destruct (create_checked_cases (InfoUserID u) (TrimSpace (ReqName req))
                  (SSHKeyIDs req)
                  (if ReqMemoryMB req <=? 0 then 512 else ReqMemoryMB req)
                  (if ReqStorageGB req <=? 0 then 5 else ReqStorageGB req) w)
        as (_ & [(Code & Rows & _)|(_ & _ & Resp & Rows & _)]).
      * left. now split.
      * right. eexists _, _. split; [exact Resp|].
        split; [reflexivity|]. split; [reflexivity|]. split; [exact Rows|].
        split; reflexivity.
  - destruct (CreateContainer_rejects r w (or_introl HC)) as (Code & Same).
    split.
    + unfold CreateContainer, getUserFromContext. rewrite HC. reflexivity.
    + left. rewrite Same. now split.
Qed.

End Creation.

(** ** The SSH secret *)

Lemma append_assoc (a b c : string) : ((a ++ b) ++ c = a ++ (b ++ c))%string.
Proof. induction a as [|ch a IH]; simpl; [reflexivity | now rewrite IH]. Qed.

Lemma append_empty_r (a : string) : (a ++ "")%string = a.
Proof. induction a as [|ch a IH]; simpl; [reflexivity | now rewrite IH]. Qed.

Lemma authorized_keys_lines sshKeys : forall built,
  authorized_keys built sshKeys = (built ++ key_lines sshKeys)%string.
Proof.
  induction sshKeys as [|key rest IH]; intros built; simpl.
  - now rewrite append_empty_r.
  - rewrite IH, !append_assoc. reflexivity.
Qed.

Lemma attempt_second cl n step1 step2 rest :
  create_fails cl n step1 = false ->
  exists more, fst (attempt cl n (step1 :: step2 :: rest)) = step1 :: step2 :: more.
Proof.
  intros F. simpl. rewrite F. destruct (create_fails cl (S n) step2).
  - eexists; reflexivity.
  - destruct (attempt cl (S (S n)) rest). eexists; reflexivity.
Qed.

(** When the namespace step succeeds, the second request of
    [provisionContainer] is the secret. *)
Lemma provision_second_request container sshKeys w :
  let cl := k8s.clientset (h_k8s w) in
  let n0 := length (k8s.calls (h_k8s w)) in
  create_fails cl n0
    (k8s.Create (k8s.namespaceObject (db.Namespace container) (db.UserID container)
                   (db.ID container))) = false ->
  nth_error (k8s.calls (h_k8s (snd (provisionContainer container sshKeys w)))) (S n0)
  = Some (now w,
          k8s.Create (k8s.secretObject (db.Namespace container) (key_lines sshKeys))).
Proof.
  intros cl n0 First. rewrite provisionContainer_run. fold cl n0.
  assert (Tried : exists more,
    fst (attempt cl n0 (provision_steps container sshKeys))
    = k8s.Create (k8s.namespaceObject (db.Namespace container) (db.UserID container)
                    (db.ID container))
      :: k8s.Create (k8s.secretObject (db.Namespace container) (key_lines sshKeys))
      :: more).
  { unfold provision_steps. rewrite (authorized_keys_lines sshKeys "").
    now apply attempt_second. }
  destruct Tried as (more & Tried).
  destruct (sending_all_frame (fst (attempt cl n0 (provision_steps container sshKeys))) w)
    as (_ & _ & _ & _ & L).
  assert (Calls : forall final : M unit,
    (forall v, h_k8s (snd (final v)) = h_k8s v) ->
    k8s.calls (h_k8s (snd (final
      (sending_all (fst (attempt cl n0 (provision_steps container sshKeys))) w))))
    = k8s.calls (h_k8s w)
      ++ map (pair (now w)) (fst (attempt cl n0 (provision_steps container sshKeys)))).
  { intros final Hf. now rewrite Hf. }
  rewrite Calls.
  - rewrite Tried. simpl map. rewrite nth_error_app2 by (fold n0; lia).
    fold n0. replace (S n0 - n0)%nat with 1%nat by lia. reflexivity.
  - intros v. destruct (snd (attempt cl n0 _)); unfold bind, on_db, go, ret;
      destruct (db.UpdateContainerStatus _ _ (h_db v)); reflexivity.
Qed.

Lemma selected_key_same_ids userID ids ids' key :
  (forall id, In id ids' <-> In id ids) ->
  db.selected_key userID ids' key = db.selected_key userID ids key.
Proof.
  intros Same. unfold db.selected_key. f_equal.
  destruct (existsb (Z.eqb (db.KeyID key)) ids) eqn:E.
  - apply existsb_exists in E. destruct E as (id & I & E).
    apply existsb_exists. exists id. split; [now apply Same | exact E].
  - destruct (existsb (Z.eqb (db.KeyID key)) ids') eqn:E'; [|reflexivity].
    apply existsb_exists in E'. destruct E' as (id & I & E').
    assert (X : existsb (Z.eqb (db.KeyID key)) ids = true)
      by (apply existsb_exists; exists id; split; [now apply Same | exact E']).
    congruence.
Qed.

Lemma primary_key_unique (table : list db.SSHKey) a b :
  NoDup (map db.KeyID table) ->
  In a table -> In b table -> db.KeyID a = db.KeyID b -> a = b.
Proof.
  induction table as [|k table IH]; simpl; intros ND Ia Ib E; [contradiction|].
  inversion ND as [|? ? Fresh ND']; subst.
  destruct Ia as [<-|Ia], Ib as [<-|Ib]; auto.
  - exfalso. apply Fresh. rewrite E. now apply in_map.
  - exfalso. apply Fresh. rewrite <- E. now apply in_map.
Qed.

Lemma key_lines_in_request_order (table : list db.SSHKey) userID :
  NoDup (map db.KeyID table) ->
  forall sshKeys,
    (forall key, In key sshKeys -> In key table /\ db.KeyUserID key = userID) ->
    key_lines sshKeys = lines_in_request_order table userID (map db.KeyID sshKeys).
Proof.
  intros ND. induction sshKeys as [|key rest IH]; intros Sel; simpl; [reflexivity|].
  destruct (Sel key (or_introl eq_refl)) as (I & U).
  destruct (find _ table) as [found|] eqn:F.
  - apply find_some in F. destruct F as (If & Ef).
    apply andb_true_iff in Ef. destruct Ef as (Ef & _). apply Z.eqb_eq in Ef.
    rewrite (primary_key_unique table found key ND If I Ef).
    rewrite append_assoc, IH; [reflexivity|].
    intros k Ik. apply Sel. now right.
  - exfalso. apply (find_none _ _ F) in I. simpl in I.
    rewrite U, !Z.eqb_refl in I. discriminate.
Qed.

Section SSHSecret.

Variable TrimSpace : string -> string.

(** C3, as the code has it. For an accepted request the provisioning
    goroutine receives the caller's keys whose id is in the request, in
    the order of the [ssh_keys] table, one row per requested id; the
    secret it creates (its second request, sent when the namespace step
    succeeds) holds their public-key lines, each followed by a newline,
    in that table order.  Listing the same ids in another order selects
    the same rows in the same order; when the ids come in table order
    (and ids are unique in the table) the lines are in request order. *)
Theorem ssh_secret_lists_keys_in_table_order r u req w :
  Context r = Some u ->
  Body r = Some req ->
  StatusCode (fst (CreateContainer TrimSpace r w)) = 200 ->
  let table := db.ssh_keys (h_db w) in
  let sshKeys := filter (db.selected_key (InfoUserID u) (SSHKeyIDs req)) table in
  SSHKeyIDs req <> [] /\
  length sshKeys = length (SSHKeyIDs req) /\
  (exists container,
     goroutines (snd (CreateContainer TrimSpace r w))
     = goroutines w ++ [provisionTask container sshKeys] /\
     forall w2,
       create_fails (k8s.clientset (h_k8s w2)) (length (k8s.calls (h_k8s w2)))
         (k8s.Create (k8s.namespaceObject (db.Namespace container)
                        (db.UserID container) (db.ID container))) = false ->
       nth_error (k8s.calls (h_k8s (snd (provisionContainer container sshKeys w2))))
         (S (length (k8s.calls (h_k8s w2))))
       = Some (now w2,
               k8s.Create (k8s.secretObject (db.Namespace container)
                             (key_lines sshKeys)))) /\
  (forall ids',
     (forall id, In id ids' <-> In id (SSHKeyIDs req)) ->
     filter (db.selected_key (InfoUserID u) ids') table = sshKeys) /\
  (NoDup (map db.KeyID table) ->
   map db.KeyID sshKeys = SSHKeyIDs req ->
   key_lines sshKeys
   = lines_in_request_order table (InfoUserID u) (SSHKeyIDs req)).
Proof.
  intros HC HB Ok table sshKeys.
  rewrite (CreateContainer_checked TrimSpace r u req HC HB) in *.
  destruct (create_checked_cases (InfoUserID u) (TrimSpace (ReqName req))
              (SSHKeyIDs req) (memory_or_default (ReqMemoryMB req))
              (storage_or_default (ReqStorageGB req)) w)
    as (_ & [(Code & _)|(NE & Len & _ & _ & Go)]); [congruence|].
  split; [exact NE|]. split; [exact Len|]. split; [|split].
  - eexists. split; [exact Go|].
    intros w2 First. now apply provision_second_request.
  - intros ids' Same. apply filter_ext. intros key.
    now apply selected_key_same_ids.
  - intros ND Ordered. rewrite <- Ordered.
    apply key_lines_in_request_order; [exact ND|].
    intros key I. apply filter_In in I. destruct I as (I & Sel).
    split; [exact I|]. unfold db.selected_key in Sel.
    apply andb_true_iff in Sel. now apply Z.eqb_eq.
Qed.

End SSHSecret.

(** * Properties of the rest of the container surface *)

(** ** Listing *)

Section NewestFirstFacts.

Context {Row : Type} (created_at : Row -> Z).

Lemma newest_first_insert_perm r sorted :
  Permutation (r :: sorted) (newest_first_insert created_at r sorted).
Proof.
  induction sorted as [|s rest IH]; simpl; [reflexivity|].
  destruct (created_at s <=? created_at r); [reflexivity|].
  rewrite perm_swap. now constructor.
Qed.

Lemma order_by_created_at_desc_perm rows :
  Permutation rows (order_by_created_at_desc created_at rows).
Proof.
  induction rows as [|r rows IH]; simpl; [constructor|].
  rewrite <- newest_first_insert_perm. now constructor.
Qed.

Lemma newest_first_insert_sorted r sorted :
  Sorted (newer_or_equal created_at) sorted ->
  Sorted (newer_or_equal created_at) (newest_first_insert created_at r sorted).
Proof.
  induction sorted as [|s rest IH]; intros HS; simpl.
  - repeat constructor.
  - destruct (Z.leb_spec (created_at s) (created_at r)) as [L|L].
    + constructor; [exact HS|]. constructor. exact L.
    + inversion HS as [|? ? HS' Hd]; subst.
      constructor; [now apply IH|].
      destruct rest as [|s2 rest]; simpl.
      * constructor. unfold newer_or_equal. lia.
      * destruct (created_at s2 <=? created_at r).
        -- constructor. unfold newer_or_equal. lia.
        -- inversion Hd; subst. now constructor.
Qed.

Lemma order_by_created_at_desc_sorted rows :
  Sorted (newer_or_equal created_at) (order_by_created_at_desc created_at rows).
Proof.
  induction rows as [|r rows IH]; simpl; [constructor|].
  now apply newest_first_insert_sorted.
Qed.

End NewestFirstFacts.

Lemma list_rows_unchanged r w :
  db.containers (h_db (snd (listing.ListContainers r w))) = db.containers (h_db w).
Proof.
  unfold listing.ListContainers. destruct (getUserFromContext r); [|reflexivity].
  rewrite bind_run, on_db_run. unfold listing.ListContainersByUser.
  destruct (driver_frame (h_db w)) as (R1 & _).
  destruct (db.driver (h_db w)) as [[|] d1]; simpl in *; exact R1.
Qed.

(** ListContainers. For a caller whose query executes the answer is 200
    with the responses of exactly the caller's rows, each once (a
    permutation of the rows of the table that carry the caller's id),
    newest first, with the stored status and address.  Whatever the
    outcome, nothing is sent to the cluster, no row changes and no
    goroutine starts. *)
Theorem list_shows_the_callers_rows_newest_first r w :
  let resp := fst (listing.ListContainers r w) in
  let w' := snd (listing.ListContainers r w) in
  h_k8s w' = h_k8s w /\
  db.containers (h_db w') = db.containers (h_db w) /\
  goroutines w' = goroutines w /\
  forall u,
    Context r = Some u ->
    next_ok (h_db w) = true ->
    exists rows,
      resp = listing.mkListResponse 200
               (listing.ContainersJSON (map containerToResponse rows)) /\
      Permutation rows
        (filter (fun c => db.UserID c =? InfoUserID u) (db.containers (h_db w))) /\
      Sorted (newer_or_equal db.CreatedAt) rows /\
      (forall c, In c rows <-> In c (db.containers (h_db w)) /\ db.UserID c = InfoUserID u).
Proof.
  cbv zeta. unfold listing.ListContainers, getUserFromContext.
  destruct (Context r) as [u0|]; simpl.
  2: { repeat split; try reflexivity. intros u E. discriminate. }
  rewrite bind_run, on_db_run. unfold listing.ListContainersByUser.
  destruct (driver_frame (h_db w)) as (R1 & _ & F1).
  unfold next_ok.
  assert (Fault : fst (db.driver (h_db w)) = hd false (db.faults (h_db w))).
  { unfold db.driver. now destruct (db.faults (h_db w)). }
  destruct (db.driver (h_db w)) as [fault d1]. simpl in R1, Fault. subst fault.
  destruct (hd false (db.faults (h_db w))); simpl.
  - repeat split; try assumption. intros u _ E. discriminate.
  - repeat split; try assumption. intros u [= <-] _. rewrite R1.
    eexists. split; [reflexivity|]. split; [|split].
    + symmetry. apply order_by_created_at_desc_perm.
    + apply order_by_created_at_desc_sorted.
    + intros c. rewrite <- (Permutation_in' (eq_refl c) (order_by_created_at_desc_perm _ _)).
      rewrite filter_In, Z.eqb_eq. reflexivity.
Qed.

(** ** Start and delete *)

Lemma CreatePod_run namespace image memoryMB w :
  let call := k8s.Create (k8s.podObject namespace image memoryMB) in
  exists err,
    on_k8s (k8s.CreatePod namespace image memoryMB) w = (err, sending call w) /\
    is_nil err = negb (create_fails (k8s.clientset (h_k8s w))
                         (length (k8s.calls (h_k8s w))) call).
Proof. apply (create_or_ignore_run "create pod"). Qed.

Lemma DeleteNamespace_run name w :
  let call := k8s.Delete k8s.Namespaces "" name in
  exists err,
    on_k8s (k8s.DeleteNamespace name) w = (err, sending call w) /\
    is_nil err = negb (delete_fails (k8s.clientset (h_k8s w))
                         (length (k8s.calls (h_k8s w))) call).
Proof.
  unfold on_k8s, k8s.DeleteNamespace, k8s.write, delete_fails, sending.
  destruct (k8s.on_write _ _ _) as [[| |reason]|]; simpl; eexists; split; reflexivity.
Qed.

Lemma DeleteContainer_rows id d :
  db.containers (snd (db.DeleteContainer id d))
  = (if hd false (db.faults d) then db.containers d
     else filter (fun r => negb (db.ID r =? id)%string) (db.containers d)) /\
  is_nil (fst (db.DeleteContainer id d)) = negb (hd false (db.faults d)).
Proof.
  unfold db.DeleteContainer, db.driver.
  destruct (db.faults d) as [|[|] rest]; split; reflexivity.
Qed.

Lemma stored_after_delete id rows :
  find (fun r => (db.ID r =? id)%string)
    (filter (fun r => negb (db.ID r =? id)%string) rows) = None.
Proof.
  induction rows as [|r rows IH]; simpl; [reflexivity|].
  destruct (db.ID r =? id)%string eqn:E; simpl; [exact IH|]. now rewrite E.
Qed.

(** StartContainer. Starting a container of the caller sends one
    request, the creation of the pod with the stored image and memory.
    When the pod is created or exists already the answer shows "pending"
    and the store is asked to set that status (the row has it, all else
    equal, when the statement executes); the stored [stopped_at] is not
    cleared.  When the creation fails the answer is 500 and no row
    changes. *)
Theorem start_recreates_only_the_pod r u c w :
  Context r = Some u ->
  next_ok (h_db w) = true ->
  stored (PathValue r) (h_db w) = Some c ->
  db.UserID c = InfoUserID u ->
  let call := k8s.Create (k8s.podObject (db.Namespace c) (db.Image c) (db.MemoryMB c)) in
  let failed := create_fails (k8s.clientset (h_k8s w)) (length (k8s.calls (h_k8s w))) call in
  let d1 := snd (db.driver (h_db w)) in
  let resp := fst (StartContainer r w) in
  let w' := snd (StartContainer r w) in
  k8s.calls (h_k8s w') = k8s.calls (h_k8s w) ++ [(now w, call)] /\
  goroutines w' = goroutines w /\
  (failed = false ->
   resp = writeJSON (db.set_Status "pending" c) /\
   h_db w' = snd (db.UpdateContainerStatus (PathValue r) "pending" d1) /\
   (next_ok d1 = true ->
    db.containers (h_db w')
    = map (fun row => if (db.ID row =? PathValue r)%string
                      then db.set_Status "pending" row else row)
        (db.containers (h_db w)))) /\
  (failed = true ->
   resp = writeError "failed to start container" 500 /\
   db.containers (h_db w') = db.containers (h_db w)).
Proof.
  intros HC HK HS HU call failed d1 resp w'. subst resp w'.
  rewrite StartContainer_on_owned, (on_owned_run _ r u c w HC HK HS HU).
  fold d1. unfold start_body. rewrite bind_run.
  destruct (CreatePod_run (db.Namespace c) (db.Image c) (db.MemoryMB c) (with_db d1 w))
    as (err & E & N).
  rewrite E. clear E. fold call in N |- *.
  change (k8s.clientset (h_k8s (with_db d1 w))) with (k8s.clientset (h_k8s w)) in N.
  change (k8s.calls (h_k8s (with_db d1 w))) with (k8s.calls (h_k8s w)) in N.
  fold failed in N.
  destruct (driver_frame (h_db w)) as (R1 & _ & _). fold d1 in R1.
  destruct err as [e|]; simpl in N.
  - simpl. split; [reflexivity|]. split; [reflexivity|]. split.
    + intros F. rewrite F in N. discriminate.
    + intros _. split; [reflexivity | exact R1].
  - simpl. unfold bind, on_db. simpl.
    destruct (db.UpdateContainerStatus (PathValue r) "pending" d1) as [e d2] eqn:U.
    simpl. split; [reflexivity|]. split; [reflexivity|]. split.
    + intros _. split; [reflexivity|]. split; [reflexivity|].
      intros H. pose proof (UpdateContainerStatus_rows (PathValue r) "pending" d1 H) as X.
      rewrite U in X. simpl in X. rewrite X, R1. reflexivity.
    + intros F. destruct failed; discriminate.
Qed.

(** DeleteContainer. Deleting a container of the caller first deletes
    its namespace, the only request sent.  When the cluster refuses, the
    answer is 500 and the row stays.  When the namespace is deleted or
    is already gone, the row is deleted: if that statement executes the
    answer is 200, the rows of that id are gone (a lookup finds nothing)
    and every other row is as before; if it does not, the answer is 500
    and the row stays although the namespace is gone. *)
Theorem delete_removes_the_namespace_then_the_row r u c w :
  Context r = Some u ->
  next_ok (h_db w) = true ->
  stored (PathValue r) (h_db w) = Some c ->
  db.UserID c = InfoUserID u ->
  let call := k8s.Delete k8s.Namespaces "" (db.Namespace c) in
  let refused := delete_fails (k8s.clientset (h_k8s w)) (length (k8s.calls (h_k8s w))) call in
  let d1 := snd (db.driver (h_db w)) in
  let resp := fst (DeleteContainer r w) in
  let w' := snd (DeleteContainer r w) in
  k8s.calls (h_k8s w') = k8s.calls (h_k8s w) ++ [(now w, call)] /\
  goroutines w' = goroutines w /\
  (refused = true ->
   resp = writeError "failed to delete container" 500 /\
   db.containers (h_db w') = db.containers (h_db w)) /\
  (refused = false -> next_ok d1 = true ->
   resp = mkResponse 200 StatusOkJSON /\
   db.containers (h_db w')
   = filter (fun row => negb (db.ID row =? PathValue r)%string) (db.containers (h_db w)) /\
   stored (PathValue r) (h_db w') = None) /\
  (refused = false -> next_ok d1 = false ->
   resp = writeError "internal error" 500 /\
   db.containers (h_db w') = db.containers (h_db w)).
Proof.
  intros HC HK HS HU call refused d1 resp w'. subst resp w'.
  rewrite DeleteContainer_on_owned, (on_owned_run _ r u c w HC HK HS HU).
  fold d1. unfold delete_body. rewrite bind_run.
  destruct (DeleteNamespace_run (db.Namespace c) (with_db d1 w)) as (err & E & N).
  rewrite E. clear E. fold call in N |- *.
  change (k8s.clientset (h_k8s (with_db d1 w))) with (k8s.clientset (h_k8s w)) in N.
  change (k8s.calls (h_k8s (with_db d1 w))) with (k8s.calls (h_k8s w)) in N.
  fold refused in N.
  destruct (driver_frame (h_db w)) as (R1 & _ & _). fold d1 in R1.
  destruct err as [e|]; simpl in N.
  - simpl. split; [reflexivity|]. split; [reflexivity|]. split; [|split].
    + intros _. split; [reflexivity | exact R1].
    + intros F. rewrite F in N. discriminate.
    + intros F. rewrite F in N. discriminate.
  - cbn [is_nil negb]. rewrite bind_run, on_db_run.
    change (h_db (sending call (with_db d1 w))) with d1.
    destruct (DeleteContainer_rows (PathValue r) d1) as (Rows & Nil).
    unfold next_ok.
    destruct (hd false (db.faults d1)); rewrite Nil; simpl.
    + split; [reflexivity|]. split; [reflexivity|]. split; [|split].
      * intros F. destruct refused; discriminate.
      * intros _ F. discriminate.
      * intros _ _. split; [reflexivity|]. now rewrite Rows.
    + split; [reflexivity|]. split; [reflexivity|]. split; [|split].
      * intros F. destruct refused; discriminate.
      * intros _ _. split; [reflexivity|]. rewrite Rows, R1.
        split; [reflexivity|]. unfold stored. rewrite Rows, R1.
        apply stored_after_delete.
      * intros _ F. discriminate.
Qed.

(** ** Stop, then start *)

Lemma driver_idle d : db.faults d = [] -> db.driver d = (false, d).
Proof. unfold db.driver. now intros ->. Qed.

Lemma stop_body_run r c w :
  let call := k8s.Delete k8s.Pods (db.Namespace c) "container" in
  stop_body r c w
  = if delete_fails (k8s.clientset (h_k8s w)) (length (k8s.calls (h_k8s w))) call
    then (writeError "failed to stop container" 500, sending call w)
    else (writeJSON (db.set_Status "stopped" c),
          with_db (snd (db.UpdateContainerStopped (now w) (PathValue r) (h_db w)))
            (sending call w)).
Proof.
  intros call. unfold stop_body. rewrite bind_run.
  destruct (DeletePod_run (db.Namespace c) w) as (err & E & N).
  rewrite E. clear E. fold call in N |- *.
  destruct (delete_fails _ _ call); destruct err as [e|]; try discriminate; simpl.
  - reflexivity.
  - unfold bind, current_timestamp, on_db. simpl.
    now destruct (db.UpdateContainerStopped (now w) (PathValue r) (h_db w)).
Qed.

Lemma start_body_run r c w :
  let call := k8s.Create (k8s.podObject (db.Namespace c) (db.Image c) (db.MemoryMB c)) in
  start_body r c w
  = if create_fails (k8s.clientset (h_k8s w)) (length (k8s.calls (h_k8s w))) call
    then (writeError "failed to start container" 500, sending call w)
    else (writeJSON (db.set_Status "pending" c),
          with_db (snd (db.UpdateContainerStatus (PathValue r) "pending" (h_db w)))
            (sending call w)).
Proof.
  intros call. unfold start_body. rewrite bind_run.
  destruct (CreatePod_run (db.Namespace c) (db.Image c) (db.MemoryMB c) w)
    as (err & E & N).
  rewrite E. clear E. fold call in N |- *.
  destruct (create_fails _ _ call); destruct err as [e|]; try discriminate; simpl.
  - reflexivity.
  - unfold bind, on_db. simpl.
    now destruct (db.UpdateContainerStatus (PathValue r) "pending" (h_db w)).
Qed.

Lemma UpdateContainerStopped_idle ts id d :
  db.faults d = [] ->
  db.UpdateContainerStopped ts id d
  = (None, db.set_containers
             (db.update_where_id id
                (fun r => db.set_StoppedAt (sql.mkNullTime ts true)
                            (db.set_Status "stopped" r))
                (db.containers d)) d).
Proof. intros F. unfold db.UpdateContainerStopped. now rewrite (driver_idle d F). Qed.

Lemma UpdateContainerStatus_idle id status d :
  db.faults d = [] ->
  db.UpdateContainerStatus id status d
  = (None, db.set_containers
             (db.update_where_id id (db.set_Status status) (db.containers d)) d).
Proof. intros F. unfold db.UpdateContainerStatus. now rewrite (driver_idle d F). Qed.

(** Stop, then start. With a store that executes every statement and a
    cluster that accepts both requests, stopping and then starting a
    container of the caller sends two requests in all, the delete of
    the pod and the creation of the pod with the stored image and
    memory; the row ends "pending" and keeps the [stopped_at] of the
    stop; every other row is as before. *)
Theorem stop_then_start_touches_only_the_pod r u c w :
  Context r = Some u ->
  db.faults (h_db w) = [] ->
  stored (PathValue r) (h_db w) = Some c ->
  db.UserID c = InfoUserID u ->
  let cl := k8s.clientset (h_k8s w) in
  let n0 := length (k8s.calls (h_k8s w)) in
  let stop := k8s.Delete k8s.Pods (db.Namespace c) "container" in
  let start := k8s.Create (k8s.podObject (db.Namespace c) (db.Image c) (db.MemoryMB c)) in
  delete_fails cl n0 stop = false ->
  create_fails cl (S n0) start = false ->
  let restarted row :=
    db.set_Status "pending"
      (db.set_StoppedAt (sql.mkNullTime (now w) true) (db.set_Status "stopped" row)) in
  let w1 := snd (StopContainer r w) in
  let w2 := snd (StartContainer r w1) in
  k8s.calls (h_k8s w2) = k8s.calls (h_k8s w) ++ [(now w, stop); (now w, start)] /\
  fst (StopContainer r w) = writeJSON (db.set_Status "stopped" c) /\
  fst (StartContainer r w1) = writeJSON (restarted c) /\
  db.containers (h_db w2)
  = map (fun row => if (db.ID row =? PathValue r)%string then restarted row else row)
      (db.containers (h_db w)) /\
  stored (PathValue r) (h_db w2) = Some (restarted c).
Proof.
  intros HC HF HS HU cl n0 stop start Stop Start restarted w1 w2. subst w1 w2.
  assert (HK : next_ok (h_db w) = true) by (unfold next_ok; now rewrite HF).
  rewrite StopContainer_on_owned, (on_owned_run _ r u c w HC HK HS HU).
  rewrite (driver_idle _ HF). cbn [snd].
  replace (with_db (h_db w) w) with w by now destruct w.
  rewrite stop_body_run. fold cl n0 stop. rewrite Stop.
  rewrite (UpdateContainerStopped_idle _ _ _ HF). cbn [fst snd].
  set (stopped := fun row => db.set_StoppedAt (sql.mkNullTime (now w) true)
                               (db.set_Status "stopped" row)).
  set (rows1 := db.update_where_id (PathValue r) stopped (db.containers (h_db w))).
  set (w1 := with_db (db.set_containers rows1 (h_db w)) (sending stop w)).
  assert (F1 : db.faults (h_db w1) = []) by exact HF.
  assert (K1 : next_ok (h_db w1) = true) by (unfold next_ok; now rewrite F1).
  assert (S1 : stored (PathValue r) (h_db w1) = Some (stopped c)).
  { unfold stored, w1, rows1. simpl.
    rewrite find_update_where_id by reflexivity.
    fold (stored (PathValue r) (h_db w)). now rewrite HS. }
  rewrite StartContainer_on_owned,
    (on_owned_run _ r u (stopped c) w1 HC K1 S1 HU).
  rewrite (driver_idle _ F1). cbn [snd].
  replace (with_db (h_db w1) w1) with w1 by reflexivity.
  rewrite start_body_run.
  change (k8s.clientset (h_k8s w1)) with cl.
  assert (L1 : length (k8s.calls (h_k8s w1)) = S n0).
  { unfold w1. simpl. rewrite length_app. simpl. unfold n0. lia. }
  rewrite L1. change (db.Namespace (stopped c)) with (db.Namespace c).
  change (db.Image (stopped c)) with (db.Image c).
  change (db.MemoryMB (stopped c)) with (db.MemoryMB c).
  fold start. rewrite Start.
  rewrite (UpdateContainerStatus_idle _ _ _ F1). cbn [fst snd].
  split; [|split; [|split; [|split]]].
  - simpl. rewrite <- app_assoc. reflexivity.
  - reflexivity.
  - reflexivity.
  - simpl. unfold rows1, db.update_where_id. rewrite map_map. apply map_ext.
    intros row. destruct (db.ID row =? PathValue r)%string eqn:E; simpl; now rewrite E.
  - unfold stored in S1 |- *. simpl in S1 |- *.
    rewrite find_update_where_id by reflexivity. now rewrite S1.
Qed.

(** ** Creation: the new row and the counts *)

Lemma CreateContainer_fresh ts c d :
  fst (db.CreateContainer ts c d) = None ->
  stored (db.ID c) d = None.
Proof.
  unfold db.CreateContainer, stored, db.driver.
  destruct (db.faults d) as [|[|] rest]; simpl; try discriminate;
    destruct (existsb _ (db.containers d)) eqn:E; simpl; try discriminate; intros _.
  - destruct (find _ (db.containers d)) as [found|] eqn:F; [|reflexivity].
    apply find_some in F. destruct F as (I & Q).
    assert (X : existsb (fun r => (db.ID r =? db.ID c)%string) (db.containers d) = true)
      by (apply existsb_exists; now exists found).
    congruence.
  - destruct (find _ (db.containers d)) as [found|] eqn:F; [|reflexivity].
    apply find_some in F. destruct F as (I & Q).
    assert (X : existsb (fun r => (db.ID r =? db.ID c)%string) (db.containers d) = true)
      by (apply existsb_exists; now exists found).
    congruence.
Qed.

Lemma stored_same_rows id d d' :
  db.containers d' = db.containers d -> stored id d' = stored id d.
Proof. unfold stored. now intros ->. Qed.

(** What an accepted creation went through. *)
Lemma create_checked_accepted userID name ids memoryMB storageGB w :
  StatusCode (fst (create_checked userID name ids memoryMB storageGB w)) = 200 ->
  name <> "" /\
  live_count userID (h_db w) < maxContainersPerUser /\
  stored (substring 0 8 (uuid_New w (uuid_drawn w))) (h_db w) = None.
Proof.
  unfold create_checked.
  destruct (String.eqb_spec name ""); [simpl; discriminate|].
  rewrite bind_run, on_db_run, CountContainersByUser_query. cbn [fst snd].
  destruct (driver_frame (h_db w)) as (R1 & K1 & _).
  set (d1 := snd (db.driver (h_db w))) in *.
  destruct (hd false (db.faults (h_db w))); [simpl; discriminate|].
  cbn [is_nil negb].
  destruct (Z.geb_spec (live_count userID (h_db w)) maxContainersPerUser);
    [simpl; discriminate|].
  destruct ids as [|id ids]; [simpl; discriminate|].
  cbn [length Nat.eqb]. rewrite bind_run, on_db_run. cbn [h_db with_db].
  rewrite GetSSHKeysByIDs_query by discriminate. cbn [fst snd].
  destruct (driver_frame d1) as (R2 & K2 & _).
  set (d2 := snd (db.driver d1)) in *.
  destruct (hd false (db.faults d1)); [simpl; discriminate|].
  cbn [is_nil negb].
  destruct (length _ =? S (length ids))%nat; [|simpl; discriminate].
  cbn [negb].
  rewrite bind_run. unfold uuid_New_String. cbn [uuid_New uuid_drawn h_k8s now goroutines].
  rewrite bind_run. unfold current_timestamp. cbn [now].
  rewrite bind_run, on_db_run. cbn [h_db h_k8s now goroutines uuid_New uuid_drawn with_db].
  set (container := db.mkContainer _ _ _ _ _ _ _ _ _ _ _).
  pose proof (CreateContainer_fresh (now w) container d2) as Fresh.
  destruct (db.CreateContainer (now w) container d2) as [[e|] d3]; cbn [fst snd] in *;
    [simpl; discriminate|].
  intros _. split; [assumption|]. split; [lia|].
  rewrite <- (stored_same_rows _ (h_db w) d2) by congruence.
  exact (Fresh eq_refl).
Qed.

Lemma stored_app_fresh id row (d d' : db.DB) :
  db.containers d' = db.containers d ++ [row] ->
  stored (db.ID row) d = None ->
  stored id d' = if (db.ID row =? id)%string then Some row else stored id d.
Proof.
  unfold stored. intros -> Fresh.
  induction (db.containers d) as [|r rest IH]; simpl in *.
  - now destruct (db.ID row =? id)%string.
  - destruct (db.ID r =? db.ID row)%string eqn:E; [discriminate|].
    destruct (db.ID r =? id)%string eqn:E2.
    + apply String.eqb_eq in E2. subst id.
      rewrite String.eqb_sym, E. reflexivity.
    + now apply IH.
Qed.

Lemma live_count_app userID (d d' : db.DB) row :
  db.containers d' = db.containers d ++ [row] ->
  live_count userID d'
  = live_count userID d + (if db.live_of userID row then 1 else 0).
Proof.
  unfold live_count. intros ->. rewrite filter_app, length_app. simpl.
  destruct (db.live_of userID row); simpl; lia.
Qed.

Lemma live_count_same userID (d d' : db.DB) :
  db.containers d' = db.containers d -> live_count userID d' = live_count userID d.
Proof. unfold live_count. now intros ->. Qed.

Section CreationMore.

Variable TrimSpace : string -> string.

Lemma accepted_creation_row r u req w :
  Context r = Some u ->
  Body r = Some req ->
  StatusCode (fst (CreateContainer TrimSpace r w)) = 200 ->
  let id := substring 0 8 (uuid_New w (uuid_drawn w)) in
  exists row shown,
    stored id (h_db (snd (CreateContainer TrimSpace r w))) = Some row /\
    db.UserID row = InfoUserID u /\
    fst (CreateContainer TrimSpace r w) = writeJSON shown /\
    db.ID shown = id.
Proof.
  intros HC HB Ok id.
  rewrite (CreateContainer_checked TrimSpace r u req HC HB) in *.
  destruct (create_checked_accepted _ _ _ _ _ _ Ok) as (_ & _ & Fresh). fold id in Fresh.
  destruct (create_checked_cases (InfoUserID u) (TrimSpace (ReqName req))
              (SSHKeyIDs req) (memory_or_default (ReqMemoryMB req))
              (storage_or_default (ReqStorageGB req)) w)
    as (_ & [(Code & _)|(_ & _ & Resp & Rows & _)]); [congruence|].
  fold id in Resp, Rows.
  eexists. eexists. split; [|split; [|split; [exact Resp | reflexivity]]].
  - rewrite (stored_app_fresh id _ _ _ Rows Fresh). cbn [db.ID inserted].
    now rewrite String.eqb_refl.
  - reflexivity.
Qed.

(** [%d] prints the decimal numeral of its argument, and a number has
    one decimal numeral only. *)
Lemma itoa_decimal n : decimal_of (itoa n) n.
Proof.
  exists (Z.to_int n). split; [|split].
  - unfold itoa. apply NilZero.isi; intros E;
      pose proof (DecimalZ.of_to n) as B; rewrite E in B; simpl in B;
      subst n; discriminate.
  - pose proof (DecimalZ.to_of (Z.to_int n)) as T.
    rewrite DecimalZ.of_to in T. now symmetry.
  - apply DecimalZ.of_to.
Qed.

Lemma decimal_of_unique digits n : decimal_of digits n -> digits = itoa n.
Proof.
  intros (d & Read & Norm & <-). unfold itoa.
  rewrite DecimalZ.to_of, Norm. symmetry. now apply NilZero.sis.
Qed.

(** C5. The namespace of a container is [compute-{userID}-{containerID}]
    with the user id as its decimal numeral.  An accepted creation
    stores the new row, under the generated id and with the caller as
    owner, with the namespace made of "compute-", the decimal numeral of
    the caller's id, "-" and the generated id, and hands the provisioning
    goroutine a container with the same id, owner and namespace.  The
    name depends on the pair only: whatever the request, the body and
    the state of the service, an accepted creation by the same user
    that generates the same id stores the same namespace.  The helper
    itself maps every pair to that string, the numeral being the only
    one the user id has; for user 7 and id 0a1b2c3d it is
    compute-7-0a1b2c3d. *)
Theorem namespace_is_a_function_of_user_and_id r u req w :
  Context r = Some u ->
  Body r = Some req ->
  StatusCode (fst (CreateContainer TrimSpace r w)) = 200 ->
  let id := substring 0 8 (uuid_New w (uuid_drawn w)) in
  let w' := snd (CreateContainer TrimSpace r w) in
  (exists digits row container sshKeys,
     decimal_of digits (InfoUserID u) /\
     stored id (h_db w') = Some row /\
     db.ID row = id /\
     db.UserID row = InfoUserID u /\
     db.Namespace row = ("compute-" ++ digits ++ "-" ++ id)%string /\
     goroutines w' = goroutines w ++ [provisionTask container sshKeys] /\
     db.ID container = id /\
     db.UserID container = InfoUserID u /\
     db.Namespace container = db.Namespace row) /\
  (forall r2 u2 req2 w2 row row2,
     Context r2 = Some u2 ->
     Body r2 = Some req2 ->
     StatusCode (fst (CreateContainer TrimSpace r2 w2)) = 200 ->
     InfoUserID u2 = InfoUserID u ->
     substring 0 8 (uuid_New w2 (uuid_drawn w2)) = id ->
     stored id (h_db w') = Some row ->
     stored id (h_db (snd (CreateContainer TrimSpace r2 w2))) = Some row2 ->
     db.Namespace row2 = db.Namespace row) /\
  (forall userID containerID,
     exists digits,
       decimal_of digits userID /\
       (forall other, decimal_of other userID -> other = digits) /\
       namespaceName userID containerID
       = ("compute-" ++ digits ++ "-" ++ containerID)%string) /\
  namespaceName 7 "0a1b2c3d" = "compute-7-0a1b2c3d" /\
  namespaceName 1042 "9f8e7d6c" = "compute-1042-9f8e7d6c" /\
  namespaceName 0 "" = "compute-0-".
Proof.
  assert (Stored : forall r u req w,
            Context r = Some u -> Body r = Some req ->
            StatusCode (fst (CreateContainer TrimSpace r w)) = 200 ->
            exists row container sshKeys,
              stored (substring 0 8 (uuid_New w (uuid_drawn w)))
                (h_db (snd (CreateContainer TrimSpace r w))) = Some row /\
              db.ID row = substring 0 8 (uuid_New w (uuid_drawn w)) /\
              db.UserID row = InfoUserID u /\
              db.Namespace row
              = namespaceName (InfoUserID u) (substring 0 8 (uuid_New w (uuid_drawn w))) /\
              goroutines (snd (CreateContainer TrimSpace r w))
              = goroutines w ++ [provisionTask container sshKeys] /\
              db.ID container = substring 0 8 (uuid_New w (uuid_drawn w)) /\
              db.UserID container = InfoUserID u /\
              db.Namespace container = db.Namespace row).
  { clear. intros r u req w HC HB Ok.
    rewrite (CreateContainer_checked TrimSpace r u req HC HB) in *.
    destruct (create_checked_accepted _ _ _ _ _ _ Ok) as (_ & _ & Fresh).
    destruct (create_checked_cases (InfoUserID u) (TrimSpace (ReqName req))
                (SSHKeyIDs req) (memory_or_default (ReqMemoryMB req))
                (storage_or_default (ReqStorageGB req)) w)
      as (_ & [(Code & _)|(_ & _ & _ & Rows & Go)]); [congruence|].
    eexists. eexists. eexists. split; [|split; [|split; [|split; [|split; [exact Go|]]]]].
    - rewrite (stored_app_fresh _ _ _ _ Rows Fresh). cbn [db.ID inserted].
      now rewrite String.eqb_refl.
    - reflexivity.
    - reflexivity.
    - reflexivity.
    - now repeat split. }
  intros HC HB Ok id w'. subst w'.
  split; [|split; [|split; [|now repeat split]]].
  - destruct (Stored r u req w HC HB Ok)
      as (row & container & sshKeys & Here & Id & User & Name & Go & Id' & User' & Name').
    fold id in Here, Id, Name, Id'.
    exists (itoa (InfoUserID u)), row, container, sshKeys.
    split; [apply itoa_decimal|]. now repeat split.
  - intros r2 u2 req2 w2 row row2 HC2 HB2 Ok2 Same Id2 Here Here2.
    destruct (Stored r u req w HC HB Ok) as (x & _ & _ & Hx & _ & _ & Nx & _).
    destruct (Stored r2 u2 req2 w2 HC2 HB2 Ok2) as (y & _ & _ & Hy & _ & _ & Ny & _).
    fold id in Hx, Nx. rewrite Id2 in Hy, Ny. rewrite Same in Ny.
    rewrite Hx in Here. rewrite Hy in Here2.
    injection Here as <-. injection Here2 as <-. congruence.
  - intros userID containerID. exists (itoa userID).
    split; [apply itoa_decimal|]. split; [|reflexivity].
    intros other. apply decimal_of_unique.
Qed.

Lemma owner_reads_200 r u c w :
  Context r = Some u ->
  next_ok (h_db w) = true ->
  stored (PathValue r) (h_db w) = Some c ->
  db.UserID c = InfoUserID u ->
  StatusCode (fst (GetContainer r w)) = 200.
Proof.
  intros HC HK HS HU.
  rewrite GetContainer_on_owned, (on_owned_run _ r u c w HC HK HS HU), get_body_run.
  reflexivity.
Qed.

(** Creation and lookup. An accepted creation stores the new row under
    an id no row had, pending, without address, with the caller as
    owner, the trimmed name, the namespace of owner and id and the
    insertion time; the response names that id; the rows of all other
    ids are as before.  The owner's next read of that id is answered
    with the container (200), anybody else's with 404. *)
Theorem created_container_is_stored_under_a_fresh_id r u req w :
  Context r = Some u ->
  Body r = Some req ->
  StatusCode (fst (CreateContainer TrimSpace r w)) = 200 ->
  let id := substring 0 8 (uuid_New w (uuid_drawn w)) in
  let w' := snd (CreateContainer TrimSpace r w) in
  let row :=
    db.mkContainer id (InfoUserID u) (TrimSpace (ReqName req))
      (namespaceName (InfoUserID u) id) "pending" sql.null_string
      (memory_or_default (ReqMemoryMB req)) (storage_or_default (ReqStorageGB req))
      defaultImage (now w) sql.null_time in
  stored id (h_db w) = None /\
  stored id (h_db w') = Some row /\
  (exists shown, fst (CreateContainer TrimSpace r w) = writeJSON shown /\ db.ID shown = id) /\
  (forall other, other <> id -> stored other (h_db w') = stored other (h_db w)) /\
  (forall r2 u2,
     Context r2 = Some u2 -> PathValue r2 = id -> next_ok (h_db w') = true ->
     StatusCode (fst (GetContainer r2 w'))
     = if InfoUserID u2 =? InfoUserID u then 200 else 404).
Proof.
  intros HC HB Ok id w' row. subst w'.
  rewrite (CreateContainer_checked TrimSpace r u req HC HB) in *.
  destruct (create_checked_accepted _ _ _ _ _ _ Ok) as (_ & _ & Fresh). fold id in Fresh.
  destruct (create_checked_cases (InfoUserID u) (TrimSpace (ReqName req))
              (SSHKeyIDs req) (memory_or_default (ReqMemoryMB req))
              (storage_or_default (ReqStorageGB req)) w)
    as (_ & [(Code & _)|(_ & _ & Resp & Rows & _)]); [congruence|].
  fold id in Resp, Rows.
  change (inserted (now w) _) with row in Rows.
  pose proof (fun other => stored_app_fresh other row _ _ Rows Fresh)
    as Look. change (db.ID row) with id in Look.
  assert (Here : stored id
                   (h_db (snd (create_checked (InfoUserID u) (TrimSpace (ReqName req))
                                 (SSHKeyIDs req) (memory_or_default (ReqMemoryMB req))
                                 (storage_or_default (ReqStorageGB req)) w))) = Some row)
    by (rewrite Look; now rewrite String.eqb_refl).
  split; [exact Fresh|]. split; [exact Here|]. split; [|split].
  - eexists. split; [exact Resp | reflexivity].
  - intros other NE. rewrite Look.
    destruct (String.eqb_spec id other); [congruence | reflexivity].
  - intros r2 u2 HC2 HP HK. rewrite GetContainer_on_owned.
    rewrite <- HP in Here.
    destruct (Z.eqb_spec (InfoUserID u2) (InfoUserID u)) as [Same|Other].
    + rewrite (on_owned_run _ r2 u2 row _ HC2 HK Here (eq_sym Same)), get_body_run.
      reflexivity.
    + rewrite (on_owned_foreign _ r2 u2 _ HC2).
      * unfold next_ok in HK. apply negb_true_iff in HK. now rewrite HK.
      * intros c E. rewrite Here in E. injection E as <-. simpl. congruence.
Qed.

Lemma create_checked_paused userID name ids memoryMB storageGB w :
  create_checked userID name ids memoryMB storageGB w
  = bind (create_paused userID name ids memoryMB storageGB) resume w.
Proof.
  unfold create_checked, create_paused.
  destruct (name =? "")%string; [reflexivity|].
  rewrite !bind_run.
  destruct (on_db (db.CountContainersByUser userID) w) as [[count err] w1].
  destruct (negb (is_nil err)); [reflexivity|].
  destruct (count >=? maxContainersPerUser); reflexivity.
Qed.

Lemma CreateContainer_paused_resumed r w :
  CreateContainer TrimSpace r w = bind (CreateContainer_paused TrimSpace r) resume w.
Proof.
  destruct (Context r) as [u|] eqn:HC; [destruct (Body r) as [req|] eqn:HB|].
  - rewrite (CreateContainer_checked TrimSpace r u req HC HB), create_checked_paused.
    unfold CreateContainer_paused, getUserFromContext. now rewrite HC, HB.
  - unfold CreateContainer, CreateContainer_paused, getUserFromContext.
    now rewrite HC, HB.
  - unfold CreateContainer, CreateContainer_paused, getUserFromContext.
    now rewrite HC.
Qed.

Lemma create_paused_admits userID name ids memoryMB storageGB w :
  name <> "" ->
  db.faults (h_db w) = [] ->
  live_count userID (h_db w) < maxContainersPerUser ->
  create_paused userID name ids memoryMB storageGB w
  = (inr (create_admitted userID name ids memoryMB storageGB), w).
Proof.
  intros Name Idle Below. unfold create_paused.
  destruct (String.eqb_spec name ""); [contradiction|].
  rewrite bind_run, on_db_run, CountContainersByUser_query.
  rewrite (driver_idle _ Idle), Idle. cbn [fst snd hd is_nil negb].
  destruct (Z.geb_spec (live_count userID (h_db w)) maxContainersPerUser); [lia|].
  replace (with_db (h_db w) w) with w by now destruct w.
  reflexivity.
Qed.

Lemma create_admitted_stores userID name ids memoryMB storageGB w :
  db.faults (h_db w) = [] ->
  ids <> [] ->
  length (filter (db.selected_key userID ids) (db.ssh_keys (h_db w))) = length ids ->
  stored (substring 0 8 (uuid_New w (uuid_drawn w))) (h_db w) = None ->
  let containerID := substring 0 8 (uuid_New w (uuid_drawn w)) in
  let container :=
    db.mkContainer containerID userID name (namespaceName userID containerID)
      "pending" sql.null_string memoryMB storageGB defaultImage 0 sql.null_time in
  let w' := snd (create_admitted userID name ids memoryMB storageGB w) in
  fst (create_admitted userID name ids memoryMB storageGB w) = writeJSON container /\
  db.containers (h_db w') = db.containers (h_db w) ++ [inserted (now w) container] /\
  db.ssh_keys (h_db w') = db.ssh_keys (h_db w) /\
  db.faults (h_db w') = [] /\
  uuid_New w' = uuid_New w /\
  uuid_drawn w' = S (uuid_drawn w).
Proof.
  intros Idle Ids Len Fresh. cbv zeta. unfold create_admitted.
  destruct ids as [|id ids]; [congruence|]. cbn [length Nat.eqb].
  rewrite bind_run, on_db_run, GetSSHKeysByIDs_query by discriminate.
  rewrite (driver_idle _ Idle), Idle. cbn [fst snd hd is_nil negb].
  rewrite Len. cbn [length]. rewrite Nat.eqb_refl. cbn [negb].
  replace (with_db (h_db w) w) with w by now destruct w.
  rewrite bind_run. unfold uuid_New_String. cbn [fst snd].
  rewrite bind_run. unfold current_timestamp. cbn [fst snd now].
  rewrite bind_run, on_db_run. cbn [h_db].
  unfold db.CreateContainer. rewrite (driver_idle _ Idle). cbn [db.ID].
  assert (X : existsb
                (fun r => (db.ID r =? substring 0 8 (uuid_New w (uuid_drawn w)))%string)
                (db.containers (h_db w)) = false).
  { destruct (existsb _ _) eqn:X; [|reflexivity].
    apply existsb_exists in X. destruct X as (row & I & E).
    unfold stored in Fresh. apply (find_none _ _ Fresh) in I. simpl in I. congruence. }
  rewrite X. simpl. rewrite Idle. repeat split.
Qed.

(** Creation and the counts, request by request.  In one run of
    [CreateContainer], from its count to its insert with no statement of
    another request in between, a user's number of live containers
    changes only by acceptance: any answer but 200 leaves every count as
    it was; a 200 is given only when the count the handler read was
    below 3, and adds one to the caller's count and to nobody else's.
    The count and the insert are two statements and nothing holds the
    table between them.  The handler is its part up to the cap check
    followed by the rest; when the handlers of two requests of one user
    both pass the cap check before either inserts (the store executing
    every statement, names not blank, keys found, identifiers fresh and
    distinct), both are answered 200 and the user's count grows by two:
    from 2 it reaches 4, above the cap. *)
Theorem create_raises_only_the_callers_count r w userID :
  let resp := fst (CreateContainer TrimSpace r w) in
  let w' := snd (CreateContainer TrimSpace r w) in
  (StatusCode resp <> 200 -> live_count userID (h_db w') = live_count userID (h_db w)) /\
  (StatusCode resp = 200 ->
   exists u,
     Context r = Some u /\
     live_count (InfoUserID u) (h_db w) < maxContainersPerUser /\
     live_count userID (h_db w')
     = live_count userID (h_db w) + (if userID =? InfoUserID u then 1 else 0)) /\
  CreateContainer TrimSpace r w = bind (CreateContainer_paused TrimSpace r) resume w /\
  (forall u req r2 u2 req2,
     Context r = Some u -> Body r = Some req ->
     Context r2 = Some u2 -> Body r2 = Some req2 ->
     InfoUserID u2 = InfoUserID u ->
     db.faults (h_db w) = [] ->
     TrimSpace (ReqName req) <> "" ->
     TrimSpace (ReqName req2) <> "" ->
     live_count (InfoUserID u) (h_db w) < maxContainersPerUser ->
     SSHKeyIDs req <> [] ->
     SSHKeyIDs req2 <> [] ->
     length (filter (db.selected_key (InfoUserID u) (SSHKeyIDs req))
               (db.ssh_keys (h_db w))) = length (SSHKeyIDs req) ->
     length (filter (db.selected_key (InfoUserID u) (SSHKeyIDs req2))
               (db.ssh_keys (h_db w))) = length (SSHKeyIDs req2) ->
     let id1 := substring 0 8 (uuid_New w (uuid_drawn w)) in
     let id2 := substring 0 8 (uuid_New w (S (uuid_drawn w))) in
     stored id1 (h_db w) = None ->
     stored id2 (h_db w) = None ->
     id1 <> id2 ->
     let both :=
       overlapped (CreateContainer_paused TrimSpace r)
         (CreateContainer_paused TrimSpace r2) w in
     StatusCode (fst (fst both)) = 200 /\
     StatusCode (snd (fst both)) = 200 /\
     live_count (InfoUserID u) (h_db (snd both))
     = live_count (InfoUserID u) (h_db w) + 2 /\
     (live_count (InfoUserID u) (h_db w) = maxContainersPerUser - 1 ->
      maxContainersPerUser < live_count (InfoUserID u) (h_db (snd both)))).
Proof.
  cbv zeta. split; [|split; [|split; [apply CreateContainer_paused_resumed|]]].
  - destruct (Context r) as [u|] eqn:HC; [destruct (Body r) as [req|] eqn:HB|].
    + rewrite (CreateContainer_checked TrimSpace r u req HC HB).
      destruct (create_checked_cases (InfoUserID u) (TrimSpace (ReqName req))
                  (SSHKeyIDs req) (memory_or_default (ReqMemoryMB req))
                  (storage_or_default (ReqStorageGB req)) w)
        as (_ & [(Code & Rows & _)|(_ & _ & Resp & Rows & _)]).
      * intros _. exact (live_count_same _ _ _ Rows).
      * rewrite Resp. intros NE. exfalso. now apply NE.
    + destruct (CreateContainer_rejects TrimSpace r w (or_intror HB)) as (Code & Same).
      now rewrite Same.
    + destruct (CreateContainer_rejects TrimSpace r w (or_introl HC)) as (Code & Same).
      now rewrite Same.
  - destruct (Context r) as [u|] eqn:HC; [destruct (Body r) as [req|] eqn:HB|].
    + rewrite (CreateContainer_checked TrimSpace r u req HC HB).
      pose proof (create_checked_accepted (InfoUserID u) (TrimSpace (ReqName req))
                    (SSHKeyIDs req) (memory_or_default (ReqMemoryMB req))
                    (storage_or_default (ReqStorageGB req)) w) as Acc.
      destruct (create_checked_cases (InfoUserID u) (TrimSpace (ReqName req))
                  (SSHKeyIDs req) (memory_or_default (ReqMemoryMB req))
                  (storage_or_default (ReqStorageGB req)) w)
        as (_ & [(Code & Rows & _)|(_ & _ & Resp & Rows & _)]).
      * intros E. congruence.
      * intros Ok. destruct (Acc Ok) as (_ & Below & _).
        rewrite (live_count_app _ _ _ _ Rows). unfold db.live_of, inserted. simpl.
        rewrite Z.eqb_sym.
        exists u. split; [reflexivity|]. split; [exact Below|].
        destruct (userID =? InfoUserID u); reflexivity.
    + destruct (CreateContainer_rejects TrimSpace r w (or_intror HB)) as (Code & Same).
      intros E. congruence.
    + destruct (CreateContainer_rejects TrimSpace r w (or_introl HC)) as (Code & Same).
      intros E. congruence.
  - intros u req r2 u2 req2 HC HB HC2 HB2 Same Idle Name Name2 Below Ids Ids2 Len Len2
      Fresh1 Fresh2 Distinct.
    unfold overlapped, CreateContainer_paused, getUserFromContext.
    rewrite HC, HB, HC2, HB2. cbn [option_map]. rewrite Same.
    rewrite bind_run, (create_paused_admits _ _ _ _ _ w Name Idle Below).
    rewrite bind_run, (create_paused_admits _ _ _ _ _ w Name2 Idle Below).
    cbn [resume]. rewrite bind_run.
    destruct (create_admitted_stores (InfoUserID u) (TrimSpace (ReqName req))
                (SSHKeyIDs req) (memory_or_default (ReqMemoryMB req))
                (storage_or_default (ReqStorageGB req)) w Idle Ids Len Fresh1)
      as (Resp1 & Rows1 & Keys1 & Idle1 & New1 & Drawn1).
    destruct (create_admitted (InfoUserID u) (TrimSpace (ReqName req)) (SSHKeyIDs req)
                (memory_or_default (ReqMemoryMB req))
                (storage_or_default (ReqStorageGB req)) w) as [resp1 w1] eqn:Run1.
    cbn [fst snd] in Resp1, Rows1, Keys1, Idle1, New1, Drawn1.
    rewrite bind_run.
    assert (Fresh2' : stored (substring 0 8 (uuid_New w1 (uuid_drawn w1))) (h_db w1) = None).
    { rewrite New1, Drawn1. rewrite (stored_app_fresh _ _ _ _ Rows1).
      - cbn [db.ID inserted].
        destruct (String.eqb_spec (substring 0 8 (uuid_New w (uuid_drawn w)))
                    (substring 0 8 (uuid_New w (S (uuid_drawn w)))));
          [contradiction | exact Fresh2].
      - exact Fresh1. }
    rewrite <- Keys1 in Len2.
    destruct (create_admitted_stores (InfoUserID u) (TrimSpace (ReqName req2))
                (SSHKeyIDs req2) (memory_or_default (ReqMemoryMB req2))
                (storage_or_default (ReqStorageGB req2)) w1 Idle1 Ids2 Len2 Fresh2')
      as (Resp2 & Rows2 & _).
    destruct (create_admitted (InfoUserID u) (TrimSpace (ReqName req2)) (SSHKeyIDs req2)
                (memory_or_default (ReqMemoryMB req2))
                (storage_or_default (ReqStorageGB req2)) w1) as [resp2 w2] eqn:Run2.
    cbn [fst snd] in Resp2, Rows2. unfold ret. cbn [fst snd].
    assert (Count : live_count (InfoUserID u) (h_db w2)
                    = live_count (InfoUserID u) (h_db w) + 2).
    { rewrite (live_count_app _ _ _ _ Rows2), (live_count_app _ _ _ _ Rows1).
      unfold db.live_of, inserted. simpl. rewrite Z.eqb_refl. simpl. lia. }
    split; [now rewrite Resp1|]. split; [now rewrite Resp2|]. split; [exact Count|].
    intros At. rewrite Count. lia.
Qed.

End CreationMore.

(** ** Deletion and the counts *)

Lemma delete_body_run r c w :
  let call := k8s.Delete k8s.Namespaces "" (db.Namespace c) in
  delete_body r c w
  = if delete_fails (k8s.clientset (h_k8s w)) (length (k8s.calls (h_k8s w))) call
    then (writeError "failed to delete container" 500, sending call w)
    else (if hd false (db.faults (h_db w))
          then writeError "internal error" 500
          else mkResponse 200 StatusOkJSON,
          with_db (snd (db.DeleteContainer (PathValue r) (h_db w))) (sending call w)).
Proof.
  intros call. unfold delete_body. rewrite bind_run.
  destruct (DeleteNamespace_run (db.Namespace c) w) as (err & E & N).
  rewrite E. clear E. fold call in N |- *.
  destruct (delete_fails _ _ call); destruct err as [e|]; try discriminate; simpl.
  - reflexivity.
  - rewrite bind_run, on_db_run. change (h_db (sending call w)) with (h_db w).
    destruct (DeleteContainer_rows (PathValue r) (h_db w)) as (_ & Nil).
    destruct (fst (db.DeleteContainer (PathValue r) (h_db w))) as [e|];
      simpl in Nil; apply (f_equal negb) in Nil; rewrite negb_involutive in Nil;
      simpl in Nil; rewrite <- Nil; reflexivity.
Qed.

Lemma filter_other_ids id rows :
  ~ In id (map db.ID rows) ->
  filter (fun r => negb (db.ID r =? id)%string) rows = rows.
Proof.
  induction rows as [|r rows IH]; simpl; intros NI; [reflexivity|].
  destruct (String.eqb_spec (db.ID r) id) as [E|E]; simpl.
  - exfalso. apply NI. now left.
  - rewrite IH; [reflexivity|]. intros I. apply NI. now right.
Qed.

Lemma count_without_row id rows c (p : db.Container -> bool) :
  NoDup (map db.ID rows) ->
  find (fun r => (db.ID r =? id)%string) rows = Some c ->
  (length (filter p (filter (fun r => negb (db.ID r =? id)%string) rows))
   + (if p c then 1 else 0)
   = length (filter p rows))%nat.
Proof.
  induction rows as [|r rows IH]; simpl; intros ND F; [discriminate|].
  inversion ND as [|? ? Fresh ND']; subst.
  destruct (String.eqb_spec (db.ID r) id) as [E|E]; simpl.
  - injection F as ->. rewrite filter_other_ids by now rewrite <- E.
    destruct (p c); simpl; lia.
  - specialize (IH ND' F). destruct (p r); simpl; lia.
Qed.

(** Deletion and the counts. In a table without duplicate ids, a
    deletion that goes through (the cluster accepts, the statements
    execute) lowers the owner's count of live containers by one, unless
    the row was marked "deleted", and leaves every other user's count
    as it was. *)
Theorem delete_frees_one_slot r u c w userID :
  Context r = Some u ->
  next_ok (h_db w) = true ->
  stored (PathValue r) (h_db w) = Some c ->
  db.UserID c = InfoUserID u ->
  NoDup (map db.ID (db.containers (h_db w))) ->
  delete_fails (k8s.clientset (h_k8s w)) (length (k8s.calls (h_k8s w)))
    (k8s.Delete k8s.Namespaces "" (db.Namespace c)) = false ->
  next_ok (snd (db.driver (h_db w))) = true ->
  live_count userID (h_db (snd (DeleteContainer r w)))
  = live_count userID (h_db w)
    - (if (userID =? InfoUserID u) && negb (db.Status c =? "deleted")%string
       then 1 else 0).
Proof.
  intros HC HK HS HU ND Accepts HK1.
  rewrite DeleteContainer_on_owned, (on_owned_run _ r u c w HC HK HS HU), delete_body_run.
  set (d1 := snd (db.driver (h_db w))) in *.
  change (k8s.clientset (h_k8s (with_db d1 w))) with (k8s.clientset (h_k8s w)).
  change (k8s.calls (h_k8s (with_db d1 w))) with (k8s.calls (h_k8s w)).
  rewrite Accepts. cbn [snd h_db with_db].
  destruct (driver_frame (h_db w)) as (R1 & _ & _). fold d1 in R1.
  destruct (DeleteContainer_rows (PathValue r) d1) as (Rows & _).
  unfold next_ok in HK1. apply negb_true_iff in HK1. rewrite HK1 in Rows.
  unfold live_count. rewrite Rows, R1.
  pose proof (count_without_row (PathValue r) (db.containers (h_db w)) c
                (db.live_of userID) ND HS) as Count.
  unfold db.live_of in Count at 2. rewrite HU, (Z.eqb_sym (InfoUserID u)) in Count.
  destruct ((userID =? InfoUserID u) && negb (db.Status c =? "deleted")%string); lia.
Qed.

(** ** What no operation does to the table *)

Lemma keeps_refl c : keeps c c.
Proof. unfold keeps. repeat split; auto. Qed.

Lemma keeps_trans a b c : keeps a b -> keeps b c -> keeps a c.
Proof.
  unfold keeps. intros (A1 & A2 & A3 & A4 & A5 & A6 & A7 & A8 & A9)
    (B1 & B2 & B3 & B4 & B5 & B6 & B7 & B8 & B9).
  repeat split; try congruence.
  destruct B9 as [B9|B9]; [|now right]. rewrite B9. exact A9.
Qed.

Lemma evolves_refl rows : evolves rows rows.
Proof.
  split; [|auto]. intros new I. left. exists new. split; [exact I | apply keeps_refl].
Qed.

Lemma evolves_trans rows1 rows2 rows3 :
  evolves rows1 rows2 -> evolves rows2 rows3 -> evolves rows1 rows3.
Proof.
  intros (S12 & N12) (S23 & N23). split; [|auto].
  intros new I. destruct (S23 new I) as [(mid & Im & K)|Made]; [|now right].
  destruct (S12 mid Im) as [(old & Io & K0)|(NS0 & St0)].
  - left. exists old. split; [exact Io | now apply (keeps_trans old mid new)].
  - right. destruct K as (K1 & K2 & _ & K4 & _ & _ & _ & _ & K9). split.
    + rewrite K4, K2, K1. exact NS0.
    + destruct K9 as [K9|K9]; [now rewrite K9 | exact K9].
Qed.

Lemma evolves_same rows rows' : rows' = rows -> evolves rows rows'.
Proof. intros ->. apply evolves_refl. Qed.

Lemma map_ID_update_where_id id f rows :
  (forall r, db.ID (f r) = db.ID r) ->
  map db.ID (db.update_where_id id f rows) = map db.ID rows.
Proof. intros Hf. now apply update_where_id_keeps. Qed.

Lemma evolves_update id f rows :
  (forall r, keeps r (f r)) ->
  evolves rows (db.update_where_id id f rows).
Proof.
  intros Hf. split.
  - intros new I. apply update_where_id_in in I. destruct I as (old & Io & ->).
    left. exists old. split; [exact Io|].
    destruct (db.ID old =? id)%string; [apply Hf | apply keeps_refl].
  - rewrite map_ID_update_where_id; [auto|]. intros r. apply (Hf r).
Qed.

Lemma NoDup_map_filter {A B} (f : A -> B) (p : A -> bool) l :
  NoDup (map f l) -> NoDup (map f (filter p l)).
Proof.
  induction l as [|a l IH]; simpl; intros ND; [constructor|].
  inversion ND as [|? ? Fresh ND']; subst.
  destruct (p a); simpl; [|auto]. constructor; [|auto].
  intros I. apply Fresh. apply in_map_iff in I. destruct I as (x & E & Ix).
  apply filter_In in Ix. apply in_map_iff. exists x. tauto.
Qed.

Lemma evolves_filter p rows : evolves rows (filter p rows).
Proof.
  split.
  - intros new I. apply filter_In in I. left. exists new.
    split; [tauto | apply keeps_refl].
  - apply NoDup_map_filter.
Qed.

Lemma stored_none_fresh id (d : db.DB) :
  stored id d = None -> ~ In id (map db.ID (db.containers d)).
Proof.
  unfold stored. intros F I. apply in_map_iff in I. destruct I as (r & E & I).
  apply (find_none _ _ F) in I. simpl in I. rewrite E, String.eqb_refl in I. discriminate.
Qed.

Lemma evolves_insert rows row :
  created row -> ~ In (db.ID row) (map db.ID rows) ->
  evolves rows (rows ++ [row]).
Proof.
  intros Made Fresh. split.
  - intros new I. apply in_app_or in I. destruct I as [I|[<-|[]]].
    + left. exists new. split; [exact I | apply keeps_refl].
    + now right.
  - intros ND. rewrite map_app. simpl.
    apply NoDup_app; [exact ND | repeat constructor; intros [] |].
    intros x Ix [<-|[]]. now apply Fresh.
Qed.

Lemma live_status (s : string) : In s live_statuses -> forall c, keeps c (db.set_Status s c).
Proof. intros I c. unfold keeps. simpl. repeat split; auto. Qed.

Lemma UpdateContainerStatus_evolves id status d :
  In status live_statuses ->
  evolves (db.containers d) (db.containers (snd (db.UpdateContainerStatus id status d))).
Proof.
  intros I. rewrite UpdateContainerStatus_rows_cases.
  destruct (hd false (db.faults d)); [apply evolves_refl|].
  apply evolves_update. now apply live_status.
Qed.

Lemma UpdateContainerIP_evolves id ip d :
  evolves (db.containers d) (db.containers (snd (db.UpdateContainerIP id ip d))).
Proof.
  rewrite UpdateContainerIP_rows_cases.
  destruct (hd false (db.faults d)); [apply evolves_refl|].
  apply evolves_update. intros r. unfold keeps. simpl. repeat split; auto.
Qed.

Lemma UpdateContainerStopped_evolves ts id d :
  evolves (db.containers d) (db.containers (snd (db.UpdateContainerStopped ts id d))).
Proof.
  unfold db.UpdateContainerStopped, db.driver.
  destruct (db.faults d) as [|[|] rest]; simpl; try apply evolves_refl;
    apply evolves_update; intros r; unfold keeps, live_statuses; simpl;
    repeat split; auto.
Qed.

Lemma DeleteContainer_evolves id d :
  evolves (db.containers d) (db.containers (snd (db.DeleteContainer id d))).
Proof.
  destruct (DeleteContainer_rows id d) as (-> & _).
  destruct (hd false (db.faults d)); [apply evolves_refl | apply evolves_filter].
Qed.

Lemma driver_evolves d : evolves (db.containers d) (db.containers (snd (db.driver d))).
Proof. apply evolves_same. apply driver_frame. Qed.

Lemma on_owned_evolves body r w :
  (forall c v, evolves (db.containers (h_db v)) (db.containers (h_db (snd (body c v))))) ->
  evolves (db.containers (h_db w)) (db.containers (h_db (snd (on_owned body r w)))).
Proof.
  intros Hb. unfold on_owned. destruct (getUserFromContext r) as [userID|];
    [|apply evolves_refl].
  rewrite bind_run, on_db_run, GetContainer_query. cbn [fst snd].
  pose proof (driver_evolves (h_db w)) as D.
  destruct (hd false (db.faults (h_db w))); simpl; [exact D|].
  destruct (stored (PathValue r) (h_db w)) as [c|]; [|exact D].
  destruct (negb (db.UserID c =? userID)); [exact D|].
  eapply evolves_trans; [exact D|]. apply (Hb c (with_db _ w)).
Qed.

Lemma stop_body_evolves r c v :
  evolves (db.containers (h_db v)) (db.containers (h_db (snd (stop_body r c v)))).
Proof.
  rewrite stop_body_run. destruct (delete_fails _ _ _); [apply evolves_refl|].
  apply UpdateContainerStopped_evolves.
Qed.

Lemma start_body_evolves r c v :
  evolves (db.containers (h_db v)) (db.containers (h_db (snd (start_body r c v)))).
Proof.
  rewrite start_body_run. destruct (create_fails _ _ _); [apply evolves_refl|].
  apply UpdateContainerStatus_evolves. simpl. tauto.
Qed.

Lemma delete_body_evolves r c v :
  evolves (db.containers (h_db v)) (db.containers (h_db (snd (delete_body r c v)))).
Proof.
  rewrite delete_body_run. destruct (delete_fails _ _ _); [apply evolves_refl|].
  apply DeleteContainer_evolves.
Qed.

Lemma get_body_evolves c v :
  evolves (db.containers (h_db v)) (db.containers (h_db (snd (get_body c v)))).
Proof.
  rewrite get_body_run. cbn [snd h_db]. unfold reconciled_db.
  set (rep := reported _ _ _). set (obs := assigned _ _ _).
  assert (First : evolves (db.containers (h_db v))
                    (db.containers
                       match status_change c rep with
                       | Some s => snd (db.UpdateContainerStatus (db.ID c) s (h_db v))
                       | None => h_db v
                       end)).
  { unfold status_change. destruct rep as [s|] eqn:R; [|apply evolves_refl].
    destruct (s =? db.Status c)%string; [apply evolves_refl|].
    apply UpdateContainerStatus_evolves. now apply (reported_live _ _ _ _ R). }
  destruct (address_found c obs); [|exact First].
  eapply evolves_trans; [exact First | apply UpdateContainerIP_evolves].
Qed.

Lemma provisionContainer_evolves container sshKeys w :
  evolves (db.containers (h_db w))
    (db.containers (h_db (snd (provisionContainer container sshKeys w)))).
Proof.
  rewrite provisionContainer_run.
  destruct (sending_all_frame
              (fst (attempt (k8s.clientset (h_k8s w)) (length (k8s.calls (h_k8s w)))
                      (provision_steps container sshKeys))) w) as (D & _).
  rewrite <- D at 1.
  destruct (snd (attempt _ _ _)); unfold bind; rewrite on_db_run; simpl;
    apply UpdateContainerStatus_evolves; simpl; tauto.
Qed.

Lemma pollExternalIP_evolves tie container w :
  evolves (db.containers (h_db w))
    (db.containers (h_db (snd (pollExternalIP tie container w)))).
Proof.
  unfold pollExternalIP. rewrite bind_run. unfold current_timestamp.
  destruct (poll_loop_run tie (now w) container (last_tick tie) 1 poll_fuel w)
    as (w' & R & _ & Cases); [lia | apply poll_fuel_enough |].
  change (Z.of_nat 1) with 1 in R. rewrite R. simpl snd.
  destruct Cases as [(m & ip & _ & _ & _ & _ & -> & _)|(_ & _ & -> & _)].
  - apply UpdateContainerIP_evolves.
  - apply evolves_refl.
Qed.

Section Reachable.

Variable TrimSpace : string -> string.

Lemma CreateContainer_evolves r w :
  evolves (db.containers (h_db w))
    (db.containers (h_db (snd (CreateContainer TrimSpace r w)))).
Proof.
  destruct (Context r) as [u|] eqn:HC; [destruct (Body r) as [req|] eqn:HB|].
  - rewrite (CreateContainer_checked TrimSpace r u req HC HB).
    pose proof (create_checked_accepted (InfoUserID u) (TrimSpace (ReqName req))
                  (SSHKeyIDs req) (memory_or_default (ReqMemoryMB req))
                  (storage_or_default (ReqStorageGB req)) w) as Acc.
    destruct (create_checked_cases (InfoUserID u) (TrimSpace (ReqName req))
                (SSHKeyIDs req) (memory_or_default (ReqMemoryMB req))
                (storage_or_default (ReqStorageGB req)) w)
      as (_ & [(_ & Rows & _)|(_ & _ & Resp & Rows & _)]).
    + now apply evolves_same.
    + rewrite Rows. rewrite Resp in Acc. destruct (Acc eq_refl) as (_ & _ & Fresh).
      apply evolves_insert.
      * split; [reflexivity | simpl; tauto].
      * now apply stored_none_fresh.
  - destruct (CreateContainer_rejects TrimSpace r w (or_intror HB)) as (_ & ->).
    apply evolves_refl.
  - destruct (CreateContainer_rejects TrimSpace r w (or_introl HC)) as (_ & ->).
    apply evolves_refl.
Qed.

Lemma step_evolves w w' :
  step TrimSpace w w' -> evolves (db.containers (h_db w)) (db.containers (h_db w')).
Proof.
  intros [r v|r v|r v|r v|r v|r v|tie t v I].
  - apply evolves_same. apply list_rows_unchanged.
  - apply CreateContainer_evolves.
  - rewrite GetContainer_on_owned. apply on_owned_evolves. intros; apply get_body_evolves.
  - rewrite DeleteContainer_on_owned. apply on_owned_evolves. intros; apply delete_body_evolves.
  - rewrite StopContainer_on_owned. apply on_owned_evolves. intros; apply stop_body_evolves.
  - rewrite StartContainer_on_owned. apply on_owned_evolves. intros; apply start_body_evolves.
  - destruct t as [container sshKeys|container]; simpl.
    + unfold bind. destruct (provisionContainer container sshKeys v) as [[] v'] eqn:P.
      simpl. change v' with (snd (tt, v')). rewrite <- P.
      apply provisionContainer_evolves.
    + apply pollExternalIP_evolves.
Qed.

Lemma reaches_evolves w w' :
  reaches TrimSpace w w' -> evolves (db.containers (h_db w)) (db.containers (h_db w')).
Proof.
  intros R. induction R as [v|v1 v2 v3 R IH S]; [apply evolves_refl|].
  eapply evolves_trans; [exact IH | now apply step_evolves].
Qed.

(** The life of a row. Through any sequence of handled requests and
    goroutine runs, every row of the table either continues a row that
    was there at the start, with the same id, owner, name, namespace,
    sizes, image and creation time, or was created by the service with
    the namespace of its owner and id; and ids stay unique when they
    were. *)
Theorem rows_keep_their_identity w w' :
  reaches TrimSpace w w' ->
  (forall new, In new (db.containers (h_db w')) ->
     (exists old,
        In old (db.containers (h_db w)) /\
        db.ID new = db.ID old /\ db.UserID new = db.UserID old /\
        db.Name new = db.Name old /\ db.Namespace new = db.Namespace old /\
        db.MemoryMB new = db.MemoryMB old /\ db.StorageGB new = db.StorageGB old /\
        db.Image new = db.Image old /\ db.CreatedAt new = db.CreatedAt old)
     \/ db.Namespace new = namespaceName (db.UserID new) (db.ID new)) /\
  (NoDup (map db.ID (db.containers (h_db w))) ->
   NoDup (map db.ID (db.containers (h_db w')))).
Proof.
  intros R.
  pose proof (reaches_evolves w w' R) as E.
  destruct E as (Rows & ND). split; [|exact ND].
  intros new I. destruct (Rows new I) as [(old & Io & K)|(NS & _)]; [|now right].
  left. exists old. unfold keeps in K. tauto.
Qed.

(** The status "deleted". No request and no goroutine writes the status
    "deleted": when no row has it, no row has it after any sequence of
    requests and goroutine runs, and the count that the cap of 3 is
    checked against is then the number of the user's rows, whatever
    their status. *)
Theorem no_row_becomes_deleted w w' :
  reaches TrimSpace w w' ->
  (forall old, In old (db.containers (h_db w)) -> db.Status old <> "deleted") ->
  (forall new, In new (db.containers (h_db w')) -> db.Status new <> "deleted") /\
  forall userID,
    live_count userID (h_db w')
    = Z.of_nat (length (filter (fun c => db.UserID c =? userID) (db.containers (h_db w')))).
Proof.
  intros R Clean.
  pose proof (reaches_evolves w w' R) as E.
  assert (Clean' : forall new, In new (db.containers (h_db w')) ->
                               db.Status new <> "deleted").
  { intros new I. destruct E as (Rows & _).
    assert (L : forall s, In s live_statuses -> s <> "deleted").
    { intros s Is. unfold live_statuses in Is. simpl in Is.
      repeat destruct Is as [<-|Is]; try discriminate. contradiction. }
    destruct (Rows new I) as [(old & Io & K)|(_ & St)]; [|now apply L].
    destruct K as (_ & _ & _ & _ & _ & _ & _ & _ & [K|K]); [|now apply L].
    rewrite K. now apply Clean. }
  split; [exact Clean'|].
  intros userID. unfold live_count. f_equal. f_equal.
  apply filter_ext_in. intros c I. unfold db.live_of.
  destruct (String.eqb_spec (db.Status c) "deleted") as [D|D].
  - exfalso. now apply (Clean' c I).
  - now rewrite andb_true_r.
Qed.

End Reachable.

(** ** Reading, seen from the cluster and from the table *)

Lemma UpdateContainerIP_idle id ip d :
  db.faults d = [] ->
  db.UpdateContainerIP id ip d
  = (None, db.set_containers
             (db.update_where_id id (db.set_ExternalIP (sql.mkNullString ip true))
                (db.containers d)) d).
Proof. intros F. unfold db.UpdateContainerIP. now rewrite (driver_idle d F). Qed.

Lemma update_where_id_others id f rows :
  (forall r, db.ID (f r) = db.ID r) ->
  filter (fun r => negb (db.ID r =? id)%string) (db.update_where_id id f rows)
  = filter (fun r => negb (db.ID r =? id)%string) rows.
Proof.
  intros Hf. unfold db.update_where_id. induction rows as [|r rows IH]; [reflexivity|].
  cbn [map filter]. destruct (db.ID r =? id)%string eqn:E.
  - rewrite Hf, E. exact IH.
  - rewrite E. cbn [negb]. now rewrite IH.
Qed.

Lemma UpdateContainerStatus_others id status d :
  filter (fun r => negb (db.ID r =? id)%string)
    (db.containers (snd (db.UpdateContainerStatus id status d)))
  = filter (fun r => negb (db.ID r =? id)%string) (db.containers d).
Proof.
  rewrite UpdateContainerStatus_rows_cases. destruct (hd false (db.faults d)); [reflexivity|].
  now apply update_where_id_others.
Qed.

Lemma UpdateContainerIP_others id ip d :
  filter (fun r => negb (db.ID r =? id)%string)
    (db.containers (snd (db.UpdateContainerIP id ip d)))
  = filter (fun r => negb (db.ID r =? id)%string) (db.containers d).
Proof.
  rewrite UpdateContainerIP_rows_cases. destruct (hd false (db.faults d)); [reflexivity|].
  now apply update_where_id_others.
Qed.

Lemma reconciled_db_idle id c d rep obs :
  db.faults d = [] -> db.ID c = id -> stored id d = Some c ->
  stored id (reconciled_db c d rep obs) = Some (reconciled c rep obs).
Proof.
  intros F <- S0. unfold reconciled_db, reconciled.
  set (d1 := match status_change c rep with
             | Some s => snd (db.UpdateContainerStatus (db.ID c) s d)
             | None => d
             end).
  set (c1 := match status_change c rep with
             | Some s => db.set_Status s c
             | None => c
             end).
  assert (F1 : db.faults d1 = [] /\ stored (db.ID c) d1 = Some c1).
  { subst d1 c1. destruct (status_change c rep) as [s|]; [|now split].
    rewrite (UpdateContainerStatus_idle _ _ _ F). cbn [snd]. split; [exact F|].
    unfold stored in *. simpl. rewrite find_update_where_id by reflexivity.
    now rewrite S0. }
  destruct F1 as (F1 & S1).
  destruct (address_found c obs) as [ip|]; [|exact S1].
  rewrite (UpdateContainerIP_idle _ _ _ F1). cbn [snd].
  unfold stored in *. simpl. rewrite find_update_where_id by reflexivity.
  now rewrite S1.
Qed.

(** Reading a container of the caller, seen from outside. The handler
    only queries the cluster: it asks for the pod of the container's
    namespace and, only when the stored row has no address, for the
    service; it creates and deletes nothing and starts no goroutine.  A
    stored address is shown and kept as it is; a missing one is filled
    with the first non-empty address the service reports.  Rows with
    another id are untouched, and when the store executes every
    statement, the row stored after the read is the container
    returned. *)
Theorem read_queries_the_cluster_and_fills_the_address r u c w :
  Context r = Some u ->
  next_ok (h_db w) = true ->
  stored (PathValue r) (h_db w) = Some c ->
  db.UserID c = InfoUserID u ->
  let cl := k8s.clientset (h_k8s w) in
  let n0 := length (k8s.calls (h_k8s w)) in
  let pod := (now w, k8s.Get k8s.Pods (db.Namespace c) "container") in
  let service := (now w, k8s.Get k8s.Services (db.Namespace c) "lb") in
  let resp := fst (GetContainer r w) in
  let w' := snd (GetContainer r w) in
  k8s.calls (h_k8s w')
  = k8s.calls (h_k8s w)
    ++ (if sql.Valid (db.ExternalIP c) then [pod] else [pod; service]) /\
  goroutines w' = goroutines w /\
  filter (fun row => negb (db.ID row =? PathValue r)%string) (db.containers (h_db w'))
  = filter (fun row => negb (db.ID row =? PathValue r)%string) (db.containers (h_db w)) /\
  exists c',
    resp = writeJSON c' /\
    (sql.Valid (db.ExternalIP c) = true ->
     db.ExternalIP c' = db.ExternalIP c /\
     map db.ExternalIP (db.containers (h_db w'))
     = map db.ExternalIP (db.containers (h_db w))) /\
    (sql.Valid (db.ExternalIP c) = false ->
     db.ExternalIP c'
     = match assigned cl (S n0) (db.Namespace c) with
       | Some ip => sql.mkNullString ip true
       | None => db.ExternalIP c
       end) /\
    (db.faults (h_db w) = [] -> stored (PathValue r) (h_db w') = Some c').
Proof.
  intros HC HK HS HU cl n0 pod service resp w'. subst resp w'.
  rewrite GetContainer_on_owned, (on_owned_run _ r u c w HC HK HS HU), get_body_run.
  set (d1 := snd (db.driver (h_db w))).
  change (k8s.clientset (h_k8s (with_db d1 w))) with cl.
  change (length (k8s.calls (h_k8s (with_db d1 w)))) with n0.
  change (h_db (with_db d1 w)) with d1.
  destruct (driver_frame (h_db w)) as (R1 & _ & _). fold d1 in R1.
  pose proof (stored_ID _ _ _ HS) as HID.
  cbn [fst snd h_db h_k8s goroutines k8s.calls with_db now].
  set (rep := reported cl n0 (db.Namespace c)).
  set (obs := assigned cl (S n0) (db.Namespace c)).
  split; [|split; [|split]].
  - unfold reconcile_queries. now destruct (sql.Valid (db.ExternalIP c)).
  - reflexivity.
  - rewrite <- R1. rewrite <- HID. unfold reconciled_db.
    destruct (address_found c obs); [rewrite UpdateContainerIP_others|];
      (destruct (status_change c rep); [apply UpdateContainerStatus_others | reflexivity]).
  - exists (reconciled c rep obs). split; [reflexivity|].
    split; [|split].
    + intros V. unfold reconciled, reconciled_db, address_found. rewrite V. split.
      * now destruct (status_change c rep).
      * rewrite <- R1.
        destruct (status_change c rep); [apply UpdateContainerStatus_keeps_ip | reflexivity].
    + intros V. unfold reconciled, address_found. rewrite V.
      destruct obs; now destruct (status_change c rep).
    + intros F. assert (D : d1 = h_db w) by (unfold d1; now rewrite (driver_idle _ F)).
      rewrite D. now apply reconciled_db_idle.
Qed.

(** ** The keys a creation accepts *)

Lemma selected_keys_distinct userID ids table :
  NoDup (map db.KeyID table) ->
  length (filter (db.selected_key userID ids) table) = length ids ->
  NoDup ids /\
  forall id, In id ids ->
    exists k, In k table /\ db.KeyID k = id /\ db.KeyUserID k = userID.
Proof.
  intros ND Len.
  set (sel := filter (db.selected_key userID ids) table) in *.
  assert (NDs : NoDup (map db.KeyID sel)) by now apply NoDup_map_filter.
  assert (Inc : incl (map db.KeyID sel) ids).
  { intros id I. apply in_map_iff in I. destruct I as (k & <- & I).
    apply filter_In in I. destruct I as (_ & Sel). unfold db.selected_key in Sel.
    apply andb_true_iff in Sel. destruct Sel as (_ & Sel).
    apply existsb_exists in Sel. destruct Sel as (id & I & E).
    apply Z.eqb_eq in E. now rewrite E. }
  assert (Le : (length ids <= length (map db.KeyID sel))%nat)
    by (rewrite length_map, Len; apply Nat.le_refl).
  split.
  - apply NoDup_incl_NoDup with (l := map db.KeyID sel); assumption.
  - intros id I. apply (@NoDup_length_incl _ (map db.KeyID sel) ids NDs Le Inc) in I.
    apply in_map_iff in I. destruct I as (k & E & I).
    apply filter_In in I. destruct I as (I & Sel). unfold db.selected_key in Sel.
    apply andb_true_iff in Sel. destruct Sel as (U & _). apply Z.eqb_eq in U.
    now exists k.
Qed.

Section AcceptedKeys.

Variable TrimSpace : string -> string.

(** The keys of an accepted creation. When key ids are unique in the
    table, a creation is accepted only if the ids of the request are
    pairwise distinct and each is the id of a key of the caller: a
    request that names a key of another user, an id no key has, or the
    same key twice is refused and creates nothing.  The provisioning
    goroutine gets exactly those keys, all of them the caller's. *)
Theorem accepted_keys_are_distinct_keys_of_the_caller r u req w :
  Context r = Some u ->
  Body r = Some req ->
  NoDup (map db.KeyID (db.ssh_keys (h_db w))) ->
  let resp := fst (CreateContainer TrimSpace r w) in
  let w' := snd (CreateContainer TrimSpace r w) in
  let named_and_owned :=
    NoDup (SSHKeyIDs req) /\
    forall id, In id (SSHKeyIDs req) ->
      exists k, In k (db.ssh_keys (h_db w)) /\
                db.KeyID k = id /\ db.KeyUserID k = InfoUserID u in
  (StatusCode resp = 200 ->
   named_and_owned /\
   exists container sshKeys,
     goroutines w' = goroutines w ++ [provisionTask container sshKeys] /\
     (forall k, In k sshKeys <->
                In k (db.ssh_keys (h_db w)) /\ In (db.KeyID k) (SSHKeyIDs req)) /\
     (forall k, In k sshKeys -> db.KeyUserID k = InfoUserID u)) /\
  (~ named_and_owned ->
   StatusCode resp <> 200 /\
   db.containers (h_db w') = db.containers (h_db w) /\
   goroutines w' = goroutines w /\
   h_k8s w' = h_k8s w).
Proof.
  intros HC HB ND resp w' named_and_owned. subst resp w'.
  rewrite (CreateContainer_checked TrimSpace r u req HC HB).
  destruct (create_checked_cases (InfoUserID u) (TrimSpace (ReqName req))
              (SSHKeyIDs req) (memory_or_default (ReqMemoryMB req))
              (storage_or_default (ReqStorageGB req)) w)
    as (K & [(Code & Rows & Go)|(_ & Len & Resp & _ & Go)]).
  - split; [intros E; contradiction|]. intros _. repeat split; assumption.
  - destruct (selected_keys_distinct _ _ _ ND Len) as (Distinct & Owned).
    assert (Named : named_and_owned) by (split; assumption).
    split; [|intros No; contradiction].
    intros _. split; [exact Named|].
    eexists. eexists. split; [exact Go|]. split.
    + intros k. rewrite filter_In. unfold db.selected_key.
      rewrite andb_true_iff, Z.eqb_eq. split.
      * intros (I & _ & Sel). split; [exact I|].
        apply existsb_exists in Sel. destruct Sel as (id & Iid & E).
        apply Z.eqb_eq in E. now rewrite E.
      * intros (I & Iid). split; [exact I|].
        destruct (Owned _ Iid) as (k2 & I2 & E2 & U2).
        assert (k2 = k) by exact (primary_key_unique _ k2 k ND I2 I E2).
        subst k2. split; [exact U2|].
        apply existsb_exists. exists (db.KeyID k). split; [exact Iid | apply Z.eqb_refl].
    + intros k I. apply filter_In in I. destruct I as (_ & Sel).
      unfold db.selected_key in Sel. apply andb_true_iff in Sel.
      now apply Z.eqb_eq.
Qed.

End AcceptedKeys.

(** ** From the request to a reachable container *)

Lemma attempt_all_accepted cl steps : forall n,
  (forall m call, create_fails cl m call = false) ->
  attempt cl n steps = (steps, true).
Proof.
  induction steps as [|step rest IH]; intros n Accepts; [reflexivity|].
  simpl. rewrite Accepts, (IH (S n) Accepts). reflexivity.
Qed.

Lemma sending_all_uuid calls : forall w,
  uuid_New (sending_all calls w) = uuid_New w /\
  uuid_drawn (sending_all calls w) = uuid_drawn w.
Proof.
  induction calls as [|call calls IH]; intros w; [now split|].
  simpl. destruct (IH (sending call w)) as (E1 & E2). now rewrite E1, E2.
Qed.

Section Lifecycle.

Variable TrimSpace : string -> string.

(** The whole way. When a creation is accepted, the cluster accepts
    every object, the service has an address and the store executes, the
    two goroutines do the rest: the provisioning goroutine sends the six
    creations, sets the row to "running" and starts the poller; the
    poller asks once, at its first tick five seconds later, and records
    the address.  The row of the new id then is "running", has that
    address and belongs to the caller; seven requests went to the
    cluster in all. *)
Theorem accepted_container_becomes_reachable r u req w tie ip :
  Context r = Some u ->
  Body r = Some req ->
  StatusCode (fst (CreateContainer TrimSpace r w)) = 200 ->
  let w1 := snd (CreateContainer TrimSpace r w) in
  let id := substring 0 8 (uuid_New w (uuid_drawn w)) in
  let namespace := namespaceName (InfoUserID u) id in
  let cl := k8s.clientset (h_k8s w) in
  (forall n call, create_fails cl n call = false) ->
  (forall n, assigned cl n namespace = Some ip) ->
  db.faults (h_db w1) = [] ->
  exists container sshKeys,
    goroutines w1 = goroutines w ++ [provisionTask container sshKeys] /\
    let w2 := snd (run tie (provisionTask container sshKeys) w1) in
    goroutines w2 = goroutines w1 ++ [pollTask container] /\
    option_map db.Status (stored id (h_db w2)) = Some "running" /\
    let w3 := snd (run tie (pollTask container) w2) in
    fst (run tie (pollTask container) w2) = Some tt /\
    now w3 = now w1 + tickerPeriod /\
    k8s.calls (h_k8s w3)
    = k8s.calls (h_k8s w) ++ map (pair (now w1)) (provision_steps container sshKeys)
      ++ [(now w1 + tickerPeriod, k8s.Get k8s.Services namespace "lb")] /\
    exists row,
      stored id (h_db w3) = Some row /\
      db.Status row = "running" /\
      db.ExternalIP row = sql.mkNullString ip true /\
      db.UserID row = InfoUserID u /\
      db.Namespace row = namespace.
Proof.
  intros HC HB Ok w1 id namespace cl Accepts Address Idle. subst w1.
  rewrite (CreateContainer_checked TrimSpace r u req HC HB) in *.
  destruct (create_checked_accepted _ _ _ _ _ _ Ok) as (_ & _ & Fresh). fold id in Fresh.
  destruct (create_checked_cases (InfoUserID u) (TrimSpace (ReqName req))
              (SSHKeyIDs req) (memory_or_default (ReqMemoryMB req))
              (storage_or_default (ReqStorageGB req)) w)
    as (K & [(Code & _)|(_ & _ & _ & Rows & Go)]); [congruence|].
  fold id namespace in Rows, Go.
  set (w1 := snd (create_checked _ _ _ _ _ w)) in *.
  set (container := db.mkContainer id (InfoUserID u) (TrimSpace (ReqName req)) namespace
                      "pending" sql.null_string (memory_or_default (ReqMemoryMB req))
                      (storage_or_default (ReqStorageGB req)) defaultImage 0
                      sql.null_time) in *.
  set (sshKeys := filter _ _) in Go.
  exists container, sshKeys. split; [exact Go|].
  assert (S1 : stored id (h_db w1) = Some (inserted (now w) container)).
  { rewrite (stored_app_fresh id _ _ _ Rows Fresh). cbn [inserted db.ID container].
    now rewrite String.eqb_refl. }
  (* provisioning *)
  assert (P : run tie (provisionTask container sshKeys) w1
              = (Some tt,
                 mkWorld (snd (db.UpdateContainerStatus id "running" (h_db w1)))
                   (h_k8s (sending_all (provision_steps container sshKeys) w1))
                   (now w1) (goroutines w1 ++ [pollTask container])
                   (uuid_New w1) (uuid_drawn w1))).
  { cbn [run]. rewrite bind_run, provisionContainer_run.
    rewrite K. fold cl. rewrite (attempt_all_accepted cl _ _ Accepts). cbn [fst snd].
    destruct (sending_all_frame (provision_steps container sshKeys) w1)
      as (D & N & G & _).
    rewrite bind_run, on_db_run. cbn [fst snd]. unfold go, ret. cbn [fst snd].
    cbn [h_db h_k8s now goroutines uuid_New uuid_drawn with_db].
    rewrite D, N, G. cbn [db.ID container].
    destruct (sending_all_uuid (provision_steps container sshKeys) w1) as (-> & ->).
    reflexivity. }
  rewrite P. cbn [snd goroutines h_db]. split; [reflexivity|].
  rewrite (UpdateContainerStatus_idle _ _ _ Idle). cbn [snd].
  set (d2 := db.set_containers _ (h_db w1)).
  assert (F2 : db.faults d2 = []) by exact Idle.
  assert (S2 : stored id d2 = Some (db.set_Status "running" (inserted (now w) container))).
  { unfold stored, d2. cbn [db.containers db.set_containers].
    rewrite find_update_where_id by reflexivity.
    unfold stored in S1. now rewrite S1. }
  split; [now rewrite S2|].
  set (w2 := mkWorld d2 _ _ _ _ _).
  (* polling *)
  cbn [run]. unfold pollExternalIP. rewrite bind_run. unfold current_timestamp.
  cbn [fst snd].
  destruct (poll_loop_run tie (now w2) container (last_tick tie) 1 poll_fuel w2)
    as (w3 & R & _ & Cases); [lia | apply poll_fuel_enough |].
  change (Z.of_nat 1) with 1 in R. rewrite R. cbn [fst snd].
  destruct (sending_all_frame (provision_steps container sshKeys) w1)
    as (_ & _ & _ & C2 & L2).
  assert (CL : k8s.clientset (h_k8s w2) = cl) by (unfold w2; cbn [h_k8s]; now rewrite C2, K).
  rewrite CL in Cases. change (db.Namespace container) with namespace in Cases.
  change (db.ID container) with id in Cases.
  destruct Cases as [(m & ip' & _ & A & Before & Calls & DB & Now)|(Never & _)].
  2: { specialize (Never 0%nat ltac:(destruct tie; simpl; lia)).
       rewrite Address in Never. discriminate. }
  assert (m = 0%nat).
  { destruct m as [|m]; [reflexivity|].
    specialize (Before 0%nat ltac:(lia)). rewrite Address in Before. discriminate. }
  subst m. rewrite Address in A. injection A as <-.
  split; [reflexivity|]. split.
  { rewrite Now. change (now w2) with (now w1). simpl. unfold tickerPeriod. lia. }
  split.
  { rewrite Calls. unfold w2 at 1. cbn [h_k8s]. rewrite L2, K, <- app_assoc.
    reflexivity. }
  rewrite DB. change (h_db w2) with d2.
  rewrite (UpdateContainerIP_idle _ _ _ F2). cbn [snd].
  eexists. split.
  { unfold stored. cbn [db.containers db.set_containers].
    rewrite find_update_where_id by reflexivity.
    unfold stored in S2. rewrite S2. reflexivity. }
  repeat split.
Qed.

End Lifecycle.

(** * Properties of the keys and of authentication *)

(** ** The store, one statement at a time *)

Section KeyStore.

Import server.

Lemma sbind_run {A B} (m : Act A) (k : A -> Act B) s :
  server.bind m k s = k (fst (m s)) (snd (m s)).
Proof. unfold server.bind. now destruct (m s). Qed.

Lemma keydb_driver st :
  keydb.driver st
  = (hd false (db.faults (keydb.tables st)),
     keydb.set_tables (snd (db.driver (keydb.tables st))) st).
Proof.
  unfold keydb.driver, db.driver. now destruct (db.faults (keydb.tables st)).
Qed.

Lemma statement_done_frame s :
  db.containers (h_db (compute (statement_done s))) = db.containers (h_db (compute s)) /\
  ssh_table (statement_done s) = ssh_table s /\
  ssh_keys_seq (statement_done s) = ssh_keys_seq s /\
  api_keys (statement_done s) = api_keys s /\
  api_keys_seq (statement_done s) = api_keys_seq s /\
  db.faults (h_db (compute (statement_done s))) = tl (db.faults (h_db (compute s))) /\
  beside_ssh_keys (statement_done s) = beside_ssh_keys s /\
  beside_api_keys (statement_done s) = beside_api_keys s.
Proof.
  unfold statement_done, ssh_table, beside_ssh_keys, beside_api_keys, ssh_table. simpl.
  destruct (driver_frame (h_db (compute s))) as (R & K & F).
  rewrite R, K, F. repeat split; reflexivity.
Qed.

Lemma statement_done_now s : now (compute (statement_done s)) = now (compute s).
Proof. reflexivity. Qed.

Lemma CountSSHKeysByUser_run userID s :
  on_store (keydb.CountSSHKeysByUser userID) s
  = (if statement_fails s then (0, Some (keydb.Wrapped "count ssh keys"))
     else (ssh_key_count userID s, None),
     statement_done s).
Proof.
  unfold on_store, keydb.CountSSHKeysByUser. rewrite keydb_driver.
  unfold statement_fails, statement_done, ssh_key_count, ssh_table. simpl.
  destruct (driver_frame (h_db (compute s))) as (_ & K & _).
  destruct (hd false (db.faults (h_db (compute s)))); simpl; [reflexivity|].
  now rewrite K.
Qed.

Lemma CreateSSHKey_run ts key s :
  on_store (keydb.CreateSSHKey ts key) s
  = if statement_fails s
    then ((key, Some (keydb.Wrapped "insert ssh key")), statement_done s)
    else
      let id := keydb.new_rowid (ssh_keys_seq s) (map db.KeyID (ssh_table s)) in
      ((keydb.set_KeyID id key, None),
       with_ssh_keys
         (ssh_table s
          ++ [db.mkSSHKey id (db.KeyUserID key) (db.KeyName key) (db.PublicKey key)
                (db.Fingerprint key) ts])
         id (statement_done s)).
Proof.
  unfold on_store, keydb.CreateSSHKey. rewrite keydb_driver.
  unfold statement_fails, statement_done, with_ssh_keys, ssh_table. simpl.
  destruct (driver_frame (h_db (compute s))) as (_ & K & _).
  destruct (hd false (db.faults (h_db (compute s)))); simpl; [reflexivity|].
  now rewrite K.
Qed.

Lemma DeleteSSHKey_run id userID s :
  on_store (keydb.DeleteSSHKey id userID) s
  = if statement_fails s
    then (Some (keydb.Wrapped "delete ssh key"), statement_done s)
    else
      let kept := filter (fun k => negb (keydb.ssh_key_matches id userID k)) (ssh_table s) in
      (if (length (ssh_table s) - length kept =? 0)%nat
       then Some (keydb.Plain "ssh key not found or not owned by user") else None,
       with_ssh_keys kept (ssh_keys_seq s) (statement_done s)).
Proof.
  unfold on_store, keydb.DeleteSSHKey. rewrite keydb_driver.
  unfold statement_fails, statement_done, with_ssh_keys, ssh_table. simpl.
  destruct (driver_frame (h_db (compute s))) as (_ & K & _).
  destruct (hd false (db.faults (h_db (compute s)))); simpl; [reflexivity|].
  rewrite K.
  now destruct (length _ - length _ =? 0)%nat.
Qed.

Lemma ListSSHKeysByUser_run userID s :
  on_store (keydb.ListSSHKeysByUser userID) s
  = (if statement_fails s then ([], Some (keydb.Wrapped "query ssh keys"))
     else (order_by_created_at_desc db.KeyCreatedAt
             (filter (fun k => db.KeyUserID k =? userID) (ssh_table s)), None),
     statement_done s).
Proof.
  unfold on_store, keydb.ListSSHKeysByUser. rewrite keydb_driver.
  unfold statement_fails, statement_done, ssh_table. simpl.
  destruct (driver_frame (h_db (compute s))) as (_ & K & _).
  destruct (hd false (db.faults (h_db (compute s)))); simpl; [reflexivity|].
  now rewrite K.
Qed.

Lemma CountAPIKeysByUser_run userID s :
  on_store (keydb.CountAPIKeysByUser userID) s
  = (if statement_fails s then (0, Some (keydb.Wrapped "count api keys"))
     else (api_key_count userID s, None),
     statement_done s).
Proof.
  unfold on_store, keydb.CountAPIKeysByUser. rewrite keydb_driver.
  unfold statement_fails, statement_done, api_key_count. simpl.
  now destruct (hd false (db.faults (h_db (compute s)))).
Qed.

Lemma CreateAPIKey_run ts key s :
  on_store (keydb.CreateAPIKey ts key) s
  = if statement_fails s
    then ((key, Some (keydb.Wrapped "insert api key")), statement_done s)
    else
      let id := keydb.new_rowid (api_keys_seq s) (map keydb.APIKeyID (api_keys s)) in
      ((keydb.set_APIKeyID id key, None),
       with_api_keys
         (api_keys s
          ++ [keydb.mkAPIKey id (keydb.APIKeyUserID key) (keydb.KeyHash key)
                (keydb.APIKeyName key) ts sql.null_time])
         id (statement_done s)).
Proof.
  unfold on_store, keydb.CreateAPIKey. rewrite keydb_driver.
  unfold statement_fails, statement_done, with_api_keys. simpl.
  now destruct (hd false (db.faults (h_db (compute s)))).
Qed.

Lemma DeleteAPIKey_run id userID s :
  on_store (keydb.DeleteAPIKey id userID) s
  = if statement_fails s
    then (Some (keydb.Wrapped "delete api key"), statement_done s)
    else
      let kept := filter (fun k => negb (keydb.api_key_matches id userID k)) (api_keys s) in
      (if (length (api_keys s) - length kept =? 0)%nat
       then Some (keydb.Plain "api key not found or not owned by user") else None,
       with_api_keys kept (api_keys_seq s) (statement_done s)).
Proof.
  unfold on_store, keydb.DeleteAPIKey. rewrite keydb_driver.
  unfold statement_fails, statement_done, with_api_keys. simpl.
  destruct (hd false (db.faults (h_db (compute s)))); simpl; [reflexivity|].
  now destruct (length _ - length _ =? 0)%nat.
Qed.

Lemma ListAPIKeysByUser_run userID s :
  on_store (keydb.ListAPIKeysByUser userID) s
  = (if statement_fails s then ([], Some (keydb.Wrapped "query api keys"))
     else (order_by_created_at_desc keydb.APIKeyCreatedAt
             (filter (fun k => keydb.APIKeyUserID k =? userID) (api_keys s)), None),
     statement_done s).
Proof.
  unfold on_store, keydb.ListAPIKeysByUser. rewrite keydb_driver.
  unfold statement_fails, statement_done. simpl.
  now destruct (hd false (db.faults (h_db (compute s)))).
Qed.

Lemma GetAPIKeyByHash_run keyHash s :
  on_store (keydb.GetAPIKeyByHash keyHash) s
  = (if statement_fails s then (None, Some (keydb.Wrapped "query api key"))
     else (find (fun k => (keydb.KeyHash k =? keyHash)%string) (api_keys s), None),
     statement_done s).
Proof.
  unfold on_store, keydb.GetAPIKeyByHash. rewrite keydb_driver.
  unfold statement_fails, statement_done. simpl.
  now destruct (hd false (db.faults (h_db (compute s)))).
Qed.

Lemma UpdateAPIKeyLastUsed_run ts id s :
  on_store (keydb.UpdateAPIKeyLastUsed ts id) s
  = if statement_fails s
    then (Some (keydb.Wrapped "update api key last used"), statement_done s)
    else (None,
          with_api_keys
            (map (fun k => if keydb.APIKeyID k =? id
                           then keydb.set_LastUsed (sql.mkNullTime ts true) k else k)
               (api_keys s))
            (api_keys_seq s) (statement_done s)).
Proof.
  unfold on_store, keydb.UpdateAPIKeyLastUsed. rewrite keydb_driver.
  unfold statement_fails, statement_done, with_api_keys. simpl.
  now destruct (hd false (db.faults (h_db (compute s)))).
Qed.

(** The rowid [AUTOINCREMENT] gives is above the sequence and above
    every id of the table. *)
Lemma new_rowid_fresh seq ids :
  seq < keydb.new_rowid seq ids /\ forall id, In id ids -> id < keydb.new_rowid seq ids.
Proof.
  unfold keydb.new_rowid. split; [lia|].
  destruct ids as [|id0 rest]; [contradiction|].
  assert (Max : forall id, In id (id0 :: rest) -> id <= fold_right Z.max id0 rest).
  { induction rest as [|x rest IH]; simpl.
    - intros id [<-|[]]. lia.
    - intros id [<-|[<-|I]].
      + specialize (IH id0 (or_introl eq_refl)). lia.
      + lia.
      + specialize (IH id (or_intror I)). lia. }
  intros id I. specialize (Max id I). lia.
Qed.

End KeyStore.

(** ** SSH keys *)

Lemma filter_none_removed {A} (p : A -> bool) rows :
  (forall k, In k rows -> p k = false) ->
  filter (fun k => negb (p k)) rows = rows.
Proof.
  induction rows as [|k rows IH]; intros Keep; [reflexivity|]. cbn [filter].
  rewrite (Keep k (or_introl eq_refl)). cbn [negb]. f_equal.
  apply IH. intros k2 I. apply Keep. now right.
Qed.

Lemma filter_others_kept {A} (owner matches : A -> bool) rows :
  (forall k, matches k = true -> owner k = true) ->
  filter (fun k => negb (owner k)) (filter (fun k => negb (matches k)) rows)
  = filter (fun k => negb (owner k)) rows.
Proof.
  intros Own. induction rows as [|k rows IH]; [reflexivity|]. cbn [filter].
  destruct (matches k) eqn:M; cbn [negb filter].
  - rewrite (Own k M). cbn [negb]. exact IH.
  - destruct (owner k); cbn [negb]; now rewrite IH.
Qed.

Section SSHKeys.

Import server keyapi.

Variable TrimSpace : string -> string.
Variable Fields : string -> list string.
Variable StdEncoding_DecodeString : string -> option string.
Variable md5_Sum : string -> string.
Variable ParseInt : string -> option Z.
Variable foreign_error : string.

Local Abbreviation isValid := (isValidSSHPublicKey Fields StdEncoding_DecodeString).
Local Abbreviation fingerprint := (sshKeyFingerprint Fields StdEncoding_DecodeString md5_Sum).
Local Abbreviation Add := (AddSSHKey TrimSpace Fields StdEncoding_DecodeString md5_Sum).
Local Abbreviation Delete := (DeleteSSHKey ParseInt foreign_error).

Lemma with_ssh_keys_frame rows seq s :
  ssh_table (with_ssh_keys rows seq s) = rows /\
  ssh_keys_seq (with_ssh_keys rows seq s) = seq /\
  beside_ssh_keys (with_ssh_keys rows seq s) = beside_ssh_keys s /\
  db.faults (h_db (compute (with_ssh_keys rows seq s))) = db.faults (h_db (compute s)).
Proof. repeat split; reflexivity. Qed.

(** The two ways [AddSSHKey] ends for a caller with a decodable body. *)
Lemma AddSSHKey_cases r u req s :
  KeyContext r = Some u ->
  KeyBody r = Some req ->
  let name := TrimSpace (SSHReqName req) in
  let publicKey := TrimSpace (SSHReqPublicKey req) in
  let resp := fst (Add r s) in
  let s' := snd (Add r s) in
  beside_ssh_keys s' = beside_ssh_keys s /\
  ((KeyStatusCode resp <> 200 /\
    ssh_table s' = ssh_table s /\ ssh_keys_seq s' = ssh_keys_seq s)
   \/
   (let id := keydb.new_rowid (ssh_keys_seq s) (map db.KeyID (ssh_table s)) in
    name <> "" /\ publicKey <> "" /\ isValid publicKey = true /\
    statement_fails s = false /\
    ssh_key_count (InfoUserID u) s < maxSSHKeysPerUser /\
    resp = writeJSON (SSHKeyJSON (mkSSHKeyResponse id name (fingerprint publicKey)
                                    zero_time)) /\
    ssh_table s'
    = ssh_table s
      ++ [db.mkSSHKey id (InfoUserID u) name publicKey (fingerprint publicKey)
            (now (compute s))] /\
    ssh_keys_seq s' = id)).
Proof.
  intros HC HB name publicKey resp s'. subst resp s'.
  unfold AddSSHKey, getUserFromContext. rewrite HC, HB. cbn [option_map].
  fold name publicKey.
  destruct (String.eqb_spec name "") as [|Name];
    [split; [reflexivity | left; split; [simpl; lia | split; reflexivity]]|].
  destruct (String.eqb_spec publicKey "") as [|Key];
    [split; [reflexivity | left; split; [simpl; lia | split; reflexivity]]|].
  destruct (isValid publicKey) eqn:Valid; cbn [negb];
    [|split; [reflexivity | left; split; [simpl; lia | split; reflexivity]]].
  rewrite sbind_run, CountSSHKeysByUser_run. cbn [fst snd].
  destruct (statement_done_frame s) as (_ & T1 & Q1 & _ & _ & _ & B1 & _).
  destruct (statement_fails s) eqn:Fails; cbn [keydb.is_nil negb].
  { split; [exact B1 | left; split; [simpl; lia | split; assumption]]. }
  destruct (Z.geb_spec (ssh_key_count (InfoUserID u) s) maxSSHKeysPerUser) as [|Below].
  { split; [exact B1 | left; split; [simpl; lia | split; assumption]]. }
  rewrite sbind_run. unfold current_timestamp. cbn [fst snd].
  rewrite sbind_run, CreateSSHKey_run. rewrite T1, Q1, statement_done_now.
  destruct (statement_done_frame (statement_done s)) as (_ & T2 & Q2 & _ & _ & _ & B2 & _).
  destruct (statement_fails (statement_done s)) eqn:Fails2;
    cbn [fst snd keydb.is_nil negb]; unfold ret; cbn [fst snd].
  { split; [now rewrite B2 | left; split; [simpl; lia | split; congruence]]. }
  split; [now rewrite <- B1, <- B2|].
  right. cbv zeta. repeat split; try assumption. 
Qed.

Lemma ssh_key_count_app userID row s s' :
  ssh_table s' = ssh_table s ++ [row] ->
  ssh_key_count userID s'
  = ssh_key_count userID s + (if db.KeyUserID row =? userID then 1 else 0).
Proof.
  intros E. unfold ssh_key_count. rewrite E, filter_app, length_app. simpl.
  destruct (db.KeyUserID row =? userID); simpl; lia.
Qed.

(** AddSSHKey, accepted. A 200 means: the trimmed name and key are not
    empty, the key passed the format check, and the caller had fewer
    than 10 keys.  Exactly one row is added, at the end of the table,
    with an id above every id of the table and above the sequence, the
    caller as owner, the trimmed name and key, the fingerprint of the
    trimmed key and the time of insertion.  The response shows that id,
    name and fingerprint, but the zero time as [created_at], not the
    stored one.  Whatever the outcome, nothing but the [ssh_keys] table
    changes. *)
Theorem added_ssh_key_is_stored_for_the_caller r u req s :
  KeyContext r = Some u ->
  KeyBody r = Some req ->
  let name := TrimSpace (SSHReqName req) in
  let publicKey := TrimSpace (SSHReqPublicKey req) in
  let resp := fst (Add r s) in
  let s' := snd (Add r s) in
  beside_ssh_keys s' = beside_ssh_keys s /\
  (KeyStatusCode resp <> 200 -> ssh_table s' = ssh_table s) /\
  (KeyStatusCode resp = 200 ->
   name <> "" /\ publicKey <> "" /\ isValid publicKey = true /\
   ssh_key_count (InfoUserID u) s < maxSSHKeysPerUser /\
   exists id,
     ssh_keys_seq s < id /\
     (forall k, In k (ssh_table s) -> db.KeyID k < id) /\
     ssh_table s'
     = ssh_table s
       ++ [db.mkSSHKey id (InfoUserID u) name publicKey (fingerprint publicKey)
             (now (compute s))] /\
     resp = writeJSON (SSHKeyJSON (mkSSHKeyResponse id name (fingerprint publicKey)
                                     zero_time))).
Proof.
  intros HC HB name publicKey resp s'.
  destruct (AddSSHKey_cases r u req s HC HB)
    as (Beside & [(Code & Rows & _)|(Name & Key & Valid & _ & Below & Resp & Rows & _)]).
  - split; [exact Beside|]. split; [intros _; exact Rows | intros E; contradiction].
  - split; [exact Beside|]. fold resp in Resp. fold s' in Rows. split.
    + intros No. rewrite Resp in No. now contradiction No.
    + intros _. repeat split; try assumption.
      destruct (new_rowid_fresh (ssh_keys_seq s) (map db.KeyID (ssh_table s)))
        as (AboveSeq & AboveIds).
      eexists. split; [exact AboveSeq|]. split; [|split; [exact Rows | exact Resp]].
      intros k I. apply AboveIds. now apply in_map.
Qed.

Lemma AddSSHKey_paused_resumed r s :
  Add r s
  = server.bind (AddSSHKey_paused TrimSpace Fields StdEncoding_DecodeString md5_Sum r)
      resume_key s.
Proof.
  unfold AddSSHKey, AddSSHKey_paused.
  destruct (getUserFromContext r) as [userID|]; [|reflexivity].
  destruct (KeyBody r) as [req|]; [|reflexivity]. cbv zeta.
  destruct (TrimSpace (SSHReqName req) =? "")%string; [reflexivity|].
  destruct (TrimSpace (SSHReqPublicKey req) =? "")%string; [reflexivity|].
  destruct (negb (isValid (TrimSpace (SSHReqPublicKey req)))); [reflexivity|].
  rewrite !sbind_run.
  destruct (on_store (keydb.CountSSHKeysByUser userID) s) as [[count err] s1].
  cbn [fst snd].
  destruct (negb (keydb.is_nil err)); [reflexivity|].
  destruct (count >=? maxSSHKeysPerUser); reflexivity.
Qed.

Lemma AddSSHKey_paused_admits r u req s :
  KeyContext r = Some u ->
  KeyBody r = Some req ->
  TrimSpace (SSHReqName req) <> "" ->
  TrimSpace (SSHReqPublicKey req) <> "" ->
  isValid (TrimSpace (SSHReqPublicKey req)) = true ->
  statement_fails s = false ->
  ssh_key_count (InfoUserID u) s < maxSSHKeysPerUser ->
  AddSSHKey_paused TrimSpace Fields StdEncoding_DecodeString md5_Sum r s
  = (inr (ssh_key_admitted Fields StdEncoding_DecodeString md5_Sum (InfoUserID u)
            (TrimSpace (SSHReqName req)) (TrimSpace (SSHReqPublicKey req))),
     statement_done s).
Proof.
  intros HC HB Name Key Valid Runs Below.
  unfold AddSSHKey_paused, getUserFromContext. rewrite HC, HB. cbn [option_map].
  destruct (String.eqb_spec (TrimSpace (SSHReqName req)) ""); [contradiction|].
  destruct (String.eqb_spec (TrimSpace (SSHReqPublicKey req)) ""); [contradiction|].
  rewrite Valid. cbn [negb].
  rewrite sbind_run, CountSSHKeysByUser_run, Runs. cbn [fst snd keydb.is_nil negb].
  destruct (Z.geb_spec (ssh_key_count (InfoUserID u) s) maxSSHKeysPerUser); [lia|].
  reflexivity.
Qed.

Lemma ssh_key_admitted_stores userID name publicKey s :
  statement_fails s = false ->
  let s' := snd (ssh_key_admitted Fields StdEncoding_DecodeString md5_Sum userID name
                   publicKey s) in
  KeyStatusCode (fst (ssh_key_admitted Fields StdEncoding_DecodeString md5_Sum userID name
                        publicKey s)) = 200 /\
  (forall other,
     ssh_key_count other s'
     = ssh_key_count other s + (if userID =? other then 1 else 0)) /\
  db.faults (h_db (compute s')) = tl (db.faults (h_db (compute s))).
Proof.
  intros Runs. cbv zeta. unfold ssh_key_admitted.
  rewrite sbind_run. unfold current_timestamp. cbn [fst snd].
  rewrite sbind_run, CreateSSHKey_run, Runs. cbn [fst snd keydb.is_nil negb].
  unfold ret. cbn [fst snd].
  destruct (statement_done_frame s) as (_ & T1 & _ & _ & _ & F1 & _).
  split; [reflexivity|]. split.
  - intros other.
    match goal with
    | |- context [with_ssh_keys (?rows ++ [?row]) ?id ?st] =>
        assert (E : ssh_table (with_ssh_keys (rows ++ [row]) id st) = ssh_table s ++ [row])
          by apply with_ssh_keys_frame;
        rewrite (ssh_key_count_app other row s _ E)
    end.
    reflexivity.
  - rewrite <- F1. apply with_ssh_keys_frame.
Qed.

(** The cap on SSH keys, request by request.  In one run of
    [AddSSHKey], from its count to its insert with no statement of
    another request in between, a user's number of keys changes only by
    acceptance: any answer but 200 leaves every count as it was; a 200
    is given only when the count the handler read was below 10, and
    adds one to the caller's count and to nobody else's.  The count and
    the insert are two statements and nothing holds the table between
    them.  The handler is its part up to the cap check followed by the
    rest; when the handlers of two requests of one user both pass the
    cap check before either inserts (the store executing every
    statement, names and keys valid), both are answered 200 and the
    user's count grows by two: from 9 it reaches 11, above the cap. *)
Theorem ssh_key_cap_is_checked_per_request r s userID :
  let resp := fst (Add r s) in
  let s' := snd (Add r s) in
  (KeyStatusCode resp <> 200 -> ssh_key_count userID s' = ssh_key_count userID s) /\
  (KeyStatusCode resp = 200 ->
   exists u,
     KeyContext r = Some u /\
     ssh_key_count (InfoUserID u) s < maxSSHKeysPerUser /\
     ssh_key_count userID s'
     = ssh_key_count userID s + (if userID =? InfoUserID u then 1 else 0)) /\
  Add r s
  = server.bind (AddSSHKey_paused TrimSpace Fields StdEncoding_DecodeString md5_Sum r)
      resume_key s /\
  (forall u req r2 u2 req2,
     KeyContext r = Some u -> KeyBody r = Some req ->
     KeyContext r2 = Some u2 -> KeyBody r2 = Some req2 ->
     InfoUserID u2 = InfoUserID u ->
     db.faults (h_db (compute s)) = [] ->
     TrimSpace (SSHReqName req) <> "" ->
     TrimSpace (SSHReqName req2) <> "" ->
     TrimSpace (SSHReqPublicKey req) <> "" ->
     TrimSpace (SSHReqPublicKey req2) <> "" ->
     isValid (TrimSpace (SSHReqPublicKey req)) = true ->
     isValid (TrimSpace (SSHReqPublicKey req2)) = true ->
     ssh_key_count (InfoUserID u) s < maxSSHKeysPerUser ->
     let both :=
       overlapped_keys
         (AddSSHKey_paused TrimSpace Fields StdEncoding_DecodeString md5_Sum r)
         (AddSSHKey_paused TrimSpace Fields StdEncoding_DecodeString md5_Sum r2) s in
     KeyStatusCode (fst (fst both)) = 200 /\
     KeyStatusCode (snd (fst both)) = 200 /\
     ssh_key_count (InfoUserID u) (snd both) = ssh_key_count (InfoUserID u) s + 2 /\
     (ssh_key_count (InfoUserID u) s = maxSSHKeysPerUser - 1 ->
      maxSSHKeysPerUser < ssh_key_count (InfoUserID u) (snd both))).
Proof.
  cbv zeta. split; [|split; [|split; [apply AddSSHKey_paused_resumed|]]].
  - destruct (KeyContext r) as [u|] eqn:HC; [destruct (KeyBody r) as [req|] eqn:HB|].
    + destruct (AddSSHKey_cases r u req s HC HB)
        as (_ & [(Code & Rows & _)|(_ & _ & _ & _ & Below & Resp & Rows & _)]).
      * intros _. unfold ssh_key_count. now rewrite Rows.
      * intros No. rewrite Resp in No. now contradiction No.
    + unfold AddSSHKey, getUserFromContext. rewrite HC, HB. reflexivity.
    + unfold AddSSHKey, getUserFromContext. rewrite HC. reflexivity.
  - destruct (KeyContext r) as [u|] eqn:HC; [destruct (KeyBody r) as [req|] eqn:HB|].
    + destruct (AddSSHKey_cases r u req s HC HB)
        as (_ & [(Code & Rows & _)|(_ & _ & _ & _ & Below & Resp & Rows & _)]).
      * intros E. contradiction.
      * intros _. rewrite (ssh_key_count_app userID _ s _ Rows). cbn [db.KeyUserID].
        rewrite Z.eqb_sym. exists u.
        split; [reflexivity|]. split; [exact Below | reflexivity].
    + unfold AddSSHKey, getUserFromContext. rewrite HC, HB. simpl. discriminate.
    + unfold AddSSHKey, getUserFromContext. rewrite HC. simpl. discriminate.
  - intros u req r2 u2 req2 HC HB HC2 HB2 Same Idle Name Name2 Key Key2 Valid Valid2 Below.
    assert (F0 : statement_fails s = false /\
                 statement_fails (statement_done s) = false /\
                 statement_fails (statement_done (statement_done s)) = false /\
                 hd false (tl (tl (tl (db.faults (h_db (compute s)))))) = false).
    { destruct (statement_done_frame s) as (_ & _ & _ & _ & _ & F1 & _).
      destruct (statement_done_frame (statement_done s)) as (_ & _ & _ & _ & _ & F2 & _).
      unfold statement_fails. rewrite F2, F1, Idle. repeat split. }
    destruct F0 as (Runs0 & Runs1 & Runs2 & Runs3).
    destruct (statement_done_frame s) as (_ & T1 & _ & _ & _ & F1 & _).
    destruct (statement_done_frame (statement_done s)) as (_ & T2 & _ & _ & _ & F2 & _).
    unfold overlapped_keys.
    rewrite sbind_run,
      (AddSSHKey_paused_admits r u req s HC HB Name Key Valid Runs0 Below).
    cbn [fst snd].
    assert (Below1 : ssh_key_count (InfoUserID u2) (statement_done s) < maxSSHKeysPerUser).
    { rewrite Same. unfold ssh_key_count. rewrite T1. exact Below. }
    rewrite sbind_run,
      (AddSSHKey_paused_admits r2 u2 req2 _ HC2 HB2 Name2 Key2 Valid2 Runs1 Below1).
    cbn [fst snd resume_key]. rewrite Same.
    set (s2 := statement_done (statement_done s)) in *.
    rewrite sbind_run.
    destruct (ssh_key_admitted_stores (InfoUserID u) (TrimSpace (SSHReqName req))
                (TrimSpace (SSHReqPublicKey req)) s2 Runs2) as (Ok1 & Count1 & F3).
    set (s3 := snd (ssh_key_admitted Fields StdEncoding_DecodeString md5_Sum (InfoUserID u)
                      (TrimSpace (SSHReqName req)) (TrimSpace (SSHReqPublicKey req)) s2))
      in *.
    assert (Runs3' : statement_fails s3 = false).
    { unfold statement_fails. rewrite F3. subst s2. rewrite F2, F1. exact Runs3. }
    rewrite sbind_run.
    destruct (ssh_key_admitted_stores (InfoUserID u) (TrimSpace (SSHReqName req2))
                (TrimSpace (SSHReqPublicKey req2)) s3 Runs3') as (Ok2 & Count2 & _).
    unfold ret. cbn [fst snd].
    assert (Count : ssh_key_count (InfoUserID u)
                      (snd (ssh_key_admitted Fields StdEncoding_DecodeString md5_Sum
                              (InfoUserID u) (TrimSpace (SSHReqName req2))
                              (TrimSpace (SSHReqPublicKey req2)) s3))
                    = ssh_key_count (InfoUserID u) s + 2).
    { rewrite Count2, Count1, Z.eqb_refl. unfold ssh_key_count. subst s2.
      rewrite T2, T1. lia. }
    split; [exact Ok1|]. split; [exact Ok2|]. split; [exact Count|].
    intros At. rewrite Count. lia.
Qed.

Lemma bytes_length b : length (bytes b) = String.length b.
Proof. unfold bytes. induction b as [|c b IH]; simpl; congruence. Qed.

Lemma append_length (a b : string) :
  String.length (a ++ b) = (String.length a + String.length b)%nat.
Proof. induction a as [|c a IH]; simpl; congruence. Qed.

Lemma fingerprint_length l :
  l <> [] ->
  String.length (strings.Join (map hex_byte l) ":") = (3 * length l - 1)%nat.
Proof.
  induction l as [|b l IH]; [congruence|]. intros _.
  destruct l as [|b2 l]; [reflexivity|].
  change (strings.Join (map hex_byte (b :: b2 :: l)) ":")
    with (hex_byte b ++ ":" ++ strings.Join (map hex_byte (b2 :: l)) ":")%string.
  rewrite !append_length, IH by discriminate. simpl. lia.
Qed.

(** The fingerprint of a stored key. A key that [AddSSHKey] accepts has
    passed the format check, so neither fallback of [sshKeyFingerprint]
    applies: its second field decodes, and the fingerprint stored and
    shown is the MD5 of the decoded data, 16 bytes in two hex digits
    each, joined by colons (47 characters), never the empty string. *)
Theorem accepted_ssh_key_has_a_fingerprint r u req s :
  (forall data, String.length (md5_Sum data) = 16%nat) ->
  KeyContext r = Some u ->
  KeyBody r = Some req ->
  KeyStatusCode (fst (Add r s)) = 200 ->
  let publicKey := TrimSpace (SSHReqPublicKey req) in
  exists keyType data rest decoded row,
    Fields publicKey = keyType :: data :: rest /\
    In keyType validTypes /\
    StdEncoding_DecodeString data = Some decoded /\
    ssh_table (snd (Add r s)) = ssh_table s ++ [row] /\
    db.PublicKey row = publicKey /\
    db.Fingerprint row
    = strings.Join (map hex_byte (bytes (md5_Sum decoded))) ":" /\
    String.length (db.Fingerprint row) = 47%nat /\
    exists shown,
      fst (Add r s) = writeJSON (SSHKeyJSON shown) /\
      SSHRespFingerprint shown = db.Fingerprint row.
Proof.
  intros MD5 HC HB Ok publicKey.
  destruct (AddSSHKey_cases r u req s HC HB)
    as (_ & [(Code & _)|(_ & _ & Valid & _ & _ & Resp & Rows & _)]); [contradiction|].
  fold publicKey in Valid, Resp, Rows.
  unfold isValidSSHPublicKey in Valid. unfold sshKeyFingerprint in Resp, Rows.
  destruct (Fields publicKey) as [|keyType [|data rest]] eqn:Parts; try discriminate.
  destruct (existsb (String.eqb keyType) validTypes) eqn:Ty; [|discriminate].
  cbn [negb] in Valid.
  destruct (StdEncoding_DecodeString data) as [decoded|] eqn:Decoded; [|discriminate].
  exists keyType, data, rest, decoded. eexists.
  split; [first [reflexivity | exact Parts]|]. split.
  { apply existsb_exists in Ty. destruct Ty as (t & I & E).
    apply String.eqb_eq in E. now subst. }
  split; [exact Decoded|]. split; [exact Rows|]. split; [reflexivity|].
  split; [reflexivity|]. split.
  - cbn [db.Fingerprint]. rewrite fingerprint_length.
    + rewrite bytes_length, MD5. reflexivity.
    + intros E. apply (f_equal (@length _)) in E. rewrite bytes_length, MD5 in E.
      discriminate.
  - eexists. split; [exact Resp | reflexivity].
Qed.

(** The two ways a deletion ends once the id parses. *)
Lemma DeleteSSHKey_cases r u id s :
  KeyContext r = Some u ->
  ParseInt (KeyPathValue r) = Some id ->
  let owned := existsb (keydb.ssh_key_matches id (InfoUserID u)) (ssh_table s) in
  Delete r s
  = if statement_fails s
    then (if strings.Contains ("delete ssh key: " ++ foreign_error) "not found"
          then writeError "SSH key not found" 404
          else writeError "internal error" 500,
          statement_done s)
    else (if owned then writeJSON KeyStatusOkJSON
          else writeError "SSH key not found" 404,
          with_ssh_keys
            (filter (fun k => negb (keydb.ssh_key_matches id (InfoUserID u) k))
               (ssh_table s))
            (ssh_keys_seq s) (statement_done s)).
Proof.
  intros HC HP owned. unfold DeleteSSHKey, getUserFromContext.
  rewrite HC, HP. cbn [option_map]. rewrite sbind_run, DeleteSSHKey_run.
  destruct (statement_fails s); cbn [fst snd Error].
  - now destruct (strings.Contains _ _).
  - assert (Count : forall rows,
      (length rows
       - length (filter (fun k => negb (keydb.ssh_key_matches id (InfoUserID u) k)) rows)
       =? 0)%nat
      = negb (existsb (keydb.ssh_key_matches id (InfoUserID u)) rows)).
    { induction rows as [|k rows IH]; [reflexivity|]. cbn [filter existsb].
      pose proof (filter_length_le
                    (fun k => negb (keydb.ssh_key_matches id (InfoUserID u) k)) rows) as Le.
      destruct (keydb.ssh_key_matches id (InfoUserID u) k); cbn [negb orb length].
      - apply Nat.eqb_neq. lia.
      - rewrite <- IH. reflexivity. }
    rewrite Count. fold owned. now destruct owned.
Qed.

(** DeleteSSHKey. The statement deletes the rows with the given id that
    belong to the caller, nothing else: keys of other users stay
    whatever id is given.  When the caller has such a key the answer is
    200; when not (no key has that id, or it is another user's) it is
    404 "SSH key not found" and the table is as before.  A path value
    that is not a number is answered 400 before any statement is made;
    a failing statement leaves the table and is answered 500, or 404
    if the text of the driver's error contains "not found". *)
Theorem delete_ssh_key_removes_only_the_callers_key r u s :
  KeyContext r = Some u ->
  let resp := fst (Delete r s) in
  let s' := snd (Delete r s) in
  let others := filter (fun k => negb (db.KeyUserID k =? InfoUserID u)) in
  beside_ssh_keys s' = beside_ssh_keys s /\
  others (ssh_table s') = others (ssh_table s) /\
  (ParseInt (KeyPathValue r) = None ->
   resp = writeError "invalid id" 400 /\ s' = s) /\
  (forall id,
     ParseInt (KeyPathValue r) = Some id ->
     let mine k := (db.KeyID k =? id) && (db.KeyUserID k =? InfoUserID u) in
     (statement_fails s = false ->
      ssh_table s' = filter (fun k => negb (mine k)) (ssh_table s) /\
      ((exists k, In k (ssh_table s) /\ mine k = true) ->
       resp = writeJSON KeyStatusOkJSON) /\
      ((forall k, In k (ssh_table s) -> mine k = false) ->
       resp = writeError "SSH key not found" 404 /\ ssh_table s' = ssh_table s)) /\
     (statement_fails s = true ->
      ssh_table s' = ssh_table s /\
      KeyStatusCode resp
      = if strings.Contains ("delete ssh key: " ++ foreign_error) "not found"
        then 404 else 500)).
Proof.
  intros HC resp s' others. subst resp s'.
  destruct (ParseInt (KeyPathValue r)) as [id|] eqn:HP.
  - rewrite (DeleteSSHKey_cases r u id s HC HP).
    destruct (statement_done_frame s) as (_ & T1 & Q1 & _ & _ & _ & B1 & _).
    destruct (statement_fails s) eqn:Fails; cbn [fst snd].
    + split; [exact B1|]. split; [now rewrite T1|]. split; [discriminate|].
      intros id' [= <-]. split; [discriminate|]. intros _.
      split; [exact T1|]. now destruct (strings.Contains _ _).
    + split; [exact B1|]. split.
      { unfold others, with_ssh_keys, ssh_table. simpl.
        apply (filter_others_kept (fun k => db.KeyUserID k =? InfoUserID u)).
        intros k M. unfold keydb.ssh_key_matches in M.
        now apply andb_true_iff in M. }
      split; [discriminate|].
      intros id' [= <-]. split; [|discriminate]. intros _.
      split; [reflexivity|]. split.
      * intros (k & I & M).
        assert (X : existsb (keydb.ssh_key_matches id (InfoUserID u)) (ssh_table s) = true)
          by (apply existsb_exists; now exists k).
        now rewrite X.
      * intros Mine.
        assert (X : existsb (keydb.ssh_key_matches id (InfoUserID u)) (ssh_table s) = false).
        { destruct (existsb _ _) eqn:X; [|reflexivity].
          apply existsb_exists in X. destruct X as (k & I & M).
          specialize (Mine k I).
          unfold keydb.ssh_key_matches in M. congruence. }
        rewrite X. split; [reflexivity|].
        destruct (with_ssh_keys_frame
                    (filter (fun k => negb (keydb.ssh_key_matches id (InfoUserID u) k))
                       (ssh_table s))
                    (ssh_keys_seq s) (statement_done s)) as (-> & _).
        apply filter_none_removed. exact Mine.
  - unfold DeleteSSHKey, getUserFromContext. rewrite HC, HP. cbn.
    split; [reflexivity|]. split; [reflexivity|]. split; [now split|].
    intros id E. discriminate.
Qed.

(** ListSSHKeys. For a caller whose query executes the answer is 200
    with one entry for each key of the caller and for no other key,
    newest first, each showing the stored id, name, fingerprint and
    insertion time; the public key itself is not shown.  Whatever the
    outcome no table changes. *)
Theorem ssh_key_list_shows_the_callers_keys_newest_first (r : KeyRequest unit) s :
  let resp := fst (ListSSHKeys r s) in
  let s' := snd (ListSSHKeys r s) in
  ssh_table s' = ssh_table s /\
  beside_ssh_keys s' = beside_ssh_keys s /\
  forall u,
    KeyContext r = Some u ->
    statement_fails s = false ->
    exists keys,
      resp = writeJSON (SSHKeysJSON (map sshKeyToResponse keys)) /\
      Permutation keys
        (filter (fun k => db.KeyUserID k =? InfoUserID u) (ssh_table s)) /\
      Sorted (newer_or_equal db.KeyCreatedAt) keys /\
      (forall k, In k keys <-> In k (ssh_table s) /\ db.KeyUserID k = InfoUserID u).
Proof.
  cbv zeta. unfold ListSSHKeys, getUserFromContext.
  destruct (KeyContext r) as [u0|]; cbn [option_map].
  2: { repeat split. intros u E. discriminate. }
  rewrite sbind_run, ListSSHKeysByUser_run.
  destruct (statement_done_frame s) as (_ & T1 & _ & _ & _ & _ & B1 & _).
  destruct (statement_fails s); cbn [fst snd keydb.is_nil negb]; unfold ret; cbn [fst snd].
  - split; [exact T1|]. split; [exact B1|]. intros u _ E. discriminate.
  - split; [exact T1|]. split; [exact B1|]. intros u [= <-] _.
    eexists. split; [reflexivity|]. split; [|split].
    + symmetry. apply order_by_created_at_desc_perm.
    + apply order_by_created_at_desc_sorted.
    + intros k. rewrite <- (Permutation_in' (eq_refl k) (order_by_created_at_desc_perm _ _)).
      rewrite filter_In, Z.eqb_eq. reflexivity.
Qed.

End SSHKeys.

(** ** Keys and containers *)

Lemma create_checked_accepts userID name ids memoryMB storageGB w :
  name <> "" ->
  db.faults (h_db w) = [] ->
  live_count userID (h_db w) < maxContainersPerUser ->
  ids <> [] ->
  length (filter (db.selected_key userID ids) (db.ssh_keys (h_db w))) = length ids ->
  stored (substring 0 8 (uuid_New w (uuid_drawn w))) (h_db w) = None ->
  StatusCode (fst (create_checked userID name ids memoryMB storageGB w)) = 200.
Proof.
  intros Name Idle Below Ids Len Fresh. unfold create_checked.
  destruct (String.eqb_spec name ""); [contradiction|].
  rewrite bind_run, on_db_run, CountContainersByUser_query.
  rewrite (driver_idle _ Idle), Idle. cbn [fst snd hd is_nil negb].
  destruct (Z.geb_spec (live_count userID (h_db w)) maxContainersPerUser); [lia|].
  destruct ids as [|id ids]; [congruence|]. cbn [length Nat.eqb].
  replace (with_db (h_db w) w) with w by now destruct w.
  rewrite bind_run, on_db_run, GetSSHKeysByIDs_query by discriminate.
  rewrite (driver_idle _ Idle), Idle. cbn [fst snd hd is_nil negb].
  rewrite Len. cbn [length]. rewrite Nat.eqb_refl. cbn [negb].
  replace (with_db (h_db w) w) with w by now destruct w.
  rewrite bind_run. unfold uuid_New_String. cbn [fst snd].
  rewrite bind_run. unfold current_timestamp. cbn [fst snd now].
  rewrite bind_run, on_db_run. cbn [h_db].
  unfold db.CreateContainer. rewrite (driver_idle _ Idle). cbn [db.ID].
  assert (X : existsb
                (fun r => (db.ID r =? substring 0 8 (uuid_New w (uuid_drawn w)))%string)
                (db.containers (h_db w)) = false).
  { destruct (existsb _ _) eqn:X; [|reflexivity].
    apply existsb_exists in X. destruct X as (row & I & E).
    unfold stored in Fresh. apply (find_none _ _ Fresh) in I. simpl in I. congruence. }
  rewrite X. reflexivity.
Qed.

Lemma no_key_selected_above userID id rows :
  (forall k, In k rows -> db.KeyID k < id) ->
  filter (db.selected_key userID [id]) rows = [].
Proof.
  induction rows as [|k rows IH]; intros Above; [reflexivity|]. cbn [filter].
  assert (NE : (db.KeyID k =? id) = false).
  { apply Z.eqb_neq. specialize (Above k (or_introl eq_refl)). lia. }
  unfold db.selected_key at 1. cbn [existsb]. rewrite NE, andb_false_r.
  apply IH. intros k2 I. apply Above. now right.
Qed.

Section KeysAndContainers.

Import server keyapi.

Variable TrimSpace : string -> string.
Variable Fields : string -> list string.
Variable StdEncoding_DecodeString : string -> option string.
Variable md5_Sum : string -> string.
Variable ParseInt : string -> option Z.
Variable foreign_error : string.

Local Abbreviation Add := (AddSSHKey TrimSpace Fields StdEncoding_DecodeString md5_Sum).
Local Abbreviation Delete := (DeleteSSHKey ParseInt foreign_error).

(** From the key endpoint to the container. A key that [AddSSHKey]
    accepted is found when its owner next creates a container naming
    the id of the response: with a name, a count below the cap, a store
    that executes and an unused container id, the creation is accepted
    and the provisioning goroutine gets exactly that key, so that the
    [authorized_keys] of the secret is the trimmed public key followed
    by a newline. *)
Theorem added_key_reaches_the_new_container r u req shown s r2 u2 creq :
  KeyContext r = Some u ->
  KeyBody r = Some req ->
  fst (Add r s) = keyapi.writeJSON (SSHKeyJSON shown) ->
  Context r2 = Some u2 ->
  InfoUserID u2 = InfoUserID u ->
  Body r2 = Some creq ->
  SSHKeyIDs creq = [SSHRespID shown] ->
  let w := compute (snd (Add r s)) in
  TrimSpace (ReqName creq) <> "" ->
  live_count (InfoUserID u) (h_db w) < maxContainersPerUser ->
  db.faults (h_db w) = [] ->
  stored (substring 0 8 (uuid_New w (uuid_drawn w))) (h_db w) = None ->
  exists container key,
    fst (CreateContainer TrimSpace r2 w) = api.writeJSON container /\
    goroutines (snd (CreateContainer TrimSpace r2 w))
    = goroutines w ++ [provisionTask container [key]] /\
    In key (db.ssh_keys (h_db w)) /\
    db.KeyID key = SSHRespID shown /\
    db.KeyUserID key = InfoUserID u /\
    db.PublicKey key = TrimSpace (SSHReqPublicKey req) /\
    key_lines [key] = (TrimSpace (SSHReqPublicKey req) ++ newline)%string.
Proof.
  intros HC HB Shown HC2 Same HB2 Ids w Name Below Idle Fresh.
  destruct (AddSSHKey_cases TrimSpace Fields StdEncoding_DecodeString md5_Sum r u req s HC HB)
    as (_ & [(Code & _)|(_ & _ & _ & _ & _ & Resp & Rows & _)]).
  { rewrite Shown in Code. now contradiction Code. }
  rewrite Shown in Resp. injection Resp as ->.
  cbn [SSHRespID] in Ids.
  set (id := keydb.new_rowid (ssh_keys_seq s) (map db.KeyID (ssh_table s))) in *.
  set (key := db.mkSSHKey id (InfoUserID u) (TrimSpace (SSHReqName req))
                (TrimSpace (SSHReqPublicKey req))
                (sshKeyFingerprint Fields StdEncoding_DecodeString md5_Sum
                   (TrimSpace (SSHReqPublicKey req)))
                (now (compute s))) in *.
  change (ssh_table (snd (Add r s))) with (db.ssh_keys (h_db w)) in Rows.
  assert (Sel : filter (db.selected_key (InfoUserID u2) [id]) (db.ssh_keys (h_db w)) = [key]).
  { rewrite Rows, filter_app. cbn [filter]. unfold db.selected_key at 2.
    cbn [db.KeyUserID db.KeyID key existsb]. rewrite Same, !Z.eqb_refl. cbn [andb orb].
    replace (filter (db.selected_key (InfoUserID u) [id]) (ssh_table s)) with
      (@nil db.SSHKey); [reflexivity|].
    symmetry. apply no_key_selected_above.
    destruct (new_rowid_fresh (ssh_keys_seq s) (map db.KeyID (ssh_table s)))
      as (_ & Above).
    intros k I. apply Above. now apply in_map. }
  rewrite (CreateContainer_checked TrimSpace r2 u2 creq HC2 HB2), Ids.
  pose proof (create_checked_accepts (InfoUserID u2) (TrimSpace (ReqName creq)) [id]
                (memory_or_default (ReqMemoryMB creq))
                (storage_or_default (ReqStorageGB creq)) w Name Idle) as Ok.
  specialize (Ok ltac:(rewrite Same; exact Below) ltac:(discriminate)
                ltac:(now rewrite Sel) Fresh).
  destruct (create_checked_cases (InfoUserID u2) (TrimSpace (ReqName creq)) [id]
              (memory_or_default (ReqMemoryMB creq))
              (storage_or_default (ReqStorageGB creq)) w)
    as (_ & [(Code & _)|(_ & _ & Resp & _ & Go)]); [contradiction|].
  rewrite Sel in Go.
  eexists. exists key. split; [exact Resp|]. split; [exact Go|].
  split; [rewrite Rows; apply in_or_app; right; now left|].
  repeat split.
Qed.

(** From the key endpoint to the container, deletion. When key ids are
    unique in the table and the deletion statement executes, the caller
    has no key with the given id afterwards, and a creation by that
    user that names the id is refused: it adds no row and starts no
    provisioning. *)
Theorem deleted_key_is_refused_by_creation r u id s r2 u2 creq :
  KeyContext r = Some u ->
  ParseInt (KeyPathValue r) = Some id ->
  NoDup (map db.KeyID (ssh_table s)) ->
  statement_fails s = false ->
  Context r2 = Some u2 ->
  InfoUserID u2 = InfoUserID u ->
  Body r2 = Some creq ->
  In id (SSHKeyIDs creq) ->
  let w := compute (snd (Delete r s)) in
  (forall k, In k (db.ssh_keys (h_db w)) ->
             ~ (db.KeyID k = id /\ db.KeyUserID k = InfoUserID u)) /\
  StatusCode (fst (CreateContainer TrimSpace r2 w)) <> 200 /\
  db.containers (h_db (snd (CreateContainer TrimSpace r2 w))) = db.containers (h_db w) /\
  goroutines (snd (CreateContainer TrimSpace r2 w)) = goroutines w /\
  h_k8s (snd (CreateContainer TrimSpace r2 w)) = h_k8s w.
Proof.
  intros HC HP ND Exec HC2 Same HB2 Named w.
  assert (Rows : db.ssh_keys (h_db w)
                 = filter (fun k => negb (keydb.ssh_key_matches id (InfoUserID u) k))
                     (ssh_table s)).
  { unfold w. rewrite (DeleteSSHKey_cases ParseInt foreign_error r u id s HC HP), Exec.
    reflexivity. }
  assert (Gone : forall k, In k (db.ssh_keys (h_db w)) ->
                           ~ (db.KeyID k = id /\ db.KeyUserID k = InfoUserID u)).
  { intros k I (E1 & E2). rewrite Rows in I. apply filter_In in I.
    destruct I as (_ & M). unfold keydb.ssh_key_matches in M.
    rewrite E1, E2, !Z.eqb_refl in M. discriminate. }
  split; [exact Gone|].
  rewrite (CreateContainer_checked TrimSpace r2 u2 creq HC2 HB2).
  destruct (create_checked_cases (InfoUserID u2) (TrimSpace (ReqName creq))
              (SSHKeyIDs creq) (memory_or_default (ReqMemoryMB creq))
              (storage_or_default (ReqStorageGB creq)) w)
    as (K & [(Code & Keep & Go)|(_ & Len & _)]).
  - repeat split; assumption.
  - exfalso.
    assert (ND' : NoDup (map db.KeyID (db.ssh_keys (h_db w))))
      by (rewrite Rows; now apply NoDup_map_filter).
    destruct (selected_keys_distinct _ _ _ ND' Len) as (_ & Owned).
    destruct (Owned id Named) as (k & I & E1 & E2).
    apply (Gone k I). split; [exact E1 | congruence].
Qed.

End KeysAndContainers.

(** ** API keys *)

Section APIKeys.

Import server keyapi.

Variable TrimSpace : string -> string.
Variable ParseInt : string -> option Z.
Variable Sum256 : string -> string.
Variable RawURLEncoding_EncodeToString : string -> string.
Variable foreign_error : string.

Local Abbreviation Create := (CreateAPIKey TrimSpace Sum256 RawURLEncoding_EncodeToString).
Local Abbreviation Delete := (DeleteAPIKey ParseInt foreign_error).
Local Abbreviation Hash := (auth.HashAPIKey Sum256).

Lemma with_api_keys_frame rows seq s :
  api_keys (with_api_keys rows seq s) = rows /\
  api_keys_seq (with_api_keys rows seq s) = seq /\
  beside_api_keys (with_api_keys rows seq s) = beside_api_keys s /\
  db.faults (h_db (compute (with_api_keys rows seq s))) = db.faults (h_db (compute s)) /\
  rand_drawn (with_api_keys rows seq s) = rand_drawn s.
Proof. repeat split; reflexivity. Qed.

Lemma GenerateAPIKey_run s :
  auth.GenerateAPIKey Sum256 RawURLEncoding_EncodeToString s
  = (match rand_Read s (rand_drawn s) with
     | Some buf =>
         (RawURLEncoding_EncodeToString buf, Hash (RawURLEncoding_EncodeToString buf), None)
     | None => ("", "", Some keydb.Foreign)
     end,
     random_drawn s).
Proof.
  unfold auth.GenerateAPIKey. rewrite sbind_run. unfold rand_Read_32. cbn [fst snd].
  now destruct (rand_Read s (rand_drawn s)).
Qed.

(** The two ways [CreateAPIKey] ends for a caller with a decodable
    body. *)
Lemma CreateAPIKey_cases r u req s :
  KeyContext r = Some u ->
  KeyBody r = Some req ->
  let name := TrimSpace (APIReqName req) in
  let resp := fst (Create r s) in
  let s' := snd (Create r s) in
  beside_api_keys s' = beside_api_keys s /\
  ((KeyStatusCode resp <> 200 /\
    api_keys s' = api_keys s /\ api_keys_seq s' = api_keys_seq s)
   \/
   (exists buf,
      rand_Read s (rand_drawn s) = Some buf /\
      let plaintext := RawURLEncoding_EncodeToString buf in
      let id := keydb.new_rowid (api_keys_seq s) (map keydb.APIKeyID (api_keys s)) in
      name <> "" /\
      api_key_count (InfoUserID u) s < maxAPIKeysPerUser /\
      resp = writeJSON (APIKeyJSON (mkAPIKeyResponse id name (Some plaintext)
                                      zero_time None)) /\
      api_keys s'
      = api_keys s
        ++ [keydb.mkAPIKey id (InfoUserID u) (Hash plaintext) name (now (compute s))
              sql.null_time] /\
      api_keys_seq s' = id /\
      db.faults (h_db (compute s')) = tl (tl (db.faults (h_db (compute s)))))).
Proof.
  intros HC HB name resp s'. subst resp s'.
  unfold CreateAPIKey, getUserFromContext. rewrite HC, HB. cbn [option_map].
  fold name.
  destruct (String.eqb_spec name "") as [|Name];
    [split; [reflexivity | left; split; [simpl; lia | split; reflexivity]]|].
  rewrite sbind_run, CountAPIKeysByUser_run. cbn [fst snd].
  destruct (statement_done_frame s) as (_ & _ & _ & A1 & Q1 & F1 & _ & B1).
  destruct (statement_fails s) eqn:Fails; cbn [keydb.is_nil negb].
  { split; [exact B1 | left; split; [simpl; lia | split; assumption]]. }
  destruct (Z.geb_spec (api_key_count (InfoUserID u) s) maxAPIKeysPerUser) as [|Below].
  { split; [exact B1 | left; split; [simpl; lia | split; assumption]]. }
  rewrite sbind_run, GenerateAPIKey_run. cbn [fst snd].
  set (s1 := random_drawn (statement_done s)).
  assert (E1 : beside_api_keys s1 = beside_api_keys s /\ api_keys s1 = api_keys s /\
               api_keys_seq s1 = api_keys_seq s /\
               db.faults (h_db (compute s1)) = tl (db.faults (h_db (compute s))) /\
               now (compute s1) = now (compute s)).
  { subst s1. repeat split; assumption. }
  destruct E1 as (B2 & A2 & Q2 & F2 & N2).
  change (rand_Read (statement_done s)) with (rand_Read s).
  change (rand_drawn (statement_done s)) with (rand_drawn s).
  destruct (rand_Read s (rand_drawn s)) as [buf|] eqn:Rand; cbn [keydb.is_nil negb].
  2: { unfold ret. cbn [fst snd].
       split; [exact B2 | left; split; [simpl; lia | split; assumption]]. }
  rewrite sbind_run. unfold current_timestamp. cbn [fst snd].
  rewrite sbind_run, CreateAPIKey_run. rewrite A2, Q2, N2.
  destruct (statement_done_frame s1) as (_ & _ & _ & A3 & Q3 & F3 & _ & B3).
  destruct (statement_fails s1) eqn:Fails2;
    cbn [fst snd keydb.is_nil negb]; unfold ret; cbn [fst snd].
  { split; [congruence | left; split; [simpl; lia | split; congruence]]. }
  split; [now rewrite <- B2, <- B3|].
  right. exists buf. split; [reflexivity|]. cbv zeta.
  split; [assumption|]. split; [assumption|]. split; [reflexivity|].
  split; [reflexivity|]. split; [reflexivity|].
  destruct (with_api_keys_frame
              (api_keys s ++ [keydb.mkAPIKey
                                (keydb.new_rowid (api_keys_seq s)
                                   (map keydb.APIKeyID (api_keys s)))
                                (InfoUserID u)
                                (Hash (RawURLEncoding_EncodeToString buf)) name
                                (now (compute s)) sql.null_time])
              (keydb.new_rowid (api_keys_seq s) (map keydb.APIKeyID (api_keys s)))
              (statement_done s1)) as (_ & _ & _ & F4 & _).
  cbn [keydb.set_APIKeyID keydb.APIKeyUserID keydb.KeyHash keydb.APIKeyName] in *.
  rewrite F4, F3, F2. reflexivity.
Qed.

Lemma api_key_count_app userID row s s' :
  api_keys s' = api_keys s ++ [row] ->
  api_key_count userID s'
  = api_key_count userID s + (if keydb.APIKeyUserID row =? userID then 1 else 0).
Proof.
  intros E. unfold api_key_count. rewrite E, filter_app, length_app. simpl.
  destruct (keydb.APIKeyUserID row =? userID); simpl; lia.
Qed.

(** CreateAPIKey, accepted. A 200 goes only to a caller with a name and
    fewer than 5 keys.  One row is added, at the end, with an id above
    every id of the table and above the sequence, the caller as owner,
    the trimmed name, no [last_used], and as [key_hash] the hash of the
    key shown in the response, which is the encoding of the bytes the
    random source gave.  The response shows the zero time as
    [created_at].  Whatever the outcome, nothing but the [api_keys]
    table changes. *)
Theorem created_api_key_is_stored_as_its_hash r u req s :
  KeyContext r = Some u ->
  KeyBody r = Some req ->
  let name := TrimSpace (APIReqName req) in
  let resp := fst (Create r s) in
  let s' := snd (Create r s) in
  beside_api_keys s' = beside_api_keys s /\
  (KeyStatusCode resp <> 200 -> api_keys s' = api_keys s) /\
  (KeyStatusCode resp = 200 ->
   name <> "" /\
   api_key_count (InfoUserID u) s < maxAPIKeysPerUser /\
   exists buf id,
     rand_Read s (rand_drawn s) = Some buf /\
     api_keys_seq s < id /\
     (forall k, In k (api_keys s) -> keydb.APIKeyID k < id) /\
     api_keys s'
     = api_keys s
       ++ [keydb.mkAPIKey id (InfoUserID u) (Hash (RawURLEncoding_EncodeToString buf))
             name (now (compute s)) sql.null_time] /\
     resp = writeJSON (APIKeyJSON (mkAPIKeyResponse id name
                                     (Some (RawURLEncoding_EncodeToString buf))
                                     zero_time None))).
Proof.
  intros HC HB name resp s'.
  destruct (CreateAPIKey_cases r u req s HC HB)
    as (Beside & [(Code & Rows & _)|(buf & Rand & Name & Below & Resp & Rows & _)]).
  - split; [exact Beside|]. split; [intros _; exact Rows | intros E; contradiction].
  - split; [exact Beside|]. fold resp in Resp. fold s' in Rows. split.
    + intros No. rewrite Resp in No. now contradiction No.
    + intros _. split; [exact Name|]. split; [exact Below|].
      destruct (new_rowid_fresh (api_keys_seq s) (map keydb.APIKeyID (api_keys s)))
        as (AboveSeq & AboveIds).
      exists buf. eexists. split; [exact Rand|]. split; [exact AboveSeq|].
      split; [|split; [exact Rows | exact Resp]].
      intros k I. apply AboveIds. now apply in_map.
Qed.

Lemma CreateAPIKey_paused_resumed r s :
  Create r s
  = server.bind (CreateAPIKey_paused TrimSpace Sum256 RawURLEncoding_EncodeToString r)
      resume_key s.
Proof.
  unfold CreateAPIKey, CreateAPIKey_paused.
  destruct (getUserFromContext r) as [userID|]; [|reflexivity].
  destruct (KeyBody r) as [req|]; [|reflexivity]. cbv zeta.
  destruct (TrimSpace (APIReqName req) =? "")%string; [reflexivity|].
  rewrite (sbind_run (on_store (keydb.CountAPIKeysByUser userID))).
  rewrite (sbind_run (server.bind _ _) resume_key).
  rewrite (sbind_run (on_store (keydb.CountAPIKeysByUser userID))).
  destruct (on_store (keydb.CountAPIKeysByUser userID) s) as [[count err] s1].
  cbn [fst snd].
  destruct (negb (keydb.is_nil err)); [reflexivity|].
  destruct (count >=? maxAPIKeysPerUser); reflexivity.
Qed.

Lemma CreateAPIKey_paused_admits r u req s :
  KeyContext r = Some u ->
  KeyBody r = Some req ->
  TrimSpace (APIReqName req) <> "" ->
  statement_fails s = false ->
  api_key_count (InfoUserID u) s < maxAPIKeysPerUser ->
  CreateAPIKey_paused TrimSpace Sum256 RawURLEncoding_EncodeToString r s
  = (inr (api_key_admitted Sum256 RawURLEncoding_EncodeToString (InfoUserID u)
            (TrimSpace (APIReqName req))),
     statement_done s).
Proof.
  intros HC HB Name Runs Below.
  unfold CreateAPIKey_paused, getUserFromContext. rewrite HC, HB. cbn [option_map].
  destruct (String.eqb_spec (TrimSpace (APIReqName req)) ""); [contradiction|].
  rewrite sbind_run, CountAPIKeysByUser_run, Runs. cbn [fst snd keydb.is_nil negb].
  destruct (Z.geb_spec (api_key_count (InfoUserID u) s) maxAPIKeysPerUser); [lia|].
  reflexivity.
Qed.

Lemma api_key_admitted_stores userID name buf s :
  statement_fails s = false ->
  rand_Read s (rand_drawn s) = Some buf ->
  let s' := snd (api_key_admitted Sum256 RawURLEncoding_EncodeToString userID name s) in
  KeyStatusCode (fst (api_key_admitted Sum256 RawURLEncoding_EncodeToString userID name s))
  = 200 /\
  (forall other,
     api_key_count other s'
     = api_key_count other s + (if userID =? other then 1 else 0)) /\
  db.faults (h_db (compute s')) = tl (db.faults (h_db (compute s))) /\
  rand_Read s' = rand_Read s /\
  rand_drawn s' = S (rand_drawn s).
Proof.
  intros Runs Rand. cbv zeta. unfold api_key_admitted.
  rewrite sbind_run, GenerateAPIKey_run, Rand. cbn [fst snd keydb.is_nil negb].
  rewrite sbind_run. unfold current_timestamp. cbn [fst snd].
  assert (Runs' : statement_fails (random_drawn s) = false) by exact Runs.
  rewrite sbind_run, CreateAPIKey_run, Runs'. cbn [fst snd keydb.is_nil negb].
  unfold ret. cbn [fst snd].
  destruct (statement_done_frame (random_drawn s)) as (_ & _ & _ & A1 & _ & F1 & _).
  split; [reflexivity|]. split; [|split; [|split; reflexivity]].
  - intros other.
    match goal with
    | |- context [with_api_keys (?rows ++ [?row]) ?id ?st] =>
        assert (E : api_keys (with_api_keys (rows ++ [row]) id st) = api_keys s ++ [row])
          by apply with_api_keys_frame;
        rewrite (api_key_count_app other row s _ E)
    end.
    reflexivity.
  - exact F1.
Qed.

(** The cap on API keys, request by request.  In one run of
    [CreateAPIKey], from its count to its insert with no statement of
    another request in between, a user's number of keys changes only by
    acceptance: any answer but 200 leaves every count as it was; a 200
    is given only when the count the handler read was below 5, and adds
    one to the caller's count and to nobody else's.  The count and the
    insert are two statements and nothing holds the table between them.
    The handler is its part up to the cap check followed by the rest;
    when the handlers of two requests of one user both pass the cap
    check before either inserts (the store executing every statement,
    names not blank, the random source delivering), both are answered
    200 and the user's count grows by two: from 4 it reaches 6, above
    the cap. *)
Theorem api_key_cap_is_checked_per_request r s userID :
  let resp := fst (Create r s) in
  let s' := snd (Create r s) in
  (KeyStatusCode resp <> 200 -> api_key_count userID s' = api_key_count userID s) /\
  (KeyStatusCode resp = 200 ->
   exists u,
     KeyContext r = Some u /\
     api_key_count (InfoUserID u) s < maxAPIKeysPerUser /\
     api_key_count userID s'
     = api_key_count userID s + (if userID =? InfoUserID u then 1 else 0)) /\
  Create r s
  = server.bind (CreateAPIKey_paused TrimSpace Sum256 RawURLEncoding_EncodeToString r)
      resume_key s /\
  (forall u req r2 u2 req2 buf1 buf2,
     KeyContext r = Some u -> KeyBody r = Some req ->
     KeyContext r2 = Some u2 -> KeyBody r2 = Some req2 ->
     InfoUserID u2 = InfoUserID u ->
     db.faults (h_db (compute s)) = [] ->
     TrimSpace (APIReqName req) <> "" ->
     TrimSpace (APIReqName req2) <> "" ->
     rand_Read s (rand_drawn s) = Some buf1 ->
     rand_Read s (S (rand_drawn s)) = Some buf2 ->
     api_key_count (InfoUserID u) s < maxAPIKeysPerUser ->
     let both :=
       overlapped_keys
         (CreateAPIKey_paused TrimSpace Sum256 RawURLEncoding_EncodeToString r)
         (CreateAPIKey_paused TrimSpace Sum256 RawURLEncoding_EncodeToString r2) s in
     KeyStatusCode (fst (fst both)) = 200 /\
     KeyStatusCode (snd (fst both)) = 200 /\
     api_key_count (InfoUserID u) (snd both) = api_key_count (InfoUserID u) s + 2 /\
     (api_key_count (InfoUserID u) s = maxAPIKeysPerUser - 1 ->
      maxAPIKeysPerUser < api_key_count (InfoUserID u) (snd both))).
Proof.
  cbv zeta. split; [|split; [|split; [apply CreateAPIKey_paused_resumed|]]].
  - destruct (KeyContext r) as [u|] eqn:HC; [destruct (KeyBody r) as [req|] eqn:HB|].
    + destruct (CreateAPIKey_cases r u req s HC HB)
        as (_ & [(Code & Rows & _)|(buf & _ & _ & Below & Resp & Rows & _)]).
      * intros _. unfold api_key_count. now rewrite Rows.
      * intros No. rewrite Resp in No. now contradiction No.
    + unfold CreateAPIKey, getUserFromContext. rewrite HC, HB. reflexivity.
    + unfold CreateAPIKey, getUserFromContext. rewrite HC. reflexivity.
  - destruct (KeyContext r) as [u|] eqn:HC; [destruct (KeyBody r) as [req|] eqn:HB|].
    + destruct (CreateAPIKey_cases r u req s HC HB)
        as (_ & [(Code & Rows & _)|(buf & _ & _ & Below & Resp & Rows & _)]).
      * intros E. contradiction.
      * intros _. rewrite (api_key_count_app userID _ s _ Rows).
        cbn [keydb.APIKeyUserID]. rewrite Z.eqb_sym. exists u.
        split; [reflexivity|]. split; [exact Below | reflexivity].
    + unfold CreateAPIKey, getUserFromContext. rewrite HC, HB. simpl. discriminate.
    + unfold CreateAPIKey, getUserFromContext. rewrite HC. simpl. discriminate.
  - intros u req r2 u2 req2 buf1 buf2 HC HB HC2 HB2 Same Idle Name Name2 Rand1 Rand2 Below.
    destruct (statement_done_frame s) as (_ & _ & _ & A1 & _ & F1 & _).
    destruct (statement_done_frame (statement_done s)) as (_ & _ & _ & A2 & _ & F2 & _).
    assert (F0 : statement_fails s = false /\
                 statement_fails (statement_done s) = false /\
                 statement_fails (statement_done (statement_done s)) = false).
    { unfold statement_fails. rewrite F2, F1, Idle. repeat split. }
    destruct F0 as (Runs0 & Runs1 & Runs2).
    unfold overlapped_keys.
    rewrite sbind_run, (CreateAPIKey_paused_admits r u req s HC HB Name Runs0 Below).
    cbn [fst snd].
    assert (Below1 : api_key_count (InfoUserID u2) (statement_done s) < maxAPIKeysPerUser).
    { rewrite Same. unfold api_key_count. rewrite A1. exact Below. }
    rewrite sbind_run,
      (CreateAPIKey_paused_admits r2 u2 req2 _ HC2 HB2 Name2 Runs1 Below1).
    cbn [fst snd resume_key]. rewrite Same.
    set (s2 := statement_done (statement_done s)) in *.
    rewrite sbind_run.
    assert (Rand1' : rand_Read s2 (rand_drawn s2) = Some buf1) by exact Rand1.
    destruct (api_key_admitted_stores (InfoUserID u) (TrimSpace (APIReqName req)) buf1 s2
                Runs2 Rand1') as (Ok1 & Count1 & F3 & Read3 & Drawn3).
    set (s3 := snd (api_key_admitted Sum256 RawURLEncoding_EncodeToString (InfoUserID u)
                      (TrimSpace (APIReqName req)) s2)) in *.
    assert (Runs3 : statement_fails s3 = false).
    { unfold statement_fails. rewrite F3. subst s2. rewrite F2, F1, Idle. reflexivity. }
    assert (Rand2' : rand_Read s3 (rand_drawn s3) = Some buf2).
    { rewrite Read3, Drawn3. exact Rand2. }
    rewrite sbind_run.
    destruct (api_key_admitted_stores (InfoUserID u) (TrimSpace (APIReqName req2)) buf2 s3
                Runs3 Rand2') as (Ok2 & Count2 & _).
    unfold ret. cbn [fst snd].
    assert (Count : api_key_count (InfoUserID u)
                      (snd (api_key_admitted Sum256 RawURLEncoding_EncodeToString
                              (InfoUserID u) (TrimSpace (APIReqName req2)) s3))
                    = api_key_count (InfoUserID u) s + 2).
    { rewrite Count2, Count1, Z.eqb_refl. unfold api_key_count. subst s2.
      rewrite A2, A1. lia. }
    split; [exact Ok1|]. split; [exact Ok2|]. split; [exact Count|].
    intros At. rewrite Count. lia.
Qed.

(** The two ways a deletion ends once the id parses. *)
Lemma DeleteAPIKey_cases r u id s :
  KeyContext r = Some u ->
  ParseInt (KeyPathValue r) = Some id ->
  let owned := existsb (keydb.api_key_matches id (InfoUserID u)) (api_keys s) in
  Delete r s
  = if statement_fails s
    then (if strings.Contains ("delete api key: " ++ foreign_error) "not found"
          then writeError "API key not found" 404
          else writeError "internal error" 500,
          statement_done s)
    else (if owned then writeJSON KeyStatusOkJSON
          else writeError "API key not found" 404,
          with_api_keys
            (filter (fun k => negb (keydb.api_key_matches id (InfoUserID u) k))
               (api_keys s))
            (api_keys_seq s) (statement_done s)).
Proof.
  intros HC HP owned. unfold DeleteAPIKey, getUserFromContext.
  rewrite HC, HP. cbn [option_map]. rewrite sbind_run, DeleteAPIKey_run.
  destruct (statement_fails s); cbn [fst snd Error].
  - now destruct (strings.Contains _ _).
  - assert (Count : forall rows,
      (length rows
       - length (filter (fun k => negb (keydb.api_key_matches id (InfoUserID u) k)) rows)
       =? 0)%nat
      = negb (existsb (keydb.api_key_matches id (InfoUserID u)) rows)).
    { induction rows as [|k rows IH]; [reflexivity|]. cbn [filter existsb].
      pose proof (filter_length_le
                    (fun k => negb (keydb.api_key_matches id (InfoUserID u) k)) rows) as Le.
      destruct (keydb.api_key_matches id (InfoUserID u) k); cbn [negb orb length].
      - apply Nat.eqb_neq. lia.
      - rewrite <- IH. reflexivity. }
    rewrite Count. fold owned. now destruct owned.
Qed.

(** DeleteAPIKey. The statement deletes the rows with the given id that
    belong to the caller, nothing else: keys of other users stay
    whatever id is given.  When the caller has such a key the answer is
    200; when not (no key has that id, or it is another user's) it is
    404 "API key not found" and the table is as before.  A path value
    that is not a number is answered 400 before any statement is
    made. *)
Theorem delete_api_key_removes_only_the_callers_key r u s :
  KeyContext r = Some u ->
  let resp := fst (Delete r s) in
  let s' := snd (Delete r s) in
  let others := filter (fun k => negb (keydb.APIKeyUserID k =? InfoUserID u)) in
  beside_api_keys s' = beside_api_keys s /\
  others (api_keys s') = others (api_keys s) /\
  (ParseInt (KeyPathValue r) = None ->
   resp = writeError "invalid id" 400 /\ s' = s) /\
  (forall id,
     ParseInt (KeyPathValue r) = Some id ->
     let mine k := (keydb.APIKeyID k =? id) && (keydb.APIKeyUserID k =? InfoUserID u) in
     (statement_fails s = false ->
      api_keys s' = filter (fun k => negb (mine k)) (api_keys s) /\
      ((exists k, In k (api_keys s) /\ mine k = true) ->
       resp = writeJSON KeyStatusOkJSON) /\
      ((forall k, In k (api_keys s) -> mine k = false) ->
       resp = writeError "API key not found" 404 /\ api_keys s' = api_keys s)) /\
     (statement_fails s = true ->
      api_keys s' = api_keys s /\
      KeyStatusCode resp
      = if strings.Contains ("delete api key: " ++ foreign_error) "not found"
        then 404 else 500)).
Proof.
  intros HC resp s' others. subst resp s'.
  destruct (ParseInt (KeyPathValue r)) as [id|] eqn:HP.
  - rewrite (DeleteAPIKey_cases r u id s HC HP).
    destruct (statement_done_frame s) as (_ & _ & _ & A1 & Q1 & _ & _ & B1).
    destruct (statement_fails s) eqn:Fails; cbn [fst snd].
    + split; [exact B1|]. split; [now rewrite A1|]. split; [discriminate|].
      intros id' [= <-]. split; [discriminate|]. intros _.
      split; [exact A1|]. now destruct (strings.Contains _ _).
    + split; [exact B1|]. split.
      { unfold others, with_api_keys. simpl.
        apply (filter_others_kept (fun k => keydb.APIKeyUserID k =? InfoUserID u)).
        intros k M. unfold keydb.api_key_matches in M.
        now apply andb_true_iff in M. }
      split; [discriminate|].
      intros id' [= <-]. split; [|discriminate]. intros _.
      split; [reflexivity|]. split.
      * intros (k & I & M).
        assert (X : existsb (keydb.api_key_matches id (InfoUserID u)) (api_keys s) = true)
          by (apply existsb_exists; now exists k).
        now rewrite X.
      * intros Mine.
        assert (X : existsb (keydb.api_key_matches id (InfoUserID u)) (api_keys s) = false).
        { destruct (existsb _ _) eqn:X; [|reflexivity].
          apply existsb_exists in X. destruct X as (k & I & M).
          specialize (Mine k I). unfold keydb.api_key_matches in M. congruence. }
        rewrite X. split; [reflexivity|].
        destruct (with_api_keys_frame
                    (filter (fun k => negb (keydb.api_key_matches id (InfoUserID u) k))
                       (api_keys s))
                    (api_keys_seq s) (statement_done s)) as (-> & _).
        apply filter_none_removed. exact Mine.
  - unfold DeleteAPIKey, getUserFromContext. rewrite HC, HP. cbn.
    split; [reflexivity|]. split; [reflexivity|]. split; [now split|].
    intros id E. discriminate.
Qed.

(** ListAPIKeys. For a caller whose query executes the answer is 200
    with one entry for each key of the caller and for no other key,
    newest first.  No entry carries a key: the field [key] is absent in
    every one of them (and the hash is no field of the response).
    Whatever the outcome no table changes. *)
Theorem api_key_list_never_shows_a_key (r : KeyRequest unit) s :
  let resp := fst (ListAPIKeys r s) in
  let s' := snd (ListAPIKeys r s) in
  api_keys s' = api_keys s /\
  beside_api_keys s' = beside_api_keys s /\
  (forall shown, resp = writeJSON (APIKeysJSON shown) ->
                 forall entry, In entry shown -> APIRespKey entry = None) /\
  forall u,
    KeyContext r = Some u ->
    statement_fails s = false ->
    exists keys,
      resp = writeJSON (APIKeysJSON (map (fun k => apiKeyToResponse k false) keys)) /\
      Permutation keys
        (filter (fun k => keydb.APIKeyUserID k =? InfoUserID u) (api_keys s)) /\
      Sorted (newer_or_equal keydb.APIKeyCreatedAt) keys /\
      (forall k, In k keys <-> In k (api_keys s) /\ keydb.APIKeyUserID k = InfoUserID u).
Proof.
  cbv zeta. unfold ListAPIKeys, getUserFromContext.
  destruct (KeyContext r) as [u0|]; cbn [option_map].
  2: { repeat split; try discriminate. }
  rewrite sbind_run, ListAPIKeysByUser_run.
  destruct (statement_done_frame s) as (_ & _ & _ & A1 & _ & _ & _ & B1).
  destruct (statement_fails s); cbn [fst snd keydb.is_nil negb]; unfold ret; cbn [fst snd].
  - split; [exact A1|]. split; [exact B1|]. split; [discriminate|].
    intros u _ E. discriminate.
  - split; [exact A1|]. split; [exact B1|]. split.
    { intros shown [= <-] entry I. apply in_map_iff in I. now destruct I as (k & <- & _). }
    intros u [= <-] _.
    eexists. split; [reflexivity|]. split; [|split].
    + symmetry. apply order_by_created_at_desc_perm.
    + apply order_by_created_at_desc_sorted.
    + intros k. rewrite <- (Permutation_in' (eq_refl k) (order_by_created_at_desc_perm _ _)).
      rewrite filter_In, Z.eqb_eq. reflexivity.
Qed.

End APIKeys.

(** ** The middleware *)

Section MiddlewareFacts.

Import server keyapi.

Variable TrimSpace : string -> string.
Variable Sum256 : string -> string.
Variable EqualFold : string -> string -> bool.
Variable Rq R : Type.
Variable WithContext : userInfo -> Rq -> Rq.
Variable next : Rq -> Act R.

Local Abbreviation Hash := (auth.HashAPIKey Sum256).
Local Abbreviation KeyOf := (auth.GetAPIKeyFromRequest TrimSpace EqualFold).
Local Abbreviation Middleware :=
  (authMiddleware TrimSpace Sum256 EqualFold Rq R WithContext next).
Local Abbreviation TryAPIKey :=
  (tryAPIKey TrimSpace Sum256 EqualFold Rq R WithContext next).
Local Abbreviation HandledAs := (handled_as WithContext next).

Lemma ValidateSession_run token s :
  auth.ValidateSession token s
  = (match sfs s (length (sfs_calls s)) token with
     | NoReply => ("", Some (keydb.Wrapped "call sfs"))
     | Reply status body =>
         if status =? 401 then ("", None)
         else if negb (status =? 200)
         then ("", Some (keydb.Plain ("sfs returned status " ++ itoa status)))
         else match body with
              | None => ("", Some (keydb.Wrapped "decode response"))
              | Some username => (username, None)
              end
     end,
     session_asked token s).
Proof.
  unfold auth.ValidateSession. rewrite sbind_run. unfold call_sfs. cbn [fst snd].
  fold (session_asked token s).
  destruct (sfs s (length (sfs_calls s)) token) as [|status [username|]];
    [reflexivity| |];
    destruct (status =? 401); [reflexivity| |reflexivity|];
    destruct (status =? 200); reflexivity.
Qed.

Lemma tryAPIKey_run r s :
  TryAPIKey r s
  = if (KeyOf (Authorization r) =? "")%string
    then (HttpError "unauthorized" 401, s)
    else if statement_fails s
    then (HttpError "authentication error" 500, statement_done s)
    else match find (fun k => (keydb.KeyHash k =? Hash (KeyOf (Authorization r)))%string)
                 (api_keys s) with
         | None => (HttpError "unauthorized" 401, statement_done s)
         | Some key =>
             HandledAs (mkUserInfo (keydb.APIKeyUserID key) "") r
               (snd (on_store (keydb.UpdateAPIKeyLastUsed (now (compute s))
                                 (keydb.APIKeyID key))
                       (statement_done s)))
         end.
Proof.
  unfold tryAPIKey.
  destruct (KeyOf (Authorization r) =? "")%string; cbn [negb]; [reflexivity|].
  rewrite sbind_run, GetAPIKeyByHash_run. cbn [fst snd].
  destruct (statement_fails s); cbn [keydb.is_nil negb]; [reflexivity|].
  destruct (find _ (api_keys s)) as [key|]; [|reflexivity].
  rewrite sbind_run. unfold current_timestamp. cbn [fst snd].
  rewrite sbind_run, sbind_run. unfold handled_as, setUserContext, ret.
  rewrite statement_done_now. reflexivity.
Qed.

Lemma authMiddleware_run r s :
  Middleware r s
  = let token := auth.GetSessionToken (Cookie r) in
    if (token =? "")%string then TryAPIKey r s
    else
      let asked := session_asked token s in
      match sfs s (length (sfs_calls s)) token with
      | NoReply => (HttpError "authentication error" 500, asked)
      | Reply status body =>
          if status =? 401 then TryAPIKey r asked
          else if negb (status =? 200)
          then (HttpError "authentication error" 500, asked)
          else match body with
               | None => (HttpError "authentication error" 500, asked)
               | Some username =>
                   if (username =? "")%string then TryAPIKey r asked
                   else HandledAs (mkUserInfo 1 username) r asked
               end
      end.
Proof.
  unfold authMiddleware. cbv zeta.
  destruct (auth.GetSessionToken (Cookie r) =? "")%string; cbn [negb]; [reflexivity|].
  rewrite sbind_run, ValidateSession_run. cbn [fst snd].
  destruct (sfs s _ _) as [|status [username|]]; cbn [keydb.is_nil negb];
    [reflexivity| |];
    destruct (status =? 401); cbn [keydb.is_nil negb negb String.eqb]; try reflexivity;
    destruct (status =? 200); cbn [keydb.is_nil negb]; try reflexivity.
  destruct (username =? "")%string; cbn [negb]; [reflexivity|].
  rewrite sbind_run. reflexivity.
Qed.

(** No credentials. A request without session cookie (or with an empty
    one) whose [Authorization] header is missing, has no space, has a
    scheme other than Bearer, or has only white space after the scheme
    is answered 401 "unauthorized"; [next] does not run, no statement
    is made, the session service is not asked, nothing changes. *)
Theorem request_without_credentials_is_unauthorized r s :
  Cookie r = None \/ Cookie r = Some "" ->
  Authorization r = ""
  \/ strings.after_space (Authorization r) = None
  \/ EqualFold (strings.before_space (Authorization r)) "Bearer" = false
  \/ option_map TrimSpace (strings.after_space (Authorization r)) = Some "" ->
  Middleware r s = (HttpError "unauthorized" 401, s).
Proof.
  intros NoCookie NoKey. rewrite authMiddleware_run. cbv zeta.
  assert (T : auth.GetSessionToken (Cookie r) = "")
    by (destruct NoCookie as [->| ->]; reflexivity).
  rewrite T. cbn [String.eqb]. rewrite tryAPIKey_run.
  assert (K : KeyOf (Authorization r) = "").
  { unfold auth.GetAPIKeyFromRequest, strings.SplitN_space_2.
    destruct (String.eqb_spec (Authorization r) "") as [|NE]; [reflexivity|].
    destruct NoKey as [E|[E|[E|E]]]; [contradiction| | |].
    - now rewrite E.
    - destruct (strings.after_space (Authorization r)); [|reflexivity]. now rewrite E.
    - destruct (strings.after_space (Authorization r)) as [rest|]; [|reflexivity].
      injection E as E. now destruct (EqualFold _ _). }
  rewrite K. reflexivity.
Qed.

(** Session users. A request whose session cookie the session service
    accepts (status 200 with a non-empty username) is handed to [next]
    with user id 1, whatever the username, and with that username; the
    [Authorization] header is not looked at and no statement is made.
    All session users therefore act as the same user. *)
Theorem session_users_act_as_user_one r token username s :
  Cookie r = Some token ->
  token <> "" ->
  sfs s (length (sfs_calls s)) token = Reply 200 (Some username) ->
  username <> "" ->
  Middleware r s = HandledAs (mkUserInfo 1 username) r (session_asked token s) /\
  compute (session_asked token s) = compute s /\
  api_keys (session_asked token s) = api_keys s /\
  sfs_calls (session_asked token s) = sfs_calls s ++ [token].
Proof.
  intros HC NE Reply200 Name. rewrite authMiddleware_run. cbv zeta.
  rewrite HC. cbn [auth.GetSessionToken].
  destruct (String.eqb_spec token ""); [contradiction|].
  rewrite Reply200. cbn [Z.eqb Pos.eqb negb].
  destruct (String.eqb_spec username ""); [contradiction|].
  repeat split.
Qed.

(** The session service decides first. With a non-empty session cookie
    the service is asked once.  If it does not answer, answers with a
    status other than 200 and 401, or with a body that does not decode,
    the request is answered 500 "authentication error" without [next]
    and without a look at the API key, however valid.  If it answers
    401, or 200 with an empty username, the request is treated as the
    same request without cookie. *)
Theorem session_service_decides_first r token s :
  Cookie r = Some token ->
  token <> "" ->
  let reply := sfs s (length (sfs_calls s)) token in
  let asked := session_asked token s in
  ((reply = NoReply
    \/ (exists status body, reply = Reply status body /\ status <> 200 /\ status <> 401)
    \/ reply = Reply 200 None) ->
   Middleware r s = (HttpError "authentication error" 500, asked)) /\
  (((exists body, reply = Reply 401 body) \/ reply = Reply 200 (Some "")) ->
   Middleware r s
   = authMiddleware TrimSpace Sum256 EqualFold Rq R WithContext next
       (mkIncoming None (Authorization r) (Routed r)) asked).
Proof.
  intros HC NE reply asked. subst reply asked.
  rewrite !authMiddleware_run. cbv zeta. rewrite HC.
  cbn [auth.GetSessionToken Cookie String.eqb].
  destruct (String.eqb_spec token ""); [contradiction|].
  rewrite !tryAPIKey_run. unfold handled_as. cbn [Authorization Routed].
  split.
  - intros [E|[(status & body & E & N200 & N401)| E]]; rewrite E; [reflexivity| |reflexivity].
    destruct (Z.eqb_spec status 401); [contradiction|].
    destruct (Z.eqb_spec status 200); [contradiction|]. reflexivity.
  - intros [(body & E)|E]; rewrite E; reflexivity.
Qed.

(** API keys. A request without session whose Bearer key hashes to the
    [key_hash] of a stored key is handed to [next] with the user id of
    the first such key and an empty username, after an attempt to set
    that key's [last_used] to the current time: when the update
    executes, the rows with that id carry the new [last_used] and no
    other row changes; when it fails, the failure is ignored and the
    request is handled all the same.  A key that matches no row is
    answered 401, a failing lookup 500, both without [next]. *)
Theorem api_key_acts_as_its_owner_and_marks_use r s :
  Cookie r = None ->
  let apiKey := KeyOf (Authorization r) in
  apiKey <> "" ->
  let found := find (fun k => (keydb.KeyHash k =? Hash apiKey)%string) (api_keys s) in
  (statement_fails s = true ->
   Middleware r s = (HttpError "authentication error" 500, statement_done s)) /\
  (statement_fails s = false -> found = None ->
   Middleware r s = (HttpError "unauthorized" 401, statement_done s)) /\
  (forall key,
     statement_fails s = false -> found = Some key ->
     exists s2,
       Middleware r s = HandledAs (mkUserInfo (keydb.APIKeyUserID key) "") r s2 /\
       beside_api_keys s2 = beside_api_keys s /\
       api_keys s2
       = (if statement_fails (statement_done s) then api_keys s
          else map (fun k => if keydb.APIKeyID k =? keydb.APIKeyID key
                             then keydb.set_LastUsed (sql.mkNullTime (now (compute s)) true) k
                             else k)
                 (api_keys s))).
Proof.
  intros HC apiKey NE found. subst found.
  rewrite authMiddleware_run. cbv zeta. rewrite HC. cbn [auth.GetSessionToken String.eqb].
  rewrite tryAPIKey_run. fold apiKey.
  destruct (String.eqb_spec apiKey ""); [contradiction|].
  destruct (statement_done_frame s) as (_ & _ & _ & A1 & Q1 & _ & _ & B1).
  destruct (statement_fails s) eqn:Fails.
  - split; [reflexivity|]. split; [discriminate|]. intros key E. discriminate.
  - split; [discriminate|]. split.
    + intros _ ->. reflexivity.
    + intros key _ ->. eexists. split; [reflexivity|].
      rewrite UpdateAPIKeyLastUsed_run.
      destruct (statement_done_frame (statement_done s))
        as (_ & _ & _ & A2 & Q2 & _ & _ & B2).
      destruct (statement_fails (statement_done s)); cbn [snd].
      * split; congruence.
      * split; [now rewrite <- B1, <- B2|]. now rewrite A1.
Qed.

End MiddlewareFacts.

(** ** From a key to a request and back *)

Lemma find_app_last {A} (p : A -> bool) rows row :
  (forall k, In k rows -> p k = false) -> p row = true ->
  find p (rows ++ [row]) = Some row.
Proof.
  intros Miss Hit. induction rows as [|k rows IH]; simpl.
  - now rewrite Hit.
  - rewrite (Miss k (or_introl eq_refl)). apply IH. intros k2 I. apply Miss. now right.
Qed.

Lemma find_filter_none {A} (p q : A -> bool) rows :
  (forall k, In k rows -> p k = true -> q k = false) ->
  find p (filter q rows) = None.
Proof.
  intros Out. induction rows as [|k rows IH]; [reflexivity|]. cbn [filter].
  assert (Rest : find p (filter q rows) = None)
    by (apply IH; intros k2 I; apply Out; now right).
  destruct (q k) eqn:Q; [|exact Rest]. cbn [find].
  destruct (p k) eqn:P; [|exact Rest].
  rewrite (Out k (or_introl eq_refl) P) in Q. discriminate.
Qed.

Lemma on_compute_run {A} (m : M A) s :
  fst (server.on_compute m s) = fst (m (server.compute s)) /\
  server.compute (snd (server.on_compute m s)) = snd (m (server.compute s)) /\
  server.sfs (snd (server.on_compute m s)) = server.sfs s /\
  server.sfs_calls (snd (server.on_compute m s)) = server.sfs_calls s /\
  server.api_keys (snd (server.on_compute m s)) = server.api_keys s.
Proof. unfold server.on_compute. destruct (m (server.compute s)). repeat split. Qed.

Lemma writeJSON_ID c1 c2 : api.writeJSON c1 = api.writeJSON c2 -> db.ID c1 = db.ID c2.
Proof.
  unfold api.writeJSON, containerToResponse. intros E.
  destruct (sql.Valid (db.ExternalIP c1)), (sql.Valid (db.ExternalIP c2));
    injection E; intros; assumption.
Qed.

Section RoundTrips.

Import server keyapi.

Variable TrimSpace : string -> string.
Variable ParseInt : string -> option Z.
Variable Sum256 : string -> string.
Variable RawURLEncoding_EncodeToString : string -> string.
Variable EqualFold : string -> string -> bool.
Variable foreign_error : string.
Variable Rq R : Type.
Variable WithContext : userInfo -> Rq -> Rq.
Variable next : Rq -> Act R.

Local Abbreviation Create := (CreateAPIKey TrimSpace Sum256 RawURLEncoding_EncodeToString).
Local Abbreviation Delete := (DeleteAPIKey ParseInt foreign_error).
Local Abbreviation Hash := (auth.HashAPIKey Sum256).
Local Abbreviation KeyOf := (auth.GetAPIKeyFromRequest TrimSpace EqualFold).
Local Abbreviation Middleware :=
  (authMiddleware TrimSpace Sum256 EqualFold Rq R WithContext next).

Lemma bearer_key key :
  EqualFold "Bearer" "Bearer" = true ->
  KeyOf ("Bearer " ++ key) = TrimSpace key.
Proof. intros Fold. unfold auth.GetAPIKeyFromRequest. cbn. now rewrite Fold. Qed.

(** A created key authenticates its owner. The key that [CreateAPIKey]
    shows, sent as "Bearer <key>" without a session cookie, passes the
    middleware: [next] runs with the user id of the creator and an
    empty username, after the key's [last_used] was written.  This
    takes that no older key has the same hash, that the lookup
    executes, and of the library that the key is not empty, has no
    white space around it and that "Bearer" folds to itself. *)
Theorem created_api_key_authenticates_its_owner r u req shown plaintext rq s :
  KeyContext r = Some u ->
  KeyBody r = Some req ->
  fst (Create r s) = writeJSON (APIKeyJSON shown) ->
  APIRespKey shown = Some plaintext ->
  (forall k, In k (api_keys s) -> keydb.KeyHash k <> Hash plaintext) ->
  EqualFold "Bearer" "Bearer" = true ->
  TrimSpace plaintext = plaintext ->
  plaintext <> "" ->
  let s1 := snd (Create r s) in
  statement_fails s1 = false ->
  let s2 := snd (on_store (keydb.UpdateAPIKeyLastUsed (now (compute s1)) (APIRespID shown))
                   (statement_done s1)) in
  Middleware (mkIncoming None ("Bearer " ++ plaintext) rq) s1
  = handled_as WithContext next (mkUserInfo (InfoUserID u) "")
      (mkIncoming None ("Bearer " ++ plaintext) rq) s2.
Proof.
  intros HC HB Shown Key Unique Fold Trim NE s1 Exec s2. subst s1 s2.
  destruct (CreateAPIKey_cases TrimSpace Sum256 RawURLEncoding_EncodeToString r u req s HC HB)
    as (_ & [(Code & _)|(buf & _ & _ & _ & Resp & Rows & _)]).
  { rewrite Shown in Code. now contradiction Code. }
  rewrite Shown in Resp. injection Resp as ->. cbn [APIRespKey APIRespID] in *.
  injection Key as <-.
  rewrite (authMiddleware_run TrimSpace Sum256 EqualFold). cbv zeta.
  cbn [Cookie auth.GetSessionToken String.eqb Authorization].
  rewrite (tryAPIKey_run TrimSpace Sum256 EqualFold). cbn [Authorization].
  rewrite (bearer_key _ Fold), Trim.
  destruct (String.eqb_spec (RawURLEncoding_EncodeToString buf) ""); [contradiction|].
  rewrite Exec, Rows.
  rewrite (find_app_last
             (fun k => (keydb.KeyHash k =? Hash (RawURLEncoding_EncodeToString buf))%string)).
  - reflexivity.
  - intros k I. apply String.eqb_neq. now apply Unique.
  - cbn [keydb.KeyHash]. apply String.eqb_refl.
Qed.

(** A deleted key no longer authenticates. After its owner deleted a
    key (the statement executing), a request without session that
    carries that key is answered 401 and [next] does not run, provided
    the lookup executes and only rows of that id and owner had the
    key's hash. *)
Theorem deleted_api_key_no_longer_authenticates r u id key s incoming :
  KeyContext r = Some u ->
  ParseInt (KeyPathValue r) = Some id ->
  statement_fails s = false ->
  In key (api_keys s) ->
  keydb.APIKeyID key = id ->
  keydb.APIKeyUserID key = InfoUserID u ->
  (forall k, In k (api_keys s) -> keydb.KeyHash k = keydb.KeyHash key ->
             keydb.APIKeyID k = id /\ keydb.APIKeyUserID k = InfoUserID u) ->
  Cookie incoming = None ->
  KeyOf (Authorization incoming) <> "" ->
  Hash (KeyOf (Authorization incoming)) = keydb.KeyHash key ->
  let s1 := snd (Delete r s) in
  statement_fails s1 = false ->
  fst (Delete r s) = writeJSON KeyStatusOkJSON /\
  Middleware incoming s1 = (HttpError "unauthorized" 401, statement_done s1).
Proof.
  intros HC HP Exec I Id Owner Unique NoCookie NE Same s1 Exec1. subst s1.
  rewrite (DeleteAPIKey_cases ParseInt foreign_error r u id s HC HP) in *.
  rewrite Exec in *. cbn [fst snd] in *.
  assert (Owned : existsb (keydb.api_key_matches id (InfoUserID u)) (api_keys s) = true).
  { apply existsb_exists. exists key. split; [exact I|].
    unfold keydb.api_key_matches. now rewrite Id, Owner, !Z.eqb_refl. }
  rewrite Owned. split; [reflexivity|].
  rewrite (authMiddleware_run TrimSpace Sum256 EqualFold). cbv zeta.
  rewrite NoCookie. cbn [auth.GetSessionToken String.eqb].
  rewrite (tryAPIKey_run TrimSpace Sum256 EqualFold).
  destruct (String.eqb_spec (KeyOf (Authorization incoming)) ""); [contradiction|].
  rewrite Exec1, Same.
  destruct (with_api_keys_frame
              (filter (fun k => negb (keydb.api_key_matches id (InfoUserID u) k))
                 (api_keys s))
              (api_keys_seq s) (statement_done s)) as (-> & _).
  rewrite find_filter_none; [reflexivity|].
  intros k Ik Hit. apply String.eqb_eq in Hit.
  destruct (Unique k Ik Hit) as (E1 & E2).
  unfold keydb.api_key_matches. now rewrite E1, E2, !Z.eqb_refl.
Qed.

(** Session users share their containers. Since every session user is
    user 1 to the handlers, a container created through one session is
    read through any other: when a creation behind the middleware was
    accepted for one session, the read of the created id behind the
    middleware is answered 200 for every other accepted session,
    whatever its username. *)
Theorem session_users_share_containers a b ta tb creator reader c s :
  Cookie a = Some ta -> ta <> "" ->
  sfs s (length (sfs_calls s)) ta = Reply 200 (Some creator) -> creator <> "" ->
  let create := protected TrimSpace Sum256 EqualFold (CreateContainer TrimSpace) in
  let read := protected TrimSpace Sum256 EqualFold GetContainer in
  fst (create a s) = Handled (api.writeJSON c) ->
  let s1 := snd (create a s) in
  Cookie b = Some tb -> tb <> "" ->
  sfs s (length (sfs_calls s1)) tb = Reply 200 (Some reader) -> reader <> "" ->
  PathValue (Routed b) = db.ID c ->
  next_ok (h_db (compute s1)) = true ->
  exists shown,
    fst (read b s1) = Handled shown /\ StatusCode shown = 200.
Proof.
  intros CA NA RA NameA create read Created s1 CB NB RB NameB Path Exec.
  subst create read s1. unfold protected in *.
  set (rq1 := container_WithContext (mkUserInfo 1 creator) (Routed a)) in *.
  assert (E1 : authMiddleware TrimSpace Sum256 EqualFold Request Response
                 container_WithContext
                 (fun r => on_compute (CreateContainer TrimSpace r)) a s
               = (Handled (fst (on_compute (CreateContainer TrimSpace rq1)
                                  (session_asked ta s))),
                  snd (on_compute (CreateContainer TrimSpace rq1) (session_asked ta s)))).
  { rewrite authMiddleware_run. cbv zeta. rewrite CA. cbn [auth.GetSessionToken].
    destruct (String.eqb_spec ta ""); [contradiction|].
    rewrite RA. cbn [Z.eqb Pos.eqb negb].
    destruct (String.eqb_spec creator ""); [contradiction|]. reflexivity. }
  rewrite E1 in *. clear E1. cbn [fst snd] in *.
  destruct (on_compute_run (CreateContainer TrimSpace rq1) (session_asked ta s))
    as (F1 & W1 & S1 & C1 & _).
  set (s1 := snd (on_compute (CreateContainer TrimSpace rq1) (session_asked ta s))) in *.
  change (compute (session_asked ta s)) with (compute s) in F1, W1.
  change (sfs (session_asked ta s)) with (sfs s) in S1.
  injection Created as Created. rewrite F1 in Created.
  assert (Ok : StatusCode (fst (CreateContainer TrimSpace rq1 (compute s))) = 200)
    by now rewrite Created.
  destruct (Body rq1) as [req|] eqn:HB.
  2: { destruct (CreateContainer_rejects TrimSpace rq1 (compute s) (or_intror HB)) as (No & _).
       contradiction. }
  destruct (accepted_creation_row TrimSpace rq1 (mkUserInfo 1 creator) req (compute s)
              eq_refl HB Ok) as (row & shown & Stored & Owner & Resp & Id).
  rewrite Created in Resp. apply writeJSON_ID in Resp. rewrite Id in Resp.
  set (rq2 := container_WithContext (mkUserInfo 1 reader) (Routed b)).
  assert (E2 : authMiddleware TrimSpace Sum256 EqualFold Request Response
                 container_WithContext (fun r => on_compute (GetContainer r)) b s1
               = (Handled (fst (on_compute (GetContainer rq2) (session_asked tb s1))),
                  snd (on_compute (GetContainer rq2) (session_asked tb s1)))).
  { rewrite authMiddleware_run. cbv zeta. rewrite CB. cbn [auth.GetSessionToken].
    destruct (String.eqb_spec tb ""); [contradiction|].
    rewrite S1, RB. cbn [Z.eqb Pos.eqb negb].
    destruct (String.eqb_spec reader ""); [contradiction|]. reflexivity. }
  rewrite E2. cbn [fst].
  destruct (on_compute_run (GetContainer rq2) (session_asked tb s1)) as (-> & _).
  change (compute (session_asked tb s1)) with (compute s1).
  eexists. split; [reflexivity|].
  apply (owner_reads_200 rq2 (mkUserInfo 1 reader) row); try reflexivity.
  - exact Exec.
  - rewrite W1. change (PathValue rq2) with (PathValue (Routed b)).
    rewrite Path, Resp. exact Stored.
  - exact Owner.
Qed.

End RoundTrips.

(** * Concrete runs *)

Import Scenario.

(** Creating "dev1" with sizes unset and one key: the response is
    pending with 512 MB, 5 GB and no address; after the provisioning
    goroutine ran on a quiet cluster a read shows "running". *)
Example create_then_read :
  let request := create (mkContainerRequest "dev1" 0 0 [1]) in
  let created := CreateContainer TrimSpace request (world quiet []) in
  let provisioned := run_first (snd created) in
  fst created
  = mkResponse 200
      (ContainerJSON (mkContainerResponse "0a1b2c3d" "dev1" "pending" None None 512 5 0)) /\
  map db.Status (db.containers (h_db provisioned)) = ["running"] /\
  goroutines provisioned
  = [provisionTask (db.mkContainer "0a1b2c3d" 7 "dev1" "compute-7-0a1b2c3d" "pending"
                      sql.null_string 512 5 defaultImage 0 sql.null_time) [laptop];
     pollTask (db.mkContainer "0a1b2c3d" 7 "dev1" "compute-7-0a1b2c3d" "pending"
                 sql.null_string 512 5 defaultImage 0 sql.null_time)] /\
  fst (GetContainer (by_id "0a1b2c3d") provisioned)
  = mkResponse 200
      (ContainerJSON (mkContainerResponse "0a1b2c3d" "dev1" "running" None None 512 5 1000)).
Proof. repeat split; reflexivity. Qed.

(** Deleting a container whose namespace is already gone removes the
    row. *)
Example delete_without_namespace :
  let w := world pods_gone [row "0a1b2c3d" 7 "failed"] in
  fst (DeleteContainer (by_id "0a1b2c3d") w) = mkResponse 200 StatusOkJSON /\
  db.containers (h_db (snd (DeleteContainer (by_id "0a1b2c3d") w))) = [].
Proof. repeat split; reflexivity. Qed.

(** Provisioning on a cluster where the third step times out. *)
Example provision_stops_at_the_volume_claim :
  let cluster :=
    k8s.mkCluster (fun n _ => if (n =? 2)%nat then Some (OtherReason "Timeout") else None)
      (fun _ _ => inr "Running") (fun _ _ => inr []) in
  let c := row "0a1b2c3d" 7 "pending" in
  let w' := snd (provisionContainer c [laptop] (world cluster [c])) in
  map snd (k8s.calls (h_k8s w'))
  = firstn 3 (provision_steps c [laptop]) /\
  map db.Status (db.containers (h_db w')) = ["failed"] /\
  goroutines w' = [].
Proof. repeat split; reflexivity. Qed.

(** Polling a cluster that assigns the address at the third query. *)
Example poller_finds_the_address_at_the_third_tick :
  let cluster :=
    k8s.mkCluster (fun _ _ => None) (fun _ _ => inr "Running")
      (fun n _ => if (n <? 2)%nat then inr [] else inr ["203.0.113.7"]) in
  let c := row "0a1b2c3d" 7 "running" in
  let w' := snd (pollExternalIP true c (world cluster [c])) in
  map fst (k8s.calls (h_k8s w')) = [1005; 1010; 1015] /\
  map db.ExternalIP (db.containers (h_db w')) = [sql.mkNullString "203.0.113.7" true] /\
  now w' = 1015.
Proof. repeat split; reflexivity. Qed.

(** Polling a cluster that never answers. *)
Example poller_gives_up_at_the_deadline :
  let c := row "0a1b2c3d" 7 "running" in
  let w' := snd (pollExternalIP false c (world unreachable [c])) in
  fst (pollExternalIP false c (world unreachable [c])) = Some tt /\
  length (k8s.calls (h_k8s w')) = 59%nat /\
  db.containers (h_db w') = [c] /\
  now w' = 1300.
Proof. repeat split; vm_compute; reflexivity. Qed.

(** C2: a stopped container whose pod is gone is stored as "not_found"
    by the next read. *)
Lemma absent_pod_overwrites_stored_status :
  option_map db.Status
    (stored "0a1b2c3d" (h_db (world pods_gone [row "0a1b2c3d" 7 "stopped"])))
  = Some "stopped" /\
  k8s.on_get_pod pods_gone 0 "compute-7-0a1b2c3d" = inl NotFound /\
  StatusCode (fst (GetContainer (by_id "0a1b2c3d")
                     (world pods_gone [row "0a1b2c3d" 7 "stopped"]))) = 200 /\
  option_map db.Status
    (stored "0a1b2c3d"
       (h_db (snd (GetContainer (by_id "0a1b2c3d")
                     (world pods_gone [row "0a1b2c3d" 7 "stopped"])))))
  = Some "not_found" /\
  existsb (String.eqb "not_found") ["pending"; "running"; "stopped"; "failed"; "deleted"]
  = false.
Proof. repeat split; reflexivity. Qed.

(** The amended C2 on that read. *)
Lemma read_persists_reported_status_witness :
  Context (by_id "0a1b2c3d") = Some alice /\
  next_ok (h_db (world pods_gone [row "0a1b2c3d" 7 "stopped"])) = true /\
  stored "0a1b2c3d" (h_db (world pods_gone [row "0a1b2c3d" 7 "stopped"]))
  = Some (row "0a1b2c3d" 7 "stopped") /\
  exists c',
    fst (GetContainer (by_id "0a1b2c3d") (world pods_gone [row "0a1b2c3d" 7 "stopped"]))
    = writeJSON c' /\
    db.Status c' = "not_found".
Proof.
  split; [reflexivity|]. split; [reflexivity|]. split; [reflexivity|].
  destruct (read_persists_reported_status (by_id "0a1b2c3d") alice
              (row "0a1b2c3d" 7 "stopped") (world pods_gone [row "0a1b2c3d" 7 "stopped"])
              eq_refl eq_refl eq_refl eq_refl eq_refl)
    as (_ & c' & Shown & Stored).
  exists c'. split; [exact Shown|].
  simpl in Stored. exact (proj1 (proj2 Stored)).
Defined.

(** C3: the request names key 2 before key 1; the request is accepted
    and the secret the provisioning goroutine creates lists key 1 before
    key 2, not the lines in request order. *)
Lemma secret_ignores_request_order :
  StatusCode (fst (CreateContainer TrimSpace two_keys_reversed (world quiet []))) = 200 /\
  secrets_sent
    (k8s.calls (h_k8s (run_first (snd (CreateContainer TrimSpace two_keys_reversed
                                         (world quiet []))))))
  = [db.PublicKey laptop ++ newline ++ db.PublicKey desktop ++ newline]%string /\
  lines_in_request_order [laptop; desktop] 7 [2; 1]
  = (db.PublicKey desktop ++ newline ++ db.PublicKey laptop ++ newline)%string /\
  ((db.PublicKey laptop ++ newline ++ db.PublicKey desktop ++ newline)
   =? (db.PublicKey desktop ++ newline ++ db.PublicKey laptop ++ newline))%string = false.
Proof. repeat split; reflexivity. Qed.

(** The amended C3 on that request. *)
Lemma ssh_secret_lists_keys_in_table_order_witness :
  Context two_keys_reversed = Some alice /\
  StatusCode (fst (CreateContainer TrimSpace two_keys_reversed (world quiet []))) = 200 /\
  exists container,
    goroutines (snd (CreateContainer TrimSpace two_keys_reversed (world quiet [])))
    = [provisionTask container [laptop; desktop]].
Proof.
  split; [reflexivity|]. split; [reflexivity|].
  destruct (ssh_secret_lists_keys_in_table_order TrimSpace two_keys_reversed alice _
              (world quiet []) eq_refl eq_refl eq_refl)
    as (_ & _ & (container & Started & _) & _).
  exists container. exact Started.
Defined.

(** C4 for a fourth container of alice. *)
Lemma create_at_cap_is_refused_witness :
  live_count 7 (h_db full_house) = 3 /\
  fst (CreateContainer TrimSpace one_more full_house)
  = writeError "container limit reached (3)" 400 /\
  db.containers (h_db (snd (CreateContainer TrimSpace one_more full_house)))
  = db.containers (h_db full_house).
Proof.
  split; [reflexivity|].
  destruct (create_at_cap_is_refused TrimSpace one_more alice _ full_house
              eq_refl eq_refl)
    as (_ & Rows & _ & _ & Limit).
  - vm_compute. discriminate.
  - split; [|exact Rows]. apply (Limit eq_refl). vm_compute. discriminate.
Defined.

(** C6 for a container whose pod is already gone. *)
Lemma stop_deletes_only_the_pod_witness :
  stored "0a1b2c3d" (h_db (world pods_gone [row "0a1b2c3d" 7 "running"]))
  = Some (row "0a1b2c3d" 7 "running") /\
  k8s.calls (h_k8s (snd (StopContainer (by_id "0a1b2c3d")
                           (world pods_gone [row "0a1b2c3d" 7 "running"]))))
  = [(1000, k8s.Delete k8s.Pods "compute-7-0a1b2c3d" "container")] /\
  fst (StopContainer (by_id "0a1b2c3d") (world pods_gone [row "0a1b2c3d" 7 "running"]))
  = mkResponse 200
      (ContainerJSON (mkContainerResponse "0a1b2c3d" "dev" "stopped" None None 512 5 900)) /\
  exists stopped,
    stored "0a1b2c3d"
      (h_db (snd (StopContainer (by_id "0a1b2c3d")
                    (world pods_gone [row "0a1b2c3d" 7 "running"]))))
    = Some stopped /\
    db.Status stopped = "stopped" /\
    sql.TimeValid (db.StoppedAt stopped) = true /\
    sql.Time (db.StoppedAt stopped) = 1000.
Proof.
  split; [reflexivity|].
  destruct (stop_deletes_only_the_pod (by_id "0a1b2c3d") alice
              (row "0a1b2c3d" 7 "running") (world pods_gone [row "0a1b2c3d" 7 "running"])
              eq_refl eq_refl eq_refl eq_refl)
    as (Calls & _ & Stopped & _).
  split; [exact Calls|].
  destruct (Stopped (or_intror eq_refl)) as (Resp & _ & _ & _ & Rows).
  split; [exact Resp|].
  destruct (Rows eq_refl) as (_ & (stopped & Here & Status & Valid & Time & _) & _).
  exists stopped. split; [exact Here|]. split; [exact Status|]. split; [exact Valid | exact Time].
Defined.

(** C8 for a cluster that answers no query. *)
Lemma read_survives_cluster_failure_witness :
  stored "0a1b2c3d" (h_db (world unreachable [row "0a1b2c3d" 7 "running"]))
  = Some (row "0a1b2c3d" 7 "running") /\
  exists c',
    fst (GetContainer (by_id "0a1b2c3d") (world unreachable [row "0a1b2c3d" 7 "running"]))
    = writeJSON c' /\
    c' = row "0a1b2c3d" 7 "running" /\
    db.containers (h_db (snd (GetContainer (by_id "0a1b2c3d")
                                (world unreachable [row "0a1b2c3d" 7 "running"]))))
    = [row "0a1b2c3d" 7 "running"].
Proof.
  split; [reflexivity|].
  destruct (read_survives_cluster_failure (by_id "0a1b2c3d") alice
              (row "0a1b2c3d" 7 "running") (world unreachable [row "0a1b2c3d" 7 "running"])
              eq_refl eq_refl eq_refl eq_refl)
    as (c' & Shown & _ & _ & _ & Untouched).
  exists c'. split; [exact Shown|].
  apply Untouched.
  - exists (OtherReason "Timeout"). split; [reflexivity | discriminate].
  - left. exists (OtherReason "Timeout"). reflexivity.
Defined.

(** C9 for alice stopping a container of user 8. *)
Lemma foreign_container_is_not_found_witness :
  stored "0a1b2c3d" (h_db (world quiet [row "0a1b2c3d" 8 "running"]))
  = Some (row "0a1b2c3d" 8 "running") /\
  fst (StopContainer (by_id "0a1b2c3d") (world quiet [row "0a1b2c3d" 8 "running"]))
  = writeError "container not found" 404 /\
  fst (StopContainer (by_id "0a1b2c3d") (world quiet [row "0a1b2c3d" 8 "running"]))
  = fst (StopContainer (by_id "0a1b2c3d") (world quiet [])).
Proof.
  split; [reflexivity|].
  destruct (foreign_container_is_not_found (by_id "0a1b2c3d") alice
              (row "0a1b2c3d" 8 "running") (world quiet [row "0a1b2c3d" 8 "running"])
              StopContainer eq_refl eq_refl)
    as (Same & Missing & _).
  - vm_compute. discriminate.
  - right. right. left. reflexivity.
  - split; [exact (Missing eq_refl) | exact (Same (world quiet []) eq_refl eq_refl)].
Defined.

(** C10 for [memory_mb = -1] and [storage_gb = 0]. *)
Lemma nonpositive_sizes_become_defaults_witness :
  Body negative_sizes = Some (mkContainerRequest "dev1" (-1) 0 [1]) /\
  CreateContainer TrimSpace negative_sizes (world quiet [])
  = CreateContainer TrimSpace (create (mkContainerRequest "dev1" 512 5 [1])) (world quiet []) /\
  map db.MemoryMB (db.containers (h_db (snd (CreateContainer TrimSpace negative_sizes
                                               (world quiet []))))) = [512] /\
  map db.StorageGB (db.containers (h_db (snd (CreateContainer TrimSpace negative_sizes
                                                (world quiet []))))) = [5].
Proof.
  split; [reflexivity|].
  destruct (nonpositive_sizes_become_defaults TrimSpace negative_sizes _ (world quiet [])
              eq_refl)
    as (Same & _).
  split; [exact Same|]. split; reflexivity.
Defined.

(** ** The rest of the container surface *)

(** Starting a stopped container on a cluster that accepts the pod. *)
Lemma start_recreates_only_the_pod_witness :
  stored "0a1b2c3d" (h_db (world quiet [row "0a1b2c3d" 7 "stopped"]))
  = Some (row "0a1b2c3d" 7 "stopped") /\
  k8s.calls (h_k8s (snd (StartContainer (by_id "0a1b2c3d")
                           (world quiet [row "0a1b2c3d" 7 "stopped"]))))
  = [(1000, k8s.Create (k8s.podObject "compute-7-0a1b2c3d" defaultImage 512))] /\
  fst (StartContainer (by_id "0a1b2c3d") (world quiet [row "0a1b2c3d" 7 "stopped"]))
  = writeJSON (row "0a1b2c3d" 7 "pending").
Proof.
  split; [reflexivity|].
  destruct (start_recreates_only_the_pod (by_id "0a1b2c3d") alice
              (row "0a1b2c3d" 7 "stopped") (world quiet [row "0a1b2c3d" 7 "stopped"])
              eq_refl eq_refl eq_refl eq_refl)
    as (Calls & _ & Started & _).
  split; [exact Calls|].
  exact (proj1 (Started eq_refl)).
Defined.

(** Deleting one of two containers whose namespace is already gone. *)
Lemma delete_removes_the_namespace_then_the_row_witness :
  stored "0a1b2c3d"
    (h_db (world pods_gone [row "0a1b2c3d" 7 "running"; row "bbbbbbbb" 7 "stopped"]))
  = Some (row "0a1b2c3d" 7 "running") /\
  k8s.calls (h_k8s (snd (DeleteContainer (by_id "0a1b2c3d")
                           (world pods_gone [row "0a1b2c3d" 7 "running";
                                             row "bbbbbbbb" 7 "stopped"]))))
  = [(1000, k8s.Delete k8s.Namespaces "" "compute-7-0a1b2c3d")] /\
  fst (DeleteContainer (by_id "0a1b2c3d")
         (world pods_gone [row "0a1b2c3d" 7 "running"; row "bbbbbbbb" 7 "stopped"]))
  = mkResponse 200 StatusOkJSON /\
  db.containers (h_db (snd (DeleteContainer (by_id "0a1b2c3d")
                              (world pods_gone [row "0a1b2c3d" 7 "running";
                                                row "bbbbbbbb" 7 "stopped"]))))
  = [row "bbbbbbbb" 7 "stopped"].
Proof.
  split; [reflexivity|].
  destruct (delete_removes_the_namespace_then_the_row (by_id "0a1b2c3d") alice
              (row "0a1b2c3d" 7 "running")
              (world pods_gone [row "0a1b2c3d" 7 "running"; row "bbbbbbbb" 7 "stopped"])
              eq_refl eq_refl eq_refl eq_refl)
    as (Calls & _ & _ & Deleted & _).
  split; [exact Calls|].
  destruct (Deleted eq_refl eq_refl) as (Resp & Rows & _).
  split; [exact Resp | exact Rows].
Defined.

(** Stopping and restarting a running container. *)
Lemma stop_then_start_touches_only_the_pod_witness :
  stored "0a1b2c3d" (h_db (world quiet [row "0a1b2c3d" 7 "running"]))
  = Some (row "0a1b2c3d" 7 "running") /\
  k8s.calls (h_k8s (snd (StartContainer (by_id "0a1b2c3d")
                           (snd (StopContainer (by_id "0a1b2c3d")
                                   (world quiet [row "0a1b2c3d" 7 "running"]))))))
  = [(1000, k8s.Delete k8s.Pods "compute-7-0a1b2c3d" "container");
     (1000, k8s.Create (k8s.podObject "compute-7-0a1b2c3d" defaultImage 512))] /\
  option_map (fun c => (db.Status c, db.StoppedAt c))
    (stored "0a1b2c3d"
       (h_db (snd (StartContainer (by_id "0a1b2c3d")
                     (snd (StopContainer (by_id "0a1b2c3d")
                             (world quiet [row "0a1b2c3d" 7 "running"])))))))
  = Some ("pending", sql.mkNullTime 1000 true).
Proof.
  split; [reflexivity|].
  destruct (stop_then_start_touches_only_the_pod (by_id "0a1b2c3d") alice
              (row "0a1b2c3d" 7 "running") (world quiet [row "0a1b2c3d" 7 "running"])
              eq_refl eq_refl eq_refl eq_refl eq_refl eq_refl)
    as (Calls & _ & _ & _ & Stored).
  split; [exact Calls|].
  change (PathValue (by_id "0a1b2c3d")) with "0a1b2c3d" in Stored.
  rewrite Stored. reflexivity.
Defined.

(** A first container for alice, then read by alice and by somebody
    else. *)
Lemma created_container_is_stored_under_a_fresh_id_witness :
  StatusCode (fst (CreateContainer TrimSpace one_more (world quiet []))) = 200 /\
  option_map db.Name
    (stored "0a1b2c3d" (h_db (snd (CreateContainer TrimSpace one_more (world quiet [])))))
  = Some "dev4" /\
  StatusCode (fst (GetContainer (mkRequest (Some (mkUserInfo 8 "bob")) "0a1b2c3d" None)
                     (snd (CreateContainer TrimSpace one_more (world quiet [])))))
  = 404 /\
  StatusCode (fst (GetContainer (by_id "0a1b2c3d")
                     (snd (CreateContainer TrimSpace one_more (world quiet [])))))
  = 200.
Proof.
  split; [reflexivity|].
  destruct (created_container_is_stored_under_a_fresh_id TrimSpace one_more alice
              (mkContainerRequest " dev4 " 1024 10 [1]) (world quiet [])
              eq_refl eq_refl eq_refl)
    as (_ & Stored & _ & _ & Read).
  split; [|split].
  - change (substring 0 8 (uuid_New (world quiet []) (uuid_drawn (world quiet []))))
      with "0a1b2c3d" in Stored.
    rewrite Stored. reflexivity.
  - exact (Read (mkRequest (Some (mkUserInfo 8 "bob")) "0a1b2c3d" None)
             (mkUserInfo 8 "bob") eq_refl eq_refl eq_refl).
  - exact (Read (by_id "0a1b2c3d") alice eq_refl eq_refl eq_refl).
Defined.

(** C5 for alice's first container. *)
Lemma namespace_is_a_function_of_user_and_id_witness :
  StatusCode (fst (CreateContainer TrimSpace one_more (world quiet []))) = 200 /\
  option_map db.Namespace
    (stored "0a1b2c3d" (h_db (snd (CreateContainer TrimSpace one_more (world quiet [])))))
  = Some "compute-7-0a1b2c3d" /\
  namespaceName 7 "0a1b2c3d" = "compute-7-0a1b2c3d".
Proof.
  split; [reflexivity|].
  destruct (namespace_is_a_function_of_user_and_id TrimSpace one_more alice
              (mkContainerRequest " dev4 " 1024 10 [1]) (world quiet [])
              eq_refl eq_refl eq_refl)
    as ((digits & row & _ & _ & Digits & Here & _ & _ & Name & _) & _ & _ & Seven & _).
  split; [|exact Seven].
  change (substring 0 8 (uuid_New (world quiet []) (uuid_drawn (world quiet []))))
    with "0a1b2c3d" in Here, Name.
  rewrite Here. cbn [option_map]. rewrite Name.
  now rewrite (decimal_of_unique digits _ Digits).
Defined.

(** Two requests of alice, who has two live containers, overlapping:
    both are accepted and she has four. *)
Lemma create_raises_only_the_callers_count_witness :
  live_count 7 (h_db one_slot_left) = 2 /\
  StatusCode (fst (fst (overlapped (CreateContainer_paused TrimSpace one_more)
                          (CreateContainer_paused TrimSpace two_keys_reversed)
                          one_slot_left))) = 200 /\
  StatusCode (snd (fst (overlapped (CreateContainer_paused TrimSpace one_more)
                          (CreateContainer_paused TrimSpace two_keys_reversed)
                          one_slot_left))) = 200 /\
  live_count 7 (h_db (snd (overlapped (CreateContainer_paused TrimSpace one_more)
                             (CreateContainer_paused TrimSpace two_keys_reversed)
                             one_slot_left))) = 4 /\
  StatusCode
    (fst (CreateContainer TrimSpace two_keys_reversed
            (snd (CreateContainer TrimSpace one_more one_slot_left)))) = 400.
Proof.
  split; [reflexivity|].
  destruct (create_raises_only_the_callers_count TrimSpace one_more one_slot_left 7)
    as (_ & _ & _ & Both).
  destruct (Both alice (mkContainerRequest " dev4 " 1024 10 [1]) two_keys_reversed alice
              (mkContainerRequest "dev1" 0 0 [2; 1])
              eq_refl eq_refl eq_refl eq_refl eq_refl eq_refl)
    as (First & Second & Count & _);
    try reflexivity; try discriminate.
  split; [exact First|]. split; [exact Second|]. split; [exact Count | reflexivity].
Defined.

(** Deleting one of alice's three live containers makes room for a
    fourth. *)
Lemma delete_frees_one_slot_witness :
  live_count 7 (h_db full_house) = 3 /\
  live_count 7 (h_db (snd (DeleteContainer (by_id "bbbbbbbb") full_house))) = 2 /\
  live_count 8 (h_db (snd (DeleteContainer (by_id "bbbbbbbb") full_house))) = 1.
Proof.
  split; [reflexivity|]. split.
  - exact (delete_frees_one_slot (by_id "bbbbbbbb") alice (row "bbbbbbbb" 7 "stopped")
             full_house 7 eq_refl eq_refl eq_refl eq_refl
             ltac:(repeat constructor; simpl; intuition discriminate) eq_refl eq_refl).
  - exact (delete_frees_one_slot (by_id "bbbbbbbb") alice (row "bbbbbbbb" 7 "stopped")
             full_house 8 eq_refl eq_refl eq_refl eq_refl
             ltac:(repeat constructor; simpl; intuition discriminate) eq_refl eq_refl).
Defined.

(** Reading a running container that has no address yet, on a cluster
    that has none to give. *)
Lemma read_queries_the_cluster_and_fills_the_address_witness :
  stored "0a1b2c3d" (h_db (world quiet [row "0a1b2c3d" 7 "pending"]))
  = Some (row "0a1b2c3d" 7 "pending") /\
  k8s.calls (h_k8s (snd (GetContainer (by_id "0a1b2c3d")
                           (world quiet [row "0a1b2c3d" 7 "pending"]))))
  = [(1000, k8s.Get k8s.Pods "compute-7-0a1b2c3d" "container");
     (1000, k8s.Get k8s.Services "compute-7-0a1b2c3d" "lb")] /\
  exists c',
    fst (GetContainer (by_id "0a1b2c3d") (world quiet [row "0a1b2c3d" 7 "pending"]))
    = writeJSON c' /\
    stored "0a1b2c3d"
      (h_db (snd (GetContainer (by_id "0a1b2c3d")
                    (world quiet [row "0a1b2c3d" 7 "pending"]))))
    = Some c'.
Proof.
  split; [reflexivity|].
  destruct (read_queries_the_cluster_and_fills_the_address (by_id "0a1b2c3d") alice
              (row "0a1b2c3d" 7 "pending") (world quiet [row "0a1b2c3d" 7 "pending"])
              eq_refl eq_refl eq_refl eq_refl)
    as (Calls & _ & _ & c' & Resp & _ & _ & Stored).
  split; [exact Calls|].
  exists c'. split; [exact Resp | exact (Stored eq_refl)].
Defined.

(** A creation and the provisioning it started, beside an older row. *)
Lemma rows_keep_their_identity_witness :
  reaches TrimSpace (world quiet [row "bbbbbbbb" 7 "stopped"])
    (run_first (snd (CreateContainer TrimSpace one_more
                       (world quiet [row "bbbbbbbb" 7 "stopped"])))) /\
  NoDup (map db.ID
           (db.containers
              (h_db (run_first (snd (CreateContainer TrimSpace one_more
                                       (world quiet [row "bbbbbbbb" 7 "stopped"]))))))).
Proof.
  assert (R : reaches TrimSpace (world quiet [row "bbbbbbbb" 7 "stopped"])
                (run_first (snd (CreateContainer TrimSpace one_more
                                   (world quiet [row "bbbbbbbb" 7 "stopped"]))))).
  { eapply reaches_on.
    - eapply reaches_on; [apply reaches_here | apply step_CreateContainer].
    - apply (step_goroutine TrimSpace true). left. reflexivity. }
  split; [exact R|].
  apply (proj2 (rows_keep_their_identity TrimSpace _ _ R)).
  repeat constructor. simpl. tauto.
Defined.

(** After a stop, no row is "deleted" and the count is the number of
    rows. *)
Lemma no_row_becomes_deleted_witness :
  reaches TrimSpace (world quiet [row "0a1b2c3d" 7 "running"])
    (snd (StopContainer (by_id "0a1b2c3d") (world quiet [row "0a1b2c3d" 7 "running"]))) /\
  live_count 7 (h_db (snd (StopContainer (by_id "0a1b2c3d")
                             (world quiet [row "0a1b2c3d" 7 "running"]))))
  = 1.
Proof.
  assert (R : reaches TrimSpace (world quiet [row "0a1b2c3d" 7 "running"])
                (snd (StopContainer (by_id "0a1b2c3d")
                        (world quiet [row "0a1b2c3d" 7 "running"])))).
  { eapply reaches_on; [apply reaches_here | apply step_StopContainer]. }
  split; [exact R|].
  assert (Clean : forall old, In old (db.containers
                                        (h_db (world quiet [row "0a1b2c3d" 7 "running"]))) ->
                              db.Status old <> "deleted").
  { intros old [<-|[]]. discriminate. }
  rewrite (proj2 (no_row_becomes_deleted TrimSpace _ _ R Clean) 7). reflexivity.
Defined.

(** Naming the same key twice, on a table with unique key ids. *)
Lemma accepted_keys_are_distinct_keys_of_the_caller_witness :
  NoDup (map db.KeyID (db.ssh_keys (h_db (world quiet [])))) /\
  StatusCode (fst (CreateContainer TrimSpace (create (mkContainerRequest "dev1" 0 0 [1; 1]))
                     (world quiet [])))
  <> 200 /\
  db.containers (h_db (snd (CreateContainer TrimSpace
                              (create (mkContainerRequest "dev1" 0 0 [1; 1]))
                              (world quiet []))))
  = [].
Proof.
  assert (ND : NoDup (map db.KeyID (db.ssh_keys (h_db (world quiet []))))).
  { repeat constructor; simpl; intuition discriminate. }
  split; [exact ND|].
  destruct (accepted_keys_are_distinct_keys_of_the_caller TrimSpace
              (create (mkContainerRequest "dev1" 0 0 [1; 1])) alice
              (mkContainerRequest "dev1" 0 0 [1; 1]) (world quiet [])
              eq_refl eq_refl ND)
    as (_ & Refused).
  assert (Twice : ~ (NoDup [1; 1] /\
                     forall id, In id [1; 1] ->
                       exists k, In k (db.ssh_keys (h_db (world quiet []))) /\
                                 db.KeyID k = id /\ db.KeyUserID k = InfoUserID alice)).
  { intros (D & _). inversion D as [|? ? Fresh _]; subst. apply Fresh. now left. }
  destruct (Refused Twice) as (Code & Rows & _).
  split; [exact Code | exact Rows].
Defined.

(** On a cluster that gives the address at once. *)
Lemma accepted_container_becomes_reachable_witness :
  StatusCode (fst (CreateContainer TrimSpace one_more
                     (world (k8s.mkCluster (fun _ _ => None) (fun _ _ => inr "Running")
                                (fun _ _ => inr ["203.0.113.7"])) [])))
  = 200 /\
  exists container sshKeys row,
    stored "0a1b2c3d"
      (h_db (snd (run true (pollTask container)
                    (snd (run true (provisionTask container sshKeys)
                            (snd (CreateContainer TrimSpace one_more
                                    (world (k8s.mkCluster (fun _ _ => None)
                                              (fun _ _ => inr "Running")
                                              (fun _ _ => inr ["203.0.113.7"])) []))))))))
    = Some row /\
    db.Status row = "running" /\
    db.ExternalIP row = sql.mkNullString "203.0.113.7" true.
Proof.
  split; [reflexivity|].
  destruct (accepted_container_becomes_reachable TrimSpace one_more alice
              (mkContainerRequest " dev4 " 1024 10 [1])
              (world (k8s.mkCluster (fun _ _ => None) (fun _ _ => inr "Running")
                        (fun _ _ => inr ["203.0.113.7"])) [])
              true "203.0.113.7" eq_refl eq_refl eq_refl
              (fun _ _ => eq_refl) (fun _ => eq_refl) eq_refl)
    as (container & sshKeys & _ & _ & _ & _ & _ & _ & row & Stored & Status & Address & _).
  exists container, sshKeys, row. split; [exact Stored|]. split; [exact Status | exact Address].
Defined.

(** ** Keys and authentication *)

Import server keyapi Office.

(** Alice adds a third key. *)
Lemma added_ssh_key_is_stored_for_the_caller_witness :
  KeyStatusCode (fst (Office.AddSSHKey add_tablet desk)) = 200 /\
  exists id,
    2 < id /\
    map db.PublicKey (ssh_table (snd (Office.AddSSHKey add_tablet desk)))
    = map db.PublicKey (ssh_table desk) ++ ["ssh-ed25519 CCCC alice@tablet"] /\
    fst (Office.AddSSHKey add_tablet desk)
    = keyapi.writeJSON
        (SSHKeyJSON (mkSSHKeyResponse id "tablet"
                       "30:31:32:33:34:35:36:37:38:39:61:62:63:64:65:66" zero_time)).
Proof.
  split; [reflexivity|].
  destruct (added_ssh_key_is_stored_for_the_caller Scenario.TrimSpace Fields DecodeString
              md5_Sum add_tablet alice _ desk eq_refl eq_refl)
    as (_ & _ & Stored).
  destruct (Stored eq_refl) as (_ & _ & _ & _ & id & Above & _ & Rows & Resp).
  exists id. split; [exact Above|]. split; [|exact Resp].
  unfold Office.AddSSHKey. rewrite Rows, map_app. reflexivity.
Defined.

(** The fingerprint of the key alice added. *)
Lemma accepted_ssh_key_has_a_fingerprint_witness :
  KeyStatusCode (fst (Office.AddSSHKey add_tablet desk)) = 200 /\
  exists row,
    ssh_table (snd (Office.AddSSHKey add_tablet desk)) = ssh_table desk ++ [row] /\
    String.length (db.Fingerprint row) = 47%nat.
Proof.
  split; [reflexivity|].
  destruct (accepted_ssh_key_has_a_fingerprint Scenario.TrimSpace Fields DecodeString
              md5_Sum add_tablet alice _ desk (fun _ => eq_refl) eq_refl eq_refl eq_refl)
    as (_ & _ & _ & _ & row & _ & _ & _ & Rows & _ & _ & Len & _).
  exists row. split; [exact Rows | exact Len].
Defined.

(** Bob tries to delete key 1, which is alice's. *)
Lemma delete_ssh_key_removes_only_the_callers_key_witness :
  KeyContext (drop_key bob "1") = Some bob /\
  fst (Office.DeleteSSHKey (drop_key bob "1") desk)
  = keyapi.writeError "SSH key not found" 404 /\
  ssh_table (snd (Office.DeleteSSHKey (drop_key bob "1") desk)) = ssh_table desk.
Proof.
  split; [reflexivity|].
  destruct (delete_ssh_key_removes_only_the_callers_key ParseInt "database is locked"
              (drop_key bob "1") bob desk eq_refl)
    as (_ & _ & _ & Parsed).
  destruct (Parsed 1 eq_refl) as (Executes & _).
  destruct (Executes eq_refl) as (_ & _ & Foreign).
  apply Foreign. intros k [<-|[<-|[]]]; reflexivity.
Defined.

(** Alice adds a key and creates a container with it. *)
Lemma added_key_reaches_the_new_container_witness :
  fst (Office.AddSSHKey add_tablet desk)
  = keyapi.writeJSON
      (SSHKeyJSON (mkSSHKeyResponse 3 "tablet"
                     "30:31:32:33:34:35:36:37:38:39:61:62:63:64:65:66" zero_time)) /\
  exists container key,
    goroutines (snd (CreateContainer Scenario.TrimSpace
                       (create (mkContainerRequest "dev1" 0 0 [3]))
                       (compute (snd (Office.AddSSHKey add_tablet desk)))))
    = [provisionTask container [key]] /\
    key_lines [key] = ("ssh-ed25519 CCCC alice@tablet" ++ newline)%string.
Proof.
  split; [reflexivity|].
  destruct (added_key_reaches_the_new_container Scenario.TrimSpace Fields DecodeString
              md5_Sum add_tablet alice _ _ desk
              (create (mkContainerRequest "dev1" 0 0 [3])) alice _
              eq_refl eq_refl eq_refl eq_refl eq_refl eq_refl eq_refl)
    as (container & key & _ & Go & _ & _ & _ & _ & Lines);
    [discriminate | reflexivity | reflexivity | reflexivity |].
  exists container, key. split; [exact Go | exact Lines].
Defined.

(** Alice deletes key 2 and then names it in a creation. *)
Lemma deleted_key_is_refused_by_creation_witness :
  NoDup (map db.KeyID (ssh_table desk)) /\
  StatusCode (fst (CreateContainer Scenario.TrimSpace
                     (create (mkContainerRequest "dev1" 0 0 [1; 2]))
                     (compute (snd (Office.DeleteSSHKey (drop_key alice "2") desk)))))
  <> 200 /\
  goroutines (snd (CreateContainer Scenario.TrimSpace
                     (create (mkContainerRequest "dev1" 0 0 [1; 2]))
                     (compute (snd (Office.DeleteSSHKey (drop_key alice "2") desk)))))
  = [].
Proof.
  assert (ND : NoDup (map db.KeyID (ssh_table desk))).
  { repeat constructor; simpl; intuition discriminate. }
  split; [exact ND|].
  destruct (deleted_key_is_refused_by_creation Scenario.TrimSpace ParseInt
              "database is locked" (drop_key alice "2") alice 2 desk
              (create (mkContainerRequest "dev1" 0 0 [1; 2])) alice _
              eq_refl eq_refl ND eq_refl eq_refl eq_refl eq_refl (or_intror (or_introl eq_refl)))
    as (_ & Code & _ & Go & _).
  split; [exact Code | exact Go].
Defined.

(** Alice creates an API key. *)
Lemma created_api_key_is_stored_as_its_hash_witness :
  KeyStatusCode (fst (Office.CreateAPIKey new_api_key desk)) = 200 /\
  exists buf id,
    map keydb.KeyHash (api_keys (snd (Office.CreateAPIKey new_api_key desk)))
    = [auth.HashAPIKey Sum256 (EncodeToString buf)] /\
    fst (Office.CreateAPIKey new_api_key desk)
    = keyapi.writeJSON
        (APIKeyJSON (mkAPIKeyResponse id "ci" (Some (EncodeToString buf)) zero_time None)).
Proof.
  split; [reflexivity|].
  destruct (created_api_key_is_stored_as_its_hash Scenario.TrimSpace Sum256 EncodeToString
              new_api_key alice _ desk eq_refl eq_refl)
    as (_ & _ & Stored).
  destruct (Stored eq_refl) as (_ & _ & buf & id & _ & _ & _ & Rows & Resp).
  exists buf, id. split; [|exact Resp].
  unfold Office.CreateAPIKey. rewrite Rows. reflexivity.
Defined.

(** Bob tries to delete the API key alice created. *)
Lemma delete_api_key_removes_only_the_callers_key_witness :
  KeyContext (drop_key bob "1") = Some bob /\
  fst (Office.DeleteAPIKey (drop_key bob "1") (snd (Office.CreateAPIKey new_api_key desk)))
  = keyapi.writeError "API key not found" 404 /\
  api_keys (snd (Office.DeleteAPIKey (drop_key bob "1")
                   (snd (Office.CreateAPIKey new_api_key desk))))
  = api_keys (snd (Office.CreateAPIKey new_api_key desk)).
Proof.
  split; [reflexivity|].
  destruct (delete_api_key_removes_only_the_callers_key ParseInt "database is locked"
              (drop_key bob "1") bob (snd (Office.CreateAPIKey new_api_key desk)) eq_refl)
    as (_ & _ & _ & Parsed).
  destruct (Parsed 1 eq_refl) as (Executes & _).
  destruct (Executes eq_refl) as (_ & _ & Foreign).
  apply Foreign. intros k [<-|[]]. reflexivity.
Defined.

(** A request with a Basic header and no cookie. *)
Lemma request_without_credentials_is_unauthorized_witness :
  Cookie (arriving None "Basic YWxpY2U6c2VjcmV0" "0a1b2c3d" None) = None /\
  guard (arriving None "Basic YWxpY2U6c2VjcmV0" "0a1b2c3d" None) desk
  = (HttpError "unauthorized" 401, desk).
Proof.
  split; [reflexivity|].
  apply (request_without_credentials_is_unauthorized Scenario.TrimSpace Sum256
           Office.EqualFold Request (option userInfo) container_WithContext whoami).
  - left. reflexivity.
  - right. right. left. reflexivity.
Defined.

(** Bob's session: the handler sees user 1. *)
Lemma session_users_act_as_user_one_witness :
  sfs desk (length (sfs_calls desk)) "session-of-bob" = Reply 200 (Some "bob") /\
  fst (guard (arriving (Some "session-of-bob") "" "0a1b2c3d" None) desk)
  = Handled (Some (mkUserInfo 1 "bob")).
Proof.
  split; [reflexivity|].
  destruct (session_users_act_as_user_one Scenario.TrimSpace Sum256 Office.EqualFold
              Request (option userInfo) container_WithContext whoami
              (arriving (Some "session-of-bob") "" "0a1b2c3d" None)
              "session-of-bob" "bob" desk eq_refl)
    as (Run & _); [discriminate | reflexivity | discriminate |].
  unfold guard. rewrite Run. reflexivity.
Defined.

(** The session service is down although the request carries alice's
    API key. *)
Lemma session_service_decides_first_witness :
  sfs (snd (Office.CreateAPIKey new_api_key desk)) 0 "lost" = NoReply /\
  fst (guard (arriving (Some "lost") "Bearer abcdefghijklmnopqrstuvwxyz012345" "" None)
         (snd (Office.CreateAPIKey new_api_key desk)))
  = HttpError "authentication error" 500.
Proof.
  split; [reflexivity|].
  destruct (session_service_decides_first Scenario.TrimSpace Sum256 Office.EqualFold
              Request (option userInfo) container_WithContext whoami
              (arriving (Some "lost") "Bearer abcdefghijklmnopqrstuvwxyz012345" "" None)
              "lost" (snd (Office.CreateAPIKey new_api_key desk)) eq_refl)
    as (Down & _); [discriminate|].
  unfold guard. rewrite Down; [reflexivity|]. left. reflexivity.
Defined.

(** A request with alice's API key and no cookie. *)
Lemma api_key_acts_as_its_owner_and_marks_use_witness :
  Cookie (arriving None "Bearer abcdefghijklmnopqrstuvwxyz012345" "" None) = None /\
  exists s2,
    guard (arriving None "Bearer abcdefghijklmnopqrstuvwxyz012345" "" None)
      (snd (Office.CreateAPIKey new_api_key desk))
    = (Handled (Some (mkUserInfo 7 "")), s2) /\
    map keydb.LastUsed (api_keys s2) = [sql.mkNullTime 1000 true].
Proof.
  split; [reflexivity|].
  destruct (api_key_acts_as_its_owner_and_marks_use Scenario.TrimSpace Sum256
              Office.EqualFold Request (option userInfo) container_WithContext whoami
              (arriving None "Bearer abcdefghijklmnopqrstuvwxyz012345" "" None)
              (snd (Office.CreateAPIKey new_api_key desk)) eq_refl)
    as (_ & _ & Found); [discriminate|].
  destruct (Found (keydb.mkAPIKey 1 7 (auth.HashAPIKey Sum256
                                          "abcdefghijklmnopqrstuvwxyz012345")
                     "ci" 1000 sql.null_time) eq_refl eq_refl)
    as (s2 & Run & _ & Rows).
  exists s2. split.
  - unfold guard. rewrite Run. reflexivity.
  - rewrite Rows. reflexivity.
Defined.

(** Alice's new key authenticates alice. *)
Lemma created_api_key_authenticates_its_owner_witness :
  fst (Office.CreateAPIKey new_api_key desk)
  = keyapi.writeJSON
      (APIKeyJSON (mkAPIKeyResponse 1 "ci" (Some "abcdefghijklmnopqrstuvwxyz012345")
                     zero_time None)) /\
  fst (guard (arriving None "Bearer abcdefghijklmnopqrstuvwxyz012345" "" None)
         (snd (Office.CreateAPIKey new_api_key desk)))
  = Handled (Some (mkUserInfo 7 "")).
Proof.
  split; [reflexivity|].
  assert (Run := created_api_key_authenticates_its_owner Scenario.TrimSpace Sum256
                   EncodeToString Office.EqualFold Request (option userInfo)
                   container_WithContext whoami new_api_key alice _ _
                   "abcdefghijklmnopqrstuvwxyz012345" (mkRequest None "" None) desk
                   eq_refl eq_refl eq_refl eq_refl
                   (fun k (I : In k (api_keys desk)) => match I with end)
                   eq_refl eq_refl ltac:(discriminate) eq_refl).
  exact (f_equal fst Run).
Defined.

(** Alice's key after alice deleted it. *)
Lemma deleted_api_key_no_longer_authenticates_witness :
  fst (Office.DeleteAPIKey (drop_key alice "1") (snd (Office.CreateAPIKey new_api_key desk)))
  = keyapi.writeJSON KeyStatusOkJSON /\
  fst (guard (arriving None "Bearer abcdefghijklmnopqrstuvwxyz012345" "" None)
         (snd (Office.DeleteAPIKey (drop_key alice "1")
                 (snd (Office.CreateAPIKey new_api_key desk)))))
  = HttpError "unauthorized" 401.
Proof.
  destruct (deleted_api_key_no_longer_authenticates Scenario.TrimSpace ParseInt Sum256
              Office.EqualFold "database is locked" Request (option userInfo)
              container_WithContext whoami
              (drop_key alice "1") alice 1
              (keydb.mkAPIKey 1 7 (auth.HashAPIKey Sum256 "abcdefghijklmnopqrstuvwxyz012345")
                 "ci" 1000 sql.null_time)
              (snd (Office.CreateAPIKey new_api_key desk))
              (arriving None "Bearer abcdefghijklmnopqrstuvwxyz012345" "" None)
              eq_refl eq_refl eq_refl (or_introl eq_refl) eq_refl eq_refl)
    as (Deleted & Run);
    [intros k [<-|[]] _; split; reflexivity | reflexivity | discriminate | reflexivity
    | reflexivity |].
  split; [exact Deleted|].
  unfold guard, Office.DeleteAPIKey. rewrite Run. reflexivity.
Defined.

(** Alice creates a container through her session; bob reads it through
    his. *)
Lemma session_users_share_containers_witness :
  fst (protected Scenario.TrimSpace Sum256 Office.EqualFold
         (CreateContainer Scenario.TrimSpace)
         (arriving (Some "session-of-alice") "" "" (Some (mkContainerRequest "dev1" 0 0 [1])))
         lobby)
  = Handled (api.writeJSON
               (db.mkContainer "0a1b2c3d" 1 "dev1" "compute-1-0a1b2c3d" "pending"
                  sql.null_string 512 5 defaultImage 0 sql.null_time)) /\
  exists shown,
    fst (protected Scenario.TrimSpace Sum256 Office.EqualFold GetContainer
           (arriving (Some "session-of-bob") "" "0a1b2c3d" None)
           (snd (protected Scenario.TrimSpace Sum256 Office.EqualFold
                   (CreateContainer Scenario.TrimSpace)
                   (arriving (Some "session-of-alice") "" ""
                      (Some (mkContainerRequest "dev1" 0 0 [1])))
                   lobby)))
    = Handled shown /\
    StatusCode shown = 200.
Proof.
  split; [vm_compute; reflexivity|].
  apply (session_users_share_containers Scenario.TrimSpace Sum256 Office.EqualFold
           (arriving (Some "session-of-alice") "" "" (Some (mkContainerRequest "dev1" 0 0 [1])))
           (arriving (Some "session-of-bob") "" "0a1b2c3d" None)
           "session-of-alice" "session-of-bob" "alice" "bob"
           (db.mkContainer "0a1b2c3d" 1 "dev1" "compute-1-0a1b2c3d" "pending"
              sql.null_string 512 5 defaultImage 0 sql.null_time));
    first [discriminate | reflexivity | vm_compute; reflexivity].
Defined.

(** Two keys for alice, who has nine, in overlapping requests: both are
    accepted and she has eleven; one after the other, the second is
    refused. *)
Lemma ssh_key_cap_is_checked_per_request_witness :
  ssh_key_count 7 crowded = 9 /\
  KeyStatusCode
    (fst (fst (overlapped_keys (Office.AddSSHKey_paused add_tablet)
                 (Office.AddSSHKey_paused add_phone) crowded))) = 200 /\
  KeyStatusCode
    (snd (fst (overlapped_keys (Office.AddSSHKey_paused add_tablet)
                 (Office.AddSSHKey_paused add_phone) crowded))) = 200 /\
  ssh_key_count 7
    (snd (overlapped_keys (Office.AddSSHKey_paused add_tablet)
            (Office.AddSSHKey_paused add_phone) crowded)) = 11 /\
  KeyStatusCode
    (fst (Office.AddSSHKey add_phone (snd (Office.AddSSHKey add_tablet crowded)))) = 400.
Proof.
  split; [reflexivity|].
  destruct (ssh_key_cap_is_checked_per_request Scenario.TrimSpace Fields DecodeString
              md5_Sum add_tablet crowded 7)
    as (_ & _ & _ & Both).
  destruct (Both alice (mkSSHKeyRequest " tablet " " ssh-ed25519 CCCC alice@tablet ")
              add_phone alice (mkSSHKeyRequest "phone" "ssh-ed25519 EEEE alice@phone")
              eq_refl eq_refl eq_refl eq_refl eq_refl eq_refl)
    as (First & Second & Count & _);
    try reflexivity; try discriminate.
  split; [exact First|]. split; [exact Second|]. split; [exact Count | reflexivity].
Defined.

(** Two API keys for alice, who has four, in overlapping requests: both
    are accepted and she has six; one after the other, the second is
    refused. *)
Lemma api_key_cap_is_checked_per_request_witness :
  api_key_count 7 crowded = 4 /\
  KeyStatusCode
    (fst (fst (overlapped_keys (Office.CreateAPIKey_paused new_api_key)
                 (Office.CreateAPIKey_paused second_api_key) crowded))) = 200 /\
  KeyStatusCode
    (snd (fst (overlapped_keys (Office.CreateAPIKey_paused new_api_key)
                 (Office.CreateAPIKey_paused second_api_key) crowded))) = 200 /\
  api_key_count 7
    (snd (overlapped_keys (Office.CreateAPIKey_paused new_api_key)
            (Office.CreateAPIKey_paused second_api_key) crowded)) = 6 /\
  KeyStatusCode
    (fst (Office.CreateAPIKey second_api_key
            (snd (Office.CreateAPIKey new_api_key crowded)))) = 400.
Proof.
  split; [reflexivity|].
  destruct (api_key_cap_is_checked_per_request Scenario.TrimSpace Sum256 EncodeToString
              new_api_key crowded 7)
    as (_ & _ & _ & Both).
  destruct (Both alice (mkAPIKeyRequest " ci ") second_api_key alice
              (mkAPIKeyRequest "cd")
              "abcdefghijklmnopqrstuvwxyz012345" "543210zyxwvutsrqponmlkjihgfedcba"
              eq_refl eq_refl eq_refl eq_refl eq_refl eq_refl)
    as (First & Second & Count & _);
    try reflexivity; try discriminate.
  split; [exact First|]. split; [exact Second|]. split; [exact Count | reflexivity].
Defined.
